(** * Typed document stores of the agent server: agents and guidelines

    A shallow embedding of [core/common.py], [core/agents.py] and
    [core/guidelines.py]: the unique-id generator, the two typed stores
    (primary collection plus tag-association collection), their schema
    loaders and the reader/writer lock scopes every operation takes.

    Python dictionaries are [gmap string _], collections are lists in
    insertion order, exceptions are an explicit outcome, and every store
    method is a computation over an environment that also records the
    lock scopes and collection calls it performs. *)

From Stdlib Require Import ZArith String Ascii.
From stdpp Require Import base option list gmap strings.

(** ** JSON values and documents *)

(** [JSONSerializable] of [core/common.py]. *)
#[local] Unset Elimination Schemes.
Inductive json :=
| JNull
| JBool (b : bool)
| JNum (n : Z)
| JStr (s : string)
| JArr (l : list json)
| JObj (l : list (string * json)).
#[local] Set Elimination Schemes.

(** [CompositionMode] of [core/agents.py]. *)
Inductive CompositionMode :=
| FLUID
| FLUID_UTTERANCE
| STRICT_UTTERANCE
| COMPOSITED_UTTERANCE.

Definition CompositionMode_value (m : CompositionMode) : string :=
  match m with
  | FLUID => "fluid"
  | FLUID_UTTERANCE => "fluid_utterance"
  | STRICT_UTTERANCE => "strict_utterance"
  | COMPOSITED_UTTERANCE => "composited_utterance"
  end.

(** [CompositionMode(s)]: lookup of an enumeration member by value. *)
Definition CompositionMode_of_value (s : string) : option CompositionMode :=
  if String.eqb s "fluid" then Some FLUID
  else if String.eqb s "fluid_utterance" then Some FLUID_UTTERANCE
  else if String.eqb s "strict_utterance" then Some STRICT_UTTERANCE
  else if String.eqb s "composited_utterance" then Some COMPOSITED_UTTERANCE
  else None.

(** The values a document field holds.  [VEnum] is a [CompositionMode]
    object stored as such (what [update_agent] writes, since it passes its
    params through [cast] without taking [.value]). *)
Inductive value :=
| VNone
| VBool (b : bool)
| VInt (n : Z)
| VStr (s : string)
| VEnum (m : CompositionMode)
| VDict (m : gmap string json).

(** [BaseDocument]: a dictionary from field names to values. *)
Abbreviation Document := (gmap string value).

(** Typed reading of a field: [Some s] when the field holds the string [s]. *)
Definition str_at (d : Document) (f : string) : option string :=
  match d !! f with
  | Some (VStr s) => Some s
  | _ => None
  end.

(** ** Exceptions and outcomes *)

Inductive exn :=
| ItemNotFoundError (item_id : string)
| AssertionError
| KeyError (key : string)
| IndexError
| ValueError
| TypeError
| DuplicateKeyError (id : string)
| Exception (msg : string)
(** Model only: the finite supply of [nanoid] outputs ran out while
    [generate_id] was still looping. *)
| EntropyExhausted
(** Model only: the migration chain did not reach the store version in as
    many steps as it has converters. *)
| MigrationDidNotSettle.

Inductive outcome (A : Type) :=
| Return (a : A)
| Raise (e : exn).
Arguments Return {A} a.
Arguments Raise {A} e.

(** ** [generate_id] ([core/common.py])

    [nanoid.generate(size=10)] is an external random source: its successive
    outputs are the list [candidates]. *)

(** [new_id[0]] *)
Definition first_char (s : string) : option ascii := String.get 0 s.

(** [new_id[-1]] *)
Definition last_char (s : string) : option ascii :=
  match String.length s with
  | O => None
  | S n => String.get n s
  end.

(** ["_" in new_id], for the one-character needle *)
Fixpoint contains_char (c : ascii) (s : string) : bool :=
  match s with
  | EmptyString => false
  | String a rest => Ascii.eqb a c || contains_char c rest
  end.

(** The loop test
    ["-" not in (new_id[0], new_id[-1]) and "_" not in new_id];
    indexing an empty string raises [IndexError]. *)
Definition acceptable (new_id : string) : outcome bool :=
  match first_char new_id, last_char new_id with
  | Some a, Some z =>
      Return (negb (Ascii.eqb a "-" || Ascii.eqb z "-")
              && negb (contains_char "_" new_id))
  | _, _ => Raise IndexError
  end.

(** [while True: new_id = nanoid.generate(size=10); if ...: return new_id].
    Returns the id and the candidates not yet drawn. *)
Fixpoint generate_id_from (candidates : list string)
  : outcome string * list string :=
  match candidates with
  | [] => (Raise EntropyExhausted, [])
  | new_id :: rest =>
      match acceptable new_id with
      | Return true => (Return new_id, rest)
      | Return false => generate_id_from rest
      | Raise e => (Raise e, rest)
      end
  end.

(** ** Query filters ([Where]) and the document collection

    The store methods only build filters from [$eq], [$ne], [$and], [$or]
    over string-valued fields, and the empty filter. *)

#[local] Unset Elimination Schemes.
Inductive Where :=
| WAll                                 (* {} *)
| WEq (field : string) (v : string)    (* {field: {"$eq": v}} *)
| WNe (field : string) (v : string)    (* {field: {"$ne": v}} *)
| WAnd (l : list Where)                (* {"$and": [...]} *)
| WOr (l : list Where).                (* {"$or": [...]} *)
#[local] Set Elimination Schemes.

(** Modelled from the spec: the filter algebra of [DocumentCollection]
    (persistence/document_database.py is not part of the sources): equality,
    inequality and boolean combinators over top-level fields; no filter
    matches every record. *)
Fixpoint matches (w : Where) (d : Document) : bool :=
  match w with
  | WAll => true
  | WEq f v => bool_decide (str_at d f = Some v)
  | WNe f v => negb (bool_decide (str_at d f = Some v))
  | WAnd l => List.forallb (fun w' => matches w' d) l
  | WOr l => List.existsb (fun w' => matches w' d) l
  end.

(** Modelled from the spec: a filter dictionary that names several fields,
    as [{"agent_id": {"$eq": a}, "tag_id": {"$eq": t}}], selects the records
    that meet every one of its field constraints (the "matching
    association" [remove_tag] looks for). *)
Definition WFields (constraints : list Where) : Where := WAnd constraints.

(** A per-document loader: the normalised document, [None] when the record
    is dropped, or an exception. *)
Abbreviation Loader := (Document -> outcome (option Document)).

(** Modelled from the spec: every record a read returns has passed through
    the collection's loader; a record the loader maps to [None] is excluded
    from the result. *)
Fixpoint load_all (loader : Loader) (ds : list Document)
  : outcome (list Document) :=
  match ds with
  | [] => Return []
  | d :: rest =>
      match loader d with
      | Raise e => Raise e
      | Return o =>
          match load_all loader rest with
          | Raise e => Raise e
          | Return ds' =>
              Return (match o with Some d' => d' :: ds' | None => ds' end)
          end
      end
  end.

(** Modelled from the spec: [find(filters)], all matches in insertion order. *)
Definition find_in (loader : Loader) (filters : Where) (docs : list Document)
  : outcome (list Document) :=
  load_all loader (filter (fun d => matches filters d) docs).

(** Modelled from the spec: [find_one(filters)], the first match in
    insertion order, read through the loader, or absent. *)
Definition find_one_in (loader : Loader) (filters : Where)
  (docs : list Document) : outcome (option Document) :=
  match head (filter (fun d => matches filters d) docs) with
  | Some d => loader d
  | None => Return None
  end.

(** Modelled from the spec: [insert_one(record)] appends the record and
    fails with a duplicate-key condition when its [id] is already there. *)
Definition insert_one_in (document : Document) (docs : list Document)
  : outcome (list Document) :=
  match str_at document "id" with
  | Some i =>
      if List.existsb (fun d => bool_decide (str_at d "id" = Some i)) docs
      then Raise (DuplicateKeyError i)
      else Return (docs ++ [document])
  | None => Return (docs ++ [document])
  end.

Record UpdateResult := {
  matched_count : nat;
  updated_document : option Document;
}.

(** Modelled from the spec: [update_one(filters, params)] with the default
    [upsert=false] (the only form the two stores use) applies the
    partial-field update to the first match: the supplied keys are
    overwritten, every other key is kept. *)
Fixpoint update_one_in (filters : Where) (params : Document)
  (docs : list Document) : UpdateResult * list Document :=
  match docs with
  | [] => ({| matched_count := 0; updated_document := None |}, [])
  | d :: rest =>
      if matches filters d
      then ({| matched_count := 1; updated_document := Some (params ∪ d) |},
            (params ∪ d) :: rest)
      else let '(r, rest') := update_one_in filters params rest in
           (r, d :: rest')
  end.

Record DeleteResult := {
  deleted_count : nat;
  deleted_document : option Document;
}.

(** Modelled from the spec: [delete_one(filters)] removes the first match. *)
Fixpoint delete_one_in (filters : Where) (docs : list Document)
  : DeleteResult * list Document :=
  match docs with
  | [] => ({| deleted_count := 0; deleted_document := None |}, [])
  | d :: rest =>
      if matches filters d
      then ({| deleted_count := 1; deleted_document := Some d |}, rest)
      else let '(r, rest') := delete_one_in filters rest in
           (r, d :: rest')
  end.

(** Modelled from the spec: [DocumentMigrationHelper.migrate]
    (persistence/document_database_helper.py is not part of the sources):
    the converter registered for the record's stored version is applied
    repeatedly until the store's version is reached; a version with no
    converter is a configuration error, a converter may drop the record
    ([None]) or raise.  [fuel] bounds the number of steps. *)
Fixpoint migrate (fuel : nat) (target_version : string)
  (converters : list (string * Loader)) (doc : Document)
  : outcome (option Document) :=
  match str_at doc "version" with
  | None => Raise (KeyError "version")
  | Some v =>
      if String.eqb v target_version then Return (Some doc)
      else
        match fuel with
        | O => Raise MigrationDidNotSettle
        | S fuel' =>
            match (list_to_map converters : gmap string Loader) !! v with
            | None => Raise (Exception "no converter registered for version")
            | Some converter =>
                match converter doc with
                | Raise e => Raise e
                | Return None => Return None
                | Return (Some doc') =>
                    migrate fuel' target_version converters doc'
                end
            end
        end
  end.

(** ** Time

    [datetime], [datetime.isoformat] and [datetime.fromisoformat] belong to
    the Python standard library; the stores only print and parse
    timestamps through them. *)
Class DateTime := {
  datetime : Type;
  isoformat : datetime -> string;
  fromisoformat : string -> option datetime;
}.

(** The documented contract of the standard library:
    [fromisoformat] is the inverse of [isoformat]. *)
Class DateTimeRoundTrip (DT : DateTime) : Prop :=
  fromisoformat_isoformat :
    forall d : datetime, fromisoformat (isoformat d) = Some d.

(** ** The store environment and its computations *)

(** [ReaderWriterLock.reader_lock] and [ReaderWriterLock.writer_lock]. *)
Inductive lock_mode := reader_lock | writer_lock.

(** The two collections a typed store owns. *)
Inductive slot := Primary | TagAssociations.

#[global] Instance slot_eq_dec : EqDecision slot.
Proof. solve_decision. Defined.

(** What a store method does, in order: lock scopes entered and left, and
    calls on the collections. *)
Inductive event :=
| Acquire (m : lock_mode)
| Release (m : lock_mode)
| Find (c : slot)
| FindOne (c : slot)
| InsertOne (c : slot)
| UpdateOne (c : slot)
| DeleteOne (c : slot).

Section Runtime.
Context {DT : DateTime}.

Record Env := {
  collection : list Document;
  tag_association_collection : list Document;
  (** outputs [nanoid.generate] has yet to give *)
  nanoid_outputs : list string;
  (** what [datetime.now(timezone.utc)] reads *)
  utc_now : datetime;
  log : list event;
}.

Definition M (A : Type) : Type := Env -> outcome A * Env.

Definition ret {A} (a : A) : M A := fun env => (Return a, env).

Definition raise {A} (e : exn) : M A := fun env => (Raise e, env).

Definition bind {A B} (m : M A) (k : A -> M B) : M B :=
  fun env =>
    match m env with
    | (Return a, env') => k a env'
    | (Raise e, env') => (Raise e, env')
    end.

Definition lift {A} (o : outcome A) : M A := fun env => (o, env).

Definition record (e : event) (env : Env) : Env :=
  {| collection := collection env;
     tag_association_collection := tag_association_collection env;
     nanoid_outputs := nanoid_outputs env;
     utc_now := utc_now env;
     log := log env ++ [e] |}.

Definition docs_of (c : slot) (env : Env) : list Document :=
  match c with
  | Primary => collection env
  | TagAssociations => tag_association_collection env
  end.

Definition with_docs (c : slot) (ds : list Document) (env : Env) : Env :=
  {| collection :=
       match c with Primary => ds | _ => collection env end;
     tag_association_collection :=
       match c with
       | TagAssociations => ds
       | _ => tag_association_collection env
       end;
     nanoid_outputs := nanoid_outputs env;
     utc_now := utc_now env;
     log := log env |}.

(** [async with self._lock.<mode>: body]: the scope is left on every exit
    path, a raised exception included. *)
Definition with_lock {A} (m : lock_mode) (body : M A) : M A :=
  fun env =>
    let '(r, env') := body (record (Acquire m) env) in
    (r, record (Release m) env').

(** [datetime.now(timezone.utc)] *)
Definition datetime_now : M datetime := fun env => (Return (utc_now env), env).

Definition with_nanoid_outputs (rest : list string) (env : Env) : Env :=
  {| collection := collection env;
     tag_association_collection := tag_association_collection env;
     nanoid_outputs := rest;
     utc_now := utc_now env;
     log := log env |}.

(** [generate_id()] *)
Definition generate_id : M string :=
  fun env =>
    let '(r, rest) := generate_id_from (nanoid_outputs env) in
    (r, with_nanoid_outputs rest env).

(** A collection as the store holds it: where its records live and the
    loader it was created with. *)
Record DocumentCollection := {
  at_slot : slot;
  document_loader : Loader;
}.

Definition find (c : DocumentCollection) (filters : Where)
  : M (list Document) :=
  fun env =>
    (find_in (document_loader c) filters (docs_of (at_slot c) env),
     record (Find (at_slot c)) env).

Definition find_one (c : DocumentCollection) (filters : Where)
  : M (option Document) :=
  fun env =>
    (find_one_in (document_loader c) filters (docs_of (at_slot c) env),
     record (FindOne (at_slot c)) env).

Definition insert_one (c : DocumentCollection) (document : Document)
  : M unit :=
  fun env =>
    let env' := record (InsertOne (at_slot c)) env in
    match insert_one_in document (docs_of (at_slot c) env) with
    | Return ds => (Return tt, with_docs (at_slot c) ds env')
    | Raise e => (Raise e, env')
    end.

Definition update_one (c : DocumentCollection) (filters : Where)
  (params : Document) : M UpdateResult :=
  fun env =>
    let '(r, ds) := update_one_in filters params (docs_of (at_slot c) env) in
    (Return r, with_docs (at_slot c) ds (record (UpdateOne (at_slot c)) env)).

Definition delete_one (c : DocumentCollection) (filters : Where)
  : M DeleteResult :=
  fun env =>
    let '(r, ds) := delete_one_in filters (docs_of (at_slot c) env) in
    (Return r, with_docs (at_slot c) ds (record (DeleteOne (at_slot c)) env)).

(** [for x in xs: body(x)] *)
Fixpoint for_each {A} (xs : list A) (body : A -> M unit) : M unit :=
  match xs with
  | [] => ret tt
  | x :: rest => bind (body x) (fun _ => for_each rest body)
  end.

(** [[await f(x) for x in xs]] *)
Fixpoint for_list {A B} (xs : list A) (f : A -> M B) : M (list B) :=
  match xs with
  | [] => ret []
  | x :: rest =>
      bind (f x) (fun y => bind (for_list rest f) (fun ys => ret (y :: ys)))
  end.

(** [doc[key]] for a field the document types declare as a string.  Python
    would hand on whatever the field holds; the entities here are typed, so
    a field holding another kind of value is reported as [TypeError]. *)
Definition get_str (doc : Document) (key : string) : outcome string :=
  match doc !! key with
  | Some (VStr s) => Return s
  | Some _ => Raise TypeError
  | None => Raise (KeyError key)
  end.

(** [not doc] for an optional document: absent, or the empty dictionary. *)
Definition falsy (doc : option Document) : bool :=
  match doc with
  | None => true
  | Some d => bool_decide (size d = 0)
  end.

End Runtime.

Declare Scope store_scope.
Delimit Scope store_scope with store.
Notation "x <- m ;; k" := (bind m (fun x => k))
  (at level 100, m at next level, right associativity) : store_scope.
Notation "m ;;; k" := (bind m (fun _ => k))
  (at level 100, right associativity) : store_scope.

(** ** [core/agents.py]: [AgentDocumentStore] *)

Module Agents.
Section Store.
Context {DT : DateTime}.
Open Scope store_scope.

Record Agent := {
  id : string;
  name : string;
  description : option string;
  creation_utc : datetime;
  max_engine_iterations : Z;
  tags : list string;
  composition_mode : CompositionMode;
}.

(** [AgentUpdateParams] ([TypedDict], [total=False]): each key is either
    absent or carries a value of its declared type. *)
Record AgentUpdateParams := {
  with_name : option string;
  with_description : option (option string);
  with_max_engine_iterations : option Z;
  with_composition_mode : option CompositionMode;
}.

Definition optional_str (o : option string) : value :=
  match o with
  | None => VNone
  | Some s => VStr s
  end.

(** The dictionary an [AgentUpdateParams] value is at run time, which is
    what [cast(_AgentDocument, params)] hands to [update_one]. *)
Definition params_dict (params : AgentUpdateParams) : Document :=
  from_option (fun v => {["name" := VStr v]}) ∅ (with_name params)
  ∪ from_option (fun v => {["description" := optional_str v]}) ∅
      (with_description params)
  ∪ from_option (fun v => {["max_engine_iterations" := VInt v]}) ∅
      (with_max_engine_iterations params)
  ∪ from_option (fun v => {["composition_mode" := VEnum v]}) ∅
      (with_composition_mode params).

Definition VERSION : string := "0.3.0".

Definition v0_1_0_to_v_0_2_0 : Loader :=
  fun doc =>
    Raise (Exception
      "This code should not be reached! Please run the 'Daneel-prepare-migration' script.").

Definition v0_2_0_to_v_0_3_0 : Loader :=
  fun doc =>
    Raise (Exception
      "This code should not be reached! Please run the 'Daneel-prepare-migration' script.").

Definition converters : list (string * Loader) :=
  [("0.1.0", v0_1_0_to_v_0_2_0); ("0.2.0", v0_2_0_to_v_0_3_0)].

Definition _document_loader : Loader :=
  fun doc => migrate (length converters) VERSION converters doc.

Definition _association_document_loader : Loader :=
  fun doc =>
    match doc !! "version" with
    | None => Raise (KeyError "version")
    | Some (VStr "0.3.0") => Return (Some doc)
    | Some _ => Return None
    end.

Definition _agents_collection : DocumentCollection :=
  {| at_slot := Primary; document_loader := _document_loader |}.

Definition _tag_association_collection : DocumentCollection :=
  {| at_slot := TagAssociations;
     document_loader := _association_document_loader |}.

Definition _serialize_agent (agent : Agent) : Document :=
  <["id" := VStr (id agent)]>
  (<["version" := VStr VERSION]>
  (<["creation_utc" := VStr (isoformat (creation_utc agent))]>
  (<["name" := VStr (name agent)]>
  (<["description" := optional_str (description agent)]>
  (<["max_engine_iterations" := VInt (max_engine_iterations agent)]>
  (<["composition_mode" :=
       VStr (CompositionMode_value (composition_mode agent))]> ∅)))))).

(** The association record [create_agent] and [upsert_tag] write. *)
Definition association_document (new_id : string) (creation : datetime)
  (agent_id tag_id : string) : Document :=
  <["id" := VStr new_id]>
  (<["version" := VStr VERSION]>
  (<["creation_utc" := VStr (isoformat creation)]>
  (<["agent_id" := VStr agent_id]>
  (<["tag_id" := VStr tag_id]> ∅)))).

Definition _deserialize_agent (agent_document : Document) : M Agent :=
  agent_id <- lift (get_str agent_document "id") ;;
  docs <- find _tag_association_collection (WEq "agent_id" agent_id) ;;
  tags <- for_list docs (fun d => lift (get_str d "tag_id")) ;;
  creation_text <- lift (get_str agent_document "creation_utc") ;;
  creation_utc <-
    lift (match fromisoformat creation_text with
          | Some t => Return t
          | None => Raise ValueError
          end) ;;
  name <- lift (get_str agent_document "name") ;;
  description <-
    lift (match agent_document !! "description" with
          | Some VNone => Return None
          | Some (VStr s) => Return (Some s)
          | Some _ => Raise TypeError
          | None => Raise (KeyError "description")
          end) ;;
  max_engine_iterations <-
    lift (match agent_document !! "max_engine_iterations" with
          | Some (VInt n) => Return n
          | Some _ => Raise TypeError
          | None => Raise (KeyError "max_engine_iterations")
          end) ;;
  composition_mode <-
    lift (match agent_document !! "composition_mode" with
          | None => Return FLUID
          | Some (VEnum m) => Return m
          | Some (VStr s) =>
              match CompositionMode_of_value s with
              | Some m => Return m
              | None => Raise ValueError
              end
          | Some _ => Raise ValueError
          end) ;;
  ret {| id := agent_id;
         name := name;
         description := description;
         creation_utc := creation_utc;
         max_engine_iterations := max_engine_iterations;
         tags := tags;
         composition_mode := composition_mode |}.

Definition create_agent (name : string) (description : option string)
  (creation_utc : option datetime) (max_engine_iterations : option Z)
  (composition_mode : option CompositionMode) (tags : option (list string))
  : M Agent :=
  with_lock writer_lock
    (creation_utc <-
       match creation_utc with
       | Some t => ret t
       | None => datetime_now
       end ;;
     let max_engine_iterations :=
       match max_engine_iterations with
       | Some n => if Z.eqb n 0 then 1%Z else n
       | None => 1%Z
       end in
     new_id <- generate_id ;;
     let agent :=
       {| id := new_id;
          name := name;
          description := description;
          creation_utc := creation_utc;
          max_engine_iterations := max_engine_iterations;
          tags := default [] tags;
          composition_mode := default FLUID composition_mode |} in
     insert_one _agents_collection (_serialize_agent agent) ;;;
     for_each (default [] tags)
       (fun tag =>
          association_id <- generate_id ;;
          insert_one _tag_association_collection
            (association_document association_id creation_utc
               (id agent) tag)) ;;;
     ret agent).

Definition list_agents : M (list Agent) :=
  with_lock reader_lock
    (docs <- find _agents_collection WAll ;;
     for_list docs _deserialize_agent).

Definition read_agent (agent_id : string) : M Agent :=
  agent_document <-
    with_lock reader_lock
      (find_one _agents_collection (WEq "id" agent_id)) ;;
  match agent_document with
  | Some doc =>
      if falsy agent_document then raise (ItemNotFoundError agent_id)
      else _deserialize_agent doc
  | None => raise (ItemNotFoundError agent_id)
  end.

Definition update_agent (agent_id : string) (params : AgentUpdateParams)
  : M Agent :=
  result <-
    with_lock writer_lock
      (agent_document <- find_one _agents_collection (WEq "id" agent_id) ;;
       if falsy agent_document then raise (ItemNotFoundError agent_id)
       else update_one _agents_collection (WEq "id" agent_id)
              (params_dict params)) ;;
  match updated_document result with
  | Some doc =>
      if falsy (updated_document result) then raise AssertionError
      else _deserialize_agent doc
  | None => raise AssertionError
  end.

Definition delete_agent (agent_id : string) : M unit :=
  result <-
    with_lock writer_lock
      (result <- delete_one _agents_collection (WEq "id" agent_id) ;;
       docs <- find _tag_association_collection (WEq "agent_id" agent_id) ;;
       for_each docs
         (fun doc =>
            doc_id <- lift (get_str doc "id") ;;
            delete_one _tag_association_collection (WEq "id" doc_id) ;;;
            ret tt) ;;;
       ret result) ;;
  if Nat.eqb (deleted_count result) 0
  then raise (ItemNotFoundError agent_id)
  else ret tt.

(** Inside the writer scope the method either leaves with [return False]
    ([inl]) or reaches the end of the scope with [agent_document] ([inr]). *)
Definition upsert_tag (agent_id tag_id : string)
  (creation_utc : option datetime) : M bool :=
  r <-
    with_lock writer_lock
      (agent <- read_agent agent_id ;;
       if bool_decide (tag_id ∈ tags agent) then ret (inl false)
       else
         creation_utc <-
           match creation_utc with
           | Some t => ret t
           | None => datetime_now
           end ;;
         association_id <- generate_id ;;
         insert_one _tag_association_collection
           (association_document association_id creation_utc
              agent_id tag_id) ;;;
         agent_document <-
           find_one _agents_collection (WEq "id" agent_id) ;;
         ret (inr agent_document)) ;;
  match r with
  | inl b => ret b
  | inr agent_document =>
      if falsy agent_document then raise (ItemNotFoundError agent_id)
      else ret true
  end.

Definition remove_tag (agent_id tag_id : string) : M unit :=
  agent_document <-
    with_lock writer_lock
      (delete_result <-
         delete_one _tag_association_collection
           (WFields [WEq "agent_id" agent_id; WEq "tag_id" tag_id]) ;;
       if Nat.eqb (deleted_count delete_result) 0
       then raise (ItemNotFoundError tag_id)
       else find_one _agents_collection (WEq "id" agent_id)) ;;
  if falsy agent_document then raise (ItemNotFoundError agent_id)
  else ret tt.

End Store.
End Agents.

(** ** [core/guidelines.py]: [GuidelineDocumentStore] *)

(** [doc[key]], whatever the field holds. *)
Definition get_field (doc : Document) (key : string) : outcome value :=
  match doc !! key with
  | Some v => Return v
  | None => Raise (KeyError key)
  end.

(** [guideline_document_converter_0_1_0_to_0_2_0] *)
Definition guideline_document_converter_0_1_0_to_0_2_0 : Loader :=
  fun d =>
    match get_field d "id" with
    | Raise e => Raise e
    | Return v_id =>
    match get_field d "creation_utc" with
    | Raise e => Raise e
    | Return v_creation_utc =>
    match get_field d "guideline_set" with
    | Raise e => Raise e
    | Return v_guideline_set =>
    match get_field d "condition" with
    | Raise e => Raise e
    | Return v_condition =>
    match get_field d "action" with
    | Raise e => Raise e
    | Return v_action =>
        Return (Some
          (<["id" := v_id]>
          (<["version" := VStr "0.2.0"]>
          (<["creation_utc" := v_creation_utc]>
          (<["guideline_set" := v_guideline_set]>
          (<["condition" := v_condition]>
          (<["action" := v_action]>
          (<["enabled" := VBool true]> ∅))))))))
    end end end end end.

Module Guidelines.
Section Store.
Context {DT : DateTime}.
Open Scope store_scope.

Record GuidelineContent := {
  condition : string;
  action : string;
}.

Record Guideline := {
  id : string;
  creation_utc : datetime;
  content : GuidelineContent;
  enabled : bool;
  tags : list string;
  metadata : gmap string json;
}.

(** [GuidelineUpdateParams] ([TypedDict], [total=False]). *)
Record GuidelineUpdateParams := {
  with_condition : option string;
  with_action : option string;
  with_enabled : option bool;
  with_metadata : option (gmap string json);
}.

Definition VERSION : string := "0.4.0".

Definition v0_3_0_to_v0_4_0 : Loader :=
  fun d =>
    match get_field d "id" with
    | Raise e => Raise e
    | Return v_id =>
    match get_field d "creation_utc" with
    | Raise e => Raise e
    | Return v_creation_utc =>
    match get_field d "condition" with
    | Raise e => Raise e
    | Return v_condition =>
    match get_field d "action" with
    | Raise e => Raise e
    | Return v_action =>
    match get_field d "enabled" with
    | Raise e => Raise e
    | Return v_enabled =>
        Return (Some
          (<["id" := v_id]>
          (<["version" := VStr "0.4.0"]>
          (<["creation_utc" := v_creation_utc]>
          (<["condition" := v_condition]>
          (<["action" := v_action]>
          (<["enabled" := v_enabled]>
          (<["metadata" := VDict ∅]> ∅))))))))
    end end end end end.

Definition v0_2_0_to_v_0_3_0 : Loader :=
  fun doc =>
    Raise (Exception
      "This code should not be reached! Please run the 'Daneel-prepare-migration' script.").

Definition converters : list (string * Loader) :=
  [("0.1.0", guideline_document_converter_0_1_0_to_0_2_0);
   ("0.2.0", v0_2_0_to_v_0_3_0);
   ("0.3.0", v0_3_0_to_v0_4_0)].

Definition _document_loader : Loader :=
  fun doc => migrate (length converters) VERSION converters doc.

Definition _association_document_loader : Loader :=
  fun doc =>
    match doc !! "version" with
    | None => Raise (KeyError "version")
    | Some (VStr "0.3.0") =>
        match get_field doc "id" with
        | Raise e => Raise e
        | Return v_id =>
        match get_field doc "creation_utc" with
        | Raise e => Raise e
        | Return v_creation_utc =>
        match get_field doc "guideline_id" with
        | Raise e => Raise e
        | Return v_guideline_id =>
        match get_field doc "tag_id" with
        | Raise e => Raise e
        | Return v_tag_id =>
            Return (Some
              (<["id" := v_id]>
              (<["version" := VStr "0.4.0"]>
              (<["creation_utc" := v_creation_utc]>
              (<["guideline_id" := v_guideline_id]>
              (<["tag_id" := v_tag_id]> ∅))))))
        end end end end
    | Some (VStr "0.4.0") => Return (Some doc)
    | Some _ => Return None
    end.

Definition _collection : DocumentCollection :=
  {| at_slot := Primary; document_loader := _document_loader |}.

Definition _tag_association_collection : DocumentCollection :=
  {| at_slot := TagAssociations;
     document_loader := _association_document_loader |}.

Definition _serialize (guideline : Guideline) : Document :=
  <["id" := VStr (id guideline)]>
  (<["version" := VStr VERSION]>
  (<["creation_utc" := VStr (isoformat (creation_utc guideline))]>
  (<["condition" := VStr (condition (content guideline))]>
  (<["action" := VStr (action (content guideline))]>
  (<["enabled" := VBool (enabled guideline)]>
  (<["metadata" := VDict (metadata guideline)]> ∅)))))).

(** The association record [create_guideline] and [upsert_tag] write. *)
Definition association_document (new_id : string) (creation : datetime)
  (guideline_id tag_id : string) : Document :=
  <["id" := VStr new_id]>
  (<["version" := VStr VERSION]>
  (<["creation_utc" := VStr (isoformat creation)]>
  (<["guideline_id" := VStr guideline_id]>
  (<["tag_id" := VStr tag_id]> ∅)))).

Definition _deserialize (guideline_document : Document) : M Guideline :=
  guideline_id <- lift (get_str guideline_document "id") ;;
  docs <-
    find _tag_association_collection (WEq "guideline_id" guideline_id) ;;
  tag_ids <- for_list docs (fun d => lift (get_str d "tag_id")) ;;
  creation_text <- lift (get_str guideline_document "creation_utc") ;;
  creation_utc <-
    lift (match fromisoformat creation_text with
          | Some t => Return t
          | None => Raise ValueError
          end) ;;
  condition <- lift (get_str guideline_document "condition") ;;
  action <- lift (get_str guideline_document "action") ;;
  enabled <-
    lift (match guideline_document !! "enabled" with
          | Some (VBool b) => Return b
          | Some _ => Raise TypeError
          | None => Raise (KeyError "enabled")
          end) ;;
  metadata <-
    lift (match guideline_document !! "metadata" with
          | Some (VDict m) => Return m
          | Some _ => Raise TypeError
          | None => Raise (KeyError "metadata")
          end) ;;
  ret {| id := guideline_id;
         creation_utc := creation_utc;
         content := {| condition := condition; action := action |};
         enabled := enabled;
         tags := tag_ids;
         metadata := metadata |}.

Definition create_guideline (condition action : string)
  (metadata : gmap string json) (creation_utc : option datetime)
  (enabled : bool) (tags : option (list string)) : M Guideline :=
  with_lock writer_lock
    (creation_utc <-
       match creation_utc with
       | Some t => ret t
       | None => datetime_now
       end ;;
     new_id <- generate_id ;;
     let guideline :=
       {| id := new_id;
          creation_utc := creation_utc;
          content := {| condition := condition; action := action |};
          enabled := enabled;
          tags := default [] tags;
          metadata := metadata |} in
     insert_one _collection (_serialize guideline) ;;;
     for_each (default [] tags)
       (fun tag =>
          association_id <- generate_id ;;
          insert_one _tag_association_collection
            (association_document association_id creation_utc
               (id guideline) tag)) ;;;
     ret guideline).

(** [{doc["guideline_id"] for doc in docs}] *)
Definition guideline_ids_of (docs : list Document) : M (gset string) :=
  ids <- for_list docs (fun doc => lift (get_str doc "guideline_id")) ;;
  ret (list_to_set ids).

(** Inside the reader scope the method first settles [filters], unless it
    leaves with [return []] ([inl]); then it reads the primary collection. *)
Definition list_guidelines (tags : option (list string))
  : M (list Guideline) :=
  with_lock reader_lock
    (r <-
       match tags with
       | None => ret (inr WAll)
       | Some [] =>
           associations <- find _tag_association_collection WAll ;;
           guideline_ids <- guideline_ids_of associations ;;
           ret (inr (if bool_decide (guideline_ids = ∅) then WAll
                     else WAnd ((fun id => WNe "id" id)
                                  <$> elements guideline_ids)))
       | Some tags =>
           let tag_filters := WOr ((fun tag => WEq "tag_id" tag) <$> tags) in
           tag_associations <-
             find _tag_association_collection tag_filters ;;
           guideline_ids <- guideline_ids_of tag_associations ;;
           if bool_decide (guideline_ids = ∅) then ret (inl [])
           else ret (inr (WOr ((fun id => WEq "id" id)
                                 <$> elements guideline_ids)))
       end ;;
     match r with
     | inl nothing => ret nothing
     | inr filters =>
         docs <- find _collection filters ;;
         for_list docs _deserialize
     end).

Definition read_guideline (guideline_id : string) : M Guideline :=
  guideline_document <-
    with_lock reader_lock
      (find_one _collection (WEq "id" guideline_id)) ;;
  match guideline_document with
  | Some doc =>
      if falsy guideline_document
      then raise (ItemNotFoundError guideline_id)
      else _deserialize doc
  | None => raise (ItemNotFoundError guideline_id)
  end.

Definition delete_guideline (guideline_id : string) : M unit :=
  result <-
    with_lock writer_lock
      (result <- delete_one _collection (WEq "id" guideline_id) ;;
       docs <-
         find _tag_association_collection
           (WEq "guideline_id" guideline_id) ;;
       for_each docs
         (fun doc =>
            doc_id <- lift (get_str doc "id") ;;
            delete_one _tag_association_collection (WEq "id" doc_id) ;;;
            ret tt) ;;;
       ret result) ;;
  if falsy (deleted_document result)
  then raise (ItemNotFoundError guideline_id)
  else ret tt.

(** The update document: only [condition], [action] and [enabled] are
    taken from the params. *)
Definition update_document (params : GuidelineUpdateParams) : Document :=
  from_option (fun v => {["condition" := VStr v]}) ∅ (with_condition params)
  ∪ from_option (fun v => {["action" := VStr v]}) ∅ (with_action params)
  ∪ from_option (fun v => {["enabled" := VBool v]}) ∅ (with_enabled params).

Definition update_guideline (guideline_id : string)
  (params : GuidelineUpdateParams) : M Guideline :=
  result <-
    with_lock writer_lock
      (let guideline_document := update_document params in
       update_one _collection (WEq "id" guideline_id) guideline_document) ;;
  match updated_document result with
  | Some doc =>
      if falsy (updated_document result) then raise AssertionError
      else _deserialize doc
  | None => raise AssertionError
  end.

Definition upsert_tag (guideline_id tag_id : string)
  (creation_utc : option datetime) : M bool :=
  r <-
    with_lock writer_lock
      (guideline <- read_guideline guideline_id ;;
       if bool_decide (tag_id ∈ tags guideline) then ret (inl false)
       else
         creation_utc <-
           match creation_utc with
           | Some t => ret t
           | None => datetime_now
           end ;;
         association_id <- generate_id ;;
         insert_one _tag_association_collection
           (association_document association_id creation_utc
              guideline_id tag_id) ;;;
         guideline_document <-
           find_one _collection (WEq "id" guideline_id) ;;
         ret (inr guideline_document)) ;;
  match r with
  | inl b => ret b
  | inr guideline_document =>
      if falsy guideline_document
      then raise (ItemNotFoundError guideline_id)
      else ret true
  end.

(** [guideline_document["metadata"]] as a dictionary. *)
Definition get_metadata (doc : Document) : outcome (gmap string json) :=
  match doc !! "metadata" with
  | Some (VDict m) => Return m
  | Some _ => Raise TypeError
  | None => Raise (KeyError "metadata")
  end.

Definition add_metadata (guideline_id : string)
  (metadata : gmap string json) : M Guideline :=
  result <-
    with_lock writer_lock
      (guideline_document <-
         find_one _collection (WEq "id" guideline_id) ;;
       match guideline_document with
       | Some doc =>
           if falsy guideline_document
           then raise (ItemNotFoundError guideline_id)
           else
             stored <- lift (get_metadata doc) ;;
             (* {**guideline_document["metadata"], **metadata}:
                the new keys win *)
             let updated_metadata := metadata ∪ stored in
             update_one _collection (WEq "id" guideline_id)
               {["metadata" := VDict updated_metadata]}
       | None => raise (ItemNotFoundError guideline_id)
       end) ;;
  match updated_document result with
  | Some doc =>
      if falsy (updated_document result) then raise AssertionError
      else _deserialize doc
  | None => raise AssertionError
  end.

Definition remove_metadata (guideline_id : string) (keys : list string)
  : M Guideline :=
  result <-
    with_lock writer_lock
      (guideline_document <-
         find_one _collection (WEq "id" guideline_id) ;;
       match guideline_document with
       | Some doc =>
           if falsy guideline_document
           then raise (ItemNotFoundError guideline_id)
           else
             stored <- lift (get_metadata doc) ;;
             (* {k: v for k, v in ...items() if k not in keys} *)
             let updated_metadata :=
               filter (fun kv => kv.1 ∉ keys) stored in
             update_one _collection (WEq "id" guideline_id)
               {["metadata" := VDict updated_metadata]}
       | None => raise (ItemNotFoundError guideline_id)
       end) ;;
  match updated_document result with
  | Some doc =>
      if falsy (updated_document result) then raise AssertionError
      else _deserialize doc
  | None => raise AssertionError
  end.

(** [find_guideline]: the first record with the condition and the action
    of [guideline_content]; the not-found error carries
    [f"{guideline_content.condition}{guideline_content.action}"]. *)
Definition find_guideline (guideline_content : GuidelineContent)
  : M Guideline :=
  guideline_document <-
    with_lock reader_lock
      (find_one _collection
         (WFields [WEq "condition" (condition guideline_content);
                   WEq "action" (action guideline_content)])) ;;
  match guideline_document with
  | Some doc =>
      if falsy guideline_document
      then raise (ItemNotFoundError
                    (String.append (condition guideline_content)
                       (action guideline_content)))
      else _deserialize doc
  | None =>
      raise (ItemNotFoundError
               (String.append (condition guideline_content)
                  (action guideline_content)))
  end.

Definition remove_tag (guideline_id tag_id : string) : M unit :=
  guideline_document <-
    with_lock writer_lock
      (delete_result <-
         delete_one _tag_association_collection
           (WFields [WEq "guideline_id" guideline_id; WEq "tag_id" tag_id]) ;;
       if Nat.eqb (deleted_count delete_result) 0
       then raise (ItemNotFoundError tag_id)
       else find_one _collection (WEq "id" guideline_id)) ;;
  if falsy guideline_document then raise (ItemNotFoundError guideline_id)
  else ret tt.

End Store.
End Guidelines.

(** ** [bin/server.py]: the default agent *)

Definition DEFAULT_AGENT_NAME : string := "Default Agent".

(** [create_agent_if_absent(agent_store)], on the document store. *)
Definition create_agent_if_absent {DT : DateTime} : M unit :=
  bind Agents.list_agents
    (fun agents =>
       match agents with
       | [] =>
           bind (Agents.create_agent DEFAULT_AGENT_NAME None None None None
                   None)
             (fun _ => ret tt)
       | _ :: _ => ret tt
       end).

(** ** [core/common.py]: model titles *)

(** The objects [_without_dto_suffix] tells apart: a string, a class (with
    its [__name__]), anything else. *)
Inductive py_object :=
| PyStr (s : string)
| PyType (__name__ : string)
| PyOther.

(** [name.endswith(suffix)] *)
Definition endswith (name suffix : string) : bool :=
  Nat.leb (String.length suffix) (String.length name)
  && String.eqb
       (substring (String.length name - String.length suffix)
          (String.length suffix) name)
       suffix.

(** [name[:-n]], for a positive [n] *)
Definition without_last (n : nat) (name : string) : string :=
  substring 0 (String.length name - n) name.

Definition _without_dto_suffix (obj : py_object) : outcome string :=
  match obj with
  | PyStr name =>
      if endswith name "DTO" then Return (without_last 3 name)
      else Return name
  | PyType name =>
      if endswith name "DTO" then Return (without_last 3 name)
      else Return name
  | PyOther => Raise (Exception "Invalid input to _without_dto_suffix()")
  end.

(** * What the properties below are stated with *)

(** The record a collection holds under an id: its first match, as
    [find_one], [update_one] and [delete_one] pick it. *)
Definition stored (i : string) (docs : list Document) : option Document :=
  head (filter (fun d => matches (WEq "id" i) d) docs).

(** The events a computation appends to the log. *)
Definition trace {DT : DateTime} {A} (m : M A) (env : Env) : list event :=
  drop (length (log env)) (log (m env).2).

(** Timestamps identified with their ISO-8601 text: a concrete [DateTime]
    to run the stores on. *)
#[global] Instance iso_text : DateTime :=
  {| datetime := string;
     isoformat := fun t => t;
     fromisoformat := fun s => Some s |}.

(** A run of the random source: the first and third outputs are ones
    [generate_id] rejects. *)
Definition sample_outputs : list string :=
  ["-kX3pQ9aZb"; "V1StGXR8Z5"; "ab_defghij"; "Pq7LmN2xYz"; "c0ffee1234";
   "Zx9Yw8Vu7T"].

Definition empty_env : @Env iso_text :=
  {| collection := [];
     tag_association_collection := [];
     nanoid_outputs := sample_outputs;
     utc_now := "2025-03-01T12:00:00+00:00";
     log := [] |}.

(** ** The guideline migration chain *)

(** A guideline record as version 0.1.0 stored it. *)
Definition legacy_guideline_document : Document :=
  <["id" := VStr "g-legacy"]>
  (<["version" := VStr "0.1.0"]>
  (<["creation_utc" := VStr "2024-05-01T09:30:00+00:00"]>
  (<["guideline_set" := VStr "default"]>
  (<["condition" := VStr "the customer greets the agent"]>
  (<["action" := VStr "greet the customer back"]> ∅))))).

(** The loader turns [doc] into a record of the current version: one
    [_serialize] writes for some guideline. *)
Definition migrates_to_current {DT : DateTime} (doc : Document) : Prop :=
  exists g, Guidelines._document_loader doc
            = Return (Some (Guidelines._serialize g)).

(** What a comprehension over a pure, possibly raising body evaluates to:
    the results in order, or the first exception. *)
Fixpoint collect {A B} (f : A -> outcome B) (xs : list A) : outcome (list B) :=
  match xs with
  | [] => Return []
  | x :: rest =>
      match f x with
      | Raise e => Raise e
      | Return y =>
          match collect f rest with
          | Raise e => Raise e
          | Return ys => Return (y :: ys)
          end
      end
  end.

(** The keys a [GuidelineUpdateParams] value carries. *)
Definition supplied_keys (params : Guidelines.GuidelineUpdateParams)
  : list string :=
  from_option (fun _ => ["condition"]) [] (Guidelines.with_condition params)
  ++ from_option (fun _ => ["action"]) [] (Guidelines.with_action params)
  ++ from_option (fun _ => ["enabled"]) [] (Guidelines.with_enabled params)
  ++ from_option (fun _ => ["metadata"]) [] (Guidelines.with_metadata params).

(** ** Lock discipline, read off the log *)

Definition is_lock_event (e : event) : bool :=
  match e with
  | Acquire _ | Release _ => true
  | _ => false
  end.

Definition is_read (e : event) : bool :=
  match e with
  | Find _ | FindOne _ => true
  | _ => false
  end.

(** The operation is one writer-lock critical section and nothing else:
    it enters the writer scope first, leaves it last, and touches no lock
    in between. *)
Definition one_writer_section (tr : list event) : bool :=
  match tr with
  | Acquire writer_lock :: rest =>
      match reverse rest with
      | Release writer_lock :: body =>
          forallb (fun e => negb (is_lock_event e)) body
      | _ => false
      end
  | _ => false
  end.



(** The methods of the two stores that read and then write. *)
Inductive read_modify_write {DT : DateTime} :=
| AgentUpdate (agent_id : string) (params : Agents.AgentUpdateParams)
| AgentUpsertTag (agent_id tag_id : string) (creation_utc : option datetime)
| GuidelineUpdate (guideline_id : string)
    (params : Guidelines.GuidelineUpdateParams)
| GuidelineUpsertTag (guideline_id tag_id : string)
    (creation_utc : option datetime)
| GuidelineAddMetadata (guideline_id : string) (metadata : gmap string json)
| GuidelineRemoveMetadata (guideline_id : string) (keys : list string).

Definition events_of {DT : DateTime} (op : read_modify_write) (env : Env)
  : list event :=
  match op with
  | AgentUpdate i params => trace (Agents.update_agent i params) env
  | AgentUpsertTag i t c => trace (Agents.upsert_tag i t c) env
  | GuidelineUpdate i params => trace (Guidelines.update_guideline i params) env
  | GuidelineUpsertTag i t c => trace (Guidelines.upsert_tag i t c) env
  | GuidelineAddMetadata i m => trace (Guidelines.add_metadata i m) env
  | GuidelineRemoveMetadata i ks => trace (Guidelines.remove_metadata i ks) env
  end.

(** Whether a call returned, as opposed to raising. *)
Definition returned {A} (o : outcome A) : bool :=
  match o with
  | Return _ => true
  | Raise _ => false
  end.

(** Whether the read-modify-write method returned its entity (for
    [upsert_tag], its boolean). *)
Definition returns {DT : DateTime} (op : read_modify_write) (env : Env)
  : bool :=
  match op with
  | AgentUpdate i params => returned (Agents.update_agent i params env).1
  | AgentUpsertTag i t c => returned (Agents.upsert_tag i t c env).1
  | GuidelineUpdate i params =>
      returned (Guidelines.update_guideline i params env).1
  | GuidelineUpsertTag i t c => returned (Guidelines.upsert_tag i t c env).1
  | GuidelineAddMetadata i m => returned (Guidelines.add_metadata i m env).1
  | GuidelineRemoveMetadata i ks =>
      returned (Guidelines.remove_metadata i ks env).1
  end.

(** The operation enters the writer scope first and leaves it last, and the
    first thing it does inside is a reader scope around one lookup in the
    primary collection (that of [read_agent] or [read_guideline]); it
    touches no other lock. *)
Definition reader_nested_in_writer (tr : list event) : bool :=
  match tr with
  | Acquire writer_lock :: Acquire reader_lock :: FindOne Primary
    :: Release reader_lock :: rest =>
      match reverse rest with
      | Release writer_lock :: body =>
          forallb (fun e => negb (is_lock_event e)) body
      | _ => false
      end
  | _ => false
  end.

(** The operation is one writer-lock critical section followed, once the
    writer scope is released, by exactly one read of the tag associations
    (that of [_deserialize]). *)
Definition writer_section_then_read (tr : list event) : bool :=
  match tr with
  | Acquire writer_lock :: rest =>
      match reverse rest with
      | Find TagAssociations :: Release writer_lock :: body =>
          forallb (fun e => negb (is_lock_event e)) body
      | _ => false
      end
  | _ => false
  end.


(** An agent tagged once. *)
Definition tagged_agent_env : @Env iso_text :=
  {| collection :=
       [Agents._serialize_agent
          {| Agents.id := "V1StGXR8Z5";
             Agents.name := "Concierge";
             Agents.description := Some "answers guests";
             Agents.creation_utc := "2025-02-14T08:00:00+00:00";
             Agents.max_engine_iterations := 3;
             Agents.tags := ["vip"];
             Agents.composition_mode := FLUID |}];
     tag_association_collection :=
       [Agents.association_document "Pq7LmN2xYz" "2025-02-14T08:00:00+00:00"
          "V1StGXR8Z5" "vip"];
     nanoid_outputs := ["c0ffee1234"; "Zx9Yw8Vu7T"];
     utc_now := "2025-03-01T12:00:00+00:00";
     log := [] |}.

(** ** Store invariant *)

(** A store as its own methods keep it: ids are unique within each
    collection ([insert_one] refuses a duplicate), every record carries the
    store's version (every record the store writes does, and so does every
    record after the migration pass), and association records have an id. *)
Definition well_kept {DT : DateTime} (version : string) (env : Env) : Prop :=
  NoDup ((fun d => str_at d "id") <$> collection env) /\
  Forall (fun d => str_at d "version" = Some version) (collection env) /\
  NoDup ((fun d => str_at d "id") <$> tag_association_collection env) /\
  Forall (fun d => is_Some (str_at d "id") /\
                   str_at d "version" = Some version)
    (tag_association_collection env).

(** ** Entities and their tags *)

(** The agent [a] with its tag list replaced. *)
Definition agent_with_tags {DT : DateTime} (tags : list string)
  (a : Agents.Agent) : Agents.Agent :=
  {| Agents.id := Agents.id a;
     Agents.name := Agents.name a;
     Agents.description := Agents.description a;
     Agents.creation_utc := Agents.creation_utc a;
     Agents.max_engine_iterations := Agents.max_engine_iterations a;
     Agents.tags := tags;
     Agents.composition_mode := Agents.composition_mode a |}.

(** The guideline [g] with its tag list replaced. *)
Definition guideline_with_tags {DT : DateTime} (tags : list string)
  (g : Guidelines.Guideline) : Guidelines.Guideline :=
  {| Guidelines.id := Guidelines.id g;
     Guidelines.creation_utc := Guidelines.creation_utc g;
     Guidelines.content := Guidelines.content g;
     Guidelines.enabled := Guidelines.enabled g;
     Guidelines.tags := tags;
     Guidelines.metadata := Guidelines.metadata g |}.

(** The association records that link [entity_id] to [tag_id]; [field] is
    the store's entity-id field. *)
Definition links (field entity_id tag_id : string) (docs : list Document)
  : list Document :=
  filter (fun d => str_at d field = Some entity_id /\
                   str_at d "tag_id" = Some tag_id) docs.

(** What idempotence of a store's [upsert_tag] says at a store state:
    [upsert_tag] is the method applied to its entity and tag, [field] the
    store's entity-id field, [tagged] whether the entity already reads with
    the tag, [new_record] the association record a first call writes. *)
Definition upsert_is_idempotent {DT : DateTime}
  (upsert_tag : option datetime -> M bool) (field entity_id tag_id : string)
  (tagged : Prop) (new_record : Document) (c c' : option datetime)
  (env : Env) : Prop :=
  (tagged ->
   (upsert_tag c env).1 = Return false /\
   collection (upsert_tag c env).2 = collection env /\
   tag_association_collection (upsert_tag c env).2
   = tag_association_collection env) /\
  (~ tagged ->
   (upsert_tag c env).1 = Return true /\
   collection (upsert_tag c env).2 = collection env /\
   tag_association_collection (upsert_tag c env).2
   = tag_association_collection env ++ [new_record] /\
   (upsert_tag c' (upsert_tag c env).2).1 = Return false /\
   tag_association_collection (upsert_tag c' (upsert_tag c env).2).2
   = tag_association_collection (upsert_tag c env).2 /\
   length (links field entity_id tag_id
             (tag_association_collection (upsert_tag c env).2)) = 1).

(** ** Records and tags, read off the association collection *)

(** No association record refers to the record [d]. *)
Definition unlinked (associations : list Document) (d : Document) : Prop :=
  Forall (fun a => str_at a "guideline_id" <> str_at d "id") associations.

(** Some association record links the record [d] to one of [tags]. *)
Definition linked_to_any (associations : list Document) (tags : list string)
  (d : Document) : Prop :=
  Exists (fun a => str_at a "guideline_id" = str_at d "id" /\
                   Exists (fun x => str_at a "tag_id" = Some x) tags)
    associations.

#[global] Instance unlinked_dec associations d :
  Decision (unlinked associations d).
Proof. unfold unlinked. apply _. Defined.

#[global] Instance linked_to_any_dec associations tags d :
  Decision (linked_to_any associations tags d).
Proof. unfold linked_to_any. apply _. Defined.

(** ** Sample stores *)

(** The agent [tagged_agent_env] holds. *)
Definition concierge : @Agents.Agent iso_text :=
  {| Agents.id := "V1StGXR8Z5";
     Agents.name := "Concierge";
     Agents.description := Some "answers guests";
     Agents.creation_utc := "2025-02-14T08:00:00+00:00";
     Agents.max_engine_iterations := 3;
     Agents.tags := ["vip"];
     Agents.composition_mode := FLUID |}.

(** Guideline "A", without tags, and guideline "B", tagged "t1". *)
Definition guideline_A : @Guidelines.Guideline iso_text :=
  {| Guidelines.id := "gdlnAAAA01";
     Guidelines.creation_utc := "2025-01-10T10:00:00+00:00";
     Guidelines.content :=
       {| Guidelines.condition := "the customer greets the agent";
          Guidelines.action := "greet the customer back" |};
     Guidelines.enabled := true;
     Guidelines.tags := [];
     Guidelines.metadata := {["source" := JStr "import"]} |}.

Definition guideline_B : @Guidelines.Guideline iso_text :=
  {| Guidelines.id := "gdlnBBBB02";
     Guidelines.creation_utc := "2025-01-11T10:00:00+00:00";
     Guidelines.content :=
       {| Guidelines.condition := "the customer asks for a refund";
          Guidelines.action := "explain the refund policy" |};
     Guidelines.enabled := true;
     Guidelines.tags := ["t1"];
     Guidelines.metadata := ∅ |}.

Definition two_guidelines_env : @Env iso_text :=
  {| collection :=
       [Guidelines._serialize guideline_A; Guidelines._serialize guideline_B];
     tag_association_collection :=
       [Guidelines.association_document "lnk0000001"
          "2025-01-11T10:00:00+00:00" "gdlnBBBB02" "t1"];
     nanoid_outputs := ["ab_defghij"; "c0ffee1234"; "Zx9Yw8Vu7T"];
     utc_now := "2025-03-01T12:00:00+00:00";
     log := [] |}.

(** A guideline record as version 0.3.0 stored it. *)
Definition previous_guideline_document : Document :=
  <["id" := VStr "gdlnBBBB02"]>
  (<["version" := VStr "0.3.0"]>
  (<["creation_utc" := VStr "2025-01-11T10:00:00+00:00"]>
  (<["condition" := VStr "the customer asks for a refund"]>
  (<["action" := VStr "explain the refund policy"]>
  (<["enabled" := VBool true]> ∅))))).

(** [AgentUpdateParams] and [GuidelineUpdateParams] with no key. *)
Definition no_agent_params : Agents.AgentUpdateParams :=
  {| Agents.with_name := None;
     Agents.with_description := None;
     Agents.with_max_engine_iterations := None;
     Agents.with_composition_mode := None |}.

Definition no_guideline_params : Guidelines.GuidelineUpdateParams :=
  {| Guidelines.with_condition := None;
     Guidelines.with_action := None;
     Guidelines.with_enabled := None;
     Guidelines.with_metadata := None |}.

(** [GuidelineUpdateParams] that only disable the guideline. *)
Definition disabling_params : Guidelines.GuidelineUpdateParams :=
  {| Guidelines.with_condition := None;
     Guidelines.with_action := None;
     Guidelines.with_enabled := Some false;
     Guidelines.with_metadata := None |}.

(** The agent a first [create_agent] on [empty_env] returns when asked for
    a concierge with two tags and no iteration limit. *)
Definition created_concierge : @Agents.Agent iso_text :=
  {| Agents.id := "V1StGXR8Z5";
     Agents.name := "Concierge";
     Agents.description := Some "answers guests";
     Agents.creation_utc := "2025-03-01T12:00:00+00:00";
     Agents.max_engine_iterations := 1;
     Agents.tags := ["vip"; "gold"];
     Agents.composition_mode := FLUID |}.

(** ** [core/emission/event_buffer.py]: [EventBuffer] *)

Module Emission.
Section Buffer.
Context {DT : DateTime}.

(** The members of [EventSource] and [EventKind] the buffer uses. *)
Inductive EventSource := AI_AGENT | SYSTEM.

Inductive EventKind := STATUS | MESSAGE | TOOL.

(** [EmittedEvent], with the fields the buffer gives it. *)
Record EmittedEvent := {
  source : EventSource;
  kind : EventKind;
  correlation_id : string;
  data : json;
}.

(** [EventBuffer]: [self.agent] and [self.events]. *)
Record EventBuffer := {
  agent : Agents.Agent;
  events : list EmittedEvent;
}.

(** [EventBuffer.__init__(emitting_agent)] *)
Definition __init__ (emitting_agent : Agents.Agent) : EventBuffer :=
  {| agent := emitting_agent; events := [] |}.

(** Each [emit_*] method returns the event and the buffer with the event
    appended to [self.events]. *)
Definition emit_status_event (self : EventBuffer) (correlation_id : string)
  (data : json) : EmittedEvent * EventBuffer :=
  let event :=
    {| source := AI_AGENT;
       kind := STATUS;
       correlation_id := correlation_id;
       data := data |} in
  (event, {| agent := agent self; events := events self ++ [event] |}).

(** [data] is a string ([inl]) or a [MessageEventData] ([inr]). *)
Definition emit_message_event (self : EventBuffer) (correlation_id : string)
  (data : string + json) : EmittedEvent * EventBuffer :=
  let message_data :=
    match data with
    | inl text =>
        JObj [("message", JStr text);
              ("participant",
               JObj [("id", JStr (Agents.id (agent self)));
                     ("display_name", JStr (Agents.name (agent self)))])]
    | inr message => message
    end in
  let event :=
    {| source := AI_AGENT;
       kind := MESSAGE;
       correlation_id := correlation_id;
       data := message_data |} in
  (event, {| agent := agent self; events := events self ++ [event] |}).

Definition emit_tool_event (self : EventBuffer) (correlation_id : string)
  (data : json) : EmittedEvent * EventBuffer :=
  let event :=
    {| source := SYSTEM;
       kind := TOOL;
       correlation_id := correlation_id;
       data := data |} in
  (event, {| agent := agent self; events := events self ++ [event] |}).

(** [EventBufferFactory.create_event_emitter], on the document store. *)
Definition create_event_emitter (emitting_agent_id session_id : string)
  : M EventBuffer :=
  bind (Agents.read_agent emitting_agent_id)
    (fun agent => ret (__init__ agent)).

End Buffer.
End Emission.

(** ** What the further properties are stated with *)

(** The two collections, the random source and the clock of [env'] are
    those of [env]: at most the log differs. *)
Definition same_store {DT : DateTime} (env env' : Env) : Prop :=
  collection env' = collection env /\
  tag_association_collection env' = tag_association_collection env /\
  nanoid_outputs env' = nanoid_outputs env /\
  utc_now env' = utc_now env.

(** The events a read-only operation may leave in the log: reader scopes
    and reads of a collection. *)
Definition is_reader_event (e : event) : bool :=
  match e with
  | Acquire reader_lock | Release reader_lock | Find _ | FindOne _ => true
  | _ => false
  end.

(** Every run of [m] appends to the log only events that satisfy [P]. *)
Definition emits {DT : DateTime} {A} (P : event -> bool) (m : M A) : Prop :=
  forall env, exists evs,
    log (m env).2 = log env ++ evs /\ forallb P evs = true.

(** No run of [m] changes the collections, the random source or the
    clock. *)
Definition keeps_store {DT : DateTime} {A} (m : M A) : Prop :=
  forall env, same_store env (m env).2.

(** A call on a collection, as opposed to entering or leaving a lock
    scope. *)
Definition is_collection_call (e : event) : bool := negb (is_lock_event e).

(** No run of [m] changes the collection [c]. *)
Definition keeps_docs {DT : DateTime} {A} (c : slot) (m : M A) : Prop :=
  forall env, docs_of c (m env).2 = docs_of c env.

(** ** Records read as entities *)

(** The record [doc], with [links] the association records found for it,
    deserialises to the agent [a]: what [_deserialize_agent] asks of each
    field. *)
Definition reads_as_agent {DT : DateTime} (doc : Document)
  (links : list Document) (a : Agents.Agent) : Prop :=
  get_str doc "id" = Return (Agents.id a) /\
  collect (fun d => get_str d "tag_id") links = Return (Agents.tags a) /\
  (exists text,
     get_str doc "creation_utc" = Return text /\
     fromisoformat text = Some (Agents.creation_utc a)) /\
  get_str doc "name" = Return (Agents.name a) /\
  doc !! "description" = Some (Agents.optional_str (Agents.description a)) /\
  doc !! "max_engine_iterations"
  = Some (VInt (Agents.max_engine_iterations a)) /\
  match doc !! "composition_mode" with
  | None => Agents.composition_mode a = FLUID
  | Some (VEnum m) => Agents.composition_mode a = m
  | Some (VStr s) =>
      CompositionMode_of_value s = Some (Agents.composition_mode a)
  | Some _ => False
  end.

(** The same for a guideline and [_deserialize]. *)
Definition reads_as_guideline {DT : DateTime} (doc : Document)
  (links : list Document) (g : Guidelines.Guideline) : Prop :=
  get_str doc "id" = Return (Guidelines.id g) /\
  collect (fun d => get_str d "tag_id") links = Return (Guidelines.tags g) /\
  (exists text,
     get_str doc "creation_utc" = Return text /\
     fromisoformat text = Some (Guidelines.creation_utc g)) /\
  get_str doc "condition"
  = Return (Guidelines.condition (Guidelines.content g)) /\
  get_str doc "action" = Return (Guidelines.action (Guidelines.content g)) /\
  doc !! "enabled" = Some (VBool (Guidelines.enabled g)) /\
  doc !! "metadata" = Some (VDict (Guidelines.metadata g)).

(** ** Entities after an update *)



(** The guideline [g] with its metadata replaced. *)
Definition guideline_with_metadata {DT : DateTime}
  (metadata : gmap string json) (g : Guidelines.Guideline)
  : Guidelines.Guideline :=
  {| Guidelines.id := Guidelines.id g;
     Guidelines.creation_utc := Guidelines.creation_utc g;
     Guidelines.content := Guidelines.content g;
     Guidelines.enabled := Guidelines.enabled g;
     Guidelines.tags := Guidelines.tags g;
     Guidelines.metadata := metadata |}.

(** Every run of [m] that starts in a store satisfying [I] ends in one,
    whether it returns or raises. *)
Definition keeps_invariant {DT : DateTime} {A} (I : Env -> Prop) (m : M A)
  : Prop :=
  forall env, I env -> I (m env).2.

(** ** Sequences of emissions *)

(** One call of an [emit_*] method. *)
Inductive emission :=
| EmitStatus (correlation_id : string) (data : json)
| EmitMessage (correlation_id : string) (data : string + json)
| EmitTool (correlation_id : string) (data : json).

Definition emit {DT : DateTime} (self : Emission.EventBuffer) (e : emission)
  : Emission.EmittedEvent * Emission.EventBuffer :=
  match e with
  | EmitStatus c d => Emission.emit_status_event self c d
  | EmitMessage c d => Emission.emit_message_event self c d
  | EmitTool c d => Emission.emit_tool_event self c d
  end.

(** The calls [es] made in order on the buffer: the events they return,
    and the buffer at the end. *)
Fixpoint emit_all {DT : DateTime} (self : Emission.EventBuffer)
  (es : list emission)
  : list Emission.EmittedEvent * Emission.EventBuffer :=
  match es with
  | [] => ([], self)
  | e :: rest =>
      let '(event, self') := emit self e in
      let '(events, self'') := emit_all self' rest in
      (event :: events, self'')
  end.

(** ** More sample data *)


(** [AgentUpdateParams] that rename the agent, and
    [GuidelineUpdateParams] that disable the guideline and carry a
    metadata key. *)
Definition renamed : Agents.AgentUpdateParams :=
  {| Agents.with_name := Some "Host";
     Agents.with_description := None;
     Agents.with_max_engine_iterations := None;
     Agents.with_composition_mode := None |}.

Definition disabled : Guidelines.GuidelineUpdateParams :=
  {| Guidelines.with_condition := None;
     Guidelines.with_action := None;
     Guidelines.with_enabled := Some false;
     Guidelines.with_metadata := Some {["owner" := JStr "ops"]} |}.

(** The guideline a first [create_guideline] on [empty_env] returns when
    asked for a refund guideline with one tag. *)
Definition created_guideline : @Guidelines.Guideline iso_text :=
  {| Guidelines.id := "V1StGXR8Z5";
     Guidelines.creation_utc := "2025-03-01T12:00:00+00:00";
     Guidelines.content :=
       {| Guidelines.condition := "the customer asks for a refund";
          Guidelines.action := "explain the refund policy" |};
     Guidelines.enabled := true;
     Guidelines.tags := ["vip"];
     Guidelines.metadata := {["source" := JStr "api"]} |}.

(** The agent [create_agent_if_absent] adds to [empty_env]. *)
Definition default_agent : @Agents.Agent iso_text :=
  {| Agents.id := "V1StGXR8Z5";
     Agents.name := DEFAULT_AGENT_NAME;
     Agents.description := None;
     Agents.creation_utc := "2025-03-01T12:00:00+00:00";
     Agents.max_engine_iterations := 1;
     Agents.tags := [];
     Agents.composition_mode := FLUID |}.

(** * Properties *)

(** ** The id generator *)

Lemma contains_char_get (c a : ascii) (s : string) (n : nat) :
  contains_char c s = false -> String.get n s = Some a -> a <> c.
Proof.
  revert n. induction s as [|b s IH]; intros n Hc Hg; [discriminate|].
  simpl in Hc. apply orb_false_iff in Hc as [Hb Hs].
  destruct n as [|n]; simpl in Hg.
  - injection Hg as ->. by apply Ascii.eqb_neq.
  - eauto.
Qed.

Lemma acceptable_true (s : string) :
  acceptable s = Return true ->
  (forall c, first_char s = Some c -> c <> "-"%char /\ c <> "_"%char) /\
  (forall c, last_char s = Some c -> c <> "-"%char /\ c <> "_"%char).
Proof.
  unfold acceptable.
  destruct (first_char s) as [a|] eqn:Ha; [|discriminate].
  destruct (last_char s) as [z|] eqn:Hz; [|discriminate].
  intros [= H]. apply andb_true_iff in H as [Hends Hunder].
  apply negb_true_iff, orb_false_iff in Hends as [Hfirst Hlast].
  apply negb_true_iff in Hunder.
  apply Ascii.eqb_neq in Hfirst, Hlast.
  split; intros c [= <-]; split; try done.
  - eapply contains_char_get; [exact Hunder | exact Ha].
  - unfold last_char in Hz. destruct (String.length s); [discriminate|].
    eapply contains_char_get; [exact Hunder | exact Hz].
Qed.

Lemma generate_id_from_returns (candidates rest : list string) (new_id : string) :
  generate_id_from candidates = (Return new_id, rest) ->
  new_id ∈ candidates /\ acceptable new_id = Return true.
Proof.
  induction candidates as [|c cs IH]; simpl; [discriminate|].
  destruct (acceptable c) as [[|]|e] eqn:Hc.
  - intros [= <- <-]. split; [left | done].
  - intros H. destruct (IH H). split; [by right | done].
  - discriminate.
Qed.

Lemma get_in_range (s : string) (n : nat) :
  n < String.length s -> is_Some (String.get n s).
Proof.
  revert n. induction s as [|a s IH]; intros n Hn; simpl in *; [lia|].
  destruct n as [|n]; [eauto | apply IH; lia].
Qed.

(** The loop ends as soon as the source gives one acceptable candidate. *)
Lemma generate_id_from_progress (candidates : list string) :
  Forall (fun c => String.length c = 10) candidates ->
  Exists (fun c => acceptable c = Return true) candidates ->
  exists new_id rest, generate_id_from candidates = (Return new_id, rest).
Proof.
  intros Hlen Hex. induction Hex as [c cs Hc | c cs Hex IH]; simpl.
  - rewrite Hc. eauto.
  - apply Forall_cons in Hlen as [Hc Hcs].
    destruct (acceptable c) as [[|]|e] eqn:Ha; eauto.
    unfold acceptable, first_char, last_char in Ha. rewrite Hc in Ha.
    destruct c as [|a c]; [discriminate|]. simpl in Ha, Hc.
    destruct (get_in_range c 8) as [z Hz]; [lia|].
    by rewrite Hz in Ha.
Qed.

Section GeneratorProperties.
Context {DT : DateTime}.

(** C9: every id [generate_id] returns is ten characters long (the size
    asked of the random source) and neither starts nor ends with one of
    the separator characters [-] and [_]. *)
Theorem generate_id_well_formed (env env' : Env) (new_id : string) :
  Forall (fun c => String.length c = 10) (nanoid_outputs env) ->
  generate_id env = (Return new_id, env') ->
  String.length new_id = 10 /\
  (forall c, first_char new_id = Some c -> c <> "-"%char /\ c <> "_"%char) /\
  (forall c, last_char new_id = Some c -> c <> "-"%char /\ c <> "_"%char).
Proof.
  intros Hlen. unfold generate_id.
  destruct (generate_id_from (nanoid_outputs env)) as [r rest] eqn:Hgen.
  intros [= -> <-].
  apply generate_id_from_returns in Hgen as [Hin Hok].
  split; [|by apply acceptable_true].
  rewrite Forall_forall in Hlen. by apply Hlen.
Qed.
End GeneratorProperties.

(** ** The guideline migration chain *)

Lemma guideline_converter_at_0_1_0 :
  (list_to_map Guidelines.converters : gmap string Loader) !! "0.1.0"
  = Some guideline_document_converter_0_1_0_to_0_2_0.
Proof. reflexivity. Qed.

Lemma guideline_converter_at_0_2_0 :
  (list_to_map Guidelines.converters : gmap string Loader) !! "0.2.0"
  = Some Guidelines.v0_2_0_to_v_0_3_0.
Proof. reflexivity. Qed.

Lemma guideline_converter_at_0_3_0 :
  (list_to_map Guidelines.converters : gmap string Loader) !! "0.3.0"
  = Some Guidelines.v0_3_0_to_v0_4_0.
Proof. reflexivity. Qed.

Lemma str_at_insert_eq (d : Document) (k s : string) :
  str_at (<[k := VStr s]> d) k = Some s.
Proof. unfold str_at. by rewrite lookup_insert_eq. Qed.

Lemma str_at_insert_ne (d : Document) (k k' : string) (v : value) :
  k <> k' -> str_at (<[k := v]> d) k' = str_at d k'.
Proof. intros H. unfold str_at. by rewrite lookup_insert_ne. Qed.

(** A record at the store's version is loaded as it is. *)
Lemma migrate_current (fuel : nat) (target : string)
  (converters : list (string * Loader)) (doc : Document) :
  str_at doc "version" = Some target ->
  migrate fuel target converters doc = Return (Some doc).
Proof.
  intros H. destruct fuel; simpl; rewrite H, String.eqb_refl; done.
Qed.

(** The first step of the chain: the record gains [enabled = true] and is
    otherwise copied. *)
Lemma converter_0_1_0_adds_enabled (doc : Document)
  (v_id v_creation_utc v_guideline_set v_condition v_action : value) :
  doc !! "id" = Some v_id ->
  doc !! "creation_utc" = Some v_creation_utc ->
  doc !! "guideline_set" = Some v_guideline_set ->
  doc !! "condition" = Some v_condition ->
  doc !! "action" = Some v_action ->
  guideline_document_converter_0_1_0_to_0_2_0 doc
  = Return (Some
      (<["id" := v_id]>
      (<["version" := VStr "0.2.0"]>
      (<["creation_utc" := v_creation_utc]>
      (<["guideline_set" := v_guideline_set]>
      (<["condition" := v_condition]>
      (<["action" := v_action]>
      (<["enabled" := VBool true]> ∅)))))))).
Proof.
  intros H1 H2 H3 H4 H5.
  unfold guideline_document_converter_0_1_0_to_0_2_0, get_field.
  by rewrite H1, H2, H3, H4, H5.
Qed.

Section MigrationProperties.
Context {DT : DateTime}.

(** C3, as the code has it: a record stored at 0.1.0 is not migrated in
    process.  Its first step adds [enabled = true] and keeps the other
    fields; the 0.2.0 to 0.3.0 step is a stub that raises, so the loader
    raises and yields no record.  A record stored at 0.3.0 is migrated: the
    loader yields the record [_serialize] writes for the guideline with
    the same id, creation time, condition, action and enabled flag, and
    empty metadata. *)
Theorem guideline_migration_chain (legacy previous : Document)
  (v_id v_creation_utc v_guideline_set v_condition v_action : value)
  (g : Guidelines.Guideline) :
  str_at legacy "version" = Some "0.1.0" ->
  legacy !! "id" = Some v_id ->
  legacy !! "creation_utc" = Some v_creation_utc ->
  legacy !! "guideline_set" = Some v_guideline_set ->
  legacy !! "condition" = Some v_condition ->
  legacy !! "action" = Some v_action ->
  str_at previous "version" = Some "0.3.0" ->
  previous !! "id" = Some (VStr (Guidelines.id g)) ->
  previous !! "creation_utc"
    = Some (VStr (isoformat (Guidelines.creation_utc g))) ->
  previous !! "condition"
    = Some (VStr (Guidelines.condition (Guidelines.content g))) ->
  previous !! "action"
    = Some (VStr (Guidelines.action (Guidelines.content g))) ->
  previous !! "enabled" = Some (VBool (Guidelines.enabled g)) ->
  Guidelines.metadata g = ∅ ->
  guideline_document_converter_0_1_0_to_0_2_0 legacy
  = Return (Some
      (<["id" := v_id]>
      (<["version" := VStr "0.2.0"]>
      (<["creation_utc" := v_creation_utc]>
      (<["guideline_set" := v_guideline_set]>
      (<["condition" := v_condition]>
      (<["action" := v_action]>
      (<["enabled" := VBool true]> ∅)))))))) /\
  Guidelines._document_loader legacy
  = Raise (Exception
      "This code should not be reached! Please run the 'Daneel-prepare-migration' script.") /\
  Guidelines._document_loader previous
  = Return (Some (Guidelines._serialize g)).
Proof.
  intros Hv H1 H2 H3 H4 H5 Hv' H1' H2' H3' H4' H5' Hmeta.
  split; [by apply converter_0_1_0_adds_enabled|]. split.
  - unfold Guidelines._document_loader. simpl length.
    cbn [migrate]. rewrite Hv. cbn [String.eqb Ascii.eqb Bool.eqb].
    rewrite guideline_converter_at_0_1_0.
    erewrite converter_0_1_0_adds_enabled by eassumption.
    rewrite str_at_insert_ne, str_at_insert_eq by done.
    cbn [String.eqb Ascii.eqb Bool.eqb].
    by rewrite guideline_converter_at_0_2_0.
  - unfold Guidelines._document_loader. simpl length.
    cbn [migrate]. rewrite Hv'. cbn [String.eqb Ascii.eqb Bool.eqb].
    rewrite guideline_converter_at_0_3_0.
    unfold Guidelines.v0_3_0_to_v0_4_0, get_field.
    rewrite H1', H2', H3', H4', H5'.
    rewrite str_at_insert_ne, str_at_insert_eq by done.
    cbn [String.eqb Ascii.eqb Bool.eqb Guidelines.VERSION].
    unfold Guidelines._serialize. by rewrite Hmeta.
Qed.
End MigrationProperties.

(** C3 as stated fails: the loader gives no current record for a 0.1.0
    guideline record. *)
Lemma legacy_guideline_is_not_migrated :
  ~ migrates_to_current legacy_guideline_document.
Proof.
  intros [g Hg]. vm_compute in Hg. discriminate.
Qed.

(** ** The document collection *)

Lemma filter_matches_cons (w : Where) (d : Document) (docs : list Document) :
  filter (fun d => matches w d) (d :: docs)
  = if matches w d then d :: filter (fun d => matches w d) docs
    else filter (fun d => matches w d) docs.
Proof.
  destruct (matches w d) eqn:E.
  - rewrite filter_cons_True; [done | by rewrite E].
  - rewrite filter_cons_False; [done | rewrite E; by intros []].
Qed.

Lemma update_one_in_absent (w : Where) (params : Document)
  (docs : list Document) :
  head (filter (fun d => matches w d) docs) = None ->
  update_one_in w params docs
  = ({| matched_count := 0; updated_document := None |}, docs).
Proof.
  induction docs as [|d docs IH]; [done|].
  rewrite filter_matches_cons. simpl.
  destruct (matches w d); [discriminate|].
  intros H. by rewrite IH.
Qed.

Lemma update_one_in_present (w : Where) (params d : Document)
  (docs : list Document) :
  head (filter (fun d => matches w d) docs) = Some d ->
  exists before after,
    docs = before ++ d :: after /\
    Forall (fun d' => matches w d' = false) before /\
    update_one_in w params docs
    = ({| matched_count := 1; updated_document := Some (params ∪ d) |},
       before ++ (params ∪ d) :: after).
Proof.
  induction docs as [|d0 docs IH]; [done|].
  rewrite filter_matches_cons. simpl.
  destruct (matches w d0) eqn:E.
  - intros [= ->]. by exists [], docs.
  - intros H. destruct (IH H) as (before & after & -> & Hb & ->).
    exists (d0 :: before), after.
    split; [done|]. split; [by constructor | done].
Qed.

Lemma delete_one_in_absent (w : Where) (docs : list Document) :
  head (filter (fun d => matches w d) docs) = None ->
  delete_one_in w docs
  = ({| deleted_count := 0; deleted_document := None |}, docs).
Proof.
  induction docs as [|d docs IH]; [done|].
  rewrite filter_matches_cons. simpl.
  destruct (matches w d); [discriminate|].
  intros H. by rewrite IH.
Qed.

Lemma delete_one_in_present (w : Where) (d : Document)
  (docs : list Document) :
  head (filter (fun d => matches w d) docs) = Some d ->
  exists before after,
    docs = before ++ d :: after /\
    Forall (fun d' => matches w d' = false) before /\
    delete_one_in w docs
    = ({| deleted_count := 1; deleted_document := Some d |},
       before ++ after).
Proof.
  induction docs as [|d0 docs IH]; [done|].
  rewrite filter_matches_cons. simpl.
  destruct (matches w d0) eqn:E.
  - intros [= ->]. by exists [], docs.
  - intros H. destruct (IH H) as (before & after & -> & Hb & ->).
    exists (d0 :: before), after.
    split; [done|]. split; [by constructor | done].
Qed.

Lemma filter_matches_none (w : Where) (docs : list Document) :
  Forall (fun d => matches w d = false) docs ->
  filter (fun d => matches w d) docs = [].
Proof.
  induction 1 as [|d docs Hd _ IH]; [done|].
  by rewrite filter_matches_cons, Hd.
Qed.

Lemma head_filter_split (w : Where) (before after : list Document)
  (d : Document) :
  Forall (fun d' => matches w d' = false) before ->
  head (filter (fun d => matches w d) (before ++ d :: after))
  = if matches w d then Some d
    else head (filter (fun d => matches w d) after).
Proof.
  intros Hb. rewrite filter_app, (filter_matches_none _ _ Hb).
  simpl. rewrite filter_matches_cons. by destruct (matches w d).
Qed.

(** ** The environment *)

Section EnvironmentFacts.
Context {DT : DateTime}.

Lemma docs_of_record (c : slot) (e : event) (env : Env) :
  docs_of c (record e env) = docs_of c env.
Proof. by destruct c. Qed.

Lemma docs_of_with_docs (c c' : slot) (ds : list Document) (env : Env) :
  docs_of c (with_docs c' ds env)
  = if decide (c = c') then ds else docs_of c env.
Proof. by destruct c, c'. Qed.

Lemma log_record (e : event) (env : Env) :
  log (record e env) = log env ++ [e].
Proof. done. Qed.

Lemma log_with_docs (c : slot) (ds : list Document) (env : Env) :
  log (with_docs c ds env) = log env.
Proof. done. Qed.

Lemma nanoid_outputs_record (e : event) (env : Env) :
  nanoid_outputs (record e env) = nanoid_outputs env.
Proof. done. Qed.

Lemma nanoid_outputs_with_docs (c : slot) (ds : list Document) (env : Env) :
  nanoid_outputs (with_docs c ds env) = nanoid_outputs env.
Proof. done. Qed.

Lemma utc_now_record (e : event) (env : Env) :
  utc_now (record e env) = utc_now env.
Proof. done. Qed.

Lemma utc_now_with_docs (c : slot) (ds : list Document) (env : Env) :
  utc_now (with_docs c ds env) = utc_now env.
Proof. done. Qed.

Lemma docs_of_with_nanoid_outputs (c : slot) (rest : list string)
  (env : Env) :
  docs_of c (with_nanoid_outputs rest env) = docs_of c env.
Proof. by destruct c. Qed.

Lemma log_with_nanoid_outputs (rest : list string) (env : Env) :
  log (with_nanoid_outputs rest env) = log env.
Proof. done. Qed.

Lemma utc_now_with_nanoid_outputs (rest : list string) (env : Env) :
  utc_now (with_nanoid_outputs rest env) = utc_now env.
Proof. done. Qed.

Lemma nanoid_outputs_with_nanoid_outputs (rest : list string) (env : Env) :
  nanoid_outputs (with_nanoid_outputs rest env) = rest.
Proof. done. Qed.

Lemma collection_docs_of (env : Env) :
  collection env = docs_of Primary env.
Proof. done. Qed.

Lemma tag_association_collection_docs_of (env : Env) :
  tag_association_collection env = docs_of TagAssociations env.
Proof. done. Qed.
End EnvironmentFacts.

(** Unfold the monadic plumbing of a store method, keeping the
    environment behind its projections. *)
Ltac unfold_store :=
  unfold bind, with_lock, find, find_one, insert_one, update_one, delete_one,
    ret, raise, lift, datetime_now,
    Agents._agents_collection, Agents._tag_association_collection,
    Guidelines._collection, Guidelines._tag_association_collection in *;
  cbn [at_slot document_loader] in *.

Ltac unfold_collections :=
  unfold Agents._agents_collection, Agents._tag_association_collection,
    Guidelines._collection, Guidelines._tag_association_collection in *;
  cbn [at_slot document_loader] in *.

Ltac env_simpl :=
  cbn [fst snd];
  repeat first
    [ rewrite docs_of_record
    | rewrite docs_of_with_docs
    | rewrite log_record
    | rewrite log_with_docs
    | rewrite nanoid_outputs_record
    | rewrite nanoid_outputs_with_docs
    | rewrite utc_now_record
    | rewrite utc_now_with_docs
    | rewrite docs_of_with_nanoid_outputs
    | rewrite log_with_nanoid_outputs
    | rewrite utc_now_with_nanoid_outputs
    | rewrite nanoid_outputs_with_nanoid_outputs
    | rewrite decide_True by done
    | rewrite decide_False by done ];
  cbn [fst snd].

(** ** Updating an id that is not there *)

Section UpdateMissing.
Context {DT : DateTime}.

(** [update_agent] looks the record up first and raises the not-found
    error. *)
Lemma update_agent_missing (env : Env) (agent_id : string)
  (params : Agents.AgentUpdateParams) :
  stored agent_id (collection env) = None ->
  (Agents.update_agent agent_id params env).1
  = Raise (ItemNotFoundError agent_id).
Proof.
  unfold stored. rewrite collection_docs_of. intros H.
  unfold Agents.update_agent. unfold_store. env_simpl.
  unfold find_one_in. by rewrite H.
Qed.

(** C4, as the code has it: [update_guideline] does not look the record
    up; for an id that is not in the collection [update_one] matches
    nothing and the method fails on its [assert], with [AssertionError]
    and not with the not-found error.  [update_agent] on the same store
    state raises the not-found error. *)
Theorem update_guideline_missing_fails_assertion (env : Env)
  (guideline_id : string) (params : Guidelines.GuidelineUpdateParams)
  (agent_params : Agents.AgentUpdateParams) :
  stored guideline_id (collection env) = None ->
  (Guidelines.update_guideline guideline_id params env).1
  = Raise AssertionError /\
  (Agents.update_agent guideline_id agent_params env).1
  = Raise (ItemNotFoundError guideline_id).
Proof.
  intros H. split; [|by apply update_agent_missing].
  unfold stored in H. rewrite collection_docs_of in H.
  unfold Guidelines.update_guideline. unfold_store. env_simpl.
  by rewrite (update_one_in_absent _ _ _ H).
Qed.
End UpdateMissing.

(** ** Loops over pure bodies, and deserialisation *)

Section StepFacts.
Context {DT : DateTime}.

Lemma bind_lift {A B} (o : outcome A) (k : A -> M B) (env : Env) :
  bind (lift o) k env
  = match o with Return a => k a env | Raise e => (Raise e, env) end.
Proof. done. Qed.

Lemma bind_ret {A B} (a : A) (k : A -> M B) (env : Env) :
  bind (ret a) k env = k a env.
Proof. done. Qed.

Lemma bind_raise {A B} (e : exn) (k : A -> M B) (env : Env) :
  bind (raise e) k env = (Raise e, env).
Proof. done. Qed.

Lemma bind_find {B} (c : DocumentCollection) (w : Where)
  (k : list Document -> M B) (env : Env) :
  bind (find c w) k env
  = match find_in (document_loader c) w (docs_of (at_slot c) env) with
    | Return ds => k ds (record (Find (at_slot c)) env)
    | Raise e => (Raise e, record (Find (at_slot c)) env)
    end.
Proof. done. Qed.

Lemma bind_find_one {B} (c : DocumentCollection) (w : Where)
  (k : option Document -> M B) (env : Env) :
  bind (find_one c w) k env
  = match find_one_in (document_loader c) w (docs_of (at_slot c) env) with
    | Return d => k d (record (FindOne (at_slot c)) env)
    | Raise e => (Raise e, record (FindOne (at_slot c)) env)
    end.
Proof. done. Qed.

Lemma bind_assoc {A B C} (m : M A) (k : A -> M B) (h : B -> M C) (env : Env) :
  bind (bind m k) h env = bind m (fun a => bind (k a) h) env.
Proof.
  unfold bind. destruct (m env) as [[a|e] env']; done.
Qed.

(** A comprehension whose body only reads a document has no effect. *)
Lemma for_list_lift {A B} (f : A -> outcome B) (xs : list A) (env : Env) :
  for_list xs (fun x => lift (f x)) env = (collect f xs, env).
Proof.
  induction xs as [|x xs IH]; [done|].
  cbn [for_list collect]. rewrite bind_lift.
  destruct (f x) as [y|e]; [|done].
  unfold bind. rewrite IH. by destruct (collect f xs).
Qed.

Lemma bind_for_list_lift {A B C} (f : A -> outcome B) (xs : list A)
  (k : list B -> M C) (env : Env) :
  bind (for_list xs (fun x => lift (f x))) k env
  = match collect f xs with
    | Return ys => k ys env
    | Raise e => (Raise e, env)
    end.
Proof. unfold bind. by rewrite for_list_lift. Qed.

Lemma collect_total {A B} (f : A -> outcome B) (g : A -> B) (xs : list A) :
  Forall (fun x => f x = Return (g x)) xs ->
  collect f xs = Return (g <$> xs).
Proof.
  induction 1 as [|x xs Hx _ IH]; [done|].
  cbn [collect]. rewrite Hx, IH. by rewrite fmap_cons.
Qed.

(** [_deserialize_agent] reads the tag associations at most once and
    changes nothing. *)
Lemma deserialize_agent_effect (doc : Document) (env : Env) :
  (Agents._deserialize_agent doc env).2 = env \/
  (Agents._deserialize_agent doc env).2 = record (Find TagAssociations) env.
Proof.
  unfold Agents._deserialize_agent. rewrite bind_lift.
  destruct (get_str doc "id") as [i|e]; [|by left]. right.
  rewrite bind_find.
  match goal with
  | |- context [find_in ?l ?w ?ds] => destruct (find_in l w ds) as [docs|e]
  end; [|done].
  rewrite bind_for_list_lift.
  destruct (collect _ docs) as [tags|e]; [|done].
  repeat (rewrite bind_lift;
          match goal with
          | |- context [match ?o with Return _ => _ | Raise _ => _ end] =>
              destruct o; [|done]
          end).
  done.
Qed.

Lemma deserialize_guideline_effect (doc : Document) (env : Env) :
  (Guidelines._deserialize doc env).2 = env \/
  (Guidelines._deserialize doc env).2 = record (Find TagAssociations) env.
Proof.
  unfold Guidelines._deserialize. rewrite bind_lift.
  destruct (get_str doc "id") as [i|e]; [|by left]. right.
  rewrite bind_find.
  match goal with
  | |- context [find_in ?l ?w ?ds] => destruct (find_in l w ds) as [docs|e]
  end; [|done].
  rewrite bind_for_list_lift.
  destruct (collect _ docs) as [tags|e]; [|done].
  repeat (rewrite bind_lift;
          match goal with
          | |- context [match ?o with Return _ => _ | Raise _ => _ end] =>
              destruct o; [|done]
          end).
  done.
Qed.
End StepFacts.

(** ** Partial updates *)

Lemma not_falsy_of_lookup (d : Document) (k : string) (v : value) :
  d !! k = Some v -> falsy (Some d) = false.
Proof.
  intros H. unfold falsy. apply bool_decide_eq_false. intros Hsize.
  apply map_size_empty_inv in Hsize. subst d. by rewrite lookup_empty in H.
Qed.

Lemma stored_has_id (i : string) (docs : list Document) (d : Document) :
  stored i docs = Some d -> str_at d "id" = Some i.
Proof.
  unfold stored. intros H. apply head_Some_elem_of in H.
  apply list_elem_of_filter in H as [H _]. cbn [matches] in H.
  by apply bool_decide_unpack in H.
Qed.

Lemma stored_not_falsy (i : string) (docs : list Document) (d : Document) :
  stored i docs = Some d -> falsy (Some d) = false.
Proof.
  intros H%stored_has_id. unfold str_at in H.
  destruct (d !! "id") as [v|] eqn:E; [|done].
  by eapply not_falsy_of_lookup.
Qed.

(** [update_one] on the id filter rewrites the stored record in place:
    supplied keys are overwritten, the record stays the one stored under
    the id as long as the params do not carry an [id]. *)
Lemma update_one_in_stored (i : string) (params d : Document)
  (docs : list Document) :
  stored i docs = Some d ->
  params !! "id" = None ->
  (update_one_in (WEq "id" i) params docs).1
  = {| matched_count := 1; updated_document := Some (params ∪ d) |} /\
  stored i (update_one_in (WEq "id" i) params docs).2 = Some (params ∪ d).
Proof.
  intros Hd Hp. pose proof (stored_has_id _ _ _ Hd) as Hid.
  unfold stored in *.
  destruct (update_one_in_present _ params _ _ Hd)
    as (before & after & -> & Hb & ->).
  split; [done|]. cbn [snd]. rewrite head_filter_split by done.
  cbn [matches]. rewrite bool_decide_eq_true_2; [done|].
  unfold str_at in *. by rewrite lookup_union_r.
Qed.

Section PartialUpdate.
Context {DT : DateTime}.

Lemma bind_with_lock {A B} (m : lock_mode) (body : M A) (k : A -> M B)
  (env : Env) :
  bind (with_lock m body) k env
  = match body (record (Acquire m) env) with
    | (Return a, env') => k a (record (Release m) env')
    | (Raise e, env') => (Raise e, record (Release m) env')
    end.
Proof.
  unfold bind, with_lock.
  by destruct (body (record (Acquire m) env)) as [[a|e] env'].
Qed.

Lemma bind_update_one {B} (c : DocumentCollection) (w : Where)
  (params : Document) (k : UpdateResult -> M B) (env : Env) :
  bind (update_one c w params) k env
  = k (update_one_in w params (docs_of (at_slot c) env)).1
      (with_docs (at_slot c)
         (update_one_in w params (docs_of (at_slot c) env)).2
         (record (UpdateOne (at_slot c)) env)).
Proof.
  unfold bind, update_one.
  by destruct (update_one_in w params (docs_of (at_slot c) env)).
Qed.

Lemma update_one_run (c : DocumentCollection) (w : Where)
  (params : Document) (env : Env) :
  update_one c w params env
  = (Return (update_one_in w params (docs_of (at_slot c) env)).1,
     with_docs (at_slot c)
       (update_one_in w params (docs_of (at_slot c) env)).2
       (record (UpdateOne (at_slot c)) env)).
Proof.
  unfold update_one.
  by destruct (update_one_in w params (docs_of (at_slot c) env)).
Qed.

Lemma deserialize_agent_docs (c : slot) (doc : Document) (env : Env) :
  docs_of c (Agents._deserialize_agent doc env).2 = docs_of c env.
Proof.
  destruct (deserialize_agent_effect doc env) as [-> | ->];
    by rewrite ?docs_of_record.
Qed.

Lemma deserialize_guideline_docs (c : slot) (doc : Document) (env : Env) :
  docs_of c (Guidelines._deserialize doc env).2 = docs_of c env.
Proof.
  destruct (deserialize_guideline_effect doc env) as [-> | ->];
    by rewrite ?docs_of_record.
Qed.

Lemma params_dict_lookup_id (params : Agents.AgentUpdateParams) :
  Agents.params_dict params !! "id" = None.
Proof.
  destruct params as [[n|] [d|] [m|] [c|]]; reflexivity.
Qed.

Lemma update_document_lookup (params : Guidelines.GuidelineUpdateParams)
  (k : string) :
  k ∉ supplied_keys params \/ k = "metadata" \/ k = "id" ->
  Guidelines.update_document params !! k = None.
Proof.
  unfold supplied_keys, Guidelines.update_document.
  destruct params as [[c|] [a|] [e|] [m|]]; cbn [from_option
    Guidelines.with_condition Guidelines.with_action
    Guidelines.with_enabled Guidelines.with_metadata];
  intros H; rewrite !lookup_union_None, ?lookup_singleton_None,
    ?lookup_empty; repeat split; try done;
  intros <-; destruct H as [H | [H | H]]; try done;
  apply H; set_solver.
Qed.

(** What [update_agent] leaves in the primary collection. *)
Lemma update_agent_collection (env : Env) (agent_id : string)
  (params : Agents.AgentUpdateParams) (d : Document) :
  stored agent_id (collection env) = Some d ->
  collection (Agents.update_agent agent_id params env).2 = collection env \/
  collection (Agents.update_agent agent_id params env).2
  = (update_one_in (WEq "id" agent_id) (Agents.params_dict params)
       (collection env)).2.
Proof.
  intros Hd. rewrite !collection_docs_of in *.
  unfold Agents.update_agent. rewrite bind_with_lock, bind_find_one.
  unfold_collections. env_simpl.
  destruct (find_one_in _ _ _) as [doc|e]; [|left; by env_simpl].
  destruct (falsy doc) eqn:Hf; [left; unfold raise; by env_simpl|].
  rewrite update_one_run. cbn [at_slot]. env_simpl.
  destruct (updated_document _) as [doc'|];
    [|right; unfold raise; by env_simpl].
  destruct (falsy (Some doc')); [right; unfold raise; by env_simpl|].
  right. rewrite deserialize_agent_docs. by env_simpl.
Qed.

Lemma update_guideline_collection (env : Env) (guideline_id : string)
  (params : Guidelines.GuidelineUpdateParams) :
  collection (Guidelines.update_guideline guideline_id params env).2
  = (update_one_in (WEq "id" guideline_id)
       (Guidelines.update_document params) (collection env)).2.
Proof.
  rewrite !collection_docs_of.
  unfold Guidelines.update_guideline. rewrite bind_with_lock.
  rewrite update_one_run. unfold_collections. env_simpl.
  destruct (updated_document _) as [doc'|]; [|unfold raise; by env_simpl].
  destruct (falsy (Some doc')); [unfold raise; by env_simpl|].
  rewrite deserialize_guideline_docs. by env_simpl.
Qed.

(** C7: whatever subset of its keys an update supplies, every field of
    the stored record that the params do not name has the same value
    after [update_agent], and after [update_guideline], as before. *)
Theorem update_keeps_unnamed_fields (env : Env) (entity_id : string)
  (d : Document) (agent_params : Agents.AgentUpdateParams)
  (guideline_params : Guidelines.GuidelineUpdateParams) (k : string) :
  stored entity_id (collection env) = Some d ->
  (Agents.params_dict agent_params !! k = None ->
   exists d',
     stored entity_id
       (collection (Agents.update_agent entity_id agent_params env).2)
     = Some d' /\ d' !! k = d !! k) /\
  (k ∉ supplied_keys guideline_params ->
   exists d',
     stored entity_id
       (collection
          (Guidelines.update_guideline entity_id guideline_params env).2)
     = Some d' /\ d' !! k = d !! k).
Proof.
  intros Hd. split; intros Hk.
  - destruct (update_agent_collection env entity_id agent_params d Hd)
      as [-> | ->]; [by exists d|].
    destruct (update_one_in_stored entity_id
                (Agents.params_dict agent_params) d _ Hd
                (params_dict_lookup_id _)) as [_ ->].
    eexists; split; [done|]. by rewrite lookup_union_r.
  - rewrite update_guideline_collection.
    destruct (update_one_in_stored entity_id
                (Guidelines.update_document guideline_params) d _ Hd)
      as [_ ->].
    { apply update_document_lookup. auto. }
    eexists; split; [done|]. rewrite lookup_union_r; [done|].
    apply update_document_lookup. auto.
Qed.
End PartialUpdate.

(** ** Metadata *)

Section Metadata.
Context {DT : DateTime}.

Lemma guideline_loader_current (d : Document) :
  str_at d "version" = Some Guidelines.VERSION ->
  Guidelines._document_loader d = Return (Some d).
Proof. apply migrate_current. Qed.

Lemma agent_loader_current (d : Document) :
  str_at d "version" = Some Agents.VERSION ->
  Agents._document_loader d = Return (Some d).
Proof. apply migrate_current. Qed.

Lemma add_metadata_collection (env : Env) (guideline_id : string)
  (d : Document) (old new : gmap string json) :
  stored guideline_id (collection env) = Some d ->
  str_at d "version" = Some Guidelines.VERSION ->
  d !! "metadata" = Some (VDict old) ->
  collection (Guidelines.add_metadata guideline_id new env).2
  = (update_one_in (WEq "id" guideline_id)
       {["metadata" := VDict (new ∪ old)]} (collection env)).2.
Proof.
  intros Hd Hv Hm. rewrite !collection_docs_of in *.
  unfold Guidelines.add_metadata.
  rewrite bind_with_lock, bind_find_one. unfold_collections. env_simpl.
  unfold find_one_in. unfold stored in Hd. rewrite Hd.
  rewrite (guideline_loader_current _ Hv).
  rewrite (not_falsy_of_lookup _ _ _ Hm).
  rewrite bind_lift. unfold Guidelines.get_metadata. rewrite Hm.
  rewrite update_one_run. cbn [at_slot]. env_simpl.
  destruct (updated_document _) as [doc'|]; [|unfold raise; by env_simpl].
  destruct (falsy (Some doc')); [unfold raise; by env_simpl|].
  rewrite deserialize_guideline_docs. by env_simpl.
Qed.

Lemma remove_metadata_collection (env : Env) (guideline_id : string)
  (d : Document) (old : gmap string json) (keys : list string) :
  stored guideline_id (collection env) = Some d ->
  str_at d "version" = Some Guidelines.VERSION ->
  d !! "metadata" = Some (VDict old) ->
  collection (Guidelines.remove_metadata guideline_id keys env).2
  = (update_one_in (WEq "id" guideline_id)
       {["metadata" := VDict (filter (fun kv => kv.1 ∉ keys) old)]}
       (collection env)).2.
Proof.
  intros Hd Hv Hm. rewrite !collection_docs_of in *.
  unfold Guidelines.remove_metadata.
  rewrite bind_with_lock, bind_find_one. unfold_collections. env_simpl.
  unfold find_one_in. unfold stored in Hd. rewrite Hd.
  rewrite (guideline_loader_current _ Hv).
  rewrite (not_falsy_of_lookup _ _ _ Hm).
  rewrite bind_lift. unfold Guidelines.get_metadata. rewrite Hm.
  rewrite update_one_run. cbn [at_slot]. env_simpl.
  destruct (updated_document _) as [doc'|]; [|unfold raise; by env_simpl].
  destruct (falsy (Some doc')); [unfold raise; by env_simpl|].
  rewrite deserialize_guideline_docs. by env_simpl.
Qed.

(** C10: [update_guideline] builds its update document from the
    condition, action and enabled keys only, so the stored metadata is
    the same after the call whatever the params carry, a metadata value
    included; [add_metadata] and [remove_metadata] are the methods that
    rewrite it (merging the new keys over the stored ones, dropping the
    listed keys). *)
Theorem update_guideline_ignores_metadata (env : Env)
  (guideline_id : string) (d : Document)
  (params : Guidelines.GuidelineUpdateParams)
  (old new : gmap string json) (keys : list string) :
  stored guideline_id (collection env) = Some d ->
  str_at d "version" = Some Guidelines.VERSION ->
  d !! "metadata" = Some (VDict old) ->
  Guidelines.update_document params !! "metadata" = None /\
  (exists d',
     stored guideline_id
       (collection (Guidelines.update_guideline guideline_id params env).2)
     = Some d' /\ d' !! "metadata" = Some (VDict old)) /\
  (exists d',
     stored guideline_id
       (collection (Guidelines.add_metadata guideline_id new env).2)
     = Some d' /\ d' !! "metadata" = Some (VDict (new ∪ old))) /\
  (exists d',
     stored guideline_id
       (collection (Guidelines.remove_metadata guideline_id keys env).2)
     = Some d' /\
     d' !! "metadata"
     = Some (VDict (filter (fun kv => kv.1 ∉ keys) old))).
Proof.
  intros Hd Hv Hm.
  assert (Hnone : Guidelines.update_document params !! "metadata" = None)
    by (apply update_document_lookup; auto).
  split; [done|]. split; [|split].
  - rewrite update_guideline_collection.
    destruct (update_one_in_stored guideline_id
                (Guidelines.update_document params) d _ Hd) as [_ ->].
    { apply update_document_lookup. auto. }
    eexists; split; [done|]. by rewrite lookup_union_r.
  - rewrite (add_metadata_collection env guideline_id d old new Hd Hv Hm).
    destruct (update_one_in_stored guideline_id
                {["metadata" := VDict (new ∪ old)]} d _ Hd) as [_ ->];
      [done|].
    eexists; split; [done|].
    by rewrite lookup_union_l', lookup_singleton_eq.
  - rewrite (remove_metadata_collection env guideline_id d old keys
               Hd Hv Hm).
    destruct (update_one_in_stored guideline_id
                {["metadata" :=
                    VDict (filter (fun kv => kv.1 ∉ keys) old)]} d _ Hd)
      as [_ ->]; [done|].
    eexists; split; [done|].
    by rewrite lookup_union_l', lookup_singleton_eq.
Qed.
End Metadata.

(** ** Lock scopes *)

Section MoreSteps.
Context {DT : DateTime}.

Lemma find_one_run (c : DocumentCollection) (w : Where) (env : Env) :
  find_one c w env
  = (find_one_in (document_loader c) w (docs_of (at_slot c) env),
     record (FindOne (at_slot c)) env).
Proof. done. Qed.

Lemma bind_insert_one {B} (c : DocumentCollection) (document : Document)
  (k : unit -> M B) (env : Env) :
  bind (insert_one c document) k env
  = match insert_one_in document (docs_of (at_slot c) env) with
    | Return ds =>
        k tt (with_docs (at_slot c) ds (record (InsertOne (at_slot c)) env))
    | Raise e => (Raise e, record (InsertOne (at_slot c)) env)
    end.
Proof.
  unfold bind, insert_one.
  by destruct (insert_one_in document (docs_of (at_slot c) env)).
Qed.

Lemma bind_delete_one {B} (c : DocumentCollection) (w : Where)
  (k : DeleteResult -> M B) (env : Env) :
  bind (delete_one c w) k env
  = k (delete_one_in w (docs_of (at_slot c) env)).1
      (with_docs (at_slot c) (delete_one_in w (docs_of (at_slot c) env)).2
         (record (DeleteOne (at_slot c)) env)).
Proof.
  unfold bind, delete_one.
  by destruct (delete_one_in w (docs_of (at_slot c) env)).
Qed.

Lemma bind_generate_id {B} (k : string -> M B) (env : Env) :
  bind generate_id k env
  = match (generate_id_from (nanoid_outputs env)).1 with
    | Return i =>
        k i (with_nanoid_outputs (generate_id_from (nanoid_outputs env)).2
               env)
    | Raise e =>
        (Raise e,
         with_nanoid_outputs (generate_id_from (nanoid_outputs env)).2 env)
    end.
Proof.
  unfold bind, generate_id.
  by destruct (generate_id_from (nanoid_outputs env)) as [[i|e] rest].
Qed.

Lemma ret_run {A} (a : A) (env : Env) : ret a env = (Return a, env).
Proof. done. Qed.

Lemma raise_run {A} (e : exn) (env : Env) :
  @raise DT A e env = (Raise e, env).
Proof. done. Qed.

Lemma lift_run {A} (o : outcome A) (env : Env) : lift o env = (o, env).
Proof. done. Qed.

Lemma bind_datetime_now {B} (k : datetime -> M B) (env : Env) :
  bind datetime_now k env = k (utc_now env) env.
Proof. done. Qed.

(** Deserialisation inside a larger computation. *)
Lemma bind_deserialize_agent {B} (doc : Document)
  (k : Agents.Agent -> M B) (env : Env) :
  exists o env',
    (env' = env \/ env' = record (Find TagAssociations) env) /\
    bind (Agents._deserialize_agent doc) k env
    = match o with
      | Return a => k a env'
      | Raise e => (Raise e, env')
      end.
Proof.
  pose proof (deserialize_agent_effect doc env) as H.
  unfold bind.
  destruct (Agents._deserialize_agent doc env) as [o env'].
  exists o, env'. split; [exact H | by destruct o].
Qed.

Lemma bind_deserialize_guideline {B} (doc : Document)
  (k : Guidelines.Guideline -> M B) (env : Env) :
  exists o env',
    (env' = env \/ env' = record (Find TagAssociations) env) /\
    bind (Guidelines._deserialize doc) k env
    = match o with
      | Return a => k a env'
      | Raise e => (Raise e, env')
      end.
Proof.
  pose proof (deserialize_guideline_effect doc env) as H.
  unfold bind.
  destruct (Guidelines._deserialize doc env) as [o env'].
  exists o, env'. split; [exact H | by destruct o].
Qed.
End MoreSteps.

(** One step of a store method applied to an environment. *)
Ltac step :=
  first
    [ rewrite bind_assoc
    | rewrite bind_with_lock
    | rewrite bind_lift
    | rewrite bind_ret
    | rewrite bind_raise
    | rewrite bind_find
    | rewrite bind_find_one
    | rewrite bind_update_one
    | rewrite bind_insert_one
    | rewrite bind_delete_one
    | rewrite bind_generate_id
    | rewrite bind_datetime_now
    | rewrite bind_for_list_lift
    | rewrite find_one_run
    | rewrite update_one_run
    | rewrite ret_run
    | rewrite raise_run
    | rewrite lift_run
    | match goal with
      | |- context [bind (Agents._deserialize_agent ?doc) ?k ?env] =>
          let o := fresh "o" in
          let env' := fresh "env'" in
          destruct (bind_deserialize_agent doc k env)
            as (o & env' & [-> | ->] & ->)
      | |- context [bind (Guidelines._deserialize ?doc) ?k ?env] =>
          let o := fresh "o" in
          let env' := fresh "env'" in
          destruct (bind_deserialize_guideline doc k env)
            as (o & env' & [-> | ->] & ->)
      | |- context [(Agents._deserialize_agent ?doc ?env).2] =>
          destruct (deserialize_agent_effect doc env) as [-> | ->]
      | |- context [(Guidelines._deserialize ?doc ?env).2] =>
          destruct (deserialize_guideline_effect doc env) as [-> | ->]
      end ];
  cbv beta iota.

(** Case analysis on an innermost scrutinee of the goal. *)
Ltac case_inner :=
  match goal with
  | |- context [match ?x with _ => _ end] =>
      lazymatch x with
      | context [match _ with _ => _ end] => fail
      | _ => destruct x eqn:?
      end
  end;
  cbv beta iota.

Ltac run := repeat first [step | case_inner].


(** Neither shape is one writer section: a nested reader scope is lock
    activity inside the section, and a read after the release comes after
    its end. *)
Lemma reader_nested_is_not_one_section (tr : list event) :
  reader_nested_in_writer tr = true -> one_writer_section tr = false.
Proof.
  unfold reader_nested_in_writer. intros H.
  repeat match type of H with
         | context [match ?x with _ => _ end] =>
             is_var x; destruct x; try discriminate H
         end.
  cbn [one_writer_section]. rewrite !reverse_cons.
  destruct (reverse _) as [|[|[]| | | | |] body]; try discriminate H.
  cbn [app]. rewrite !forallb_app. cbn [forallb is_lock_event negb].
  by rewrite !andb_false_r.
Qed.

Lemma read_after_release_is_not_one_section (tr : list event) :
  writer_section_then_read tr = true -> one_writer_section tr = false.
Proof.
  unfold writer_section_then_read, one_writer_section. intros H.
  repeat match type of H with
         | context [match ?x with _ => _ end] =>
             is_var x; destruct x; try discriminate H
         end.
  by destruct (reverse _) as [|[| |[]| | | |] body].
Qed.

Section LockDiscipline.
Context {DT : DateTime}.


















End LockDiscipline.


(** The guideline store on [two_guidelines_env]: each of the four methods
    returns, [upsert_tag] with the reader scope nested in its writer
    scope, the three others with the read of the tag associations after
    the release; an update of a guideline that is not stored raises inside
    the writer scope and reads nothing afterwards. *)
Lemma guideline_methods_on_two_guidelines :
  (returns (GuidelineUpsertTag "gdlnAAAA01" "t2" None) two_guidelines_env
   = true /\
   events_of (GuidelineUpsertTag "gdlnAAAA01" "t2" None) two_guidelines_env
   = [Acquire writer_lock; Acquire reader_lock; FindOne Primary;
      Release reader_lock; Find TagAssociations; InsertOne TagAssociations;
      FindOne Primary; Release writer_lock]) /\
  (returns (GuidelineUpdate "gdlnAAAA01" disabling_params) two_guidelines_env
   = true /\
   events_of (GuidelineUpdate "gdlnAAAA01" disabling_params)
     two_guidelines_env
   = [Acquire writer_lock; UpdateOne Primary; Release writer_lock;
      Find TagAssociations]) /\
  (returns (GuidelineAddMetadata "gdlnAAAA01" {["owner" := JStr "sales"]})
     two_guidelines_env = true /\
   events_of (GuidelineAddMetadata "gdlnAAAA01" {["owner" := JStr "sales"]})
     two_guidelines_env
   = [Acquire writer_lock; FindOne Primary; UpdateOne Primary;
      Release writer_lock; Find TagAssociations]) /\
  (returns (GuidelineRemoveMetadata "gdlnAAAA01" ["source"])
     two_guidelines_env = true /\
   events_of (GuidelineRemoveMetadata "gdlnAAAA01" ["source"])
     two_guidelines_env
   = [Acquire writer_lock; FindOne Primary; UpdateOne Primary;
      Release writer_lock; Find TagAssociations]) /\
  (returns (GuidelineUpdate "gdlnCCCC03" disabling_params) two_guidelines_env
   = false /\
   events_of (GuidelineUpdate "gdlnCCCC03" disabling_params)
     two_guidelines_env
   = [Acquire writer_lock; UpdateOne Primary; Release writer_lock]).
Proof. repeat split; vm_compute; reflexivity. Qed.

(** ** Cascading delete *)

Lemma filter_all {A} (P : A -> Prop) `{forall x, Decision (P x)} (l : list A) :
  Forall P l -> filter P l = l.
Proof.
  induction 1 as [|x l Hx _ IH]; [done|].
  by rewrite filter_cons_True, IH.
Qed.

Lemma Forall_filter_weaken {A} (P Q : A -> Prop) `{forall x, Decision (Q x)}
  (l : list A) :
  Forall P l -> Forall P (filter Q l).
Proof.
  rewrite !Forall_forall. intros Hl x Hx. apply Hl.
  by apply list_elem_of_filter in Hx as [_ Hx].
Qed.

Lemma NoDup_fmap_filter {A B} (f : A -> B) (P : A -> Prop)
  `{forall x, Decision (P x)} (l : list A) :
  NoDup (f <$> l) -> NoDup (f <$> filter P l).
Proof.
  intros Hl. eapply sublist_NoDup; [exact Hl|].
  apply (fmap_sublist f), sublist_filter.
Qed.

(** With unique ids, deleting by id removes exactly the records that carry
    the id. *)
Lemma delete_one_in_by_id (i : string) (docs : list Document) :
  NoDup ((fun d => str_at d "id") <$> docs) ->
  (delete_one_in (WEq "id" i) docs).2
  = filter (fun d => str_at d "id" <> Some i) docs.
Proof.
  induction docs as [|d docs IH]; [done|].
  intros Hnd. rewrite fmap_cons in Hnd. apply NoDup_cons in Hnd as [Hd Hnd].
  cbn [delete_one_in matches].
  destruct (bool_decide (str_at d "id" = Some i)) eqn:E.
  - apply bool_decide_eq_true in E. cbn [snd].
    rewrite filter_cons_False by (intros Hne; by apply Hne).
    symmetry. apply filter_all. apply Forall_forall. intros d' Hd' Heq.
    apply Hd. rewrite E, <- Heq.
    by apply (list_elem_of_fmap_2 (fun d => str_at d "id")).
  - apply bool_decide_eq_false in E.
    destruct (delete_one_in (WEq "id" i) docs) as [r rest] eqn:Hrest.
    cbn [snd] in *. rewrite filter_cons_True by done.
    by rewrite (IH Hnd).
Qed.

Lemma get_str_str_at (d : Document) (k i : string) :
  str_at d k = Some i -> get_str d k = Return i.
Proof.
  unfold str_at, get_str. destruct (d !! k) as [[]|]; naive_solver.
Qed.

Section Cascade.
Context {DT : DateTime}.

(** The loop of [delete_agent] and [delete_guideline] over the
    association records it found: each is deleted by its id. *)
Lemma cascade_run (c : DocumentCollection) (targets : list Document)
  (env : Env) :
  at_slot c = TagAssociations ->
  Forall (fun t => is_Some (str_at t "id")) targets ->
  NoDup ((fun d => str_at d "id") <$> docs_of TagAssociations env) ->
  exists env',
    for_each targets
      (fun doc =>
         bind (lift (get_str doc "id"))
           (fun doc_id =>
              bind (delete_one c (WEq "id" doc_id)) (fun _ => ret tt)))
      env
    = (Return tt, env') /\
    docs_of TagAssociations env'
    = filter (fun d => str_at d "id" ∉ (fun t => str_at t "id") <$> targets)
        (docs_of TagAssociations env) /\
    docs_of Primary env' = docs_of Primary env /\
    log env'
    = log env ++ ((fun _ => DeleteOne TagAssociations) <$> targets).
Proof.
  intros Hc Hids. revert env.
  induction Hids as [|t targets [i Hi] _ IH]; intros env Hnd.
  - exists env. cbn [for_each]. rewrite fmap_nil, app_nil_r.
    repeat split; try done. symmetry. apply filter_all.
    apply Forall_forall. intros d _. apply not_elem_of_nil.
  - cbn [for_each]. rewrite bind_assoc, bind_lift.
    rewrite (get_str_str_at _ _ _ Hi).
    rewrite bind_assoc, bind_delete_one, bind_ret. rewrite Hc.
    set (env1 := with_docs TagAssociations _ _).
    assert (Hdocs1 : docs_of TagAssociations env1
              = filter (fun d => str_at d "id" <> Some i)
                  (docs_of TagAssociations env)).
    { unfold env1. env_simpl. by apply delete_one_in_by_id. }
    destruct (IH env1) as (env' & Hrun & Hdocs & Hprim & Hlog).
    { rewrite Hdocs1. by apply NoDup_fmap_filter. }
    exists env'. split; [exact Hrun|]. split; [|split].
    + rewrite Hdocs, Hdocs1, list_filter_filter. apply list_filter_iff.
      intros d. rewrite fmap_cons, Hi, not_elem_of_cons. tauto.
    + rewrite Hprim. unfold env1. by env_simpl.
    + rewrite Hlog. unfold env1. env_simpl. rewrite fmap_cons.
      by rewrite <- app_assoc.
Qed.

Lemma load_all_identity (loader : Loader) (docs : list Document) :
  Forall (fun d => loader d = Return (Some d)) docs ->
  load_all loader docs = Return docs.
Proof.
  induction 1 as [|d docs Hd _ IH]; [done|].
  cbn [load_all]. by rewrite Hd, IH.
Qed.

Lemma find_in_identity (loader : Loader) (w : Where) (docs : list Document) :
  Forall (fun d => loader d = Return (Some d)) docs ->
  find_in loader w docs = Return (filter (fun d => matches w d) docs).
Proof.
  intros H. apply load_all_identity.
  rewrite Forall_forall in *. intros d Hd. apply H.
  by apply list_elem_of_filter in Hd as [_ Hd].
Qed.

Lemma agent_association_loader_current (d : Document) :
  str_at d "version" = Some Agents.VERSION ->
  Agents._association_document_loader d = Return (Some d).
Proof.
  unfold str_at, Agents._association_document_loader.
  destruct (d !! "version") as [[]|]; try done. by intros [= ->].
Qed.

Lemma guideline_association_loader_current (d : Document) :
  str_at d "version" = Some Guidelines.VERSION ->
  Guidelines._association_document_loader d = Return (Some d).
Proof.
  unfold str_at, Guidelines._association_document_loader.
  destruct (d !! "version") as [[]|]; try done. by intros [= ->].
Qed.

Lemma one_writer_section_intro (body : list event) :
  Forall (fun e => is_lock_event e = false) body ->
  one_writer_section (Acquire writer_lock :: body ++ [Release writer_lock])
  = true.
Proof.
  intros H. cbn [one_writer_section]. rewrite reverse_snoc.
  apply forallb_forall. intros e He.
  apply list_elem_of_In in He. rewrite elem_of_reverse in He.
  rewrite Forall_forall in H. by rewrite (H e He).
Qed.

(** What [delete_agent] does to a well-kept store that has the agent. *)
Lemma delete_agent_run (env : Env) (agent_id : string) :
  well_kept Agents.VERSION env ->
  is_Some (stored agent_id (collection env)) ->
  exists env' targets,
    Agents.delete_agent agent_id env = (Return tt, env') /\
    collection env'
    = filter (fun d => str_at d "id" <> Some agent_id) (collection env) /\
    tag_association_collection env'
    = filter (fun d => str_at d "id" ∉ (fun t => str_at t "id") <$> targets)
        (tag_association_collection env) /\
    targets = filter (fun d => matches (WEq "agent_id" agent_id) d)
                (tag_association_collection env) /\
    log env'
    = log env ++
      Acquire writer_lock ::
        (DeleteOne Primary :: Find TagAssociations ::
           ((fun _ => DeleteOne TagAssociations) <$> targets))
        ++ [Release writer_lock].
Proof.
  intros (Hnd & Hver & Hand & Hassoc) [d Hd].
  rewrite !collection_docs_of, !tag_association_collection_docs_of in *.
  set (targets := filter (fun d => matches (WEq "agent_id" agent_id) d)
                    (docs_of TagAssociations env)).
  unfold Agents.delete_agent.
  rewrite bind_with_lock, bind_delete_one, bind_find.
  unfold_collections. env_simpl.
  rewrite find_in_identity.
  2:{ eapply Forall_impl; [exact Hassoc|]. intros a [_ Ha].
      by apply agent_association_loader_current. }
  fold targets.
  set (env1 := record (Find TagAssociations) _).
  destruct (cascade_run
              {| at_slot := TagAssociations;
                 document_loader := Agents._association_document_loader |}
              targets env1) as (env2 & Hrun & Hdocs & Hprim & Hlog).
  { done. }
  { apply Forall_forall. intros a Ha.
    apply list_elem_of_filter in Ha as [_ Ha].
    rewrite Forall_forall in Hassoc. by apply Hassoc. }
  { unfold env1. by env_simpl. }
  unfold bind at 1. rewrite Hrun. rewrite ret_run.
  unfold stored in Hd.
  destruct (delete_one_in_present _ _ _ Hd)
    as (before & after & Hsplit & Hb & Hdel).
  rewrite Hdel. cbn [fst deleted_count Nat.eqb]. rewrite ret_run.
  exists (record (Release writer_lock) env2), targets.
  split; [done|].
  rewrite !collection_docs_of, !tag_association_collection_docs_of.
  env_simpl. split; [|split; [|split]].
  - rewrite Hprim. unfold env1. env_simpl.
    rewrite <- (delete_one_in_by_id agent_id _ Hnd). by rewrite Hdel.
  - rewrite Hdocs. unfold env1. by env_simpl.
  - done.
  - rewrite Hlog. unfold env1. env_simpl.
    rewrite <- !app_assoc. done.
Qed.

Lemma delete_guideline_run (env : Env) (guideline_id : string) :
  well_kept Guidelines.VERSION env ->
  is_Some (stored guideline_id (collection env)) ->
  exists env' targets,
    Guidelines.delete_guideline guideline_id env = (Return tt, env') /\
    collection env'
    = filter (fun d => str_at d "id" <> Some guideline_id)
        (collection env) /\
    tag_association_collection env'
    = filter (fun d => str_at d "id" ∉ (fun t => str_at t "id") <$> targets)
        (tag_association_collection env) /\
    targets = filter (fun d => matches (WEq "guideline_id" guideline_id) d)
                (tag_association_collection env) /\
    log env'
    = log env ++
      Acquire writer_lock ::
        (DeleteOne Primary :: Find TagAssociations ::
           ((fun _ => DeleteOne TagAssociations) <$> targets))
        ++ [Release writer_lock].
Proof.
  intros (Hnd & Hver & Hand & Hassoc) [d Hd].
  rewrite !collection_docs_of, !tag_association_collection_docs_of in *.
  set (targets :=
         filter (fun d => matches (WEq "guideline_id" guideline_id) d)
           (docs_of TagAssociations env)).
  unfold Guidelines.delete_guideline.
  rewrite bind_with_lock, bind_delete_one, bind_find.
  unfold_collections. env_simpl.
  rewrite find_in_identity.
  2:{ eapply Forall_impl; [exact Hassoc|]. intros a [_ Ha].
      by apply guideline_association_loader_current. }
  fold targets.
  set (env1 := record (Find TagAssociations) _).
  destruct (cascade_run
              {| at_slot := TagAssociations;
                 document_loader :=
                   Guidelines._association_document_loader |}
              targets env1) as (env2 & Hrun & Hdocs & Hprim & Hlog).
  { done. }
  { apply Forall_forall. intros a Ha.
    apply list_elem_of_filter in Ha as [_ Ha].
    rewrite Forall_forall in Hassoc. by apply Hassoc. }
  { unfold env1. by env_simpl. }
  unfold bind at 1. rewrite Hrun. rewrite ret_run.
  pose proof (stored_not_falsy _ _ _ Hd) as Hfalsy.
  unfold stored in Hd.
  destruct (delete_one_in_present _ _ _ Hd)
    as (before & after & Hsplit & Hb & Hdel).
  rewrite Hdel. cbn [fst deleted_document]. rewrite Hfalsy, ret_run.
  exists (record (Release writer_lock) env2), targets.
  split; [done|].
  rewrite !collection_docs_of, !tag_association_collection_docs_of.
  env_simpl. split; [|split; [|split]].
  - rewrite Hprim. unfold env1. env_simpl.
    rewrite <- (delete_one_in_by_id guideline_id _ Hnd). by rewrite Hdel.
  - rewrite Hdocs. unfold env1. by env_simpl.
  - done.
  - rewrite Hlog. unfold env1. env_simpl.
    rewrite <- !app_assoc. done.
Qed.

(** After the cascade no association record refers to the entity. *)
Lemma cascade_leaves_none (field entity_id : string)
  (associations : list Document) :
  Forall (fun d => is_Some (str_at d "id")) associations ->
  Forall (fun d => str_at d field <> Some entity_id)
    (filter
       (fun d =>
          str_at d "id"
          ∉ (fun t => str_at t "id")
            <$> filter (fun d => matches (WEq field entity_id) d)
                  associations)
       associations).
Proof.
  intros Hids. apply Forall_forall. intros d Hd Hfield.
  apply list_elem_of_filter in Hd as [Hnot Hd]. apply Hnot.
  apply (list_elem_of_fmap_2 (fun t => str_at t "id")).
  apply list_elem_of_filter. split; [|done].
  cbn [matches]. by apply bool_decide_pack.
Qed.

(** What a comprehension over an effectful body returns, element by
    element. *)
Lemma for_list_Forall2 {A B} (f : A -> M B) (P : A -> B -> Prop)
  (xs : list A) :
  (forall x env y env', f x env = (Return y, env') -> P x y) ->
  forall env ys env',
    for_list xs f env = (Return ys, env') -> Forall2 P xs ys.
Proof.
  intros Hf. induction xs as [|x xs IH]; intros env ys env'.
  - cbn [for_list]. rewrite ret_run. intros [= <- _]. constructor.
  - cbn [for_list]. unfold bind at 1.
    destruct (f x env) as [[y|e] env1] eqn:Hx; [|done].
    unfold bind.
    destruct (for_list xs f env1) as [[ys'|e] env2] eqn:Hxs; [|done].
    rewrite ret_run. intros [= <- _].
    constructor; [by eapply Hf | by eapply IH].
Qed.

Lemma get_str_Return (d : Document) (k i : string) :
  get_str d k = Return i -> str_at d k = Some i.
Proof.
  unfold str_at, get_str. destruct (d !! k) as [[]|]; naive_solver.
Qed.

Lemma deserialize_agent_id (doc : Document) (env env' : Env)
  (a : Agents.Agent) :
  Agents._deserialize_agent doc env = (Return a, env') ->
  str_at doc "id" = Some (Agents.id a).
Proof.
  unfold Agents._deserialize_agent. rewrite bind_lift.
  destruct (get_str doc "id") as [i|e] eqn:Hi; [|done].
  apply get_str_Return in Hi.
  run; try done; by intros [= <- _].
Qed.

Lemma deserialize_guideline_id (doc : Document) (env env' : Env)
  (g : Guidelines.Guideline) :
  Guidelines._deserialize doc env = (Return g, env') ->
  str_at doc "id" = Some (Guidelines.id g).
Proof.
  unfold Guidelines._deserialize. rewrite bind_lift.
  destruct (get_str doc "id") as [i|e] eqn:Hi; [|done].
  apply get_str_Return in Hi.
  run; try done; by intros [= <- _].
Qed.

Lemma Forall2_elem_r {A B} (P : A -> B -> Prop) (xs : list A)
  (ys : list B) (y : B) :
  Forall2 P xs ys -> y ∈ ys -> exists x, x ∈ xs /\ P x y.
Proof.
  intros H [i Hi]%list_elem_of_lookup.
  destruct (Forall2_lookup_r _ _ _ _ _ H Hi) as (x & Hx & HP).
  exists x. split; [|done]. apply list_elem_of_lookup. eauto.
Qed.

Lemma with_lock_run {A} (m : lock_mode) (body : M A) (env : Env) :
  with_lock m body env
  = ((body (record (Acquire m) env)).1,
     record (Release m) (body (record (Acquire m) env)).2).
Proof.
  unfold with_lock. by destruct (body (record (Acquire m) env)).
Qed.

(** Every entity a listing returns was deserialised from a record of the
    primary collection that the filter let through. *)
Lemma deserialized_agents_ids (docs : list Document) (env env' : Env)
  (l : list Agents.Agent) :
  for_list docs Agents._deserialize_agent env = (Return l, env') ->
  Forall (fun a => exists d, d ∈ docs /\ str_at d "id" = Some (Agents.id a))
    l.
Proof.
  intros H.
  eapply (for_list_Forall2 _
            (fun d a => str_at d "id" = Some (Agents.id a))) in H.
  2:{ intros. by eapply deserialize_agent_id. }
  apply Forall_forall. intros a Ha.
  destruct (Forall2_elem_r _ _ _ _ H Ha) as (d & Hd & Hid). eauto.
Qed.

Lemma deserialized_guidelines_ids (docs : list Document) (env env' : Env)
  (l : list Guidelines.Guideline) :
  for_list docs Guidelines._deserialize env = (Return l, env') ->
  Forall (fun g => exists d, d ∈ docs /\
                             str_at d "id" = Some (Guidelines.id g)) l.
Proof.
  intros H.
  eapply (for_list_Forall2 _
            (fun d g => str_at d "id" = Some (Guidelines.id g))) in H.
  2:{ intros. by eapply deserialize_guideline_id. }
  apply Forall_forall. intros g Hg.
  destruct (Forall2_elem_r _ _ _ _ H Hg) as (d & Hd & Hid). eauto.
Qed.

Lemma list_agents_ids (env : Env) (l : list Agents.Agent) :
  Forall (fun d => str_at d "version" = Some Agents.VERSION)
    (collection env) ->
  (Agents.list_agents env).1 = Return l ->
  Forall (fun a => exists d, d ∈ collection env /\
                             str_at d "id" = Some (Agents.id a)) l.
Proof.
  intros Hver. rewrite collection_docs_of in *.
  unfold Agents.list_agents. rewrite with_lock_run. cbn [fst].
  rewrite bind_find. unfold_collections. env_simpl.
  rewrite find_in_identity.
  2:{ eapply Forall_impl; [exact Hver|]. intros d.
      apply agent_loader_current. }
  destruct (for_list _ _ _) as [r env'] eqn:Hrun. cbn [fst].
  intros ->. apply deserialized_agents_ids in Hrun.
  eapply Forall_impl; [exact Hrun|]. intros a (d & Hd & Hid).
  exists d. split; [|done]. by apply list_elem_of_filter in Hd as [_ Hd].
Qed.

Lemma list_guidelines_ids (env : Env) (tags : option (list string))
  (l : list Guidelines.Guideline) :
  Forall (fun d => str_at d "version" = Some Guidelines.VERSION)
    (collection env) ->
  (Guidelines.list_guidelines tags env).1 = Return l ->
  Forall (fun g => exists d, d ∈ collection env /\
                             str_at d "id" = Some (Guidelines.id g)) l.
Proof.
  intros Hver. rewrite collection_docs_of in *.
  assert (Hfind : forall w,
            find_in Guidelines._document_loader w (docs_of Primary env)
            = Return (filter (fun d => matches w d) (docs_of Primary env))).
  { intros w. apply find_in_identity.
    eapply Forall_impl; [exact Hver|]. intros d.
    apply guideline_loader_current. }
  unfold Guidelines.list_guidelines, Guidelines.guideline_ids_of.
  rewrite with_lock_run. cbn [fst].
  destruct tags as [[|t ts]|]; run; unfold_collections;
    repeat match goal with
    | H : find_in Guidelines._document_loader _ _ = _ |- _ =>
        revert H; env_simpl; rewrite Hfind; intros [= <-]
    end;
    try done;
    try (intros [= <-]; constructor);
    match goal with
    | |- (for_list ?docs _ ?e).1 = _ -> _ =>
        let Hrun := fresh "Hrun" in
        destruct (for_list docs Guidelines._deserialize e)
          as [r env'] eqn:Hrun;
        cbn [fst]; intros ->;
        apply deserialized_guidelines_ids in Hrun;
        (eapply Forall_impl; [exact Hrun|]);
        intros g (d & Hd & Hid); exists d; split; [|done];
        by apply list_elem_of_filter in Hd as [_ Hd]
    end.
Qed.
End Cascade.

Section DeleteProperties.
Context {DT : DateTime}.

Lemma cascade_trace_one_section (env env' : Env) (targets : list Document) :
  log env'
  = log env ++
    Acquire writer_lock ::
      (DeleteOne Primary :: Find TagAssociations ::
         ((fun _ => DeleteOne TagAssociations) <$> targets))
      ++ [Release writer_lock] ->
  one_writer_section (drop (length (log env)) (log env')) = true.
Proof.
  intros ->. rewrite drop_app_length. apply one_writer_section_intro.
  repeat constructor. apply Forall_fmap, Forall_forall. done.
Qed.

Lemma delete_agent_cascades (env : Env) (agent_id : string) :
  well_kept Agents.VERSION env ->
  is_Some (stored agent_id (collection env)) ->
  (Agents.delete_agent agent_id env).1 = Return tt /\
  Forall (fun d => str_at d "agent_id" <> Some agent_id)
    (tag_association_collection (Agents.delete_agent agent_id env).2) /\
  (forall l,
     (Agents.list_agents (Agents.delete_agent agent_id env).2).1 = Return l ->
     Forall (fun a => Agents.id a <> agent_id) l) /\
  one_writer_section (trace (Agents.delete_agent agent_id) env) = true.
Proof.
  intros Hkept Hstored.
  destruct (delete_agent_run env agent_id Hkept Hstored)
    as (env' & targets & Hrun & Hprim & Hassoc & -> & Hlog).
  destruct Hkept as (Hnd & Hver & Hand & Hids).
  unfold trace. rewrite Hrun. cbn [fst snd].
  split; [done|]. split; [|split].
  - rewrite Hassoc. apply cascade_leaves_none.
    eapply Forall_impl; [exact Hids|]. by intros d [? _].
  - intros l Hl. apply list_agents_ids in Hl.
    + eapply Forall_impl; [exact Hl|]. intros a (d & Hd & Hid) Heq.
      rewrite Heq in Hid. rewrite Hprim in Hd.
      by apply list_elem_of_filter in Hd as [Hd _].
    + rewrite Hprim. by apply Forall_filter_weaken.
  - by eapply cascade_trace_one_section.
Qed.

Lemma delete_guideline_cascades (env : Env) (guideline_id : string) :
  well_kept Guidelines.VERSION env ->
  is_Some (stored guideline_id (collection env)) ->
  (Guidelines.delete_guideline guideline_id env).1 = Return tt /\
  Forall (fun d => str_at d "guideline_id" <> Some guideline_id)
    (tag_association_collection
       (Guidelines.delete_guideline guideline_id env).2) /\
  (forall tags l,
     (Guidelines.list_guidelines tags
        (Guidelines.delete_guideline guideline_id env).2).1 = Return l ->
     Forall (fun g => Guidelines.id g <> guideline_id) l) /\
  one_writer_section (trace (Guidelines.delete_guideline guideline_id) env)
  = true.
Proof.
  intros Hkept Hstored.
  destruct (delete_guideline_run env guideline_id Hkept Hstored)
    as (env' & targets & Hrun & Hprim & Hassoc & -> & Hlog).
  destruct Hkept as (Hnd & Hver & Hand & Hids).
  unfold trace. rewrite Hrun. cbn [fst snd].
  split; [done|]. split; [|split].
  - rewrite Hassoc. apply cascade_leaves_none.
    eapply Forall_impl; [exact Hids|]. by intros d [? _].
  - intros tags l Hl. apply list_guidelines_ids in Hl.
    + eapply Forall_impl; [exact Hl|]. intros a (d & Hd & Hid) Heq.
      rewrite Heq in Hid. rewrite Hprim in Hd.
      by apply list_elem_of_filter in Hd as [Hd _].
    + rewrite Hprim. by apply Forall_filter_weaken.
  - by eapply cascade_trace_one_section.
Qed.

(** C1: in a well-kept store, deleting an entity that is there succeeds
    and leaves no association record whose entity-id field is the
    entity's id; no listing afterwards, under any tag filter, returns the
    entity; and the delete of the primary record and the deletes of the
    association records all lie in one writer-lock critical section, which
    is the whole operation.  This holds for [delete_agent] and for
    [delete_guideline]. *)
Theorem delete_cascades_to_tag_associations (agents guidelines : Env)
  (agent_id guideline_id : string) :
  well_kept Agents.VERSION agents ->
  is_Some (stored agent_id (collection agents)) ->
  well_kept Guidelines.VERSION guidelines ->
  is_Some (stored guideline_id (collection guidelines)) ->
  ((Agents.delete_agent agent_id agents).1 = Return tt /\
   Forall (fun d => str_at d "agent_id" <> Some agent_id)
     (tag_association_collection (Agents.delete_agent agent_id agents).2) /\
   (forall l,
      (Agents.list_agents (Agents.delete_agent agent_id agents).2).1
      = Return l ->
      Forall (fun a => Agents.id a <> agent_id) l) /\
   one_writer_section (trace (Agents.delete_agent agent_id) agents) = true)
  /\
  ((Guidelines.delete_guideline guideline_id guidelines).1 = Return tt /\
   Forall (fun d => str_at d "guideline_id" <> Some guideline_id)
     (tag_association_collection
        (Guidelines.delete_guideline guideline_id guidelines).2) /\
   (forall tags l,
      (Guidelines.list_guidelines tags
         (Guidelines.delete_guideline guideline_id guidelines).2).1
      = Return l ->
      Forall (fun g => Guidelines.id g <> guideline_id) l) /\
   one_writer_section
     (trace (Guidelines.delete_guideline guideline_id) guidelines) = true).
Proof.
  intros Ha Hsa Hg Hsg. split.
  - by apply delete_agent_cascades.
  - by apply delete_guideline_cascades.
Qed.
End DeleteProperties.

(** ** Reading an entity and upserting a tag *)

Lemma collect_elem {A B} (f : A -> outcome B) (xs : list A) (ys : list B)
  (x : A) (y : B) :
  collect f xs = Return ys -> x ∈ xs -> f x = Return y -> y ∈ ys.
Proof.
  revert ys. induction xs as [|x0 xs IH]; intros ys Hc Hx Hy.
  - by apply elem_of_nil in Hx.
  - cbn [collect] in Hc.
    destruct (f x0) as [y0|] eqn:Hx0; [|done].
    destruct (collect f xs) as [ys0|]; [|done].
    injection Hc as <-. apply elem_of_cons in Hx as [-> | Hx].
    + rewrite Hy in Hx0. injection Hx0 as ->. by left.
    + right. by apply IH.
Qed.

Lemma collect_app {A B} (f : A -> outcome B) (xs : list A) (ys : list B)
  (x : A) (y : B) :
  collect f xs = Return ys -> f x = Return y ->
  collect f (xs ++ [x]) = Return (ys ++ [y]).
Proof.
  revert ys. induction xs as [|x0 xs IH]; intros ys Hc Hy.
  - injection Hc as <-. cbn [app collect]. by rewrite Hy.
  - cbn [collect] in Hc. cbn [app collect].
    destruct (f x0) as [y0|]; [|done].
    destruct (collect f xs) as [ys0|] eqn:E; [|done].
    injection Hc as <-. by rewrite (IH ys0 eq_refl Hy).
Qed.

Section ReadFacts.
Context {DT : DateTime}.

(** [_deserialize_agent] depends on the environment only through the
    association records it finds: with other associations the same
    record gives the same agent with the other tags. *)
Lemma deserialize_agent_retag (doc : Document) (env1 env2 : Env)
  (a : Agents.Agent) (docs2 : list Document) (tags2 : list string) :
  (Agents._deserialize_agent doc env1).1 = Return a ->
  find_in Agents._association_document_loader
    (WEq "agent_id" (Agents.id a)) (docs_of TagAssociations env2)
  = Return docs2 ->
  collect (fun d => get_str d "tag_id") docs2 = Return tags2 ->
  (Agents._deserialize_agent doc env2).1
  = Return (agent_with_tags tags2 a).
Proof.
  intros H1 H2 H3.
  remember (Agents._deserialize_agent doc env2) as rhs eqn:Hrhs.
  revert H1. unfold Agents._deserialize_agent. rewrite bind_lift.
  destruct (get_str doc "id") as [i|e] eqn:Hi; [|done].
  run; try done; intros [= <-]; cbn [Agents.id] in *; subst rhs;
    unfold Agents._deserialize_agent;
    rewrite bind_lift, Hi, bind_find; unfold_collections;
    rewrite H2, bind_for_list_lift, H3;
    run; try done; by simplify_eq.
Qed.

Lemma agent_with_own_tags (a : Agents.Agent) :
  agent_with_tags (Agents.tags a) a = a.
Proof. by destruct a. Qed.

Lemma bind_run {A B} (m : M A) (k : A -> M B) (env : Env) :
  bind m k env
  = match m env with
    | (Return a, env') => k a env'
    | (Raise e, env') => (Raise e, env')
    end.
Proof. done. Qed.

(** The association records and tag ids behind a deserialised agent. *)
Lemma deserialize_agent_tags (doc : Document) (env : Env) (a : Agents.Agent) :
  (Agents._deserialize_agent doc env).1 = Return a ->
  str_at doc "id" = Some (Agents.id a) /\
  exists docs,
    find_in Agents._association_document_loader
      (WEq "agent_id" (Agents.id a)) (docs_of TagAssociations env)
    = Return docs /\
    collect (fun d => get_str d "tag_id") docs = Return (Agents.tags a).
Proof.
  unfold Agents._deserialize_agent. rewrite bind_lift.
  destruct (get_str doc "id") as [i|e] eqn:Hi; [|done].
  apply get_str_Return in Hi.
  rewrite bind_find. unfold_collections.
  destruct (find_in _ _ _) as [docs|] eqn:Hdocs; [|done].
  rewrite bind_for_list_lift.
  destruct (collect _ docs) as [tags|] eqn:Htags; [|done].
  run; try done; intros [= <-]; cbn [Agents.id Agents.tags]; eauto.
Qed.

Lemma read_agent_found (env : Env) (i : string) (d : Document) :
  find_one_in Agents._document_loader (WEq "id" i) (docs_of Primary env)
  = Return (Some d) ->
  falsy (Some d) = false ->
  Agents.read_agent i env
  = Agents._deserialize_agent d
      (record (Release reader_lock)
         (record (FindOne Primary) (record (Acquire reader_lock) env))).
Proof.
  intros Hfind Hfalsy. unfold Agents.read_agent.
  rewrite bind_with_lock, find_one_run. unfold_collections. env_simpl.
  by rewrite Hfind, Hfalsy.
Qed.

Lemma read_agent_inv (env : Env) (i : string) (a : Agents.Agent) :
  (Agents.read_agent i env).1 = Return a ->
  exists d,
    find_one_in Agents._document_loader (WEq "id" i) (docs_of Primary env)
    = Return (Some d) /\
    falsy (Some d) = false /\
    (Agents._deserialize_agent d
       (record (Release reader_lock)
          (record (FindOne Primary) (record (Acquire reader_lock) env)))).1
    = Return a.
Proof.
  unfold Agents.read_agent.
  rewrite bind_with_lock, find_one_run. unfold_collections. env_simpl.
  destruct (find_one_in _ _ _) as [[d|]|]; try done.
  destruct (falsy (Some d)) eqn:Hf; [done|]. eauto.
Qed.

(** Reading gives the same agent in any environment with the same
    collections, and changes neither the collections, the random source
    nor the clock. *)
Lemma read_agent_same_docs (env env0 : Env) (i : string) (a : Agents.Agent) :
  (forall c, docs_of c env0 = docs_of c env) ->
  (Agents.read_agent i env).1 = Return a ->
  exists env1,
    Agents.read_agent i env0 = (Return a, env1) /\
    (forall c, docs_of c env1 = docs_of c env) /\
    nanoid_outputs env1 = nanoid_outputs env0 /\
    utc_now env1 = utc_now env0 /\
    (log env1
     = log env0 ++ [Acquire reader_lock; FindOne Primary;
                    Release reader_lock] \/
     log env1
     = log env0 ++ [Acquire reader_lock; FindOne Primary;
                    Release reader_lock; Find TagAssociations]).
Proof.
  intros Hdocs Hread.
  destruct (read_agent_inv _ _ _ Hread) as (d & Hfind & Hfalsy & Hdes).
  rewrite <- Hdocs in Hfind.
  rewrite (read_agent_found _ _ _ Hfind Hfalsy).
  set (env_r := record (Release reader_lock) _).
  destruct (deserialize_agent_tags _ _ _ Hdes) as (_ & docs & Hf & Hc).
  pose proof (deserialize_agent_retag d _ env_r a docs (Agents.tags a) Hdes)
    as Hre.
  rewrite agent_with_own_tags in Hre.
  pose proof (deserialize_agent_effect d env_r) as Heff.
  destruct (Agents._deserialize_agent d env_r) as [o env1] eqn:E.
  cbn [fst snd] in *. exists env1. rewrite Hre.
  2:{ unfold env_r. env_simpl. rewrite Hdocs. revert Hf. by env_simpl. }
  2:{ done. }
  split; [done|].
  destruct Heff as [-> | ->]; unfold env_r;
    (split; [intros c; env_simpl; apply Hdocs|]);
    env_simpl; rewrite <- ?app_assoc; cbn [app]; auto.
Qed.
End ReadFacts.

Lemma insert_one_in_fresh (doc : Document) (docs : list Document) (i : string) :
  str_at doc "id" = Some i ->
  Forall (fun d => str_at d "id" <> Some i) docs ->
  insert_one_in doc docs = Return (docs ++ [doc]).
Proof.
  intros Hi Hfresh. unfold insert_one_in. rewrite Hi.
  destruct (List.existsb _ docs) eqn:E; [|done].
  apply existsb_exists in E as (d & Hd & Hid).
  apply bool_decide_eq_true in Hid. apply list_elem_of_In in Hd.
  rewrite Forall_forall in Hfresh. by destruct (Hfresh d Hd).
Qed.

Lemma filter_none {A} (P : A -> Prop) `{forall x, Decision (P x)} (l : list A) :
  Forall (fun x => ~ P x) l -> filter P l = [].
Proof.
  induction 1 as [|x l Hx _ IH]; [done|].
  by rewrite filter_cons_False, IH.
Qed.

Lemma load_all_app (loader : Loader) (xs ys xs' ys' : list Document) :
  load_all loader xs = Return xs' ->
  load_all loader ys = Return ys' ->
  load_all loader (xs ++ ys) = Return (xs' ++ ys').
Proof.
  revert xs'. induction xs as [|x xs IH]; intros xs' Hx Hy.
  - by injection Hx as <-.
  - cbn [app load_all] in *. destruct (loader x) as [o|]; [|done].
    destruct (load_all loader xs) as [l|] eqn:E; [|done].
    injection Hx as <-. rewrite (IH l eq_refl Hy). by destruct o.
Qed.

Lemma stored_through_loader (loader : Loader) (i : string)
  (docs : list Document) (d : Document) :
  Forall (fun d => loader d = Return (Some d)) docs ->
  find_one_in loader (WEq "id" i) docs = Return (Some d) ->
  stored i docs = Some d.
Proof.
  intros Hid. unfold find_one_in, stored.
  destruct (head _) as [d0|] eqn:E; [|done].
  pose proof (head_Some_elem_of _ _ E) as Hd0.
  apply list_elem_of_filter in Hd0 as [_ Hd0].
  rewrite Forall_forall in Hid. rewrite (Hid d0 Hd0). by intros [= ->].
Qed.

Section AgentUpsert.
Context {DT : DateTime}.

Lemma agent_upsert_tag_existing (env : Env) (i tag : string)
  (c : option datetime) (a : Agents.Agent) :
  (Agents.read_agent i env).1 = Return a ->
  tag ∈ Agents.tags a ->
  (Agents.upsert_tag i tag c env).1 = Return false /\
  collection (Agents.upsert_tag i tag c env).2 = collection env /\
  tag_association_collection (Agents.upsert_tag i tag c env).2
  = tag_association_collection env.
Proof.
  intros Hread Htag.
  destruct (read_agent_same_docs env (record (Acquire writer_lock) env)
              i a) as (env1 & Hrun & Hdocs & _); [intros c0; (by env_simpl)|done|].
  rewrite !collection_docs_of, !tag_association_collection_docs_of.
  unfold Agents.upsert_tag. rewrite bind_with_lock, bind_run, Hrun.
  rewrite bool_decide_eq_true_2 by done. rewrite !ret_run.
  env_simpl. by rewrite !Hdocs.
Qed.

Lemma agent_upsert_tag_new (env : Env) (i tag : string)
  (c : option datetime) (a : Agents.Agent) (new_id : string)
  (rest : list string) :
  (Agents.read_agent i env).1 = Return a ->
  tag ∉ Agents.tags a ->
  generate_id_from (nanoid_outputs env) = (Return new_id, rest) ->
  Forall (fun d => str_at d "id" <> Some new_id)
    (tag_association_collection env) ->
  (Agents.upsert_tag i tag c env).1 = Return true /\
  collection (Agents.upsert_tag i tag c env).2 = collection env /\
  tag_association_collection (Agents.upsert_tag i tag c env).2
  = tag_association_collection env
    ++ [Agents.association_document new_id (default (utc_now env) c) i tag].
Proof.
  intros Hread Htag Hgen Hfresh.
  destruct (read_agent_same_docs env (record (Acquire writer_lock) env)
              i a) as (env1 & Hrun & Hdocs & Hout & Hnow & _);
    [intros c0; (by env_simpl)|done|].
  destruct (read_agent_inv _ _ _ Hread) as (d & Hfind & Hfalsy & _).
  rewrite !collection_docs_of, !tag_association_collection_docs_of in *.
  revert Hout Hnow. env_simpl. intros Hout Hnow.
  unfold Agents.upsert_tag. rewrite bind_with_lock, bind_run, Hrun.
  rewrite bool_decide_eq_false_2 by done.
  assert (Hstep : forall t : datetime,
    bind generate_id
      (fun association_id =>
         bind (insert_one Agents._tag_association_collection
                 (Agents.association_document association_id t i tag))
           (fun _ =>
              bind (find_one Agents._agents_collection (WEq "id" i))
                (fun agent_document =>
                   ret (inr agent_document : bool + option Document)))) env1
    = (Return (inr (Some d)),
       record (FindOne Primary)
         (with_docs TagAssociations
            (docs_of TagAssociations env
             ++ [Agents.association_document new_id t i tag])
            (record (InsertOne TagAssociations)
               (with_nanoid_outputs rest env1))))).
  { intros t. rewrite bind_generate_id, Hout, Hgen. cbn [fst snd].
    rewrite bind_insert_one. unfold_collections. env_simpl.
    rewrite Hdocs.
    rewrite (insert_one_in_fresh _ _ new_id);
      [|by unfold Agents.association_document; rewrite str_at_insert_eq
       |done].
    rewrite bind_find_one. cbn [at_slot document_loader]. env_simpl.
    rewrite Hdocs, Hfind. by rewrite ret_run. }
  destruct c as [t|]; [rewrite bind_ret | rewrite bind_datetime_now];
    rewrite Hstep, ?Hnow; cbn [default]; rewrite Hfalsy, ret_run;
    env_simpl; by rewrite ?Hdocs.
Qed.

Lemma agent_association_fields (new_id : string) (t : datetime)
  (i tag : string) :
  str_at (Agents.association_document new_id t i tag) "id" = Some new_id /\
  str_at (Agents.association_document new_id t i tag) "version"
  = Some Agents.VERSION /\
  str_at (Agents.association_document new_id t i tag) "agent_id" = Some i /\
  str_at (Agents.association_document new_id t i tag) "tag_id" = Some tag.
Proof.
  unfold Agents.association_document.
  repeat split; rewrite ?str_at_insert_ne by done;
    by rewrite str_at_insert_eq.
Qed.

(** Reading after one more association record for the agent: the same
    agent, with the new tag last. *)
Lemma read_agent_after_link (env env' : Env) (i tag new_id : string)
  (t : datetime) (a : Agents.Agent) :
  Forall (fun d => str_at d "version" = Some Agents.VERSION)
    (collection env) ->
  (Agents.read_agent i env).1 = Return a ->
  collection env' = collection env ->
  tag_association_collection env'
  = tag_association_collection env
    ++ [Agents.association_document new_id t i tag] ->
  (Agents.read_agent i env').1
  = Return (agent_with_tags (Agents.tags a ++ [tag]) a).
Proof.
  intros Hver Hread Hprim Hassoc.
  rewrite !collection_docs_of, !tag_association_collection_docs_of in *.
  destruct (read_agent_inv _ _ _ Hread) as (d & Hfind & Hfalsy & Hdes).
  assert (Hstored : stored i (docs_of Primary env) = Some d).
  { eapply stored_through_loader; [|exact Hfind].
    eapply Forall_impl; [exact Hver|]. intros d0.
    apply agent_loader_current. }
  apply stored_has_id in Hstored.
  destruct (deserialize_agent_tags _ _ _ Hdes) as (Hid & docs & Hf & Hc).
  assert (Agents.id a = i) as Hi by congruence.
  destruct (agent_association_fields new_id t i tag)
    as (Fid & Fver & Fagent & Ftag).
  rewrite <- Hprim in Hfind.
  rewrite (read_agent_found _ _ _ Hfind Hfalsy).
  eapply deserialize_agent_retag; [exact Hdes| |].
  - env_simpl. rewrite Hassoc. revert Hf. env_simpl. unfold find_in.
    intros Hf. rewrite filter_app. eapply load_all_app; [exact Hf|].
    rewrite Hi, filter_cons_True, filter_nil.
    + cbn [load_all].
      by rewrite (agent_association_loader_current _ Fver).
    + cbn [matches]. by apply bool_decide_pack.
  - apply collect_app; [done|]. by apply get_str_str_at.
Qed.

(** No association record links the agent to a tag it does not read
    with. *)
Lemma agent_links_of_missing_tag (env : Env) (i tag : string)
  (a : Agents.Agent) :
  well_kept Agents.VERSION env ->
  (Agents.read_agent i env).1 = Return a ->
  tag ∉ Agents.tags a ->
  links "agent_id" i tag (tag_association_collection env) = [].
Proof.
  intros (_ & Hver & _ & Hassoc) Hread Htag.
  rewrite !collection_docs_of, !tag_association_collection_docs_of in *.
  destruct (read_agent_inv _ _ _ Hread) as (d & Hfind & Hfalsy & Hdes).
  assert (Hstored : stored i (docs_of Primary env) = Some d).
  { eapply stored_through_loader; [|exact Hfind].
    eapply Forall_impl; [exact Hver|]. intros d0.
    apply agent_loader_current. }
  apply stored_has_id in Hstored.
  destruct (deserialize_agent_tags _ _ _ Hdes) as (Hid & docs & Hf & Hc).
  assert (Agents.id a = i) as Hi by congruence. rewrite Hi in Hf.
  revert Hf. env_simpl. rewrite find_in_identity.
  2:{ eapply Forall_impl; [exact Hassoc|]. intros d0 [_ Hd0].
      by apply agent_association_loader_current. }
  intros [= <-]. unfold links.
  apply filter_none, Forall_forall. intros d0 Hd0 [Hagent Htag0].
  apply Htag. eapply collect_elem; [exact Hc| |by apply get_str_str_at].
  apply list_elem_of_filter. split; [|done].
  cbn [matches]. by apply bool_decide_pack.
Qed.

(** [upsert_tag] of the agent store: a no-op returning [false] when the
    agent already has the tag; otherwise one association record is
    appended and [true] returned, after which a second call is the
    no-op. *)
Lemma agent_upsert_tag_idempotent (env : Env) (i tag : string)
  (c c' : option datetime) (a : Agents.Agent) (new_id : string)
  (rest : list string) :
  well_kept Agents.VERSION env ->
  (Agents.read_agent i env).1 = Return a ->
  generate_id_from (nanoid_outputs env) = (Return new_id, rest) ->
  Forall (fun d => str_at d "id" <> Some new_id)
    (tag_association_collection env) ->
  (tag ∈ Agents.tags a ->
   (Agents.upsert_tag i tag c env).1 = Return false /\
   collection (Agents.upsert_tag i tag c env).2 = collection env /\
   tag_association_collection (Agents.upsert_tag i tag c env).2
   = tag_association_collection env) /\
  (tag ∉ Agents.tags a ->
   (Agents.upsert_tag i tag c env).1 = Return true /\
   collection (Agents.upsert_tag i tag c env).2 = collection env /\
   tag_association_collection (Agents.upsert_tag i tag c env).2
   = tag_association_collection env
     ++ [Agents.association_document new_id (default (utc_now env) c)
           i tag] /\
   (Agents.upsert_tag i tag c' (Agents.upsert_tag i tag c env).2).1
   = Return false /\
   tag_association_collection
     (Agents.upsert_tag i tag c' (Agents.upsert_tag i tag c env).2).2
   = tag_association_collection (Agents.upsert_tag i tag c env).2 /\
   length
     (links "agent_id" i tag
        (tag_association_collection (Agents.upsert_tag i tag c env).2))
   = 1).
Proof.
  intros Hkept Hread Hgen Hfresh. split; intros Htag.
  - by apply (agent_upsert_tag_existing env i tag c a).
  - destruct (agent_upsert_tag_new env i tag c a new_id rest
                Hread Htag Hgen Hfresh) as (Hr & Hprim & Hassoc).
    split; [done|]. split; [done|]. split; [done|].
    pose proof Hkept as (_ & Hver & _ & _).
    pose proof (read_agent_after_link env _ i tag new_id _ a
                  Hver Hread Hprim Hassoc) as Hread'.
    destruct (agent_upsert_tag_existing _ i tag c' _ Hread')
      as (Hr' & _ & Hassoc').
    { cbn [agent_with_tags Agents.tags]. set_solver. }
    split; [done|]. split; [done|].
    rewrite Hassoc. unfold links. rewrite filter_app.
    fold (links "agent_id" i tag (tag_association_collection env)).
    rewrite (agent_links_of_missing_tag env i tag a Hkept Hread Htag).
    destruct (agent_association_fields new_id (default (utc_now env) c)
                i tag) as (_ & _ & Fagent & Ftag).
    by rewrite filter_cons_True.
Qed.
End AgentUpsert.

Section GuidelineReadFacts.
Context {DT : DateTime}.

(** [_deserialize_agent] depends on the environment only through the
    association records it finds: with other associations the same
    record gives the same guideline with the other tags. *)
Lemma deserialize_guideline_retag (doc : Document) (env1 env2 : Env)
  (a : Guidelines.Guideline) (docs2 : list Document) (tags2 : list string) :
  (Guidelines._deserialize doc env1).1 = Return a ->
  find_in Guidelines._association_document_loader
    (WEq "guideline_id" (Guidelines.id a)) (docs_of TagAssociations env2)
  = Return docs2 ->
  collect (fun d => get_str d "tag_id") docs2 = Return tags2 ->
  (Guidelines._deserialize doc env2).1
  = Return (guideline_with_tags tags2 a).
Proof.
  intros H1 H2 H3.
  remember (Guidelines._deserialize doc env2) as rhs eqn:Hrhs.
  revert H1. unfold Guidelines._deserialize. rewrite bind_lift.
  destruct (get_str doc "id") as [i|e] eqn:Hi; [|done].
  run; try done; intros [= <-]; cbn [Guidelines.id] in *; subst rhs;
    unfold Guidelines._deserialize;
    rewrite bind_lift, Hi, bind_find; unfold_collections;
    rewrite H2, bind_for_list_lift, H3;
    run; try done; by simplify_eq.
Qed.

Lemma guideline_with_own_tags (a : Guidelines.Guideline) :
  guideline_with_tags (Guidelines.tags a) a = a.
Proof. by destruct a. Qed.

(** The association records and tag ids behind a deserialised guideline. *)
Lemma deserialize_guideline_tags (doc : Document) (env : Env) (a : Guidelines.Guideline) :
  (Guidelines._deserialize doc env).1 = Return a ->
  str_at doc "id" = Some (Guidelines.id a) /\
  exists docs,
    find_in Guidelines._association_document_loader
      (WEq "guideline_id" (Guidelines.id a)) (docs_of TagAssociations env)
    = Return docs /\
    collect (fun d => get_str d "tag_id") docs = Return (Guidelines.tags a).
Proof.
  unfold Guidelines._deserialize. rewrite bind_lift.
  destruct (get_str doc "id") as [i|e] eqn:Hi; [|done].
  apply get_str_Return in Hi.
  rewrite bind_find. unfold_collections.
  destruct (find_in _ _ _) as [docs|] eqn:Hdocs; [|done].
  rewrite bind_for_list_lift.
  destruct (collect _ docs) as [tags|] eqn:Htags; [|done].
  run; try done; intros [= <-]; cbn [Guidelines.id Guidelines.tags]; eauto.
Qed.

Lemma read_guideline_found (env : Env) (i : string) (d : Document) :
  find_one_in Guidelines._document_loader (WEq "id" i) (docs_of Primary env)
  = Return (Some d) ->
  falsy (Some d) = false ->
  Guidelines.read_guideline i env
  = Guidelines._deserialize d
      (record (Release reader_lock)
         (record (FindOne Primary) (record (Acquire reader_lock) env))).
Proof.
  intros Hfind Hfalsy. unfold Guidelines.read_guideline.
  rewrite bind_with_lock, find_one_run. unfold_collections. env_simpl.
  by rewrite Hfind, Hfalsy.
Qed.

Lemma read_guideline_inv (env : Env) (i : string) (a : Guidelines.Guideline) :
  (Guidelines.read_guideline i env).1 = Return a ->
  exists d,
    find_one_in Guidelines._document_loader (WEq "id" i) (docs_of Primary env)
    = Return (Some d) /\
    falsy (Some d) = false /\
    (Guidelines._deserialize d
       (record (Release reader_lock)
          (record (FindOne Primary) (record (Acquire reader_lock) env)))).1
    = Return a.
Proof.
  unfold Guidelines.read_guideline.
  rewrite bind_with_lock, find_one_run. unfold_collections. env_simpl.
  destruct (find_one_in _ _ _) as [[d|]|]; try done.
  destruct (falsy (Some d)) eqn:Hf; [done|]. eauto.
Qed.

(** Reading gives the same guideline in any environment with the same
    collections, and changes neither the collections, the random source
    nor the clock. *)
Lemma read_guideline_same_docs (env env0 : Env) (i : string) (a : Guidelines.Guideline) :
  (forall c, docs_of c env0 = docs_of c env) ->
  (Guidelines.read_guideline i env).1 = Return a ->
  exists env1,
    Guidelines.read_guideline i env0 = (Return a, env1) /\
    (forall c, docs_of c env1 = docs_of c env) /\
    nanoid_outputs env1 = nanoid_outputs env0 /\
    utc_now env1 = utc_now env0 /\
    (log env1
     = log env0 ++ [Acquire reader_lock; FindOne Primary;
                    Release reader_lock] \/
     log env1
     = log env0 ++ [Acquire reader_lock; FindOne Primary;
                    Release reader_lock; Find TagAssociations]).
Proof.
  intros Hdocs Hread.
  destruct (read_guideline_inv _ _ _ Hread) as (d & Hfind & Hfalsy & Hdes).
  rewrite <- Hdocs in Hfind.
  rewrite (read_guideline_found _ _ _ Hfind Hfalsy).
  set (env_r := record (Release reader_lock) _).
  destruct (deserialize_guideline_tags _ _ _ Hdes) as (_ & docs & Hf & Hc).
  pose proof (deserialize_guideline_retag d _ env_r a docs (Guidelines.tags a) Hdes)
    as Hre.
  rewrite guideline_with_own_tags in Hre.
  pose proof (deserialize_guideline_effect d env_r) as Heff.
  destruct (Guidelines._deserialize d env_r) as [o env1] eqn:E.
  cbn [fst snd] in *. exists env1. rewrite Hre.
  2:{ unfold env_r. env_simpl. rewrite Hdocs. revert Hf. by env_simpl. }
  2:{ done. }
  split; [done|].
  destruct Heff as [-> | ->]; unfold env_r;
    (split; [intros c; env_simpl; apply Hdocs|]);
    env_simpl; rewrite <- ?app_assoc; cbn [app]; auto.
Qed.
End GuidelineReadFacts.

Section GuidelineUpsert.
Context {DT : DateTime}.

Lemma guideline_upsert_tag_existing (env : Env) (i tag : string)
  (c : option datetime) (a : Guidelines.Guideline) :
  (Guidelines.read_guideline i env).1 = Return a ->
  tag ∈ Guidelines.tags a ->
  (Guidelines.upsert_tag i tag c env).1 = Return false /\
  collection (Guidelines.upsert_tag i tag c env).2 = collection env /\
  tag_association_collection (Guidelines.upsert_tag i tag c env).2
  = tag_association_collection env.
Proof.
  intros Hread Htag.
  destruct (read_guideline_same_docs env (record (Acquire writer_lock) env)
              i a) as (env1 & Hrun & Hdocs & _); [intros c0; (by env_simpl)|done|].
  rewrite !collection_docs_of, !tag_association_collection_docs_of.
  unfold Guidelines.upsert_tag. rewrite bind_with_lock, bind_run, Hrun.
  rewrite bool_decide_eq_true_2 by done. rewrite !ret_run.
  env_simpl. by rewrite !Hdocs.
Qed.

Lemma guideline_upsert_tag_new (env : Env) (i tag : string)
  (c : option datetime) (a : Guidelines.Guideline) (new_id : string)
  (rest : list string) :
  (Guidelines.read_guideline i env).1 = Return a ->
  tag ∉ Guidelines.tags a ->
  generate_id_from (nanoid_outputs env) = (Return new_id, rest) ->
  Forall (fun d => str_at d "id" <> Some new_id)
    (tag_association_collection env) ->
  (Guidelines.upsert_tag i tag c env).1 = Return true /\
  collection (Guidelines.upsert_tag i tag c env).2 = collection env /\
  tag_association_collection (Guidelines.upsert_tag i tag c env).2
  = tag_association_collection env
    ++ [Guidelines.association_document new_id (default (utc_now env) c) i tag].
Proof.
  intros Hread Htag Hgen Hfresh.
  destruct (read_guideline_same_docs env (record (Acquire writer_lock) env)
              i a) as (env1 & Hrun & Hdocs & Hout & Hnow & _);
    [intros c0; (by env_simpl)|done|].
  destruct (read_guideline_inv _ _ _ Hread) as (d & Hfind & Hfalsy & _).
  rewrite !collection_docs_of, !tag_association_collection_docs_of in *.
  revert Hout Hnow. env_simpl. intros Hout Hnow.
  unfold Guidelines.upsert_tag. rewrite bind_with_lock, bind_run, Hrun.
  rewrite bool_decide_eq_false_2 by done.
  assert (Hstep : forall t : datetime,
    bind generate_id
      (fun association_id =>
         bind (insert_one Guidelines._tag_association_collection
                 (Guidelines.association_document association_id t i tag))
           (fun _ =>
              bind (find_one Guidelines._collection (WEq "id" i))
                (fun guideline_document =>
                   ret (inr guideline_document : bool + option Document)))) env1
    = (Return (inr (Some d)),
       record (FindOne Primary)
         (with_docs TagAssociations
            (docs_of TagAssociations env
             ++ [Guidelines.association_document new_id t i tag])
            (record (InsertOne TagAssociations)
               (with_nanoid_outputs rest env1))))).
  { intros t. rewrite bind_generate_id, Hout, Hgen. cbn [fst snd].
    rewrite bind_insert_one. unfold_collections. env_simpl.
    rewrite Hdocs.
    rewrite (insert_one_in_fresh _ _ new_id);
      [|by unfold Guidelines.association_document; rewrite str_at_insert_eq
       |done].
    rewrite bind_find_one. cbn [at_slot document_loader]. env_simpl.
    rewrite Hdocs, Hfind. by rewrite ret_run. }
  destruct c as [t|]; [rewrite bind_ret | rewrite bind_datetime_now];
    rewrite Hstep, ?Hnow; cbn [default]; rewrite Hfalsy, ret_run;
    env_simpl; by rewrite ?Hdocs.
Qed.

Lemma guideline_association_fields (new_id : string) (t : datetime)
  (i tag : string) :
  str_at (Guidelines.association_document new_id t i tag) "id" = Some new_id /\
  str_at (Guidelines.association_document new_id t i tag) "version"
  = Some Guidelines.VERSION /\
  str_at (Guidelines.association_document new_id t i tag) "guideline_id" = Some i /\
  str_at (Guidelines.association_document new_id t i tag) "tag_id" = Some tag.
Proof.
  unfold Guidelines.association_document.
  repeat split; rewrite ?str_at_insert_ne by done;
    by rewrite str_at_insert_eq.
Qed.

(** Reading after one more association record for the guideline: the same
    guideline, with the new tag last. *)
Lemma read_guideline_after_link (env env' : Env) (i tag new_id : string)
  (t : datetime) (a : Guidelines.Guideline) :
  Forall (fun d => str_at d "version" = Some Guidelines.VERSION)
    (collection env) ->
  (Guidelines.read_guideline i env).1 = Return a ->
  collection env' = collection env ->
  tag_association_collection env'
  = tag_association_collection env
    ++ [Guidelines.association_document new_id t i tag] ->
  (Guidelines.read_guideline i env').1
  = Return (guideline_with_tags (Guidelines.tags a ++ [tag]) a).
Proof.
  intros Hver Hread Hprim Hassoc.
  rewrite !collection_docs_of, !tag_association_collection_docs_of in *.
  destruct (read_guideline_inv _ _ _ Hread) as (d & Hfind & Hfalsy & Hdes).
  assert (Hstored : stored i (docs_of Primary env) = Some d).
  { eapply stored_through_loader; [|exact Hfind].
    eapply Forall_impl; [exact Hver|]. intros d0.
    apply guideline_loader_current. }
  apply stored_has_id in Hstored.
  destruct (deserialize_guideline_tags _ _ _ Hdes) as (Hid & docs & Hf & Hc).
  assert (Guidelines.id a = i) as Hi by congruence.
  destruct (guideline_association_fields new_id t i tag)
    as (Fid & Fver & Fagent & Ftag).
  rewrite <- Hprim in Hfind.
  rewrite (read_guideline_found _ _ _ Hfind Hfalsy).
  eapply deserialize_guideline_retag; [exact Hdes| |].
  - env_simpl. rewrite Hassoc. revert Hf. env_simpl. unfold find_in.
    intros Hf. rewrite filter_app. eapply load_all_app; [exact Hf|].
    rewrite Hi, filter_cons_True, filter_nil.
    + cbn [load_all].
      by rewrite (guideline_association_loader_current _ Fver).
    + cbn [matches]. by apply bool_decide_pack.
  - apply collect_app; [done|]. by apply get_str_str_at.
Qed.

(** No association record links the guideline to a tag it does not read
    with. *)
Lemma guideline_links_of_missing_tag (env : Env) (i tag : string)
  (a : Guidelines.Guideline) :
  well_kept Guidelines.VERSION env ->
  (Guidelines.read_guideline i env).1 = Return a ->
  tag ∉ Guidelines.tags a ->
  links "guideline_id" i tag (tag_association_collection env) = [].
Proof.
  intros (_ & Hver & _ & Hassoc) Hread Htag.
  rewrite !collection_docs_of, !tag_association_collection_docs_of in *.
  destruct (read_guideline_inv _ _ _ Hread) as (d & Hfind & Hfalsy & Hdes).
  assert (Hstored : stored i (docs_of Primary env) = Some d).
  { eapply stored_through_loader; [|exact Hfind].
    eapply Forall_impl; [exact Hver|]. intros d0.
    apply guideline_loader_current. }
  apply stored_has_id in Hstored.
  destruct (deserialize_guideline_tags _ _ _ Hdes) as (Hid & docs & Hf & Hc).
  assert (Guidelines.id a = i) as Hi by congruence. rewrite Hi in Hf.
  revert Hf. env_simpl. rewrite find_in_identity.
  2:{ eapply Forall_impl; [exact Hassoc|]. intros d0 [_ Hd0].
      by apply guideline_association_loader_current. }
  intros [= <-]. unfold links.
  apply filter_none, Forall_forall. intros d0 Hd0 [Hagent Htag0].
  apply Htag. eapply collect_elem; [exact Hc| |by apply get_str_str_at].
  apply list_elem_of_filter. split; [|done].
  cbn [matches]. by apply bool_decide_pack.
Qed.

(** [upsert_tag] of the guideline store: a no-op returning [false] when the
    agent already has the tag; otherwise one association record is
    appended and [true] returned, after which a second call is the
    no-op. *)
Lemma guideline_upsert_tag_idempotent (env : Env) (i tag : string)
  (c c' : option datetime) (a : Guidelines.Guideline) (new_id : string)
  (rest : list string) :
  well_kept Guidelines.VERSION env ->
  (Guidelines.read_guideline i env).1 = Return a ->
  generate_id_from (nanoid_outputs env) = (Return new_id, rest) ->
  Forall (fun d => str_at d "id" <> Some new_id)
    (tag_association_collection env) ->
  (tag ∈ Guidelines.tags a ->
   (Guidelines.upsert_tag i tag c env).1 = Return false /\
   collection (Guidelines.upsert_tag i tag c env).2 = collection env /\
   tag_association_collection (Guidelines.upsert_tag i tag c env).2
   = tag_association_collection env) /\
  (tag ∉ Guidelines.tags a ->
   (Guidelines.upsert_tag i tag c env).1 = Return true /\
   collection (Guidelines.upsert_tag i tag c env).2 = collection env /\
   tag_association_collection (Guidelines.upsert_tag i tag c env).2
   = tag_association_collection env
     ++ [Guidelines.association_document new_id (default (utc_now env) c)
           i tag] /\
   (Guidelines.upsert_tag i tag c' (Guidelines.upsert_tag i tag c env).2).1
   = Return false /\
   tag_association_collection
     (Guidelines.upsert_tag i tag c' (Guidelines.upsert_tag i tag c env).2).2
   = tag_association_collection (Guidelines.upsert_tag i tag c env).2 /\
   length
     (links "guideline_id" i tag
        (tag_association_collection (Guidelines.upsert_tag i tag c env).2))
   = 1).
Proof.
  intros Hkept Hread Hgen Hfresh. split; intros Htag.
  - by apply (guideline_upsert_tag_existing env i tag c a).
  - destruct (guideline_upsert_tag_new env i tag c a new_id rest
                Hread Htag Hgen Hfresh) as (Hr & Hprim & Hassoc).
    split; [done|]. split; [done|]. split; [done|].
    pose proof Hkept as (_ & Hver & _ & _).
    pose proof (read_guideline_after_link env _ i tag new_id _ a
                  Hver Hread Hprim Hassoc) as Hread'.
    destruct (guideline_upsert_tag_existing _ i tag c' _ Hread')
      as (Hr' & _ & Hassoc').
    { cbn [guideline_with_tags Guidelines.tags]. set_solver. }
    split; [done|]. split; [done|].
    rewrite Hassoc. unfold links. rewrite filter_app.
    fold (links "guideline_id" i tag (tag_association_collection env)).
    rewrite (guideline_links_of_missing_tag env i tag a Hkept Hread Htag).
    destruct (guideline_association_fields new_id (default (utc_now env) c)
                i tag) as (_ & _ & Fagent & Ftag).
    by rewrite filter_cons_True.
Qed.
End GuidelineUpsert.

Section UpsertTag.
Context {DT : DateTime}.

(** C6: [upsert_tag] is idempotent, in the agent store and in the
    guideline store.  For an entity the store holds, in a well-kept
    store, with the id generator giving an id no association record
    uses: if the entity already has the tag the call returns [false] and
    writes nothing; otherwise it appends exactly one association record
    and returns [true], a second call with the same pair returns [false]
    and writes nothing, and exactly one association record links the
    pair. *)
Theorem upsert_tag_idempotent (agents guidelines : Env)
  (agent_id guideline_id tag_id : string) (c c' : option datetime)
  (a : Agents.Agent) (g : Guidelines.Guideline)
  (agent_link guideline_link : string) (rest rest' : list string) :
  well_kept Agents.VERSION agents ->
  (Agents.read_agent agent_id agents).1 = Return a ->
  generate_id_from (nanoid_outputs agents) = (Return agent_link, rest) ->
  Forall (fun d => str_at d "id" <> Some agent_link)
    (tag_association_collection agents) ->
  well_kept Guidelines.VERSION guidelines ->
  (Guidelines.read_guideline guideline_id guidelines).1 = Return g ->
  generate_id_from (nanoid_outputs guidelines)
  = (Return guideline_link, rest') ->
  Forall (fun d => str_at d "id" <> Some guideline_link)
    (tag_association_collection guidelines) ->
  upsert_is_idempotent (Agents.upsert_tag agent_id tag_id)
    "agent_id" agent_id tag_id (tag_id ∈ Agents.tags a)
    (Agents.association_document agent_link
       (default (utc_now agents) c) agent_id tag_id)
    c c' agents /\
  upsert_is_idempotent (Guidelines.upsert_tag guideline_id tag_id)
    "guideline_id" guideline_id tag_id (tag_id ∈ Guidelines.tags g)
    (Guidelines.association_document guideline_link
       (default (utc_now guidelines) c) guideline_id tag_id)
    c c' guidelines.
Proof.
  intros Ha Hra Hga Hfa Hg Hrg Hgg Hfg. split.
  - by eapply agent_upsert_tag_idempotent.
  - by eapply guideline_upsert_tag_idempotent.
Qed.
End UpsertTag.

(** ** Create, then read *)

Lemma insert_one_in_Return (doc : Document) (docs ds : list Document) :
  insert_one_in doc docs = Return ds ->
  ds = docs ++ [doc] /\
  forall i, str_at doc "id" = Some i ->
            Forall (fun d => str_at d "id" <> Some i) docs.
Proof.
  unfold insert_one_in. destruct (str_at doc "id") as [i|] eqn:Hi.
  - destruct (List.existsb _ docs) eqn:E; [done|].
    intros [= <-]. split; [done|]. intros ? [= <-].
    apply Forall_forall. intros d Hd Hid.
    apply not_true_iff_false in E. apply E.
    apply existsb_exists. exists d. split; [by apply list_elem_of_In|].
    by apply bool_decide_eq_true.
  - intros [= <-]. split; [done|]. done.
Qed.

Lemma CompositionMode_round_trip (m : CompositionMode) :
  CompositionMode_of_value (CompositionMode_value m) = Some m.
Proof. by destruct m. Qed.

Section CreateRead.
Context {DT : DateTime}.

(** The loop of [create_agent] over the tags: one fresh id and one
    association record per tag, appended in order. *)
Lemma agent_link_loop_run (tags : list string) (t : datetime)
  (agent_id : string) (env env' : Env) :
  for_each tags
    (fun tag =>
       bind generate_id
         (fun association_id =>
            insert_one Agents._tag_association_collection
              (Agents.association_document association_id t agent_id tag)))
    env
  = (Return tt, env') ->
  docs_of Primary env' = docs_of Primary env /\
  exists ids,
    length ids = length tags /\
    docs_of TagAssociations env'
    = docs_of TagAssociations env
      ++ zip_with (fun i tag => Agents.association_document i t agent_id tag)
           ids tags.
Proof.
  revert env. induction tags as [|tag tags IH]; intros env.
  - cbn [for_each]. rewrite ret_run. intros [= <-].
    split; [done|]. exists []. by rewrite app_nil_r.
  - cbn [for_each]. rewrite bind_assoc, bind_generate_id.
    destruct (generate_id_from (nanoid_outputs env)) as [[i|e] rest];
      cbn [fst snd]; [|done].
    rewrite bind_run.
    destruct (insert_one _ _ _) as [[[]|e] env1] eqn:Hins; [|done].
    intros Hloop. apply IH in Hloop as (Hprim & ids & Hlen & Hassoc).
    revert Hins. unfold insert_one. unfold_collections. env_simpl.
    destruct (insert_one_in _ _) as [ds|] eqn:Hds; [|done].
    apply insert_one_in_Return in Hds as [-> _].
    intros [= <-]. revert Hprim Hassoc. env_simpl. intros Hprim Hassoc.
    split; [done|]. exists (i :: ids).
    split; [cbn [length]; by rewrite Hlen|].
    rewrite Hassoc, <- app_assoc. done.
Qed.

(** What a successful [create_agent] returned and wrote. *)
Lemma create_agent_inv (name : string) (description : option string)
  (creation_utc : option datetime) (max_engine_iterations : option Z)
  (composition_mode : option CompositionMode) (tags : option (list string))
  (env env' : Env) (a : Agents.Agent) :
  Agents.create_agent name description creation_utc max_engine_iterations
    composition_mode tags env = (Return a, env') ->
  a = {| Agents.id := Agents.id a;
         Agents.name := name;
         Agents.description := description;
         Agents.creation_utc := default (utc_now env) creation_utc;
         Agents.max_engine_iterations :=
           match max_engine_iterations with
           | Some n => if Z.eqb n 0 then 1%Z else n
           | None => 1%Z
           end;
         Agents.tags := default [] tags;
         Agents.composition_mode := default FLUID composition_mode |} /\
  Forall (fun d => str_at d "id" <> Some (Agents.id a)) (collection env) /\
  collection env' = collection env ++ [Agents._serialize_agent a] /\
  exists ids,
    length ids = length (Agents.tags a) /\
    tag_association_collection env'
    = tag_association_collection env
      ++ zip_with
           (fun i tag =>
              Agents.association_document i (Agents.creation_utc a)
                (Agents.id a) tag)
           ids (Agents.tags a).
Proof.
  rewrite !collection_docs_of, !tag_association_collection_docs_of.
  unfold Agents.create_agent. rewrite with_lock_run.
  set (env0 := record (Acquire writer_lock) env).
  assert (Hbody : forall t : datetime,
    t = default (utc_now env) creation_utc ->
    forall o env1,
    bind generate_id
      (fun new_id =>
         let agent :=
           {| Agents.id := new_id;
              Agents.name := name;
              Agents.description := description;
              Agents.creation_utc := t;
              Agents.max_engine_iterations :=
                match max_engine_iterations with
                | Some n => if Z.eqb n 0 then 1%Z else n
                | None => 1%Z
                end;
              Agents.tags := default [] tags;
              Agents.composition_mode := default FLUID composition_mode |}
         in
         bind (insert_one Agents._agents_collection
                 (Agents._serialize_agent agent))
           (fun _ =>
              bind
                (for_each (default [] tags)
                   (fun tag =>
                      bind generate_id
                        (fun association_id =>
                           insert_one Agents._tag_association_collection
                             (Agents.association_document association_id t
                                (Agents.id agent) tag))))
                (fun _ => ret agent))) env0 = (o, env1) ->
    o = Return a ->
    a = {| Agents.id := Agents.id a;
           Agents.name := name;
           Agents.description := description;
           Agents.creation_utc := default (utc_now env) creation_utc;
           Agents.max_engine_iterations :=
             match max_engine_iterations with
             | Some n => if Z.eqb n 0 then 1%Z else n
             | None => 1%Z
             end;
           Agents.tags := default [] tags;
           Agents.composition_mode := default FLUID composition_mode |} /\
    Forall (fun d => str_at d "id" <> Some (Agents.id a))
      (docs_of Primary env) /\
    docs_of Primary (record (Release writer_lock) env1)
    = docs_of Primary env ++ [Agents._serialize_agent a] /\
    exists ids,
      length ids = length (Agents.tags a) /\
      docs_of TagAssociations (record (Release writer_lock) env1)
      = docs_of TagAssociations env
        ++ zip_with
             (fun i tag =>
                Agents.association_document i (Agents.creation_utc a)
                  (Agents.id a) tag)
             ids (Agents.tags a)).
  { intros t Ht o env1. rewrite bind_generate_id.
    destruct (generate_id_from (nanoid_outputs env0)) as [[i|e] rest];
      cbn [fst snd]; [|by intros [= <- _]].
    cbv zeta. rewrite bind_insert_one. unfold_collections.
    destruct (insert_one_in _ _) as [ds|] eqn:Hds; [|by intros [= <- _]].
    apply insert_one_in_Return in Hds as [-> Hfresh].
    rewrite bind_run.
    destruct (for_each _ _ _) as [[[]|e] env2] eqn:Hloop;
      [|by intros [= <- _]].
    rewrite ret_run. intros [= <- <-] [= <-]. cbn [Agents.id Agents.tags
      Agents.creation_utc].
    apply agent_link_loop_run in Hloop as (Hprim & ids & Hlen & Hassoc).
    revert Hprim Hassoc Hfresh. unfold env0. env_simpl.
    intros Hprim Hassoc Hfresh. subst t.
    split; [done|]. split.
    { apply Hfresh. unfold Agents._serialize_agent.
      by rewrite str_at_insert_eq. }
    split; [done|]. exists ids. by split. }
  destruct creation_utc as [t|]; cbn [default] in *.
  - rewrite bind_ret.
    destruct (bind generate_id _ env0) as [o env1] eqn:E. cbn [fst snd].
    intros [= -> <-]. by eapply Hbody.
  - rewrite bind_datetime_now.
    destruct (bind generate_id _ env0) as [o env1] eqn:E. cbn [fst snd].
    intros [= -> <-]. eapply Hbody; [|exact E|done].
    unfold env0. by env_simpl.
Qed.

Lemma Forall_zip_with_all {A B C} (P : C -> Prop) (f : A -> B -> C)
  (xs : list A) (ys : list B) :
  (forall x y, P (f x y)) -> Forall P (zip_with f xs ys).
Proof.
  intros Hf. revert ys. induction xs as [|x xs IH]; intros [|y ys];
    cbn [zip_with]; constructor; auto.
Qed.

Lemma collect_agent_links (ids tags : list string) (t : datetime)
  (agent_id : string) :
  length ids = length tags ->
  collect (fun d => get_str d "tag_id")
    (zip_with (fun i tag => Agents.association_document i t agent_id tag)
       ids tags)
  = Return tags.
Proof.
  revert ids. induction tags as [|tag tags IH]; intros [|i ids] Hlen;
    try done.
  cbn [zip_with collect].
  destruct (agent_association_fields i t agent_id tag) as (_ & _ & _ & Ft).
  rewrite (get_str_str_at _ _ _ Ft), IH; [done|].
  by injection Hlen.
Qed.

Lemma get_str_lookup (d : Document) (k s : string) :
  d !! k = Some (VStr s) -> get_str d k = Return s.
Proof. unfold get_str. by intros ->. Qed.

Lemma serialize_agent_lookups (a : Agents.Agent) :
  Agents._serialize_agent a !! "id" = Some (VStr (Agents.id a)) /\
  Agents._serialize_agent a !! "version" = Some (VStr Agents.VERSION) /\
  Agents._serialize_agent a !! "creation_utc"
  = Some (VStr (isoformat (Agents.creation_utc a))) /\
  Agents._serialize_agent a !! "name" = Some (VStr (Agents.name a)) /\
  Agents._serialize_agent a !! "description"
  = Some (Agents.optional_str (Agents.description a)) /\
  Agents._serialize_agent a !! "max_engine_iterations"
  = Some (VInt (Agents.max_engine_iterations a)) /\
  Agents._serialize_agent a !! "composition_mode"
  = Some (VStr (CompositionMode_value (Agents.composition_mode a))).
Proof.
  unfold Agents._serialize_agent.
  repeat split; rewrite ?lookup_insert_ne by done;
    by rewrite lookup_insert_eq.
Qed.

(** Deserialising the record [_serialize_agent] wrote for [a], when the
    association records found for it carry [a]'s tags, gives [a] back. *)
Lemma deserialize_serialized_agent `{!DateTimeRoundTrip DT}
  (a : Agents.Agent) (env : Env) (docs : list Document) :
  find_in Agents._association_document_loader
    (WEq "agent_id" (Agents.id a)) (docs_of TagAssociations env)
  = Return docs ->
  collect (fun d => get_str d "tag_id") docs = Return (Agents.tags a) ->
  (Agents._deserialize_agent (Agents._serialize_agent a) env).1 = Return a.
Proof.
  intros Hfind Htags.
  destruct (serialize_agent_lookups a)
    as (Lid & Lver & Lcre & Lname & Ldesc & Lmei & Lmode).
  unfold Agents._deserialize_agent.
  rewrite bind_lift, (get_str_lookup _ _ _ Lid).
  rewrite bind_find. unfold_collections. rewrite Hfind.
  rewrite bind_for_list_lift, Htags.
  rewrite bind_lift, (get_str_lookup _ _ _ Lcre).
  rewrite bind_lift, fromisoformat_isoformat.
  rewrite bind_lift, (get_str_lookup _ _ _ Lname).
  rewrite bind_lift, Ldesc.
  assert (Hdesc :
    match Agents.optional_str (Agents.description a) with
    | VNone => Return None
    | VStr s => Return (Some s)
    | _ => Raise TypeError
    end = Return (Agents.description a))
    by (by destruct (Agents.description a)).
  rewrite Hdesc.
  rewrite bind_lift, Lmei, bind_lift, Lmode.
  rewrite CompositionMode_round_trip, ret_run. by destruct a.
Qed.

(** C8: an agent that [create_agent] returned, read back at once by its
    id, is the created agent, field for field (id, name, description,
    creation time, iteration limit, tags in order, composition mode);
    and the created agent carries the arguments of the call, with the
    documented defaults.  The store must hold no association record that
    already refers to the fresh id. *)
Theorem create_then_read_agent `{!DateTimeRoundTrip DT}
  (name : string) (description : option string)
  (creation_utc : option datetime) (max_engine_iterations : option Z)
  (composition_mode : option CompositionMode) (tags : option (list string))
  (env env' : Env) (a : Agents.Agent) :
  Agents.create_agent name description creation_utc max_engine_iterations
    composition_mode tags env = (Return a, env') ->
  Forall (fun d => str_at d "agent_id" <> Some (Agents.id a))
    (tag_association_collection env) ->
  (Agents.read_agent (Agents.id a) env').1 = Return a /\
  Agents.name a = name /\
  Agents.description a = description /\
  Agents.creation_utc a = default (utc_now env) creation_utc /\
  Agents.max_engine_iterations a
  = match max_engine_iterations with
    | Some n => if Z.eqb n 0 then 1%Z else n
    | None => 1%Z
    end /\
  Agents.tags a = default [] tags /\
  Agents.composition_mode a = default FLUID composition_mode.
Proof.
  intros Hcreate Hstale.
  destruct (create_agent_inv _ _ _ _ _ _ _ _ _ Hcreate)
    as (Ha & Hfresh & Hprim & ids & Hlen & Hassoc).
  split; [|by rewrite Ha].
  rewrite !collection_docs_of, !tag_association_collection_docs_of in *.
  destruct (serialize_agent_lookups a) as (Lid & Lver & _).
  assert (Sid : str_at (Agents._serialize_agent a) "id" = Some (Agents.id a))
    by (unfold str_at; by rewrite Lid).
  assert (Sver : str_at (Agents._serialize_agent a) "version"
                 = Some Agents.VERSION)
    by (unfold str_at; by rewrite Lver).
  rewrite (read_agent_found _ _ (Agents._serialize_agent a)).
  - eapply deserialize_serialized_agent.
    + env_simpl. rewrite Hassoc. unfold find_in. rewrite filter_app.
      rewrite (filter_matches_none _ (docs_of TagAssociations env)).
      2:{ eapply Forall_impl; [exact Hstale|]. intros d Hd.
          cbn [matches]. by apply bool_decide_eq_false. }
      rewrite app_nil_l, filter_all.
      2:{ apply Forall_zip_with_all. intros i tag.
          destruct (agent_association_fields i (Agents.creation_utc a)
                      (Agents.id a) tag) as (_ & _ & Fa & _).
          cbn [matches]. by apply bool_decide_pack. }
      apply load_all_identity, Forall_zip_with_all. intros i tag.
      destruct (agent_association_fields i (Agents.creation_utc a)
                  (Agents.id a) tag) as (_ & Fv & _ & _).
      by apply agent_association_loader_current.
    + by apply collect_agent_links.
  - rewrite Hprim. unfold find_one_in.
    rewrite filter_app, (filter_matches_none _ (docs_of Primary env)).
    2:{ eapply Forall_impl; [exact Hfresh|]. intros d Hd.
        cbn [matches]. by apply bool_decide_eq_false. }
    rewrite app_nil_l, filter_cons_True, filter_nil.
    2:{ cbn [matches]. by apply bool_decide_pack. }
    cbn [head]. by apply agent_loader_current.
  - by eapply not_falsy_of_lookup.
Qed.
End CreateRead.

(** ** Listing guidelines by tag *)

Lemma collect_Forall2 {A B} (f : A -> outcome B) (xs : list A) (ys : list B) :
  collect f xs = Return ys -> Forall2 (fun x y => f x = Return y) xs ys.
Proof.
  revert ys. induction xs as [|x xs IH]; intros ys.
  - intros [= <-]. constructor.
  - cbn [collect]. destruct (f x) as [y|] eqn:Hx; [|done].
    destruct (collect f xs) as [ys'|]; [|done].
    intros [= <-]. constructor; auto.
Qed.

Lemma collect_defined {A B} (f : A -> outcome B) (g : A -> option B)
  (xs : list A) :
  (forall x y, g x = Some y -> f x = Return y) ->
  Forall (fun x => is_Some (g x)) xs ->
  exists ys, collect f xs = Return ys.
Proof.
  intros Hfg. induction 1 as [|x xs [y Hy] _ [ys IH]]; [by exists []|].
  exists (y :: ys). cbn [collect]. by rewrite (Hfg _ _ Hy), IH.
Qed.

Section ListFacts.
Context {DT : DateTime}.

(** The outcome of [_deserialize] depends on the environment only through
    the association collection. *)
Lemma deserialize_guideline_same_associations (d : Document)
  (env1 env2 : Env) (g : Guidelines.Guideline) :
  docs_of TagAssociations env2 = docs_of TagAssociations env1 ->
  (Guidelines._deserialize d env1).1 = Return g ->
  (Guidelines._deserialize d env2).1 = Return g.
Proof.
  intros Hdocs Hg.
  destruct (deserialize_guideline_tags _ _ _ Hg) as (_ & docs & Hf & Hc).
  rewrite <- (guideline_with_own_tags g).
  eapply deserialize_guideline_retag; [exact Hg| |exact Hc].
  by rewrite Hdocs.
Qed.

(** Listing a filtered part of the records: the entities of the full
    listing that correspond to the records the filter keeps. *)
Lemma for_list_deserialize_filter (associations : list Document)
  (Q : Document -> Prop) (Q' : Guidelines.Guideline -> Prop)
  `{forall d, Decision (Q d)} `{forall g, Decision (Q' g)} :
  (forall d env g,
     docs_of TagAssociations env = associations ->
     (Guidelines._deserialize d env).1 = Return g -> (Q d <-> Q' g)) ->
  forall docs env1 env2 all,
    docs_of TagAssociations env1 = associations ->
    docs_of TagAssociations env2 = associations ->
    (for_list docs Guidelines._deserialize env1).1 = Return all ->
    (for_list (filter Q docs) Guidelines._deserialize env2).1
    = Return (filter Q' all).
Proof.
  intros HQ docs.
  induction docs as [|d docs IH]; intros env1 env2 all H1 H2.
  - cbn [for_list]. rewrite ret_run. by intros [= <-].
  - cbn [for_list]. rewrite bind_run.
    pose proof (deserialize_guideline_docs TagAssociations d env1) as Hd1.
    destruct (Guidelines._deserialize d env1) as [[g|e] env1'] eqn:Hg;
      [|done].
    cbn [snd] in Hd1. rewrite bind_run.
    destruct (for_list docs Guidelines._deserialize env1')
      as [[gs|e] env1''] eqn:Hgs; [|done].
    rewrite ret_run. intros [= <-].
    assert (Hg1 : (Guidelines._deserialize d env1).1 = Return g)
      by (by rewrite Hg).
    pose proof (HQ d env1 g H1 Hg1) as Hiff.
    destruct (decide (Q d)) as [Hq | Hq].
    + rewrite filter_cons_True by done.
      rewrite (filter_cons_True Q') by (by apply Hiff).
      cbn [for_list]. rewrite bind_run.
      pose proof (deserialize_guideline_docs TagAssociations d env2) as Hd2.
      pose proof (deserialize_guideline_same_associations d env1 env2 g)
        as Hsame.
      destruct (Guidelines._deserialize d env2) as [o env2'] eqn:Hg2.
      cbn [fst snd] in *. rewrite Hsame; [|congruence|done].
      rewrite bind_run.
      specialize (IH env1' env2' gs).
      rewrite Hgs in IH. cbn [fst] in IH.
      destruct (for_list (filter Q docs) Guidelines._deserialize env2')
        as [o' env2''].
      cbn [fst] in IH. rewrite IH; [by rewrite ret_run|congruence..|done].
    + rewrite filter_cons_False by done.
      rewrite (filter_cons_False Q') by (by rewrite <- Hiff).
      specialize (IH env1' env2 gs).
      rewrite Hgs in IH. apply IH; [congruence|done|done].
Qed.
End ListFacts.

Lemma filter_nil_Forall {A} (P : A -> Prop) `{forall x, Decision (P x)}
  (l : list A) :
  filter P l = [] -> Forall (fun x => ~ P x) l.
Proof.
  intros Hnil. apply Forall_forall. intros x Hx HP.
  assert (x ∈ filter P l) as Hin by (by apply list_elem_of_filter).
  rewrite Hnil in Hin. by apply elem_of_nil in Hin.
Qed.

Lemma matches_WEq (f v : string) (d : Document) :
  matches (WEq f v) d = true <-> str_at d f = Some v.
Proof. cbn [matches]. apply bool_decide_eq_true. Qed.

Lemma matches_WAnd_ne (ids : list string) (d : Document) :
  matches (WAnd ((fun i => WNe "id" i) <$> ids)) d = true
  <-> Forall (fun i => str_at d "id" <> Some i) ids.
Proof.
  cbn [matches]. rewrite forallb_forall, Forall_forall. split.
  - intros H i Hi. specialize (H (WNe "id" i)).
    cbn [matches] in H. apply negb_true_iff, bool_decide_eq_false in H; [done|].
    apply list_elem_of_In. by apply (list_elem_of_fmap_2 (fun i => WNe "id" i)).
  - intros H w Hw. apply list_elem_of_In, list_elem_of_fmap in Hw as (i & -> & Hi).
    cbn [matches]. apply negb_true_iff, bool_decide_eq_false. by apply H.
Qed.

Lemma matches_WOr_eq (f : string) (vs : list string) (d : Document) :
  matches (WOr ((fun v => WEq f v) <$> vs)) d = true
  <-> Exists (fun v => str_at d f = Some v) vs.
Proof.
  cbn [matches]. rewrite existsb_exists, Exists_exists. split.
  - intros (w & Hw & Hm).
    apply list_elem_of_In, list_elem_of_fmap in Hw as (v & -> & Hv).
    exists v. split; [done|]. by apply matches_WEq.
  - intros (v & Hv & Hd). exists (WEq f v). split.
    + apply list_elem_of_In. by apply (list_elem_of_fmap_2 (fun v => WEq f v)).
    + by apply matches_WEq.
Qed.

(** The ids a set comprehension over association records collects. *)
Lemma collected_ids (field : string) (associations : list Document)
  (ids : list string) (i : string) :
  collect (fun d => get_str d field) associations = Return ids ->
  i ∈ (list_to_set ids : gset string)
  <-> Exists (fun a => str_at a field = Some i) associations.
Proof.
  intros Hc%collect_Forall2. rewrite elem_of_list_to_set, Exists_exists.
  split.
  - intros Hi. destruct (Forall2_elem_r _ _ _ _ Hc Hi) as (a & Ha & Hg).
    exists a. split; [done|]. by apply get_str_Return.
  - intros (a & Ha & Hg). apply list_elem_of_lookup in Ha as [n Hn].
    destruct (Forall2_lookup_l _ _ _ _ _ Hc Hn) as (j & Hj & Hgj).
    apply get_str_Return in Hgj. rewrite Hg in Hgj. injection Hgj as ->.
    apply list_elem_of_lookup. eauto.
Qed.

Section ListByTags.
Context {DT : DateTime}.

(** The tags of a deserialised guideline are the tag ids of the
    association records that refer to it, in collection order. *)
Lemma deserialized_guideline_tags (associations : list Document)
  (d : Document) (env : Env) (g : Guidelines.Guideline) :
  docs_of TagAssociations env = associations ->
  Forall (fun a => str_at a "version" = Some Guidelines.VERSION)
    associations ->
  (Guidelines._deserialize d env).1 = Return g ->
  str_at d "id" = Some (Guidelines.id g) /\
  collect (fun a => get_str a "tag_id")
    (filter (fun a => matches (WEq "guideline_id" (Guidelines.id g)) a)
       associations)
  = Return (Guidelines.tags g).
Proof.
  intros Hdocs Hver Hg.
  destruct (deserialize_guideline_tags _ _ _ Hg) as (Hid & docs & Hf & Hc).
  split; [done|]. rewrite Hdocs, find_in_identity in Hf.
  - by injection Hf as <-.
  - eapply Forall_impl; [exact Hver|]. intros a.
    apply guideline_association_loader_current.
Qed.

Lemma unlinked_iff_no_tags (associations : list Document)
  (d : Document) (env : Env) (g : Guidelines.Guideline) :
  docs_of TagAssociations env = associations ->
  Forall (fun a => str_at a "version" = Some Guidelines.VERSION)
    associations ->
  (Guidelines._deserialize d env).1 = Return g ->
  unlinked associations d <-> Guidelines.tags g = [].
Proof.
  intros Hdocs Hver Hg.
  destruct (deserialized_guideline_tags _ _ _ _ Hdocs Hver Hg)
    as (Hid & Hc).
  apply collect_Forall2 in Hc. unfold unlinked. rewrite Hid. split.
  - intros Hun.
    rewrite (filter_matches_none _ associations) in Hc.
    + by apply Forall2_nil_inv_l in Hc.
    + eapply Forall_impl; [exact Hun|]. intros a Ha.
      cbn [matches]. by apply bool_decide_eq_false.
  - intros Hnil. rewrite Hnil in Hc. apply Forall2_nil_inv_r in Hc.
    apply filter_nil_Forall in Hc.
    eapply Forall_impl; [exact Hc|]. intros a Ha Heq. apply Ha.
    apply Is_true_true. by apply matches_WEq.
Qed.

Lemma linked_iff_some_tag (associations : list Document)
  (tags : list string) (d : Document) (env : Env)
  (g : Guidelines.Guideline) :
  docs_of TagAssociations env = associations ->
  Forall (fun a => str_at a "version" = Some Guidelines.VERSION)
    associations ->
  (Guidelines._deserialize d env).1 = Return g ->
  linked_to_any associations tags d
  <-> Exists (fun x => x ∈ Guidelines.tags g) tags.
Proof.
  intros Hdocs Hver Hg.
  destruct (deserialized_guideline_tags _ _ _ _ Hdocs Hver Hg)
    as (Hid & Hc).
  unfold linked_to_any. rewrite Hid, !Exists_exists. split.
  - intros (a & Ha & Hgid & Htag). apply Exists_exists in Htag
      as (x & Hx & Hax).
    exists x. split; [done|].
    eapply collect_elem; [exact Hc| |by apply get_str_str_at].
    apply list_elem_of_filter. split; [|done].
    apply Is_true_true. by apply matches_WEq.
  - intros (x & Hx & Hxg). apply collect_Forall2 in Hc.
    destruct (Forall2_elem_r _ _ _ _ Hc Hxg) as (a & Ha & Hax).
    apply list_elem_of_filter in Ha as [Hm Ha].
    apply Is_true_true, matches_WEq in Hm.
    exists a. split; [done|]. split; [done|].
    apply Exists_exists. exists x. split; [done|].
    by apply get_str_Return.
Qed.

(** The filter [list_guidelines] builds for an empty tag list keeps the
    records no association refers to. *)
Lemma untagged_filter (associations : list Document) (ids : list string)
  (d : Document) :
  collect (fun a => get_str a "guideline_id") associations = Return ids ->
  matches
    (if bool_decide ((list_to_set ids : gset string) = ∅) then WAll
     else WAnd ((fun id => WNe "id" id)
                  <$> elements (list_to_set ids : gset string))) d = true
  <-> unlinked associations d.
Proof.
  intros Hc. unfold unlinked.
  assert (Hall : Forall (fun i => str_at d "id" <> Some i)
                   (elements (list_to_set ids : gset string))
                 <-> Forall (fun a => str_at a "guideline_id"
                                      <> str_at d "id") associations).
  { rewrite !Forall_forall. split.
    - intros H a Ha Heq.
      apply collect_Forall2 in Hc.
      apply list_elem_of_lookup in Ha as [n Hn].
      destruct (Forall2_lookup_l _ _ _ _ _ Hc Hn) as (i & Hi & Hgi).
      apply get_str_Return in Hgi.
      apply (H i); [|congruence].
      apply elem_of_elements, elem_of_list_to_set, list_elem_of_lookup.
      eauto.
    - intros H i Hi Heq.
      apply elem_of_elements in Hi.
      apply (collected_ids _ _ _ _ Hc), Exists_exists in Hi
        as (a & Ha & Hai).
      apply (H a Ha). congruence. }
  case_bool_decide as Hempty.
  - rewrite <- Hall, Hempty, elements_empty. split; [by constructor | done].
  - by rewrite matches_WAnd_ne.
Qed.

(** The filter it builds for a non-empty tag list keeps the records an
    association links to one of the tags. *)
Lemma tagged_filter (associations : list Document)
  (tags ids : list string) (d : Document) :
  collect (fun a => get_str a "guideline_id")
    (filter
       (fun a => matches (WOr ((fun tag => WEq "tag_id" tag) <$> tags)) a)
       associations)
  = Return ids ->
  matches
    (WOr ((fun id => WEq "id" id)
            <$> elements (list_to_set ids : gset string))) d = true
  <-> linked_to_any associations tags d.
Proof.
  intros Hc. rewrite matches_WOr_eq. unfold linked_to_any.
  rewrite !Exists_exists. split.
  - intros (i & Hi & Hdi). apply elem_of_elements in Hi.
    apply (collected_ids _ _ _ _ Hc), Exists_exists in Hi
      as (a & Ha & Hai).
    apply list_elem_of_filter in Ha as [Hm Ha].
    apply Is_true_true, matches_WOr_eq in Hm.
    exists a. split; [done|]. split; [congruence | done].
  - intros (a & Ha & Heq & Htag).
    destruct (str_at d "id") as [i|] eqn:Hi.
    + exists i. split; [|done].
      apply elem_of_elements, (collected_ids _ _ _ _ Hc), Exists_exists.
      exists a. split; [|done]. apply list_elem_of_filter. split; [|done].
      apply Is_true_true. by apply matches_WOr_eq.
    + assert (List.In a
                (filter
                   (fun a => matches
                      (WOr ((fun tag => WEq "tag_id" tag) <$> tags)) a)
                   associations)) as Hin.
      { apply list_elem_of_In, list_elem_of_filter. split; [|done].
        apply Is_true_true. by apply matches_WOr_eq. }
      apply list_elem_of_In, list_elem_of_lookup in Hin as [n Hn].
      apply collect_Forall2 in Hc.
      destruct (Forall2_lookup_l _ _ _ _ _ Hc Hn) as (j & _ & Hgj).
      apply get_str_Return in Hgj. congruence.
Qed.

(** C5: in a well-kept guideline store all of whose records read,
    [list_guidelines] with no tag filter returns all the entities, one
    per record of the primary collection and in its order; with the
    empty tag list it returns exactly those of them that have no tag at
    all; with a non-empty tag list, exactly those that have at least one
    of the given tags. *)
Theorem list_guidelines_by_tags (env : Env)
  (all : list Guidelines.Guideline) :
  well_kept Guidelines.VERSION env ->
  Forall (fun a => is_Some (str_at a "guideline_id"))
    (tag_association_collection env) ->
  (Guidelines.list_guidelines None env).1 = Return all ->
  Forall2 (fun d g => str_at d "id" = Some (Guidelines.id g))
    (collection env) all /\
  (Guidelines.list_guidelines (Some []) env).1
  = Return (filter (fun g => Guidelines.tags g = []) all) /\
  (forall t ts,
     (Guidelines.list_guidelines (Some (t :: ts)) env).1
     = Return
         (filter (fun g => Exists (fun x => x ∈ Guidelines.tags g) (t :: ts))
            all)).
Proof.
  intros (_ & Hver & _ & Hassoc) Hgid.
  rewrite !collection_docs_of, !tag_association_collection_docs_of in *.
  set (P := docs_of Primary env) in *.
  set (A := docs_of TagAssociations env) in *.
  assert (HverA : Forall (fun a => str_at a "version"
                                   = Some Guidelines.VERSION) A).
  { eapply Forall_impl; [exact Hassoc|]. by intros a [_ ?]. }
  assert (HfindP : forall w,
            find_in Guidelines._document_loader w P
            = Return (filter (fun d => matches w d) P)).
  { intros w. apply find_in_identity.
    eapply Forall_impl; [exact Hver|]. intros d.
    apply guideline_loader_current. }
  assert (HfindA : forall w,
            find_in Guidelines._association_document_loader w A
            = Return (filter (fun d => matches w d) A)).
  { intros w. apply find_in_identity.
    eapply Forall_impl; [exact HverA|]. intros d.
    apply guideline_association_loader_current. }
  (* the unfiltered listing *)
  unfold Guidelines.list_guidelines at 1. rewrite with_lock_run.
  cbn [fst]. rewrite bind_ret, bind_find. unfold_collections. env_simpl.
  fold P. rewrite HfindP, filter_all by (by apply Forall_forall).
  set (env1 := record (Find Primary) _). intros Hall.
  split; [|split].
  - destruct (for_list P Guidelines._deserialize env1) as [o env2] eqn:E.
    cbn [fst] in Hall. subst o.
    eapply for_list_Forall2; [|exact E].
    intros d e g e' Hd. by eapply deserialize_guideline_id.
  - unfold Guidelines.list_guidelines, Guidelines.guideline_ids_of.
    rewrite with_lock_run. cbn [fst].
    rewrite bind_assoc, bind_find. unfold_collections. env_simpl. fold A.
    rewrite HfindA, filter_all by (by apply Forall_forall).
    rewrite !bind_assoc, bind_for_list_lift.
    destruct (collect_defined (fun a => get_str a "guideline_id")
                (fun a => str_at a "guideline_id") A) as [ids Hids];
      [intros x y; apply get_str_str_at | done |].
    rewrite Hids, !bind_ret.
    rewrite bind_find. cbn [at_slot document_loader]. env_simpl. fold P.
    rewrite HfindP.
    rewrite (list_filter_iff _ (unlinked A)).
    2:{ intros d. rewrite Is_true_true. by apply untagged_filter. }
    eapply (for_list_deserialize_filter A); [| |by env_simpl|exact Hall].
    + intros d e g He Hd. by eapply unlinked_iff_no_tags.
    + unfold env1. by env_simpl.
  - intros t ts.
    unfold Guidelines.list_guidelines, Guidelines.guideline_ids_of.
    rewrite with_lock_run. cbn [fst]. cbv zeta.
    rewrite bind_assoc, bind_find. unfold_collections. env_simpl. fold A.
    rewrite HfindA.
    rewrite !bind_assoc, bind_for_list_lift.
    destruct (collect_defined (fun a => get_str a "guideline_id")
                (fun a => str_at a "guideline_id")
                (filter
                   (fun a => matches
                      (WOr ((fun tag => WEq "tag_id" tag) <$> t :: ts)) a)
                   A)) as [ids Hids];
      [intros x y; apply get_str_str_at | by apply Forall_filter_weaken |].
    rewrite Hids, bind_ret.
    assert (Hlisted :
      (for_list
         (filter
            (fun d => matches
               (WOr ((fun id => WEq "id" id)
                       <$> elements (list_to_set ids : gset string))) d)
            P)
         Guidelines._deserialize env1).1
      = Return
          (filter (fun g => Exists (fun x => x ∈ Guidelines.tags g) (t :: ts))
             all)).
    { rewrite (list_filter_iff _ (linked_to_any A (t :: ts))).
      2:{ intros d. rewrite Is_true_true. by apply tagged_filter. }
      eapply (for_list_deserialize_filter A); [| | |exact Hall].
      - intros d e g He Hd. by eapply linked_iff_some_tag.
      - unfold env1. by env_simpl.
      - unfold env1. by env_simpl. }
    case_bool_decide as Hempty.
    + rewrite bind_ret, ret_run. cbn [fst]. rewrite <- Hlisted.
      rewrite Hempty, elements_empty, fmap_nil.
      rewrite (filter_matches_none _ P); [done|].
      apply Forall_forall. by intros d _.
    + rewrite bind_ret, bind_find. cbn [at_slot document_loader].
      env_simpl. fold P. rewrite HfindP.
      rewrite (list_filter_iff _ (linked_to_any A (t :: ts))).
      2:{ intros d. rewrite Is_true_true. by apply tagged_filter. }
      eapply (for_list_deserialize_filter A); [| |by env_simpl|exact Hall].
      * intros d e g He Hd. by eapply linked_iff_some_tag.
      * unfold env1. by env_simpl.
Qed.
End ListByTags.

(** * The properties at concrete inputs *)

#[global] Instance iso_text_round_trip : DateTimeRoundTrip iso_text.
Proof. intros d. reflexivity. Qed.

(** Decide a concrete, decidable side condition by evaluation. *)
Ltac by_evaluation := apply (bool_decide_unpack _); vm_compute; exact I.

Lemma tagged_agent_env_well_kept : well_kept Agents.VERSION tagged_agent_env.
Proof. unfold well_kept. repeat split; by_evaluation. Defined.

Lemma two_guidelines_env_well_kept :
  well_kept Guidelines.VERSION two_guidelines_env.
Proof. unfold well_kept. repeat split; by_evaluation. Defined.

(** C9 on a run of the random source whose first output is rejected. *)
Lemma generate_id_well_formed_witness :
  String.length "V1StGXR8Z5" = 10 /\
  (forall c, first_char "V1StGXR8Z5" = Some c ->
             c <> "-"%char /\ c <> "_"%char) /\
  (forall c, last_char "V1StGXR8Z5" = Some c ->
             c <> "-"%char /\ c <> "_"%char).
Proof.
  eapply (generate_id_well_formed empty_env).
  - by_evaluation.
  - reflexivity.
Defined.

(** C3 on the sample 0.1.0 and 0.3.0 records. *)
Lemma guideline_migration_chain_witness :
  Guidelines._document_loader legacy_guideline_document
  = Raise (Exception
      "This code should not be reached! Please run the 'Daneel-prepare-migration' script.") /\
  Guidelines._document_loader previous_guideline_document
  = Return (Some (Guidelines._serialize guideline_B)).
Proof.
  eapply proj2.
  eapply (guideline_migration_chain legacy_guideline_document
            previous_guideline_document _ _ _ _ _ guideline_B);
    reflexivity.
Defined.

(** C4 on the two-guideline store and an id it does not hold. *)
Lemma update_guideline_missing_fails_assertion_witness :
  (Guidelines.update_guideline "gdlnCCCC03" no_guideline_params
     two_guidelines_env).1 = Raise AssertionError /\
  (Agents.update_agent "gdlnCCCC03" no_agent_params two_guidelines_env).1
  = Raise (ItemNotFoundError "gdlnCCCC03").
Proof.
  apply (update_guideline_missing_fails_assertion two_guidelines_env
           "gdlnCCCC03" no_guideline_params no_agent_params).
  reflexivity.
Defined.

(** C7: renaming the sample agent keeps its description; changing the
    condition of guideline "A" keeps its action. *)
Lemma update_keeps_unnamed_fields_witness :
  (exists d',
     stored "V1StGXR8Z5"
       (collection
          (Agents.update_agent "V1StGXR8Z5"
             {| Agents.with_name := Some "Host";
                Agents.with_description := None;
                Agents.with_max_engine_iterations := None;
                Agents.with_composition_mode := None |}
             tagged_agent_env).2)
     = Some d' /\
     d' !! "description" = Some (VStr "answers guests")) /\
  (exists d',
     stored "gdlnAAAA01"
       (collection
          (Guidelines.update_guideline "gdlnAAAA01"
             {| Guidelines.with_condition := Some "the customer says hello";
                Guidelines.with_action := None;
                Guidelines.with_enabled := None;
                Guidelines.with_metadata := None |}
             two_guidelines_env).2)
     = Some d' /\
     d' !! "action" = Some (VStr "greet the customer back")).
Proof.
  split.
  - eapply (proj1 (update_keeps_unnamed_fields tagged_agent_env "V1StGXR8Z5"
                     (Agents._serialize_agent concierge) _
                     no_guideline_params "description" eq_refl)).
    reflexivity.
  - eapply (proj2 (update_keeps_unnamed_fields two_guidelines_env
                     "gdlnAAAA01" (Guidelines._serialize guideline_A)
                     no_agent_params _ "action" eq_refl)).
    by_evaluation.
Defined.

(** C10 on guideline "A": an update that carries metadata leaves the
    stored metadata alone, [add_metadata] merges into it. *)
Lemma update_guideline_ignores_metadata_witness :
  (exists d',
     stored "gdlnAAAA01"
       (collection
          (Guidelines.update_guideline "gdlnAAAA01"
             {| Guidelines.with_condition := None;
                Guidelines.with_action := None;
                Guidelines.with_enabled := Some false;
                Guidelines.with_metadata := Some {["owner" := JStr "ops"]} |}
             two_guidelines_env).2)
     = Some d' /\
     d' !! "metadata" = Some (VDict {["source" := JStr "import"]})) /\
  (exists d',
     stored "gdlnAAAA01"
       (collection
          (Guidelines.add_metadata "gdlnAAAA01" {["owner" := JStr "ops"]}
             two_guidelines_env).2)
     = Some d' /\
     d' !! "metadata"
     = Some (VDict ({["owner" := JStr "ops"]}
                    ∪ {["source" := JStr "import"]}))).
Proof.
  destruct (update_guideline_ignores_metadata two_guidelines_env "gdlnAAAA01"
              (Guidelines._serialize guideline_A)
              {| Guidelines.with_condition := None;
                 Guidelines.with_action := None;
                 Guidelines.with_enabled := Some false;
                 Guidelines.with_metadata := Some {["owner" := JStr "ops"]} |}
              {["source" := JStr "import"]} {["owner" := JStr "ops"]}
              ["source"] eq_refl eq_refl eq_refl)
    as (_ & Hupdate & Hadd & _).
  exact (conj Hupdate Hadd).
Defined.

(** C1 on the tagged sample agent and on guideline "B". *)
Lemma delete_cascades_to_tag_associations_witness :
  ((Agents.delete_agent "V1StGXR8Z5" tagged_agent_env).1 = Return tt /\
   tag_association_collection
     (Agents.delete_agent "V1StGXR8Z5" tagged_agent_env).2 = [] /\
   one_writer_section (trace (Agents.delete_agent "V1StGXR8Z5")
                         tagged_agent_env) = true) /\
  ((Guidelines.delete_guideline "gdlnBBBB02" two_guidelines_env).1
   = Return tt /\
   Forall (fun d => str_at d "guideline_id" <> Some "gdlnBBBB02")
     (tag_association_collection
        (Guidelines.delete_guideline "gdlnBBBB02" two_guidelines_env).2) /\
   (forall l,
      (Guidelines.list_guidelines (Some ["t1"])
         (Guidelines.delete_guideline "gdlnBBBB02" two_guidelines_env).2).1
      = Return l ->
      Forall (fun g => Guidelines.id g <> "gdlnBBBB02") l)).
Proof.
  destruct (delete_cascades_to_tag_associations tagged_agent_env
              two_guidelines_env "V1StGXR8Z5" "gdlnBBBB02"
              tagged_agent_env_well_kept
              (ex_intro _ (Agents._serialize_agent concierge) eq_refl)
              two_guidelines_env_well_kept
              (ex_intro _ (Guidelines._serialize guideline_B) eq_refl))
    as ((Ha1 & _ & _ & Ha4) & (Hg1 & Hg2 & Hg3 & _)).
  split.
  - split; [exact Ha1|]. split; [reflexivity | exact Ha4].
  - split; [exact Hg1|]. split; [exact Hg2|]. exact (Hg3 (Some ["t1"])).
Defined.

(** C5 on the scenario of the specification: "A" without tags, "B" tagged
    "t1". *)
Lemma list_guidelines_by_tags_witness :
  (Guidelines.list_guidelines None two_guidelines_env).1
  = Return [guideline_A; guideline_B] /\
  (Guidelines.list_guidelines (Some []) two_guidelines_env).1
  = Return [guideline_A] /\
  (Guidelines.list_guidelines (Some ["t1"]) two_guidelines_env).1
  = Return [guideline_B].
Proof.
  destruct (list_guidelines_by_tags two_guidelines_env
              [guideline_A; guideline_B] two_guidelines_env_well_kept)
    as (_ & Hnone & Hsome).
  - by_evaluation.
  - reflexivity.
  - split; [reflexivity|]. split; [exact Hnone | exact (Hsome "t1" [])].
Defined.

(** C6: tagging the sample agent and guideline "B" with a new tag. *)
Lemma upsert_tag_idempotent_witness :
  upsert_is_idempotent (Agents.upsert_tag "V1StGXR8Z5" "gold")
    "agent_id" "V1StGXR8Z5" "gold" ("gold" ∈ ["vip"])
    (Agents.association_document "c0ffee1234" "2025-03-01T12:00:00+00:00"
       "V1StGXR8Z5" "gold")
    None None tagged_agent_env /\
  upsert_is_idempotent (Guidelines.upsert_tag "gdlnBBBB02" "gold")
    "guideline_id" "gdlnBBBB02" "gold" ("gold" ∈ ["t1"])
    (Guidelines.association_document "c0ffee1234"
       "2025-03-01T12:00:00+00:00" "gdlnBBBB02" "gold")
    None None two_guidelines_env.
Proof.
  apply (upsert_tag_idempotent tagged_agent_env two_guidelines_env
           "V1StGXR8Z5" "gdlnBBBB02" "gold" None None concierge
           guideline_B "c0ffee1234" "c0ffee1234" ["Zx9Yw8Vu7T"]
           ["Zx9Yw8Vu7T"]).
  - exact tagged_agent_env_well_kept.
  - reflexivity.
  - reflexivity.
  - by_evaluation.
  - exact two_guidelines_env_well_kept.
  - reflexivity.
  - reflexivity.
  - by_evaluation.
Defined.

(** C8: creating a concierge in the empty store and reading it back. *)
Lemma create_then_read_agent_witness :
  (Agents.read_agent "V1StGXR8Z5"
     (Agents.create_agent "Concierge" (Some "answers guests") None (Some 0%Z)
        None (Some ["vip"; "gold"]) empty_env).2).1
  = Return created_concierge.
Proof.
  refine (proj1 (create_then_read_agent "Concierge" (Some "answers guests")
                   None (Some 0%Z) None (Some ["vip"; "gold"]) empty_env _
                   created_concierge _ _)).
  - vm_compute. reflexivity.
  - by_evaluation.
Defined.

(** * Further properties *)

(** ** The id generator: which output is returned *)

Lemma generate_id_from_first (candidates rest : list string)
  (new_id : string) :
  generate_id_from candidates = (Return new_id, rest) <->
  exists skipped,
    candidates = skipped ++ new_id :: rest /\
    Forall (fun c => acceptable c = Return false) skipped /\
    acceptable new_id = Return true.
Proof.
  split.
  - induction candidates as [|c cs IH]; simpl; [discriminate|].
    destruct (acceptable c) as [[|]|e] eqn:Hc.
    + intros [= <- <-]. exists []. by repeat split.
    + intros (skipped & -> & Hs & Hn)%IH.
      exists (c :: skipped). repeat split; [|done]. by constructor.
    + discriminate.
  - intros (skipped & -> & Hs & Hn).
    induction Hs as [|c skipped Hc _ IH]; simpl.
    + by rewrite Hn.
    + by rewrite Hc.
Qed.

Section GeneratorLoop.
Context {DT : DateTime}.

(** X1: [generate_id] returns the first output of the random source that
    passes the loop test; the outputs drawn before it all failed the test,
    and the outputs after it are left for the next call. *)
Theorem generate_id_returns_first_acceptable (env env' : Env)
  (new_id : string) :
  generate_id env = (Return new_id, env') <->
  exists skipped,
    nanoid_outputs env = skipped ++ new_id :: nanoid_outputs env' /\
    Forall (fun c => acceptable c = Return false) skipped /\
    acceptable new_id = Return true /\
    env' = with_nanoid_outputs (nanoid_outputs env') env.
Proof.
  unfold generate_id.
  destruct (generate_id_from (nanoid_outputs env)) as [r rest] eqn:Hgen.
  split.
  - intros [= -> <-]. apply generate_id_from_first in Hgen
      as (skipped & Hs & Hf & Hn).
    exists skipped. by rewrite nanoid_outputs_with_nanoid_outputs.
  - intros (skipped & Hs & Hf & Hn & ->).
    assert (generate_id_from (nanoid_outputs env)
            = (Return new_id, nanoid_outputs env')) as H
      by (apply generate_id_from_first; eauto).
    rewrite Hgen in H. by injection H as -> ->.
Qed.
End GeneratorLoop.

(** ** Model titles *)

Lemma length_append (p s : string) :
  String.length (p +:+ s) = String.length p + String.length s.
Proof. induction p as [|a p IH]; simpl; [done | by rewrite IH]. Qed.

Lemma substring_whole (s : string) :
  substring 0 (String.length s) s = s.
Proof. induction s as [|a s IH]; simpl; [done | by rewrite IH]. Qed.

Lemma substring_append_l (p s : string) :
  substring 0 (String.length p) (p +:+ s) = p.
Proof.
  induction p as [|a p IH]; simpl; [by destruct s | by rewrite IH].
Qed.

Lemma substring_append_r (p s : string) :
  substring (String.length p) (String.length s) (p +:+ s) = s.
Proof.
  induction p as [|a p IH]; simpl; [apply substring_whole | exact IH].
Qed.

Lemma substring_split (s : string) (n : nat) :
  n <= String.length s ->
  substring 0 n s +:+ substring n (String.length s - n) s = s.
Proof.
  revert n. induction s as [|a s IH]; intros [|n] Hn; simpl in *;
    try done; try lia.
  - by rewrite substring_whole.
  - change (String a (substring 0 n s +:+ substring n (String.length s - n) s)
            = String a s).
    rewrite IH; [done | lia].
Qed.

Lemma endswith_append (stem suffix : string) :
  endswith (stem +:+ suffix) suffix = true.
Proof.
  unfold endswith. rewrite length_append. apply andb_true_iff. split.
  - apply Nat.leb_le. lia.
  - replace (String.length stem + String.length suffix
             - String.length suffix) with (String.length stem) by lia.
    rewrite substring_append_r. apply String.eqb_refl.
Qed.

Lemma endswith_split (name suffix : string) :
  endswith name suffix = true ->
  name = without_last (String.length suffix) name +:+ suffix.
Proof.
  unfold endswith, without_last. intros [Hlen Heq]%andb_true_iff.
  apply Nat.leb_le in Hlen. apply String.eqb_eq in Heq.
  rewrite <- (substring_split name (String.length name - String.length suffix))
    at 1 by lia.
  replace (String.length name - (String.length name - String.length suffix))
    with (String.length suffix) by lia.
  by rewrite Heq.
Qed.

Lemma without_last_append (stem suffix : string) :
  without_last (String.length suffix) (stem +:+ suffix) = stem.
Proof.
  unfold without_last. rewrite length_append.
  replace (String.length stem + String.length suffix - String.length suffix)
    with (String.length stem) by lia.
  apply substring_append_l.
Qed.

(** X2: for a string, or a class with that name, [_without_dto_suffix]
    gives the name without its final ["DTO"] when the name ends in
    ["DTO"] (one suffix is removed, not every one), and the name itself
    otherwise. *)
Theorem without_dto_suffix_removes_one_suffix (name : string)
  (obj : py_object) :
  obj = PyStr name \/ obj = PyType name ->
  exists title,
    _without_dto_suffix obj = Return title /\
    (forall stem, name = stem +:+ "DTO" -> title = stem) /\
    ((forall stem, name <> stem +:+ "DTO") -> title = name).
Proof.
  intros Hobj.
  assert (_without_dto_suffix obj
          = if endswith name "DTO" then Return (without_last 3 name)
            else Return name) as ->
    by (by destruct Hobj as [-> | ->]).
  destruct (endswith name "DTO") eqn:E.
  - eexists. split; [done|]. split.
    + intros stem ->. apply (without_last_append stem "DTO").
    + intros Hno. by destruct (Hno _ (endswith_split name "DTO" E)).
  - eexists. split; [done|]. split; [|done].
    intros stem ->. by rewrite endswith_append in E.
Qed.

(** ** Schema loaders *)


(** X4: the agent store migrates nothing in process.  Its loader hands on
    a record at version 0.3.0 as it is; both registered converters are
    stubs, so a record at 0.1.0 or 0.2.0 makes the read fail with the
    run-the-migration-script exception; and whenever the loader returns at
    all, what it returns is the stored record, at 0.3.0. *)
Theorem agent_loader_does_not_migrate (d : Document) (v : string) :
  str_at d "version" = Some v ->
  (v = "0.3.0" -> Agents._document_loader d = Return (Some d)) /\
  (v = "0.1.0" \/ v = "0.2.0" ->
   Agents._document_loader d
   = Raise (Exception
       "This code should not be reached! Please run the 'Daneel-prepare-migration' script.")) /\
  (forall o, Agents._document_loader d = Return o ->
             v = "0.3.0" /\ o = Some d).
Proof.
  intros Hv.
  assert (Hrun : Agents._document_loader d
    = if String.eqb v "0.3.0" then Return (Some d)
      else match (list_to_map Agents.converters : gmap string Loader) !! v with
           | None => Raise (Exception "no converter registered for version")
           | Some converter =>
               match converter d with
               | Raise e => Raise e
               | Return None => Return None
               | Return (Some doc') =>
                   migrate 1 Agents.VERSION Agents.converters doc'
               end
           end).
  { unfold Agents._document_loader. cbn [length Agents.converters migrate].
    by rewrite Hv. }
  rewrite Hrun. clear Hrun. unfold Agents.converters.
  cbn [list_to_map foldr uncurry fst snd].
  split; [|split].
  - by intros ->.
  - intros [-> | ->]; cbn [String.eqb Ascii.eqb Bool.eqb andb].
    + by rewrite lookup_insert_eq.
    + by rewrite lookup_insert_ne, lookup_insert_eq.
  - intros o. destruct (String.eqb_spec v "0.3.0") as [-> | Hne].
    + by intros [= <-].
    + destruct (decide (v = "0.1.0")) as [-> | H1];
        [by rewrite lookup_insert_eq|].
      rewrite lookup_insert_ne by done.
      destruct (decide (v = "0.2.0")) as [-> | H2];
        [by rewrite lookup_insert_eq|].
      rewrite lookup_insert_ne by done. by rewrite lookup_empty.
Qed.

(** ** What an operation logs, and what it leaves alone *)

Section Effects.
Context {DT : DateTime}.

Lemma same_store_refl (env : Env) : same_store env env.
Proof. by repeat split. Qed.

Lemma same_store_trans (env1 env2 env3 : Env) :
  same_store env1 env2 -> same_store env2 env3 -> same_store env1 env3.
Proof.
  intros (H1 & H2 & H3 & H4) (K1 & K2 & K3 & K4).
  repeat split; congruence.
Qed.

Lemma same_store_record (e : event) (env : Env) :
  same_store env (record e env).
Proof. by repeat split. Qed.

Lemma emits_ret {A} (P : event -> bool) (a : A) : emits P (ret a).
Proof. intros env. exists []. by rewrite app_nil_r. Qed.

Lemma emits_raise {A} (P : event -> bool) (e : exn) : emits P (@raise DT A e).
Proof. intros env. exists []. by rewrite app_nil_r. Qed.

Lemma emits_lift {A} (P : event -> bool) (o : outcome A) : emits P (lift o).
Proof. intros env. exists []. by rewrite app_nil_r. Qed.

Lemma emits_datetime_now (P : event -> bool) : emits P datetime_now.
Proof. intros env. exists []. by rewrite app_nil_r. Qed.

Lemma emits_generate_id (P : event -> bool) : emits P generate_id.
Proof.
  intros env. exists []. unfold generate_id.
  destruct (generate_id_from _). by rewrite app_nil_r.
Qed.

Lemma emits_bind {A B} (P : event -> bool) (m : M A) (k : A -> M B) :
  emits P m -> (forall a, emits P (k a)) -> emits P (bind m k).
Proof.
  intros Hm Hk env. destruct (Hm env) as (evs1 & Hlog1 & HP1).
  unfold bind. destruct (m env) as [[a|e] env1]; cbn [snd] in *.
  - destruct (Hk a env1) as (evs2 & Hlog2 & HP2).
    exists (evs1 ++ evs2). rewrite Hlog2, Hlog1, app_assoc.
    split; [done|]. rewrite forallb_app. by rewrite HP1, HP2.
  - by exists evs1.
Qed.

Lemma emits_one {A} (P : event -> bool) (e : event) (m : M A) :
  P e = true ->
  (forall env, log (m env).2 = log env ++ [e]) ->
  emits P m.
Proof.
  intros HP Hm env. exists [e]. split; [done|]. cbn. by rewrite HP.
Qed.

Lemma emits_find (P : event -> bool) (c : DocumentCollection) (w : Where) :
  P (Find (at_slot c)) = true -> emits P (find c w).
Proof. intros HP. by apply (emits_one P (Find (at_slot c))). Qed.

Lemma emits_find_one (P : event -> bool) (c : DocumentCollection)
  (w : Where) :
  P (FindOne (at_slot c)) = true -> emits P (find_one c w).
Proof. intros HP. by apply (emits_one P (FindOne (at_slot c))). Qed.

Lemma emits_insert_one (P : event -> bool) (c : DocumentCollection)
  (d : Document) :
  P (InsertOne (at_slot c)) = true -> emits P (insert_one c d).
Proof.
  intros HP. apply (emits_one P (InsertOne (at_slot c))); [done|].
  intros env. unfold insert_one. by destruct (insert_one_in _ _).
Qed.

Lemma emits_update_one (P : event -> bool) (c : DocumentCollection)
  (w : Where) (params : Document) :
  P (UpdateOne (at_slot c)) = true -> emits P (update_one c w params).
Proof.
  intros HP. apply (emits_one P (UpdateOne (at_slot c))); [done|].
  intros env. by rewrite update_one_run.
Qed.

Lemma emits_delete_one (P : event -> bool) (c : DocumentCollection)
  (w : Where) :
  P (DeleteOne (at_slot c)) = true -> emits P (delete_one c w).
Proof.
  intros HP. apply (emits_one P (DeleteOne (at_slot c))); [done|].
  intros env. unfold delete_one. by destruct (delete_one_in _ _).
Qed.

Lemma emits_with_lock {A} (P : event -> bool) (l : lock_mode) (m : M A) :
  P (Acquire l) = true -> P (Release l) = true ->
  emits P m -> emits P (with_lock l m).
Proof.
  intros Ha Hr Hm env. rewrite with_lock_run. cbn [snd].
  destruct (Hm (record (Acquire l) env)) as (evs & Hlog & HP).
  exists (Acquire l :: evs ++ [Release l]).
  rewrite log_record, Hlog, log_record, <- !app_assoc. split; [done|].
  cbn [forallb]. rewrite Ha, forallb_app, HP. cbn. by rewrite Hr.
Qed.

Lemma emits_for_list {A B} (P : event -> bool) (xs : list A)
  (f : A -> M B) :
  (forall x, emits P (f x)) -> emits P (for_list xs f).
Proof.
  intros Hf. induction xs as [|x xs IH]; cbn [for_list].
  - apply emits_ret.
  - apply emits_bind; [apply Hf|]. intros y.
    apply emits_bind; [apply IH|]. intros ys. apply emits_ret.
Qed.

Lemma emits_for_each {A} (P : event -> bool) (xs : list A)
  (body : A -> M unit) :
  (forall x, emits P (body x)) -> emits P (for_each xs body).
Proof.
  intros Hf. induction xs as [|x xs IH]; cbn [for_each].
  - apply emits_ret.
  - apply emits_bind; [apply Hf|]. intros _. apply IH.
Qed.

Lemma emits_trace {A} (P : event -> bool) (m : M A) (env : Env) :
  emits P m -> forallb P (trace m env) = true.
Proof.
  intros Hm. destruct (Hm env) as (evs & Hlog & HP).
  unfold trace. by rewrite Hlog, drop_app_length.
Qed.

Lemma keeps_ret {A} (a : A) : keeps_store (ret a).
Proof. intros env. apply same_store_refl. Qed.

Lemma keeps_raise {A} (e : exn) : keeps_store (@raise DT A e).
Proof. intros env. apply same_store_refl. Qed.

Lemma keeps_lift {A} (o : outcome A) : keeps_store (lift o).
Proof. intros env. apply same_store_refl. Qed.

Lemma keeps_find (c : DocumentCollection) (w : Where) :
  keeps_store (find c w).
Proof. intros env. apply same_store_record. Qed.

Lemma keeps_find_one (c : DocumentCollection) (w : Where) :
  keeps_store (find_one c w).
Proof. intros env. apply same_store_record. Qed.

Lemma keeps_bind {A B} (m : M A) (k : A -> M B) :
  keeps_store m -> (forall a, keeps_store (k a)) -> keeps_store (bind m k).
Proof.
  intros Hm Hk env. pose proof (Hm env) as H1.
  unfold bind. destruct (m env) as [[a|e] env1]; cbn [snd] in *; [|done].
  eapply same_store_trans; [exact H1 | apply Hk].
Qed.

Lemma keeps_with_lock {A} (l : lock_mode) (m : M A) :
  keeps_store m -> keeps_store (with_lock l m).
Proof.
  intros Hm env. rewrite with_lock_run. cbn [snd].
  eapply same_store_trans; [apply same_store_record|].
  eapply same_store_trans; [apply Hm | apply same_store_record].
Qed.

Lemma keeps_for_list {A B} (xs : list A) (f : A -> M B) :
  (forall x, keeps_store (f x)) -> keeps_store (for_list xs f).
Proof.
  intros Hf. induction xs as [|x xs IH]; cbn [for_list].
  - apply keeps_ret.
  - apply keeps_bind; [apply Hf|]. intros y.
    apply keeps_bind; [apply IH|]. intros ys. apply keeps_ret.
Qed.
End Effects.

(** Decompose a store method into its steps, for [emits] and
    [keeps_store]. *)
Ltac effects :=
  unfold_collections;
  repeat first
    [ apply emits_ret | apply emits_raise | apply emits_lift
    | apply emits_datetime_now | apply emits_generate_id
    | apply emits_find; reflexivity | apply emits_find_one; reflexivity
    | apply emits_insert_one; reflexivity
    | apply emits_update_one; reflexivity
    | apply emits_delete_one; reflexivity
    | apply emits_with_lock; [reflexivity | reflexivity |]
    | apply emits_for_list; intros ?
    | apply emits_for_each; intros ?
    | apply emits_bind; [|intros ?]
    | apply keeps_ret | apply keeps_raise | apply keeps_lift
    | apply keeps_find | apply keeps_find_one
    | apply keeps_with_lock
    | apply keeps_for_list; intros ?
    | apply keeps_bind; [|intros ?]
    | match goal with
      | |- emits _ (match ?x with _ => _ end) => destruct x
      | |- keeps_store (match ?x with _ => _ end) => destruct x
      end
    | progress cbv zeta ].

Section ReadOnly.
Context {DT : DateTime}.

(** X5: the reads of the agent store are read-only.  [read_agent] and
    [list_agents], whatever they return or raise, leave both collections,
    the random source and the clock as they were, and do nothing but enter
    and leave reader scopes and read the collections: no writer scope, no
    insert, update or delete. *)
Theorem agent_reads_are_read_only (env : Env) (agent_id : string) :
  same_store env (Agents.read_agent agent_id env).2 /\
  forallb is_reader_event (trace (Agents.read_agent agent_id) env) = true /\
  same_store env (Agents.list_agents env).2 /\
  forallb is_reader_event (trace Agents.list_agents env) = true.
Proof.
  split; [|split; [|split]].
  - revert env. change (keeps_store (Agents.read_agent agent_id)).
    unfold Agents.read_agent. effects.
  - apply emits_trace. unfold Agents.read_agent. effects.
  - revert env. change (keeps_store Agents.list_agents).
    unfold Agents.list_agents. effects.
  - apply emits_trace. unfold Agents.list_agents. effects.
Qed.

(** X6: the reads of the guideline store are read-only.  [read_guideline],
    [find_guideline] and [list_guidelines] under any tag filter, whatever
    they return or raise, leave both collections, the random source and
    the clock as they were, and do nothing but enter and leave reader
    scopes and read the collections. *)
Theorem guideline_reads_are_read_only (env : Env) (guideline_id : string)
  (guideline_content : Guidelines.GuidelineContent)
  (tags : option (list string)) :
  (same_store env (Guidelines.read_guideline guideline_id env).2 /\
   forallb is_reader_event
     (trace (Guidelines.read_guideline guideline_id) env) = true) /\
  (same_store env (Guidelines.find_guideline guideline_content env).2 /\
   forallb is_reader_event
     (trace (Guidelines.find_guideline guideline_content) env) = true) /\
  (same_store env (Guidelines.list_guidelines tags env).2 /\
   forallb is_reader_event (trace (Guidelines.list_guidelines tags) env)
   = true).
Proof.
  split; [|split]; split.
  - revert env. change (keeps_store (Guidelines.read_guideline guideline_id)).
    unfold Guidelines.read_guideline. effects.
  - apply emits_trace. unfold Guidelines.read_guideline. effects.
  - revert env.
    change (keeps_store (Guidelines.find_guideline guideline_content)).
    unfold Guidelines.find_guideline. effects.
  - apply emits_trace. unfold Guidelines.find_guideline. effects.
  - revert env. change (keeps_store (Guidelines.list_guidelines tags)).
    unfold Guidelines.list_guidelines, Guidelines.guideline_ids_of. effects.
  - apply emits_trace.
    unfold Guidelines.list_guidelines, Guidelines.guideline_ids_of. effects.
Qed.
End ReadOnly.

(** ** Writes made in one writer scope *)

Section WriterSections.
Context {DT : DateTime}.

Lemma writer_section_trace {A} (body : M A) (env : Env) :
  emits is_collection_call body ->
  one_writer_section (trace (with_lock writer_lock body) env) = true.
Proof.
  intros Hbody. unfold trace. rewrite with_lock_run. cbn [snd].
  destruct (Hbody (record (Acquire writer_lock) env)) as (evs & Hlog & HP).
  rewrite log_record, Hlog, log_record, <- !app_assoc, drop_app_length.
  cbn [app]. apply one_writer_section_intro.
  apply Forall_forall. intros e He.
  rewrite forallb_forall in HP. apply list_elem_of_In, HP in He.
  by apply negb_true_iff in He.
Qed.

Lemma trace_bind_silent {A B} (m : M A) (k : A -> M B) (env : Env) :
  (forall a env', log (k a env').2 = log env') ->
  trace (bind m k) env = trace m env.
Proof.
  intros Hk. unfold trace, bind.
  destruct (m env) as [[a|e] env1]; cbn [snd]; [|done]. by rewrite Hk.
Qed.

(** X7: creating an entity and removing a tag are each one writer-lock
    critical section and nothing else.  In every run of [create_agent],
    [create_guideline] and the two [remove_tag] methods, whatever the
    arguments and whether the call returns or raises, the writer scope is
    entered first and left last, no other lock scope is entered, and every
    collection call (the insert of the primary record and of one
    association record per tag; the delete of the association record and
    the lookup that follows it) lies inside that scope. *)
Theorem create_and_remove_tag_are_one_writer_section (env : Env)
  (name : string) (description : option string)
  (creation_utc : option datetime) (max_engine_iterations : option Z)
  (composition_mode : option CompositionMode) (tags : option (list string))
  (condition action : string) (metadata : gmap string json)
  (enabled : bool) (entity_id tag_id : string) :
  one_writer_section
    (trace (Agents.create_agent name description creation_utc
              max_engine_iterations composition_mode tags) env) = true /\
  one_writer_section
    (trace (Guidelines.create_guideline condition action metadata
              creation_utc enabled tags) env) = true /\
  one_writer_section (trace (Agents.remove_tag entity_id tag_id) env)
  = true /\
  one_writer_section (trace (Guidelines.remove_tag entity_id tag_id) env)
  = true.
Proof.
  split; [|split; [|split]].
  - unfold Agents.create_agent. apply writer_section_trace. effects.
  - unfold Guidelines.create_guideline. apply writer_section_trace. effects.
  - unfold Agents.remove_tag. rewrite trace_bind_silent.
    + apply writer_section_trace. effects.
    + intros doc env'. by destruct (falsy doc).
  - unfold Guidelines.remove_tag. rewrite trace_bind_silent.
    + apply writer_section_trace. effects.
    + intros doc env'. by destruct (falsy doc).
Qed.
End WriterSections.

(** ** Operations on an entity that is not there *)

Lemma matches_WFields2 (f1 v1 f2 v2 : string) (d : Document) :
  matches (WFields [WEq f1 v1; WEq f2 v2]) d = true <->
  str_at d f1 = Some v1 /\ str_at d f2 = Some v2.
Proof.
  unfold WFields. cbn [matches List.forallb].
  rewrite !andb_true_iff, !bool_decide_eq_true. tauto.
Qed.

Lemma filter_WFields2 (f1 v1 f2 v2 : string) (docs : list Document) :
  filter (fun d => matches (WFields [WEq f1 v1; WEq f2 v2]) d) docs
  = filter (fun d => str_at d f1 = Some v1 /\ str_at d f2 = Some v2) docs.
Proof.
  apply list_filter_iff. intros d. rewrite <- matches_WFields2.
  by destruct (matches _ d).
Qed.

Section MissingEntity.
Context {DT : DateTime}.

Lemma read_agent_missing (env : Env) (agent_id : string) :
  stored agent_id (docs_of Primary env) = None ->
  Agents.read_agent agent_id env
  = (Raise (ItemNotFoundError agent_id),
     record (Release reader_lock)
       (record (FindOne Primary) (record (Acquire reader_lock) env))).
Proof.
  unfold stored. intros H. unfold Agents.read_agent.
  rewrite bind_with_lock, find_one_run. unfold_collections. env_simpl.
  unfold find_one_in. by rewrite H.
Qed.

Lemma read_guideline_missing (env : Env) (guideline_id : string) :
  stored guideline_id (docs_of Primary env) = None ->
  Guidelines.read_guideline guideline_id env
  = (Raise (ItemNotFoundError guideline_id),
     record (Release reader_lock)
       (record (FindOne Primary) (record (Acquire reader_lock) env))).
Proof.
  unfold stored. intros H. unfold Guidelines.read_guideline.
  rewrite bind_with_lock, find_one_run. unfold_collections. env_simpl.
  unfold find_one_in. by rewrite H.
Qed.

(** X8: reading what is not stored raises the not-found error.
    [read_agent] and [read_guideline] on an id no record carries raise
    [ItemNotFoundError] with that id; [find_guideline] for a content no
    record has raises it with the condition and the action run together as
    the id. *)
Theorem reads_of_missing_entity_raise_not_found (env : Env)
  (entity_id : string) (guideline_content : Guidelines.GuidelineContent) :
  stored entity_id (collection env) = None ->
  Forall
    (fun d =>
       ~ (str_at d "condition"
          = Some (Guidelines.condition guideline_content) /\
          str_at d "action" = Some (Guidelines.action guideline_content)))
    (collection env) ->
  (Agents.read_agent entity_id env).1
  = Raise (ItemNotFoundError entity_id) /\
  (Guidelines.read_guideline entity_id env).1
  = Raise (ItemNotFoundError entity_id) /\
  (Guidelines.find_guideline guideline_content env).1
  = Raise (ItemNotFoundError
             (Guidelines.condition guideline_content
              +:+ Guidelines.action guideline_content)).
Proof.
  rewrite !collection_docs_of. intros H Hcontent. split; [|split].
  - by rewrite (read_agent_missing _ _ H).
  - by rewrite (read_guideline_missing _ _ H).
  - unfold Guidelines.find_guideline.
    rewrite bind_with_lock, find_one_run. unfold_collections. env_simpl.
    unfold find_one_in. rewrite filter_WFields2, filter_none; done.
Qed.

(** X9: tagging an entity that is not stored writes nothing.  [upsert_tag]
    of either store, on an id no record carries, raises
    [ItemNotFoundError] with that id, and leaves both collections, the
    random source and the clock as they were: no association record is
    written and no id is drawn. *)
Theorem upsert_tag_of_missing_entity_writes_nothing (env : Env)
  (entity_id tag_id : string) (creation_utc : option datetime) :
  stored entity_id (collection env) = None ->
  ((Agents.upsert_tag entity_id tag_id creation_utc env).1
   = Raise (ItemNotFoundError entity_id) /\
   same_store env (Agents.upsert_tag entity_id tag_id creation_utc env).2) /\
  ((Guidelines.upsert_tag entity_id tag_id creation_utc env).1
   = Raise (ItemNotFoundError entity_id) /\
   same_store env
     (Guidelines.upsert_tag entity_id tag_id creation_utc env).2).
Proof.
  rewrite !collection_docs_of. intros H. split.
  - unfold Agents.upsert_tag.
    rewrite bind_with_lock, bind_run, read_agent_missing by done.
    by repeat split.
  - unfold Guidelines.upsert_tag.
    rewrite bind_with_lock, bind_run, read_guideline_missing by done.
    by repeat split.
Qed.

(** X10: the metadata methods look the guideline up before writing.
    [add_metadata] and [remove_metadata] on an id no record carries raise
    [ItemNotFoundError] with that id (and not the assertion failure of
    [update_guideline]) and leave the store as it was. *)
Theorem metadata_of_missing_guideline_raises_not_found (env : Env)
  (guideline_id : string) (metadata : gmap string json)
  (keys : list string) :
  stored guideline_id (collection env) = None ->
  ((Guidelines.add_metadata guideline_id metadata env).1
   = Raise (ItemNotFoundError guideline_id) /\
   same_store env (Guidelines.add_metadata guideline_id metadata env).2) /\
  ((Guidelines.remove_metadata guideline_id keys env).1
   = Raise (ItemNotFoundError guideline_id) /\
   same_store env (Guidelines.remove_metadata guideline_id keys env).2).
Proof.
  rewrite !collection_docs_of. unfold stored. intros H. split.
  - unfold Guidelines.add_metadata.
    rewrite bind_with_lock, bind_find_one. unfold_collections. env_simpl.
    unfold find_one_in. rewrite H. by repeat split.
  - unfold Guidelines.remove_metadata.
    rewrite bind_with_lock, bind_find_one. unfold_collections. env_simpl.
    unfold find_one_in. rewrite H. by repeat split.
Qed.
End MissingEntity.

(** ** Removing a tag *)

Lemma links_as_filter (field entity_id tag_id : string)
  (docs : list Document) :
  filter
    (fun d => matches (WFields [WEq field entity_id; WEq "tag_id" tag_id]) d)
    docs
  = links field entity_id tag_id docs.
Proof. apply filter_WFields2. Qed.

Lemma delete_one_in_split (w : Where) (before after : list Document)
  (d : Document) :
  Forall (fun d' => matches w d' = false) before ->
  matches w d = true ->
  delete_one_in w (before ++ d :: after)
  = ({| deleted_count := 1; deleted_document := Some d |}, before ++ after).
Proof.
  intros Hb Hd. induction Hb as [|b before Hmb _ IH]; cbn [app delete_one_in].
  - by rewrite Hd.
  - by rewrite Hmb, IH.
Qed.

Section RemoveTag.
Context {DT : DateTime}.

(** The shape the two [remove_tag] methods share: [associations] and
    [primary] are the store's collections, [field] its entity-id field. *)
Lemma remove_tag_without_link (loader_a loader_p : Loader)
  (field entity_id tag_id : string) (env : Env) :
  links field entity_id tag_id (docs_of TagAssociations env) = [] ->
  bind
    (with_lock writer_lock
       (bind
          (delete_one
             {| at_slot := TagAssociations; document_loader := loader_a |}
             (WFields [WEq field entity_id; WEq "tag_id" tag_id]))
          (fun delete_result =>
             if Nat.eqb (deleted_count delete_result) 0
             then raise (ItemNotFoundError tag_id)
             else find_one
                    {| at_slot := Primary; document_loader := loader_p |}
                    (WEq "id" entity_id))))
    (fun document =>
       if falsy document then raise (ItemNotFoundError entity_id)
       else ret tt) env
  = (Raise (ItemNotFoundError tag_id),
     record (Release writer_lock)
       (with_docs TagAssociations (docs_of TagAssociations env)
          (record (DeleteOne TagAssociations)
             (record (Acquire writer_lock) env)))).
Proof.
  intros Hlinks. rewrite bind_with_lock, bind_delete_one.
  cbn [at_slot]. env_simpl.
  rewrite delete_one_in_absent by (by rewrite links_as_filter, Hlinks).
  cbn [fst snd deleted_count Nat.eqb]. by rewrite raise_run.
Qed.

Lemma remove_tag_with_link (loader_a loader_p : Loader)
  (field entity_id tag_id : string) (env : Env)
  (before after : list Document) (link : Document) :
  docs_of TagAssociations env = before ++ link :: after ->
  links field entity_id tag_id before = [] ->
  str_at link field = Some entity_id ->
  str_at link "tag_id" = Some tag_id ->
  bind
    (with_lock writer_lock
       (bind
          (delete_one
             {| at_slot := TagAssociations; document_loader := loader_a |}
             (WFields [WEq field entity_id; WEq "tag_id" tag_id]))
          (fun delete_result =>
             if Nat.eqb (deleted_count delete_result) 0
             then raise (ItemNotFoundError tag_id)
             else find_one
                    {| at_slot := Primary; document_loader := loader_p |}
                    (WEq "id" entity_id))))
    (fun document =>
       if falsy document then raise (ItemNotFoundError entity_id)
       else ret tt) env
  = (match find_one_in loader_p (WEq "id" entity_id) (docs_of Primary env)
     with
     | Return document =>
         if falsy document then Raise (ItemNotFoundError entity_id)
         else Return tt
     | Raise e => Raise e
     end,
     record (Release writer_lock)
       (record (FindOne Primary)
          (with_docs TagAssociations (before ++ after)
             (record (DeleteOne TagAssociations)
                (record (Acquire writer_lock) env))))).
Proof.
  intros Hdocs Hbefore Hfield Htag.
  rewrite bind_with_lock, bind_delete_one. cbn [at_slot]. env_simpl.
  rewrite Hdocs, delete_one_in_split.
  2:{ apply Forall_forall. intros d Hd.
      destruct (matches _ d) eqn:E; [|done].
      apply matches_WFields2 in E.
      assert (d ∈ links field entity_id tag_id before) as Hin
        by (by apply list_elem_of_filter).
      rewrite Hbefore in Hin. by apply elem_of_nil in Hin. }
  2:{ by apply matches_WFields2. }
  cbn [fst snd deleted_count Nat.eqb]. rewrite find_one_run.
  cbn [at_slot document_loader]. env_simpl.
  by destruct (find_one_in _ _ _) as [doc|e]; [destruct (falsy doc)|].
Qed.

Lemma find_one_in_by_id (loader : Loader) (i : string)
  (docs : list Document) :
  Forall (fun d => loader d = Return (Some d)) docs ->
  match find_one_in loader (WEq "id" i) docs with
  | Return document =>
      if falsy document then Raise (ItemNotFoundError i) else Return tt
  | Raise e => Raise e
  end
  = match stored i docs with
    | Some _ => Return tt
    | None => Raise (ItemNotFoundError i)
    end.
Proof.
  intros Hload. unfold find_one_in.
  fold (stored i docs). destruct (stored i docs) as [d|] eqn:Hd; [|done].
  rewrite Forall_forall in Hload. rewrite Hload.
  - by rewrite (stored_not_falsy _ _ _ Hd).
  - unfold stored in Hd. apply head_Some_elem_of in Hd.
    by apply list_elem_of_filter in Hd as [_ Hd].
Qed.

Lemma agent_remove_tag_removes_link (env : Env) (i t : string)
  (before after : list Document) (link : Document) :
  Forall (fun d => str_at d "version" = Some Agents.VERSION)
    (collection env) ->
  tag_association_collection env = before ++ link :: after ->
  links "agent_id" i t before = [] ->
  str_at link "agent_id" = Some i ->
  str_at link "tag_id" = Some t ->
  (Agents.remove_tag i t env).1
  = match stored i (collection env) with
    | Some _ => Return tt
    | None => Raise (ItemNotFoundError i)
    end /\
  collection (Agents.remove_tag i t env).2 = collection env /\
  tag_association_collection (Agents.remove_tag i t env).2 = before ++ after.
Proof.
  rewrite !collection_docs_of, !tag_association_collection_docs_of.
  intros Hver Hdocs Hbefore Hfield Htag.
  unfold Agents.remove_tag. unfold_collections.
  rewrite (remove_tag_with_link _ _ _ _ _ _ _ _ _ Hdocs Hbefore Hfield Htag).
  cbn [fst snd]. env_simpl. split; [|done].
  apply find_one_in_by_id.
  eapply Forall_impl; [exact Hver|]. intros d. apply agent_loader_current.
Qed.

Lemma guideline_remove_tag_removes_link (env : Env) (i t : string)
  (before after : list Document) (link : Document) :
  Forall (fun d => str_at d "version" = Some Guidelines.VERSION)
    (collection env) ->
  tag_association_collection env = before ++ link :: after ->
  links "guideline_id" i t before = [] ->
  str_at link "guideline_id" = Some i ->
  str_at link "tag_id" = Some t ->
  (Guidelines.remove_tag i t env).1
  = match stored i (collection env) with
    | Some _ => Return tt
    | None => Raise (ItemNotFoundError i)
    end /\
  collection (Guidelines.remove_tag i t env).2 = collection env /\
  tag_association_collection (Guidelines.remove_tag i t env).2
  = before ++ after.
Proof.
  rewrite !collection_docs_of, !tag_association_collection_docs_of.
  intros Hver Hdocs Hbefore Hfield Htag.
  unfold Guidelines.remove_tag. unfold_collections.
  rewrite (remove_tag_with_link _ _ _ _ _ _ _ _ _ Hdocs Hbefore Hfield Htag).
  cbn [fst snd]. env_simpl. split; [|done].
  apply find_one_in_by_id.
  eapply Forall_impl; [exact Hver|]. intros d. apply guideline_loader_current.
Qed.

(** X11: removing a tag the entity is not linked to.  When no association
    record links the entity to the tag, [remove_tag] of either store
    raises [ItemNotFoundError] carrying the id of the tag (also when the
    entity itself is not stored) and leaves the store as it was. *)
Theorem remove_tag_without_link_raises_for_the_tag (agents guidelines : Env)
  (agent_id guideline_id tag_id : string) :
  links "agent_id" agent_id tag_id (tag_association_collection agents) = [] ->
  links "guideline_id" guideline_id tag_id
    (tag_association_collection guidelines) = [] ->
  ((Agents.remove_tag agent_id tag_id agents).1
   = Raise (ItemNotFoundError tag_id) /\
   same_store agents (Agents.remove_tag agent_id tag_id agents).2) /\
  ((Guidelines.remove_tag guideline_id tag_id guidelines).1
   = Raise (ItemNotFoundError tag_id) /\
   same_store guidelines
     (Guidelines.remove_tag guideline_id tag_id guidelines).2).
Proof.
  rewrite !tag_association_collection_docs_of. intros Ha Hg. split.
  - unfold Agents.remove_tag. unfold_collections.
    rewrite remove_tag_without_link by done. split; [done|].
    unfold same_store.
    rewrite !collection_docs_of, !tag_association_collection_docs_of.
    cbn [snd]. by env_simpl.
  - unfold Guidelines.remove_tag. unfold_collections.
    rewrite remove_tag_without_link by done. split; [done|].
    unfold same_store.
    rewrite !collection_docs_of, !tag_association_collection_docs_of.
    cbn [snd]. by env_simpl.
Qed.

(** X12: [remove_tag] deletes one association record, the first that
    links the entity to the tag, and nothing else: the other association
    records stay, in order, and the primary collection is untouched.  The
    call returns when the entity is stored.  When it is not, the link is
    deleted all the same and the call then raises [ItemNotFoundError] with
    the id of the entity: the delete is not undone. *)
Theorem remove_tag_deletes_the_first_link (agents guidelines : Env)
  (agent_id guideline_id agent_tag guideline_tag : string)
  (before after before' after' : list Document) (link link' : Document) :
  Forall (fun d => str_at d "version" = Some Agents.VERSION)
    (collection agents) ->
  tag_association_collection agents = before ++ link :: after ->
  links "agent_id" agent_id agent_tag before = [] ->
  str_at link "agent_id" = Some agent_id ->
  str_at link "tag_id" = Some agent_tag ->
  Forall (fun d => str_at d "version" = Some Guidelines.VERSION)
    (collection guidelines) ->
  tag_association_collection guidelines = before' ++ link' :: after' ->
  links "guideline_id" guideline_id guideline_tag before' = [] ->
  str_at link' "guideline_id" = Some guideline_id ->
  str_at link' "tag_id" = Some guideline_tag ->
  ((Agents.remove_tag agent_id agent_tag agents).1
   = match stored agent_id (collection agents) with
     | Some _ => Return tt
     | None => Raise (ItemNotFoundError agent_id)
     end /\
   collection (Agents.remove_tag agent_id agent_tag agents).2
   = collection agents /\
   tag_association_collection (Agents.remove_tag agent_id agent_tag agents).2
   = before ++ after) /\
  ((Guidelines.remove_tag guideline_id guideline_tag guidelines).1
   = match stored guideline_id (collection guidelines) with
     | Some _ => Return tt
     | None => Raise (ItemNotFoundError guideline_id)
     end /\
   collection (Guidelines.remove_tag guideline_id guideline_tag guidelines).2
   = collection guidelines /\
   tag_association_collection
     (Guidelines.remove_tag guideline_id guideline_tag guidelines).2
   = before' ++ after').
Proof.
  intros. split.
  - by apply (agent_remove_tag_removes_link _ _ _ _ _ link).
  - by apply (guideline_remove_tag_removes_link _ _ _ _ _ link').
Qed.
End RemoveTag.

(** ** Tagging and untagging *)

Section UpsertRemove.
Context {DT : DateTime}.

Lemma read_agent_stored (env : Env) (i : string) (a : Agents.Agent) :
  Forall (fun d => str_at d "version" = Some Agents.VERSION)
    (collection env) ->
  (Agents.read_agent i env).1 = Return a ->
  exists d, stored i (collection env) = Some d /\
            (Agents._deserialize_agent d
               (record (Release reader_lock)
                  (record (FindOne Primary)
                     (record (Acquire reader_lock) env)))).1 = Return a.
Proof.
  rewrite collection_docs_of. intros Hver Hread.
  destruct (read_agent_inv _ _ _ Hread) as (d & Hfind & _ & Hdes).
  exists d. split; [|done].
  eapply stored_through_loader; [|exact Hfind].
  eapply Forall_impl; [exact Hver|]. intros d0. apply agent_loader_current.
Qed.

Lemma read_guideline_stored (env : Env) (i : string)
  (g : Guidelines.Guideline) :
  Forall (fun d => str_at d "version" = Some Guidelines.VERSION)
    (collection env) ->
  (Guidelines.read_guideline i env).1 = Return g ->
  exists d, stored i (collection env) = Some d /\
            (Guidelines._deserialize d
               (record (Release reader_lock)
                  (record (FindOne Primary)
                     (record (Acquire reader_lock) env)))).1 = Return g.
Proof.
  rewrite collection_docs_of. intros Hver Hread.
  destruct (read_guideline_inv _ _ _ Hread) as (d & Hfind & _ & Hdes).
  exists d. split; [|done].
  eapply stored_through_loader; [|exact Hfind].
  eapply Forall_impl; [exact Hver|]. intros d0.
  apply guideline_loader_current.
Qed.

Lemma agent_upsert_then_remove (env : Env) (i tag : string)
  (c : option datetime) (a : Agents.Agent) (new_id : string)
  (rest : list string) :
  well_kept Agents.VERSION env ->
  (Agents.read_agent i env).1 = Return a ->
  tag ∉ Agents.tags a ->
  generate_id_from (nanoid_outputs env) = (Return new_id, rest) ->
  Forall (fun d => str_at d "id" <> Some new_id)
    (tag_association_collection env) ->
  (Agents.upsert_tag i tag c env).1 = Return true /\
  (Agents.remove_tag i tag (Agents.upsert_tag i tag c env).2).1
  = Return tt /\
  collection (Agents.remove_tag i tag (Agents.upsert_tag i tag c env).2).2
  = collection env /\
  tag_association_collection
    (Agents.remove_tag i tag (Agents.upsert_tag i tag c env).2).2
  = tag_association_collection env.
Proof.
  intros Hkept Hread Htag Hgen Hfresh.
  destruct (agent_upsert_tag_new env i tag c a new_id rest
              Hread Htag Hgen Hfresh) as (Hr & Hprim & Hassoc).
  split; [done|].
  pose proof Hkept as (_ & Hver & _ & _).
  destruct (read_agent_stored env i a Hver Hread) as (d & Hd & _).
  destruct (agent_association_fields new_id (default (utc_now env) c) i tag)
    as (_ & _ & Fagent & Ftag).
  destruct (agent_remove_tag_removes_link
              (Agents.upsert_tag i tag c env).2 i tag
              (tag_association_collection env) []
              (Agents.association_document new_id
                 (default (utc_now env) c) i tag))
    as (Hres & Hprim' & Hassoc'); try done.
  - by rewrite Hprim.
  - by eapply agent_links_of_missing_tag.
  - rewrite Hres, Hprim', Hassoc', Hprim, Hd, app_nil_r. done.
Qed.

Lemma guideline_upsert_then_remove (env : Env) (i tag : string)
  (c : option datetime) (g : Guidelines.Guideline) (new_id : string)
  (rest : list string) :
  well_kept Guidelines.VERSION env ->
  (Guidelines.read_guideline i env).1 = Return g ->
  tag ∉ Guidelines.tags g ->
  generate_id_from (nanoid_outputs env) = (Return new_id, rest) ->
  Forall (fun d => str_at d "id" <> Some new_id)
    (tag_association_collection env) ->
  (Guidelines.upsert_tag i tag c env).1 = Return true /\
  (Guidelines.remove_tag i tag (Guidelines.upsert_tag i tag c env).2).1
  = Return tt /\
  collection
    (Guidelines.remove_tag i tag (Guidelines.upsert_tag i tag c env).2).2
  = collection env /\
  tag_association_collection
    (Guidelines.remove_tag i tag (Guidelines.upsert_tag i tag c env).2).2
  = tag_association_collection env.
Proof.
  intros Hkept Hread Htag Hgen Hfresh.
  destruct (guideline_upsert_tag_new env i tag c g new_id rest
              Hread Htag Hgen Hfresh) as (Hr & Hprim & Hassoc).
  split; [done|].
  pose proof Hkept as (_ & Hver & _ & _).
  destruct (read_guideline_stored env i g Hver Hread) as (d & Hd & _).
  destruct (guideline_association_fields new_id (default (utc_now env) c)
              i tag) as (_ & _ & Fg & Ftag).
  destruct (guideline_remove_tag_removes_link
              (Guidelines.upsert_tag i tag c env).2 i tag
              (tag_association_collection env) []
              (Guidelines.association_document new_id
                 (default (utc_now env) c) i tag))
    as (Hres & Hprim' & Hassoc'); try done.
  - by rewrite Hprim.
  - by eapply guideline_links_of_missing_tag.
  - rewrite Hres, Hprim', Hassoc', Hprim, Hd, app_nil_r. done.
Qed.

(** X13: [upsert_tag] followed by [remove_tag] is a round trip.  For an
    entity the store holds and a tag it does not have, in a well-kept
    store where the id generator gives a fresh id, tagging returns [true],
    untagging then returns, and both collections are again exactly what
    they were before the two calls.  This holds in the agent store and in
    the guideline store. *)
Theorem upsert_tag_then_remove_tag_restores_the_store
  (agents guidelines : Env) (agent_id guideline_id tag_id : string)
  (c : option datetime) (a : Agents.Agent) (g : Guidelines.Guideline)
  (agent_link guideline_link : string) (rest rest' : list string) :
  well_kept Agents.VERSION agents ->
  (Agents.read_agent agent_id agents).1 = Return a ->
  tag_id ∉ Agents.tags a ->
  generate_id_from (nanoid_outputs agents) = (Return agent_link, rest) ->
  Forall (fun d => str_at d "id" <> Some agent_link)
    (tag_association_collection agents) ->
  well_kept Guidelines.VERSION guidelines ->
  (Guidelines.read_guideline guideline_id guidelines).1 = Return g ->
  tag_id ∉ Guidelines.tags g ->
  generate_id_from (nanoid_outputs guidelines)
  = (Return guideline_link, rest') ->
  Forall (fun d => str_at d "id" <> Some guideline_link)
    (tag_association_collection guidelines) ->
  ((Agents.upsert_tag agent_id tag_id c agents).1 = Return true /\
   (Agents.remove_tag agent_id tag_id
      (Agents.upsert_tag agent_id tag_id c agents).2).1 = Return tt /\
   collection
     (Agents.remove_tag agent_id tag_id
        (Agents.upsert_tag agent_id tag_id c agents).2).2
   = collection agents /\
   tag_association_collection
     (Agents.remove_tag agent_id tag_id
        (Agents.upsert_tag agent_id tag_id c agents).2).2
   = tag_association_collection agents) /\
  ((Guidelines.upsert_tag guideline_id tag_id c guidelines).1
   = Return true /\
   (Guidelines.remove_tag guideline_id tag_id
      (Guidelines.upsert_tag guideline_id tag_id c guidelines).2).1
   = Return tt /\
   collection
     (Guidelines.remove_tag guideline_id tag_id
        (Guidelines.upsert_tag guideline_id tag_id c guidelines).2).2
   = collection guidelines /\
   tag_association_collection
     (Guidelines.remove_tag guideline_id tag_id
        (Guidelines.upsert_tag guideline_id tag_id c guidelines).2).2
   = tag_association_collection guidelines).
Proof.
  intros. split.
  - by eapply agent_upsert_then_remove.
  - by eapply guideline_upsert_then_remove.
Qed.
End UpsertRemove.

(** ** Reading after a tag was removed *)

Lemma collect_app_inv {A B} (f : A -> outcome B) (xs ys : list A)
  (zs : list B) :
  collect f (xs ++ ys) = Return zs ->
  exists zx zy,
    collect f xs = Return zx /\ collect f ys = Return zy /\ zs = zx ++ zy.
Proof.
  revert zs. induction xs as [|x xs IH]; intros zs; cbn [app collect].
  - intros H. by exists [], zs.
  - destruct (f x) as [y|e]; [|done].
    destruct (collect f (xs ++ ys)) as [zs'|e] eqn:E; [|done].
    intros [= <-]. destruct (IH zs' eq_refl) as (zx & zy & -> & Hy & ->).
    by exists (y :: zx), zy.
Qed.

Lemma collect_app_intro {A B} (f : A -> outcome B) (xs ys : list A)
  (zx zy : list B) :
  collect f xs = Return zx -> collect f ys = Return zy ->
  collect f (xs ++ ys) = Return (zx ++ zy).
Proof.
  revert zx. induction xs as [|x xs IH]; intros zx; cbn [app collect].
  - by intros [= <-].
  - destruct (f x) as [y|e]; [|done].
    destruct (collect f xs) as [zx'|e] eqn:E; [|done].
    intros [= <-] Hy. by rewrite (IH zx' eq_refl Hy).
Qed.

Lemma collect_elem_inv {A B} (f : A -> outcome B) (xs : list A)
  (ys : list B) (y : B) :
  collect f xs = Return ys -> y ∈ ys ->
  exists x, x ∈ xs /\ f x = Return y.
Proof.
  intros Hc Hy. apply collect_Forall2 in Hc.
  destruct (Forall2_elem_r _ _ _ _ Hc Hy) as (x & Hx & Hf). eauto.
Qed.

Lemma filter_first_split {A} (P : A -> Prop) `{forall x, Decision (P x)}
  (l : list A) (x : A) :
  x ∈ filter P l ->
  exists before y after,
    l = before ++ y :: after /\ filter P before = [] /\ P y.
Proof.
  induction l as [|a l IH]; [by intros ?%elem_of_nil|].
  destruct (decide (P a)) as [Ha|Ha].
  - intros _. by exists [], a, l.
  - rewrite filter_cons_False by done. intros Hx.
    destruct (IH Hx) as (before & y & after & -> & Hb & Hy).
    exists (a :: before), y, after.
    by rewrite filter_cons_False, Hb.
Qed.

Section ReadAfterRemove.
Context {DT : DateTime}.

Lemma agent_remove_tag_then_read (env : Env) (i tag : string)
  (a : Agents.Agent) :
  well_kept Agents.VERSION env ->
  (Agents.read_agent i env).1 = Return a ->
  tag ∈ Agents.tags a ->
  (Agents.remove_tag i tag env).1 = Return tt /\
  exists earlier later,
    Agents.tags a = earlier ++ tag :: later /\
    (tag ∉ earlier) /\
    (Agents.read_agent i (Agents.remove_tag i tag env).2).1
    = Return (agent_with_tags (earlier ++ later) a).
Proof.
  intros (_ & Hver & _ & Hassoc) Hread Htag.
  destruct (read_agent_stored env i a Hver Hread) as (d & Hd & Hdes).
  destruct (deserialize_agent_tags _ _ _ Hdes) as (Hid & docs & Hf & Hc).
  assert (Agents.id a = i) as Hi
    by (apply stored_has_id in Hd; congruence).
  rewrite Hi in Hf.
  assert (Hload : Forall
            (fun d => Agents._association_document_loader d = Return (Some d))
            (tag_association_collection env)).
  { eapply Forall_impl; [exact Hassoc|]. intros d0 [_ Hd0].
    by apply agent_association_loader_current. }
  revert Hf. env_simpl. rewrite <- tag_association_collection_docs_of.
  rewrite find_in_identity by done. intros [= <-].
  destruct (collect_elem_inv _ _ _ _ Hc Htag) as (x & Hx & Hxt).
  apply get_str_Return in Hxt.
  apply list_elem_of_filter in Hx as [Hxa Hx].
  cbn [matches] in Hxa. apply bool_decide_unpack in Hxa.
  assert (x ∈ links "agent_id" i tag (tag_association_collection env)) as Hl
    by (by apply list_elem_of_filter).
  destruct (filter_first_split _ _ _ Hl)
    as (before & link & after & Hsplit & Hb & Hla & Hlt).
  fold (links "agent_id" i tag before) in Hb.
  destruct (agent_remove_tag_removes_link env i tag before after link
              Hver Hsplit Hb Hla Hlt) as (Hres & Hprim & Hassoc').
  rewrite Hd in Hres. split; [done|].
  rewrite Hsplit, filter_app in Hc.
  rewrite filter_cons_True in Hc
    by (cbn [matches]; by apply bool_decide_pack).
  apply collect_app_inv in Hc as (earlier & rest & Hce & Hcr & Htags).
  cbn [collect] in Hcr. rewrite (get_str_str_at _ _ _ Hlt) in Hcr.
  destruct (collect _ (filter _ after)) as [later|] eqn:Hcl; [|done].
  injection Hcr as <-.
  exists earlier, later. split; [done|]. split.
  - intros Hin.
    destruct (collect_elem_inv _ _ _ _ Hce Hin) as (y & Hy & Hyt).
    apply get_str_Return in Hyt.
    apply list_elem_of_filter in Hy as [Hya Hy].
    cbn [matches] in Hya. apply bool_decide_unpack in Hya.
    assert (y ∈ links "agent_id" i tag before) as Hyl
      by (by apply list_elem_of_filter).
    rewrite Hb in Hyl. by apply elem_of_nil in Hyl.
  - set (env' := (Agents.remove_tag i tag env).2) in *.
    rewrite (read_agent_found env' i d).
    + eapply deserialize_agent_retag; [exact Hdes| |].
      * env_simpl. rewrite <- tag_association_collection_docs_of.
        rewrite Hassoc', Hi. apply find_in_identity.
        rewrite Hsplit in Hload.
        apply Forall_app in Hload as [Hlb Hla'].
        apply Forall_cons in Hla' as [_ Hla'].
        by apply Forall_app.
      * rewrite filter_app. by apply collect_app_intro.
    + rewrite <- collection_docs_of, Hprim. unfold find_one_in.
      fold (stored i (collection env)). rewrite Hd.
      apply agent_loader_current.
      rewrite Forall_forall in Hver. apply Hver.
      unfold stored in Hd. apply head_Some_elem_of in Hd.
      by apply list_elem_of_filter in Hd as [_ Hd].
    + by eapply stored_not_falsy.
Qed.
Lemma guideline_remove_tag_then_read (env : Env) (i tag : string)
  (a : Guidelines.Guideline) :
  well_kept Guidelines.VERSION env ->
  (Guidelines.read_guideline i env).1 = Return a ->
  tag ∈ Guidelines.tags a ->
  (Guidelines.remove_tag i tag env).1 = Return tt /\
  exists earlier later,
    Guidelines.tags a = earlier ++ tag :: later /\
    (tag ∉ earlier) /\
    (Guidelines.read_guideline i (Guidelines.remove_tag i tag env).2).1
    = Return (guideline_with_tags (earlier ++ later) a).
Proof.
  intros (_ & Hver & _ & Hassoc) Hread Htag.
  destruct (read_guideline_stored env i a Hver Hread) as (d & Hd & Hdes).
  destruct (deserialize_guideline_tags _ _ _ Hdes) as (Hid & docs & Hf & Hc).
  assert (Guidelines.id a = i) as Hi
    by (apply stored_has_id in Hd; congruence).
  rewrite Hi in Hf.
  assert (Hload : Forall
            (fun d => Guidelines._association_document_loader d = Return (Some d))
            (tag_association_collection env)).
  { eapply Forall_impl; [exact Hassoc|]. intros d0 [_ Hd0].
    by apply guideline_association_loader_current. }
  revert Hf. env_simpl. rewrite <- tag_association_collection_docs_of.
  rewrite find_in_identity by done. intros [= <-].
  destruct (collect_elem_inv _ _ _ _ Hc Htag) as (x & Hx & Hxt).
  apply get_str_Return in Hxt.
  apply list_elem_of_filter in Hx as [Hxa Hx].
  cbn [matches] in Hxa. apply bool_decide_unpack in Hxa.
  assert (x ∈ links "guideline_id" i tag (tag_association_collection env)) as Hl
    by (by apply list_elem_of_filter).
  destruct (filter_first_split _ _ _ Hl)
    as (before & link & after & Hsplit & Hb & Hla & Hlt).
  fold (links "guideline_id" i tag before) in Hb.
  destruct (guideline_remove_tag_removes_link env i tag before after link
              Hver Hsplit Hb Hla Hlt) as (Hres & Hprim & Hassoc').
  rewrite Hd in Hres. split; [done|].
  rewrite Hsplit, filter_app in Hc.
  rewrite filter_cons_True in Hc
    by (cbn [matches]; by apply bool_decide_pack).
  apply collect_app_inv in Hc as (earlier & rest & Hce & Hcr & Htags).
  cbn [collect] in Hcr. rewrite (get_str_str_at _ _ _ Hlt) in Hcr.
  destruct (collect _ (filter _ after)) as [later|] eqn:Hcl; [|done].
  injection Hcr as <-.
  exists earlier, later. split; [done|]. split.
  - intros Hin.
    destruct (collect_elem_inv _ _ _ _ Hce Hin) as (y & Hy & Hyt).
    apply get_str_Return in Hyt.
    apply list_elem_of_filter in Hy as [Hya Hy].
    cbn [matches] in Hya. apply bool_decide_unpack in Hya.
    assert (y ∈ links "guideline_id" i tag before) as Hyl
      by (by apply list_elem_of_filter).
    rewrite Hb in Hyl. by apply elem_of_nil in Hyl.
  - set (env' := (Guidelines.remove_tag i tag env).2) in *.
    rewrite (read_guideline_found env' i d).
    + eapply deserialize_guideline_retag; [exact Hdes| |].
      * env_simpl. rewrite <- tag_association_collection_docs_of.
        rewrite Hassoc', Hi. apply find_in_identity.
        rewrite Hsplit in Hload.
        apply Forall_app in Hload as [Hlb Hla'].
        apply Forall_cons in Hla' as [_ Hla'].
        by apply Forall_app.
      * rewrite filter_app. by apply collect_app_intro.
    + rewrite <- collection_docs_of, Hprim. unfold find_one_in.
      fold (stored i (collection env)). rewrite Hd.
      apply guideline_loader_current.
      rewrite Forall_forall in Hver. apply Hver.
      unfold stored in Hd. apply head_Some_elem_of in Hd.
      by apply list_elem_of_filter in Hd as [_ Hd].
    + by eapply stored_not_falsy.
Qed.

(** X14: reading after [remove_tag].  For an entity the store holds that
    has the tag, in a well-kept store, [remove_tag] returns, and reading
    the entity afterwards gives the same entity with the first occurrence
    of the tag taken out of its tag list: the other tags stay, in their
    order.  This holds in the agent store and in the guideline store. *)
Theorem remove_tag_then_read_drops_the_tag (agents guidelines : Env)
  (agent_id guideline_id agent_tag guideline_tag : string) (a : Agents.Agent)
  (g : Guidelines.Guideline) :
  well_kept Agents.VERSION agents ->
  (Agents.read_agent agent_id agents).1 = Return a ->
  agent_tag ∈ Agents.tags a ->
  well_kept Guidelines.VERSION guidelines ->
  (Guidelines.read_guideline guideline_id guidelines).1 = Return g ->
  guideline_tag ∈ Guidelines.tags g ->
  ((Agents.remove_tag agent_id agent_tag agents).1 = Return tt /\
   exists earlier later,
     Agents.tags a = earlier ++ agent_tag :: later /\
     (agent_tag ∉ earlier) /\
     (Agents.read_agent agent_id
        (Agents.remove_tag agent_id agent_tag agents).2).1
     = Return (agent_with_tags (earlier ++ later) a)) /\
  ((Guidelines.remove_tag guideline_id guideline_tag guidelines).1 = Return tt /\
   exists earlier later,
     Guidelines.tags g = earlier ++ guideline_tag :: later /\
     (guideline_tag ∉ earlier) /\
     (Guidelines.read_guideline guideline_id
        (Guidelines.remove_tag guideline_id guideline_tag guidelines).2).1
     = Return (guideline_with_tags (earlier ++ later) g)).
Proof.
  intros. split.
  - by apply agent_remove_tag_then_read.
  - by apply guideline_remove_tag_then_read.
Qed.
End ReadAfterRemove.

(** ** Deleting an entity that is not there *)

Lemma filter_ext_elem {A} (P Q : A -> Prop) `{forall x, Decision (P x)}
  `{forall x, Decision (Q x)} (l : list A) :
  (forall x, x ∈ l -> (P x <-> Q x)) -> filter P l = filter Q l.
Proof.
  induction l as [|a l IH]; intros Hl; [done|].
  assert (filter P l = filter Q l) as Hrec
    by (apply IH; intros x Hx; apply Hl; by right).
  destruct (decide (P a)) as [Ha|Ha].
  - rewrite !filter_cons_True, Hrec; [done| |done]. apply Hl; [by left|done].
  - rewrite !filter_cons_False, Hrec; [done| |done].
    intros HQ. apply Ha, Hl; [by left|done].
Qed.

Lemma NoDup_fmap_elem_inj {A B} (f : A -> B) (l : list A) (x y : A) :
  NoDup (f <$> l) -> x ∈ l -> y ∈ l -> f x = f y -> x = y.
Proof.
  induction l as [|a l IH]; [by intros _ ?%elem_of_nil|].
  rewrite fmap_cons. intros [Ha Hl]%NoDup_cons Hx Hy Hf.
  apply elem_of_cons in Hx as [-> | Hx]; apply elem_of_cons in Hy as [-> | Hy].
  - done.
  - destruct Ha. rewrite Hf. by apply (list_elem_of_fmap_2 f).
  - destruct Ha. rewrite <- Hf. by apply (list_elem_of_fmap_2 f).
  - by apply IH.
Qed.

(** With unique ids, deleting by id the records found for an entity
    removes exactly the records that refer to the entity. *)
Lemma cascade_removes_by_field (field entity_id : string)
  (associations : list Document) :
  NoDup ((fun d => str_at d "id") <$> associations) ->
  filter
    (fun d =>
       str_at d "id"
       ∉ (fun t => str_at t "id")
         <$> filter (fun d => matches (WEq field entity_id) d) associations)
    associations
  = filter (fun d => str_at d field <> Some entity_id) associations.
Proof.
  intros Hnd. apply filter_ext_elem. intros d Hd. split.
  - intros Hnot Hfield. apply Hnot.
    apply (list_elem_of_fmap_2 (fun t => str_at t "id")).
    apply list_elem_of_filter. split; [|done].
    cbn [matches]. by apply bool_decide_pack.
  - intros Hfield Hin.
    apply list_elem_of_fmap in Hin as (t & Hid & Ht).
    apply list_elem_of_filter in Ht as [Hm Ht].
    cbn [matches] in Hm. apply bool_decide_unpack in Hm.
    assert (d = t) as ->
      by (by eapply (NoDup_fmap_elem_inj (fun d => str_at d "id"))).
    done.
Qed.

Section DeleteMissing.
Context {DT : DateTime}.

Lemma delete_agent_missing (env : Env) (agent_id : string) :
  well_kept Agents.VERSION env ->
  stored agent_id (collection env) = None ->
  (Agents.delete_agent agent_id env).1
  = Raise (ItemNotFoundError agent_id) /\
  collection (Agents.delete_agent agent_id env).2 = collection env /\
  tag_association_collection (Agents.delete_agent agent_id env).2
  = filter (fun d => str_at d "agent_id" <> Some agent_id)
      (tag_association_collection env).
Proof.
  intros (Hnd & Hver & Hand & Hassoc) Hd.
  rewrite !collection_docs_of, !tag_association_collection_docs_of in *.
  set (targets := filter (fun d => matches (WEq "agent_id" agent_id) d)
                    (docs_of TagAssociations env)).
  assert (exists env2,
    Agents.delete_agent agent_id env
    = (Raise (ItemNotFoundError agent_id), record (Release writer_lock) env2) /\
    docs_of Primary env2 = docs_of Primary env /\
    docs_of TagAssociations env2
    = filter
        (fun d => str_at d "id" ∉ (fun t => str_at t "id") <$> targets)
        (docs_of TagAssociations env)) as (env2 & -> & Hprim & Hdocs).
  { unfold Agents.delete_agent.
  rewrite bind_with_lock, bind_delete_one, bind_find.
  unfold_collections. env_simpl.
  unfold stored in Hd. rewrite (delete_one_in_absent _ _ Hd). cbn [fst snd].
  rewrite find_in_identity.
  2:{ eapply Forall_impl; [exact Hassoc|]. intros a [_ Ha].
      by apply agent_association_loader_current. }
  fold targets.
  set (env1 := record (Find TagAssociations) _).
  destruct (cascade_run
              {| at_slot := TagAssociations;
                 document_loader := Agents._association_document_loader |}
              targets env1) as (env2 & Hrun & Hdocs & Hprim & Hlog).
  { done. }
  { apply Forall_forall. intros a Ha.
    apply list_elem_of_filter in Ha as [_ Ha].
    rewrite Forall_forall in Hassoc. by apply Hassoc. }
  { unfold env1. by env_simpl. }
  unfold bind at 1. rewrite Hrun. rewrite ret_run.
  cbn [fst deleted_count Nat.eqb]. rewrite raise_run.
  exists env2. split; [done|]. rewrite Hprim, Hdocs. unfold env1.
  by env_simpl. }
  cbn [fst snd]. env_simpl. split; [done|]. split; [done|].
  rewrite Hdocs. by apply cascade_removes_by_field.
Qed.

Lemma delete_guideline_missing (env : Env) (guideline_id : string) :
  well_kept Guidelines.VERSION env ->
  stored guideline_id (collection env) = None ->
  (Guidelines.delete_guideline guideline_id env).1
  = Raise (ItemNotFoundError guideline_id) /\
  collection (Guidelines.delete_guideline guideline_id env).2
  = collection env /\
  tag_association_collection (Guidelines.delete_guideline guideline_id env).2
  = filter (fun d => str_at d "guideline_id" <> Some guideline_id)
      (tag_association_collection env).
Proof.
  intros (Hnd & Hver & Hand & Hassoc) Hd.
  rewrite !collection_docs_of, !tag_association_collection_docs_of in *.
  set (targets :=
         filter (fun d => matches (WEq "guideline_id" guideline_id) d)
           (docs_of TagAssociations env)).
  assert (exists env2,
    Guidelines.delete_guideline guideline_id env
    = (Raise (ItemNotFoundError guideline_id), record (Release writer_lock) env2) /\
    docs_of Primary env2 = docs_of Primary env /\
    docs_of TagAssociations env2
    = filter
        (fun d => str_at d "id" ∉ (fun t => str_at t "id") <$> targets)
        (docs_of TagAssociations env)) as (env2 & -> & Hprim & Hdocs).
  { unfold Guidelines.delete_guideline.
  rewrite bind_with_lock, bind_delete_one, bind_find.
  unfold_collections. env_simpl.
  unfold stored in Hd. rewrite (delete_one_in_absent _ _ Hd). cbn [fst snd].
  rewrite find_in_identity.
  2:{ eapply Forall_impl; [exact Hassoc|]. intros a [_ Ha].
      by apply guideline_association_loader_current. }
  fold targets.
  set (env1 := record (Find TagAssociations) _).
  destruct (cascade_run
              {| at_slot := TagAssociations;
                 document_loader :=
                   Guidelines._association_document_loader |}
              targets env1) as (env2 & Hrun & Hdocs & Hprim & Hlog).
  { done. }
  { apply Forall_forall. intros a Ha.
    apply list_elem_of_filter in Ha as [_ Ha].
    rewrite Forall_forall in Hassoc. by apply Hassoc. }
  { unfold env1. by env_simpl. }
  unfold bind at 1. rewrite Hrun. rewrite ret_run.
  cbn [fst deleted_document falsy]. rewrite raise_run.
  exists env2. split; [done|]. rewrite Hprim, Hdocs. unfold env1.
  by env_simpl. }
  cbn [fst snd]. env_simpl. split; [done|]. split; [done|].
  rewrite Hdocs. by apply cascade_removes_by_field.
Qed.

(** X15: deleting an entity that is not stored.  In a well-kept store,
    [delete_agent] and [delete_guideline] on an id no primary record
    carries raise [ItemNotFoundError] with that id and leave the primary
    collection as it was; the sweep of the association collection has
    run by then, so every association record that referred to the id is
    gone, and the other association records are kept in order. *)
Theorem delete_of_missing_entity_sweeps_its_links (agents guidelines : Env)
  (agent_id guideline_id : string) :
  well_kept Agents.VERSION agents ->
  stored agent_id (collection agents) = None ->
  well_kept Guidelines.VERSION guidelines ->
  stored guideline_id (collection guidelines) = None ->
  ((Agents.delete_agent agent_id agents).1
   = Raise (ItemNotFoundError agent_id) /\
   collection (Agents.delete_agent agent_id agents).2 = collection agents /\
   tag_association_collection (Agents.delete_agent agent_id agents).2
   = filter (fun d => str_at d "agent_id" <> Some agent_id)
       (tag_association_collection agents)) /\
  ((Guidelines.delete_guideline guideline_id guidelines).1
   = Raise (ItemNotFoundError guideline_id) /\
   collection (Guidelines.delete_guideline guideline_id guidelines).2
   = collection guidelines /\
   tag_association_collection
     (Guidelines.delete_guideline guideline_id guidelines).2
   = filter (fun d => str_at d "guideline_id" <> Some guideline_id)
       (tag_association_collection guidelines)).
Proof.
  intros. split.
  - by apply delete_agent_missing.
  - by apply delete_guideline_missing.
Qed.
End DeleteMissing.

(** ** The collection a method does not write *)

Section Frames.
Context {DT : DateTime}.

Lemma keeps_docs_ret {A} (c : slot) (a : A) : keeps_docs c (ret a).
Proof. done. Qed.

Lemma keeps_docs_raise {A} (c : slot) (e : exn) :
  keeps_docs c (@raise DT A e).
Proof. done. Qed.

Lemma keeps_docs_lift {A} (c : slot) (o : outcome A) :
  keeps_docs c (lift o).
Proof. done. Qed.

Lemma keeps_docs_datetime_now (c : slot) : keeps_docs c datetime_now.
Proof. done. Qed.

Lemma keeps_docs_generate_id (c : slot) : keeps_docs c generate_id.
Proof.
  intros env. unfold generate_id. destruct (generate_id_from _).
  cbn [snd]. by env_simpl.
Qed.

Lemma keeps_docs_find (c : slot) (coll : DocumentCollection) (w : Where) :
  keeps_docs c (find coll w).
Proof. intros env. unfold find. cbn [snd]. by env_simpl. Qed.

Lemma keeps_docs_find_one (c : slot) (coll : DocumentCollection)
  (w : Where) :
  keeps_docs c (find_one coll w).
Proof. intros env. unfold find_one. cbn [snd]. by env_simpl. Qed.

Lemma keeps_docs_insert_one (c : slot) (coll : DocumentCollection)
  (d : Document) :
  at_slot coll <> c -> keeps_docs c (insert_one coll d).
Proof.
  intros Hc env. unfold insert_one.
  destruct (insert_one_in _ _); cbn [snd]; by env_simpl.
Qed.

Lemma keeps_docs_update_one (c : slot) (coll : DocumentCollection)
  (w : Where) (params : Document) :
  at_slot coll <> c -> keeps_docs c (update_one coll w params).
Proof.
  intros Hc env. rewrite update_one_run. cbn [snd]. by env_simpl.
Qed.

Lemma keeps_docs_delete_one (c : slot) (coll : DocumentCollection)
  (w : Where) :
  at_slot coll <> c -> keeps_docs c (delete_one coll w).
Proof.
  intros Hc env. unfold delete_one.
  destruct (delete_one_in _ _). cbn [snd]. by env_simpl.
Qed.

Lemma keeps_docs_bind {A B} (c : slot) (m : M A) (k : A -> M B) :
  keeps_docs c m -> (forall a, keeps_docs c (k a)) ->
  keeps_docs c (bind m k).
Proof.
  intros Hm Hk env. pose proof (Hm env) as H1.
  unfold bind. destruct (m env) as [[a|e] env1]; cbn [snd] in *; [|done].
  by rewrite Hk.
Qed.

Lemma keeps_docs_with_lock {A} (c : slot) (l : lock_mode) (m : M A) :
  keeps_docs c m -> keeps_docs c (with_lock l m).
Proof.
  intros Hm env. rewrite with_lock_run. cbn [snd]. env_simpl.
  rewrite Hm. by env_simpl.
Qed.

Lemma keeps_docs_for_list {A B} (c : slot) (xs : list A) (f : A -> M B) :
  (forall x, keeps_docs c (f x)) -> keeps_docs c (for_list xs f).
Proof.
  intros Hf. induction xs as [|x xs IH]; cbn [for_list].
  - apply keeps_docs_ret.
  - apply keeps_docs_bind; [apply Hf|]. intros y.
    apply keeps_docs_bind; [apply IH|]. intros ys. apply keeps_docs_ret.
Qed.

Lemma keeps_docs_for_each {A} (c : slot) (xs : list A)
  (body : A -> M unit) :
  (forall x, keeps_docs c (body x)) -> keeps_docs c (for_each xs body).
Proof.
  intros Hf. induction xs as [|x xs IH]; cbn [for_each].
  - apply keeps_docs_ret.
  - apply keeps_docs_bind; [apply Hf|]. intros _. apply IH.
Qed.
End Frames.

Ltac frame :=
  unfold_collections;
  repeat first
    [ apply keeps_docs_ret | apply keeps_docs_raise | apply keeps_docs_lift
    | apply keeps_docs_datetime_now | apply keeps_docs_generate_id
    | apply keeps_docs_find | apply keeps_docs_find_one
    | apply keeps_docs_insert_one; discriminate
    | apply keeps_docs_update_one; discriminate
    | apply keeps_docs_delete_one; discriminate
    | apply keeps_docs_with_lock
    | apply keeps_docs_for_list; intros ?
    | apply keeps_docs_for_each; intros ?
    | apply keeps_docs_bind; [|intros ?]
    | match goal with
      | |- keeps_docs _ (match ?x with _ => _ end) => destruct x
      end
    | progress cbv zeta ].

Section WhatIsWritten.
Context {DT : DateTime}.

Lemma update_agent_keeps_associations i params :
  keeps_docs TagAssociations (Agents.update_agent i params).
Proof. unfold Agents.update_agent. frame. Qed.

Lemma update_guideline_keeps_associations i params :
  keeps_docs TagAssociations (Guidelines.update_guideline i params).
Proof. unfold Guidelines.update_guideline. frame. Qed.

Lemma add_metadata_keeps_associations i m :
  keeps_docs TagAssociations (Guidelines.add_metadata i m).
Proof. unfold Guidelines.add_metadata. frame. Qed.

Lemma remove_metadata_keeps_associations i keys :
  keeps_docs TagAssociations (Guidelines.remove_metadata i keys).
Proof. unfold Guidelines.remove_metadata. frame. Qed.

Lemma agent_upsert_tag_keeps_primary i t c :
  keeps_docs Primary (Agents.upsert_tag i t c).
Proof. unfold Agents.upsert_tag, Agents.read_agent. frame. Qed.

Lemma guideline_upsert_tag_keeps_primary i t c :
  keeps_docs Primary (Guidelines.upsert_tag i t c).
Proof. unfold Guidelines.upsert_tag, Guidelines.read_guideline. frame. Qed.

Lemma agent_remove_tag_keeps_primary i t :
  keeps_docs Primary (Agents.remove_tag i t).
Proof. unfold Agents.remove_tag. frame. Qed.

Lemma guideline_remove_tag_keeps_primary i t :
  keeps_docs Primary (Guidelines.remove_tag i t).
Proof. unfold Guidelines.remove_tag. frame. Qed.

(** X16: which collection a method leaves alone.  In every run, whatever
    the arguments and the outcome, the update and metadata methods
    ([update_agent], [update_guideline], [add_metadata],
    [remove_metadata]) do not change the tag-association collection, and
    the tag methods ([upsert_tag] and [remove_tag] of either store) do not
    change the primary collection. *)
Theorem updates_and_tag_methods_write_one_collection (env : Env)
  (entity_id tag_id : string) (agent_params : Agents.AgentUpdateParams)
  (guideline_params : Guidelines.GuidelineUpdateParams)
  (metadata : gmap string json) (keys : list string)
  (creation_utc : option datetime) :
  (tag_association_collection
     (Agents.update_agent entity_id agent_params env).2
   = tag_association_collection env /\
   tag_association_collection
     (Guidelines.update_guideline entity_id guideline_params env).2
   = tag_association_collection env /\
   tag_association_collection
     (Guidelines.add_metadata entity_id metadata env).2
   = tag_association_collection env /\
   tag_association_collection
     (Guidelines.remove_metadata entity_id keys env).2
   = tag_association_collection env) /\
  (collection (Agents.upsert_tag entity_id tag_id creation_utc env).2
   = collection env /\
   collection (Guidelines.upsert_tag entity_id tag_id creation_utc env).2
   = collection env /\
   collection (Agents.remove_tag entity_id tag_id env).2 = collection env /\
   collection (Guidelines.remove_tag entity_id tag_id env).2
   = collection env).
Proof.
  rewrite !collection_docs_of, !tag_association_collection_docs_of.
  repeat split.
  - apply update_agent_keeps_associations.
  - apply update_guideline_keeps_associations.
  - apply add_metadata_keeps_associations.
  - apply remove_metadata_keeps_associations.
  - apply agent_upsert_tag_keeps_primary.
  - apply guideline_upsert_tag_keeps_primary.
  - apply agent_remove_tag_keeps_primary.
  - apply guideline_remove_tag_keeps_primary.
Qed.
End WhatIsWritten.

(** ** Metadata added and removed again *)

Lemma update_one_in_split (w : Where) (params : Document)
  (before after : list Document) (d : Document) :
  Forall (fun d' => matches w d' = false) before ->
  matches w d = true ->
  update_one_in w params (before ++ d :: after)
  = ({| matched_count := 1; updated_document := Some (params ∪ d) |},
     before ++ (params ∪ d) :: after).
Proof.
  intros Hb Hd. induction Hb as [|b before Hmb _ IH]; cbn [app update_one_in].
  - by rewrite Hd.
  - by rewrite Hmb, IH.
Qed.

Lemma stored_split (i : string) (docs : list Document) (d : Document) :
  stored i docs = Some d ->
  exists before after,
    docs = before ++ d :: after /\
    Forall (fun d' => matches (WEq "id" i) d' = false) before /\
    matches (WEq "id" i) d = true.
Proof.
  unfold stored. intros H.
  destruct (delete_one_in_present _ _ _ H) as (before & after & -> & Hb & _).
  exists before, after. split; [done|]. split; [done|].
  apply head_Some_elem_of, list_elem_of_filter in H as [H _].
  by destruct (matches _ d).
Qed.

Lemma metadata_filter_restores (old new : gmap string json)
  (keys : list string) :
  (forall k, is_Some (new !! k) -> k ∈ keys) ->
  (forall k, k ∈ keys -> old !! k = None) ->
  filter (fun kv : string * json => kv.1 ∉ keys) (new ∪ old) = old.
Proof.
  intros Hnew Hold. apply map_eq. intros k.
  destruct (decide (k ∈ keys)) as [Hk|Hk].
  - rewrite (Hold k Hk). apply map_lookup_filter_None. right.
    intros v _. cbn. by intros ?.
  - assert (new !! k = None) as Hn.
    { destruct (new !! k) eqn:E; [|done]. destruct Hk. apply Hnew. eauto. }
    destruct (old !! k) as [v|] eqn:Ho.
    + apply map_lookup_filter_Some. split; [|done].
      by rewrite lookup_union_r.
    + apply map_lookup_filter_None. left.
      by rewrite lookup_union_r.
Qed.

Section MetadataRoundTrip.
Context {DT : DateTime}.

(** X17: [add_metadata] followed by [remove_metadata] of the added keys
    is a round trip.  For a stored guideline at the current version, when
    none of the keys was in its metadata before, the two calls leave the
    primary collection exactly as it was (the record is again the one
    stored before, in its place), and the association collection is not
    touched. *)
Theorem add_then_remove_metadata_restores_the_store (env : Env)
  (guideline_id : string) (d : Document) (old new : gmap string json)
  (keys : list string) :
  stored guideline_id (collection env) = Some d ->
  str_at d "version" = Some Guidelines.VERSION ->
  d !! "metadata" = Some (VDict old) ->
  (forall k, is_Some (new !! k) -> k ∈ keys) ->
  (forall k, k ∈ keys -> old !! k = None) ->
  collection
    (Guidelines.remove_metadata guideline_id keys
       (Guidelines.add_metadata guideline_id new env).2).2
  = collection env /\
  tag_association_collection
    (Guidelines.remove_metadata guideline_id keys
       (Guidelines.add_metadata guideline_id new env).2).2
  = tag_association_collection env.
Proof.
  intros Hd Hv Hm Hnew Hold. split.
  2:{ rewrite !tag_association_collection_docs_of.
      by rewrite remove_metadata_keeps_associations,
        add_metadata_keeps_associations. }
  destruct (stored_split _ _ _ Hd) as (before & after & Hsplit & Hb & Hmd).
  set (d1 := {["metadata" := VDict (new ∪ old)]} ∪ d).
  assert (Hadd : collection (Guidelines.add_metadata guideline_id new env).2
                 = before ++ d1 :: after).
  { rewrite (add_metadata_collection env guideline_id d old new Hd Hv Hm).
    rewrite Hsplit. by rewrite update_one_in_split. }
  assert (Hmd1 : matches (WEq "id" guideline_id) d1 = true).
  { cbn [matches] in *. apply bool_decide_eq_true.
    apply bool_decide_eq_true in Hmd. unfold str_at, d1 in *.
    by rewrite lookup_union_r. }
  assert (Hd1 : stored guideline_id
                  (collection (Guidelines.add_metadata guideline_id new env).2)
                = Some d1).
  { rewrite Hadd. unfold stored. rewrite head_filter_split by done.
    by rewrite Hmd1. }
  rewrite (remove_metadata_collection _ guideline_id d1 (new ∪ old) keys Hd1).
  - rewrite Hadd, update_one_in_split by done. cbn [snd].
    rewrite Hsplit. f_equal. f_equal.
    rewrite metadata_filter_restores by done.
    apply map_eq. intros k. unfold d1.
    destruct (decide (k = "metadata")) as [-> | Hk].
    + by rewrite lookup_union_l', lookup_singleton_eq.
    + by rewrite !lookup_union_r by (by rewrite lookup_singleton_ne).
  - unfold str_at, d1 in *. by rewrite lookup_union_r.
  - unfold d1. by rewrite lookup_union_l', lookup_singleton_eq.
Qed.
End MetadataRoundTrip.

(** ** Creating a guideline, then reading and finding it *)

Section CreateGuideline.
Context {DT : DateTime}.

(** The loop of [create_guideline] over the tags: one fresh id and one
    association record per tag, appended in order. *)
Lemma guideline_link_loop_run (tags : list string) (t : datetime)
  (guideline_id : string) (env env' : Env) :
  for_each tags
    (fun tag =>
       bind generate_id
         (fun association_id =>
            insert_one Guidelines._tag_association_collection
              (Guidelines.association_document association_id t
                 guideline_id tag)))
    env
  = (Return tt, env') ->
  docs_of Primary env' = docs_of Primary env /\
  exists ids,
    length ids = length tags /\
    docs_of TagAssociations env'
    = docs_of TagAssociations env
      ++ zip_with
           (fun i tag =>
              Guidelines.association_document i t guideline_id tag)
           ids tags.
Proof.
  revert env. induction tags as [|tag tags IH]; intros env.
  - cbn [for_each]. rewrite ret_run. intros [= <-].
    split; [done|]. exists []. by rewrite app_nil_r.
  - cbn [for_each]. rewrite bind_assoc, bind_generate_id.
    destruct (generate_id_from (nanoid_outputs env)) as [[i|e] rest];
      cbn [fst snd]; [|done].
    rewrite bind_run.
    destruct (insert_one _ _ _) as [[[]|e] env1] eqn:Hins; [|done].
    intros Hloop. apply IH in Hloop as (Hprim & ids & Hlen & Hassoc).
    revert Hins. unfold insert_one. unfold_collections. env_simpl.
    destruct (insert_one_in _ _) as [ds|] eqn:Hds; [|done].
    apply insert_one_in_Return in Hds as [-> _].
    intros [= <-]. revert Hprim Hassoc. env_simpl. intros Hprim Hassoc.
    split; [done|]. exists (i :: ids).
    split; [cbn [length]; by rewrite Hlen|].
    rewrite Hassoc, <- app_assoc. done.
Qed.

(** What a successful [create_guideline] returned and wrote. *)
Lemma create_guideline_inv (condition action : string)
  (metadata : gmap string json) (creation_utc : option datetime)
  (enabled : bool) (tags : option (list string))
  (env env' : Env) (g : Guidelines.Guideline) :
  Guidelines.create_guideline condition action metadata creation_utc
    enabled tags env = (Return g, env') ->
  g = {| Guidelines.id := Guidelines.id g;
         Guidelines.creation_utc := default (utc_now env) creation_utc;
         Guidelines.content :=
           {| Guidelines.condition := condition;
              Guidelines.action := action |};
         Guidelines.enabled := enabled;
         Guidelines.tags := default [] tags;
         Guidelines.metadata := metadata |} /\
  Forall (fun d => str_at d "id" <> Some (Guidelines.id g))
    (collection env) /\
  collection env' = collection env ++ [Guidelines._serialize g] /\
  exists ids,
    length ids = length (Guidelines.tags g) /\
    tag_association_collection env'
    = tag_association_collection env
      ++ zip_with
           (fun i tag =>
              Guidelines.association_document i (Guidelines.creation_utc g)
                (Guidelines.id g) tag)
           ids (Guidelines.tags g).
Proof.
  rewrite !collection_docs_of, !tag_association_collection_docs_of.
  unfold Guidelines.create_guideline. rewrite with_lock_run.
  set (env0 := record (Acquire writer_lock) env).
  assert (Hbody : forall t : datetime,
    t = default (utc_now env) creation_utc ->
    forall o env1,
    bind generate_id
      (fun new_id =>
         let guideline :=
           {| Guidelines.id := new_id;
              Guidelines.creation_utc := t;
              Guidelines.content :=
                {| Guidelines.condition := condition;
                   Guidelines.action := action |};
              Guidelines.enabled := enabled;
              Guidelines.tags := default [] tags;
              Guidelines.metadata := metadata |}
         in
         bind (insert_one Guidelines._collection
                 (Guidelines._serialize guideline))
           (fun _ =>
              bind
                (for_each (default [] tags)
                   (fun tag =>
                      bind generate_id
                        (fun association_id =>
                           insert_one Guidelines._tag_association_collection
                             (Guidelines.association_document association_id
                                t (Guidelines.id guideline) tag))))
                (fun _ => ret guideline))) env0 = (o, env1) ->
    o = Return g ->
    g = {| Guidelines.id := Guidelines.id g;
           Guidelines.creation_utc := default (utc_now env) creation_utc;
           Guidelines.content :=
             {| Guidelines.condition := condition;
                Guidelines.action := action |};
           Guidelines.enabled := enabled;
           Guidelines.tags := default [] tags;
           Guidelines.metadata := metadata |} /\
    Forall (fun d => str_at d "id" <> Some (Guidelines.id g))
      (docs_of Primary env) /\
    docs_of Primary (record (Release writer_lock) env1)
    = docs_of Primary env ++ [Guidelines._serialize g] /\
    exists ids,
      length ids = length (Guidelines.tags g) /\
      docs_of TagAssociations (record (Release writer_lock) env1)
      = docs_of TagAssociations env
        ++ zip_with
             (fun i tag =>
                Guidelines.association_document i
                  (Guidelines.creation_utc g) (Guidelines.id g) tag)
             ids (Guidelines.tags g)).
  { intros t Ht o env1. rewrite bind_generate_id.
    destruct (generate_id_from (nanoid_outputs env0)) as [[i|e] rest];
      cbn [fst snd]; [|by intros [= <- _]].
    cbv zeta. rewrite bind_insert_one. unfold_collections.
    destruct (insert_one_in _ _) as [ds|] eqn:Hds; [|by intros [= <- _]].
    apply insert_one_in_Return in Hds as [-> Hfresh].
    rewrite bind_run.
    destruct (for_each _ _ _) as [[[]|e] env2] eqn:Hloop;
      [|by intros [= <- _]].
    rewrite ret_run. intros [= <- <-] [= <-].
    cbn [Guidelines.id Guidelines.tags Guidelines.creation_utc].
    apply guideline_link_loop_run in Hloop
      as (Hprim & ids & Hlen & Hassoc).
    revert Hprim Hassoc Hfresh. unfold env0. env_simpl.
    intros Hprim Hassoc Hfresh. subst t.
    split; [done|]. split.
    { apply Hfresh. unfold Guidelines._serialize.
      by rewrite str_at_insert_eq. }
    split; [done|]. exists ids. by split. }
  destruct creation_utc as [t|]; cbn [default] in *.
  - rewrite bind_ret.
    destruct (bind generate_id _ env0) as [o env1] eqn:E. cbn [fst snd].
    intros [= -> <-]. by eapply Hbody.
  - rewrite bind_datetime_now.
    destruct (bind generate_id _ env0) as [o env1] eqn:E. cbn [fst snd].
    intros [= -> <-]. eapply Hbody; [|exact E|done].
    unfold env0. by env_simpl.
Qed.

Lemma collect_guideline_links (ids tags : list string) (t : datetime)
  (guideline_id : string) :
  length ids = length tags ->
  collect (fun d => get_str d "tag_id")
    (zip_with
       (fun i tag => Guidelines.association_document i t guideline_id tag)
       ids tags)
  = Return tags.
Proof.
  revert ids. induction tags as [|tag tags IH]; intros [|i ids] Hlen;
    try done.
  cbn [zip_with collect].
  destruct (guideline_association_fields i t guideline_id tag)
    as (_ & _ & _ & Ft).
  rewrite (get_str_str_at _ _ _ Ft), IH; [done|].
  by injection Hlen.
Qed.

Lemma serialize_guideline_lookups (g : Guidelines.Guideline) :
  Guidelines._serialize g !! "id" = Some (VStr (Guidelines.id g)) /\
  Guidelines._serialize g !! "version" = Some (VStr Guidelines.VERSION) /\
  Guidelines._serialize g !! "creation_utc"
  = Some (VStr (isoformat (Guidelines.creation_utc g))) /\
  Guidelines._serialize g !! "condition"
  = Some (VStr (Guidelines.condition (Guidelines.content g))) /\
  Guidelines._serialize g !! "action"
  = Some (VStr (Guidelines.action (Guidelines.content g))) /\
  Guidelines._serialize g !! "enabled"
  = Some (VBool (Guidelines.enabled g)) /\
  Guidelines._serialize g !! "metadata"
  = Some (VDict (Guidelines.metadata g)).
Proof.
  unfold Guidelines._serialize.
  repeat split; rewrite ?lookup_insert_ne by done;
    by rewrite lookup_insert_eq.
Qed.

(** Deserialising the record [_serialize] wrote for [g], when the
    association records found for it carry [g]'s tags, gives [g] back. *)
Lemma deserialize_serialized_guideline `{!DateTimeRoundTrip DT}
  (g : Guidelines.Guideline) (env : Env) (docs : list Document) :
  find_in Guidelines._association_document_loader
    (WEq "guideline_id" (Guidelines.id g)) (docs_of TagAssociations env)
  = Return docs ->
  collect (fun d => get_str d "tag_id") docs = Return (Guidelines.tags g) ->
  (Guidelines._deserialize (Guidelines._serialize g) env).1 = Return g.
Proof.
  intros Hfind Htags.
  destruct (serialize_guideline_lookups g)
    as (Lid & Lver & Lcre & Lcond & Lact & Len & Lmeta).
  unfold Guidelines._deserialize.
  rewrite bind_lift, (get_str_lookup _ _ _ Lid).
  rewrite bind_find. unfold_collections. rewrite Hfind.
  rewrite bind_for_list_lift, Htags.
  rewrite bind_lift, (get_str_lookup _ _ _ Lcre).
  rewrite bind_lift, fromisoformat_isoformat.
  rewrite bind_lift, (get_str_lookup _ _ _ Lcond).
  rewrite bind_lift, (get_str_lookup _ _ _ Lact).
  rewrite bind_lift, Len, bind_lift, Lmeta, ret_run.
  by destruct g as [? ? [] ? ? ?].
Qed.

(** A guideline read back right after [create_guideline] returned it. *)
Lemma read_created_guideline `{!DateTimeRoundTrip DT}
  (condition action : string) (metadata : gmap string json)
  (creation_utc : option datetime) (enabled : bool)
  (tags : option (list string)) (env env' : Env)
  (g : Guidelines.Guideline) :
  Guidelines.create_guideline condition action metadata creation_utc
    enabled tags env = (Return g, env') ->
  Forall (fun d => str_at d "guideline_id" <> Some (Guidelines.id g))
    (tag_association_collection env) ->
  forall env0,
    (forall c, docs_of c env0 = docs_of c env') ->
    (Guidelines._deserialize (Guidelines._serialize g) env0).1 = Return g.
Proof.
  intros Hcreate Hstale env0 Hdocs.
  destruct (create_guideline_inv _ _ _ _ _ _ _ _ _ Hcreate)
    as (Hg & Hfresh & Hprim & ids & Hlen & Hassoc).
  rewrite !collection_docs_of, !tag_association_collection_docs_of in *.
  eapply deserialize_serialized_guideline.
  - rewrite Hdocs, Hassoc. unfold find_in. rewrite filter_app.
    rewrite (filter_matches_none _ (docs_of TagAssociations env)).
    2:{ eapply Forall_impl; [exact Hstale|]. intros d Hd.
        cbn [matches]. by apply bool_decide_eq_false. }
    rewrite app_nil_l, filter_all.
    2:{ apply Forall_zip_with_all. intros i tag.
        destruct (guideline_association_fields i
                    (Guidelines.creation_utc g) (Guidelines.id g) tag)
          as (_ & _ & Fa & _).
        cbn [matches]. by apply bool_decide_pack. }
    apply load_all_identity, Forall_zip_with_all. intros i tag.
    destruct (guideline_association_fields i (Guidelines.creation_utc g)
                (Guidelines.id g) tag) as (_ & Fv & _ & _).
    by apply guideline_association_loader_current.
  - by apply collect_guideline_links.
Qed.

(** X18: a guideline that [create_guideline] returned, read back at once
    by its id, is the created guideline, field for field (id, creation
    time, condition, action, enabled flag, tags in order, metadata); and
    the created guideline carries the arguments of the call, the creation
    time defaulting to the clock and the tags to none.  The store must
    hold no association record that already refers to the fresh id. *)
Theorem create_then_read_guideline `{!DateTimeRoundTrip DT}
  (condition action : string) (metadata : gmap string json)
  (creation_utc : option datetime) (enabled : bool)
  (tags : option (list string)) (env env' : Env)
  (g : Guidelines.Guideline) :
  Guidelines.create_guideline condition action metadata creation_utc
    enabled tags env = (Return g, env') ->
  Forall (fun d => str_at d "guideline_id" <> Some (Guidelines.id g))
    (tag_association_collection env) ->
  (Guidelines.read_guideline (Guidelines.id g) env').1 = Return g /\
  Guidelines.content g
  = {| Guidelines.condition := condition; Guidelines.action := action |} /\
  Guidelines.enabled g = enabled /\
  Guidelines.metadata g = metadata /\
  Guidelines.creation_utc g = default (utc_now env) creation_utc /\
  Guidelines.tags g = default [] tags.
Proof.
  intros Hcreate Hstale.
  destruct (create_guideline_inv _ _ _ _ _ _ _ _ _ Hcreate)
    as (Hg & Hfresh & Hprim & _).
  split; [|by rewrite Hg].
  rewrite !collection_docs_of in *.
  destruct (serialize_guideline_lookups g) as (Lid & Lver & _).
  assert (Sid : str_at (Guidelines._serialize g) "id"
                = Some (Guidelines.id g))
    by (unfold str_at; by rewrite Lid).
  assert (Sver : str_at (Guidelines._serialize g) "version"
                 = Some Guidelines.VERSION)
    by (unfold str_at; by rewrite Lver).
  rewrite (read_guideline_found _ _ (Guidelines._serialize g)).
  - eapply read_created_guideline; [exact Hcreate|exact Hstale|].
    intros c. by env_simpl.
  - rewrite Hprim. unfold find_one_in.
    rewrite filter_app, (filter_matches_none _ (docs_of Primary env)).
    2:{ eapply Forall_impl; [exact Hfresh|]. intros d Hd.
        cbn [matches]. by apply bool_decide_eq_false. }
    rewrite app_nil_l, filter_cons_True, filter_nil.
    2:{ cbn [matches]. by apply bool_decide_pack. }
    cbn [head]. by apply guideline_loader_current.
  - by eapply not_falsy_of_lookup.
Qed.

(** X19: a guideline that [create_guideline] returned is found by its
    content.  When no guideline stored before has the same condition and
    the same action, [find_guideline] with the content of the created
    guideline returns the created guideline. *)
Theorem create_then_find_guideline `{!DateTimeRoundTrip DT}
  (condition action : string) (metadata : gmap string json)
  (creation_utc : option datetime) (enabled : bool)
  (tags : option (list string)) (env env' : Env)
  (g : Guidelines.Guideline) :
  Guidelines.create_guideline condition action metadata creation_utc
    enabled tags env = (Return g, env') ->
  Forall (fun d => str_at d "guideline_id" <> Some (Guidelines.id g))
    (tag_association_collection env) ->
  Forall
    (fun d => ~ (str_at d "condition" = Some condition /\
                 str_at d "action" = Some action))
    (collection env) ->
  (Guidelines.find_guideline
     {| Guidelines.condition := condition; Guidelines.action := action |}
     env').1 = Return g.
Proof.
  intros Hcreate Hstale Hnone.
  destruct (create_guideline_inv _ _ _ _ _ _ _ _ _ Hcreate)
    as (Hg & Hfresh & Hprim & _).
  rewrite !collection_docs_of in *.
  destruct (serialize_guideline_lookups g)
    as (Lid & Lver & _ & Lcond & Lact & _).
  assert (Hcontent : Guidelines.content g
            = {| Guidelines.condition := condition;
                 Guidelines.action := action |}) by (by rewrite Hg).
  rewrite Hcontent in Lcond, Lact. cbn in Lcond, Lact.
  unfold Guidelines.find_guideline.
  cbn [Guidelines.condition Guidelines.action].
  rewrite bind_with_lock, find_one_run. unfold_collections. env_simpl.
  rewrite Hprim. unfold find_one_in.
  rewrite filter_WFields2, filter_app, (filter_none _ (docs_of Primary env))
    by done.
  rewrite app_nil_l, filter_cons_True, filter_nil.
  2:{ unfold str_at. by rewrite Lcond, Lact. }
  cbn [head]. rewrite guideline_loader_current
    by (unfold str_at; by rewrite Lver).
  rewrite (not_falsy_of_lookup _ _ _ Lid).
  eapply read_created_guideline; [exact Hcreate|exact Hstale|].
  intros c. by env_simpl.
Qed.
End CreateGuideline.

(** ** Finding a guideline by its content *)

Lemma stored_of_split (i : string) (before after : list Document)
  (d : Document) :
  NoDup ((fun d => str_at d "id") <$> before ++ d :: after) ->
  str_at d "id" = Some i ->
  stored i (before ++ d :: after) = Some d.
Proof.
  intros Hnd Hid. unfold stored. rewrite head_filter_split.
  - cbn [matches]. by rewrite bool_decide_eq_true_2.
  - apply Forall_forall. intros b Hb. cbn [matches].
    apply bool_decide_eq_false. intros Hbi.
    rewrite fmap_app, fmap_cons in Hnd.
    apply NoDup_app in Hnd as (_ & Hdisj & _).
    apply (Hdisj (Some i)).
    + rewrite <- Hbi. by apply (list_elem_of_fmap_2 (fun d => str_at d "id")).
    + rewrite Hid. by left.
Qed.

Section FindGuideline.
Context {DT : DateTime}.

Lemma deserialize_guideline_content (doc : Document) (env : Env)
  (g : Guidelines.Guideline) :
  (Guidelines._deserialize doc env).1 = Return g ->
  str_at doc "condition"
  = Some (Guidelines.condition (Guidelines.content g)) /\
  str_at doc "action" = Some (Guidelines.action (Guidelines.content g)).
Proof.
  unfold Guidelines._deserialize. rewrite bind_lift.
  destruct (get_str doc "id") as [i|e] eqn:Hi; [|done].
  rewrite bind_find. unfold_collections.
  destruct (find_in _ _ _) as [docs|] eqn:Hdocs; [|done].
  rewrite bind_for_list_lift.
  destruct (collect _ docs) as [tags|] eqn:Htags; [|done].
  rewrite bind_lift.
  destruct (get_str doc "creation_utc") as [t|]; [|done].
  rewrite bind_lift. destruct (fromisoformat t) as [t'|]; [|done].
  rewrite bind_lift.
  destruct (get_str doc "condition") as [c|] eqn:Hc; [|done].
  rewrite bind_lift.
  destruct (get_str doc "action") as [a|] eqn:Ha; [|done].
  apply get_str_Return in Hc, Ha.
  run; try done; by intros [= <-].
Qed.

(** X20: [find_guideline] returns the guideline stored first, in
    insertion order, among those with the given condition and action: in
    a store with unique ids and current-version records, the whole call
    (result, lock scopes, reads) is the call of [read_guideline] on the id
    of that first record, and a guideline it returns has the content that
    was asked for. *)
Theorem find_guideline_returns_the_first_match (env : Env)
  (guideline_content : Guidelines.GuidelineContent)
  (before after : list Document) (d : Document) (guideline_id : string) :
  NoDup ((fun d => str_at d "id") <$> collection env) ->
  Forall (fun d => str_at d "version" = Some Guidelines.VERSION)
    (collection env) ->
  collection env = before ++ d :: after ->
  Forall
    (fun d =>
       ~ (str_at d "condition"
          = Some (Guidelines.condition guideline_content) /\
          str_at d "action" = Some (Guidelines.action guideline_content)))
    before ->
  str_at d "condition" = Some (Guidelines.condition guideline_content) ->
  str_at d "action" = Some (Guidelines.action guideline_content) ->
  str_at d "id" = Some guideline_id ->
  Guidelines.find_guideline guideline_content env
  = Guidelines.read_guideline guideline_id env /\
  forall g,
    (Guidelines.find_guideline guideline_content env).1 = Return g ->
    Guidelines.content g = guideline_content /\
    Guidelines.id g = guideline_id.
Proof.
  rewrite !collection_docs_of.
  intros Hnd Hver Hsplit Hbefore Hcond Hact Hid.
  assert (Hload : Guidelines._document_loader d = Return (Some d)).
  { apply guideline_loader_current. rewrite Forall_forall in Hver.
    apply Hver. rewrite Hsplit. apply elem_of_app. right. by left. }
  assert (Hfalsy : falsy (Some d) = false).
  { unfold str_at in Hid. destruct (d !! "id") as [v|] eqn:E; [|done].
    by eapply not_falsy_of_lookup. }
  assert (Hfind : Guidelines.find_guideline guideline_content env
            = Guidelines._deserialize d
                (record (Release reader_lock)
                   (record (FindOne Primary)
                      (record (Acquire reader_lock) env)))).
  { unfold Guidelines.find_guideline.
    rewrite bind_with_lock, find_one_run. unfold_collections. env_simpl.
    unfold find_one_in. rewrite filter_WFields2, Hsplit, filter_app.
    rewrite (filter_none _ before) by done.
    rewrite app_nil_l, filter_cons_True by done. cbn [head].
    by rewrite Hload, Hfalsy. }
  rewrite Hfind. split.
  - symmetry. apply read_guideline_found; [|done].
    unfold find_one_in. fold (stored guideline_id (docs_of Primary env)).
    rewrite Hsplit, stored_of_split; [done| |done]. by rewrite <- Hsplit.
  - intros g Hg.
    destruct (deserialize_guideline_content _ _ _ Hg) as [Hc Ha].
    pose proof Hg as Hg'.
    destruct (Guidelines._deserialize d _) as [o env1] eqn:E.
    cbn [fst] in Hg'. subst o.
    apply deserialize_guideline_id in E.
    split; [|congruence].
    destruct g as [? ? [c a] ? ? ?], guideline_content as [c0 a0].
    cbn in *. congruence.
Qed.
End FindGuideline.

(** ** What deserialisation asks of a record *)

Section Deserialise.
Context {DT : DateTime}.

Lemma deserialize_agent_iff (doc : Document) (env : Env) (a : Agents.Agent) :
  (Agents._deserialize_agent doc env).1 = Return a <->
  exists links,
    find_in Agents._association_document_loader
      (WEq "agent_id" (Agents.id a)) (docs_of TagAssociations env)
    = Return links /\
    reads_as_agent doc links a.
Proof.
  unfold reads_as_agent. split.
  - unfold Agents._deserialize_agent. rewrite bind_lift.
    destruct (get_str doc "id") as [i|e] eqn:Hi; [|done].
    rewrite bind_find. unfold_collections.
    destruct (find_in _ _ _) as [docs|] eqn:Hdocs; [|done].
    rewrite bind_for_list_lift.
    destruct (collect _ docs) as [tags|] eqn:Htags; [|done].
    rewrite bind_lift.
    destruct (get_str doc "creation_utc") as [t|] eqn:Ht; [|done].
    rewrite bind_lift. destruct (fromisoformat t) as [t'|] eqn:Ht'; [|done].
    rewrite bind_lift.
    destruct (get_str doc "name") as [n|] eqn:Hn; [|done].
    rewrite bind_lift.
    destruct (doc !! "description") as [[| | |s| |]|] eqn:Hd; try done;
      rewrite bind_lift;
      (destruct (doc !! "max_engine_iterations") as [[| |m| | |]|] eqn:Hm;
       try done);
      rewrite bind_lift;
      (destruct (doc !! "composition_mode") as [[| | |s'|c|]|] eqn:Hc;
       try done);
      try (destruct (CompositionMode_of_value s') as [c|] eqn:Hs'; [|done]);
      rewrite ret_run; intros [= <-]; cbn; exists docs;
      repeat split; eauto.
  - intros (links & Hfind & Hi & Htags & (t & Ht & Ht') & Hn & Hd & Hm & Hc).
    unfold Agents._deserialize_agent.
    rewrite bind_lift, Hi, bind_find. unfold_collections. rewrite Hfind.
    rewrite bind_for_list_lift, Htags, bind_lift, Ht, bind_lift, Ht'.
    rewrite bind_lift, Hn, bind_lift, Hd.
    assert (Hdesc :
      match Agents.optional_str (Agents.description a) with
      | VNone => Return None
      | VStr s => Return (Some s)
      | _ => Raise TypeError
      end = Return (Agents.description a))
      by (by destruct (Agents.description a)).
    rewrite Hdesc, bind_lift, Hm, bind_lift.
    destruct (doc !! "composition_mode") as [[| | |s'|c|]|]; try done;
      rewrite ?Hc, ?ret_run; destruct a; cbn in *; by subst.
Qed.

Lemma deserialize_guideline_iff (doc : Document) (env : Env)
  (g : Guidelines.Guideline) :
  (Guidelines._deserialize doc env).1 = Return g <->
  exists links,
    find_in Guidelines._association_document_loader
      (WEq "guideline_id" (Guidelines.id g)) (docs_of TagAssociations env)
    = Return links /\
    reads_as_guideline doc links g.
Proof.
  unfold reads_as_guideline. split.
  - unfold Guidelines._deserialize. rewrite bind_lift.
    destruct (get_str doc "id") as [i|e] eqn:Hi; [|done].
    rewrite bind_find. unfold_collections.
    destruct (find_in _ _ _) as [docs|] eqn:Hdocs; [|done].
    rewrite bind_for_list_lift.
    destruct (collect _ docs) as [tags|] eqn:Htags; [|done].
    rewrite bind_lift.
    destruct (get_str doc "creation_utc") as [t|] eqn:Ht; [|done].
    rewrite bind_lift. destruct (fromisoformat t) as [t'|] eqn:Ht'; [|done].
    rewrite bind_lift.
    destruct (get_str doc "condition") as [c|] eqn:Hc; [|done].
    rewrite bind_lift.
    destruct (get_str doc "action") as [ac|] eqn:Ha; [|done].
    rewrite bind_lift.
    destruct (doc !! "enabled") as [[|b| | | |]|] eqn:He; try done.
    rewrite bind_lift.
    destruct (doc !! "metadata") as [[| | | | |m]|] eqn:Hm; try done.
    rewrite ret_run. intros [= <-]. cbn. exists docs.
    repeat split; eauto.
  - intros (links & Hfind & Hi & Htags & (t & Ht & Ht') & Hc & Ha & He & Hm).
    unfold Guidelines._deserialize.
    rewrite bind_lift, Hi, bind_find. unfold_collections. rewrite Hfind.
    rewrite bind_for_list_lift, Htags, bind_lift, Ht, bind_lift, Ht'.
    rewrite bind_lift, Hc, bind_lift, Ha, bind_lift, He, bind_lift, Hm.
    rewrite ret_run. by destruct g as [? ? [] ? ? ?].
Qed.

(** Deserialisation depends on the environment only through the
    association collection. *)
Lemma deserialize_agent_same_docs (doc : Document) (env env' : Env) :
  docs_of TagAssociations env' = docs_of TagAssociations env ->
  (Agents._deserialize_agent doc env').1
  = (Agents._deserialize_agent doc env).1.
Proof.
  intros Hdocs. unfold Agents._deserialize_agent. rewrite !bind_lift.
  destruct (get_str doc "id") as [i|e]; [|done].
  rewrite !bind_find. unfold_collections. rewrite Hdocs.
  destruct (find_in _ _ _) as [docs|]; [|done].
  rewrite !bind_for_list_lift. destruct (collect _ docs); [|done].
  repeat (rewrite !bind_lift;
          match goal with
          | |- context [match ?o with Return _ => _ | Raise _ => _ end] =>
              destruct o; [|done]
          end).
  done.
Qed.

Lemma deserialize_guideline_same_docs (doc : Document) (env env' : Env) :
  docs_of TagAssociations env' = docs_of TagAssociations env ->
  (Guidelines._deserialize doc env').1 = (Guidelines._deserialize doc env).1.
Proof.
  intros Hdocs. unfold Guidelines._deserialize. rewrite !bind_lift.
  destruct (get_str doc "id") as [i|e]; [|done].
  rewrite !bind_find. unfold_collections. rewrite Hdocs.
  destruct (find_in _ _ _) as [docs|]; [|done].
  rewrite !bind_for_list_lift. destruct (collect _ docs); [|done].
  repeat (rewrite !bind_lift;
          match goal with
          | |- context [match ?o with Return _ => _ | Raise _ => _ end] =>
              destruct o; [|done]
          end).
  done.
Qed.
End Deserialise.

(** ** Listing agents and reading them one by one *)

Lemma Forall2_collect {A B} (f : A -> outcome B) (xs : list A)
  (ys : list B) :
  Forall2 (fun x y => f x = Return y) xs ys -> collect f xs = Return ys.
Proof.
  induction 1 as [|x y xs ys Hx _ IH]; [done|].
  cbn [collect]. by rewrite Hx, IH.
Qed.

Lemma Forall2_impl_elem {A B} (P Q : A -> B -> Prop) (xs : list A)
  (ys : list B) :
  Forall2 P xs ys ->
  (forall x y, x ∈ xs -> P x y -> Q x y) ->
  Forall2 Q xs ys.
Proof.
  induction 1 as [|x y xs ys Hx _ IH]; intros HPQ; constructor.
  - apply HPQ; [by left | done].
  - apply IH. intros x' y' Hx'. apply HPQ. by right.
Qed.

Lemma stored_of_elem (i : string) (docs : list Document) (d : Document) :
  NoDup ((fun d => str_at d "id") <$> docs) ->
  d ∈ docs ->
  str_at d "id" = Some i ->
  stored i docs = Some d.
Proof.
  intros Hnd Hd Hid.
  apply list_elem_of_split in Hd as (before & after & ->).
  by apply stored_of_split.
Qed.

Lemma collect_ext_elem {A B} (f g : A -> outcome B) (xs : list A) :
  (forall x, x ∈ xs -> f x = g x) -> collect f xs = collect g xs.
Proof.
  induction xs as [|x xs IH]; intros H; [done|].
  cbn [collect]. rewrite H by (by left).
  rewrite IH; [done|]. intros x' Hx'. apply H. by right.
Qed.

Section ListAgents.
Context {DT : DateTime}.

Lemma for_list_deserialize_agents (docs : list Document) (env : Env) :
  (for_list docs Agents._deserialize_agent env).1
  = collect (fun d => (Agents._deserialize_agent d env).1) docs.
Proof.
  revert env. induction docs as [|d docs IH]; intros env; [done|].
  cbn [for_list collect]. rewrite bind_run.
  pose proof (deserialize_agent_docs TagAssociations d env) as Hdocs.
  destruct (Agents._deserialize_agent d env) as [[a|e] env1]; [|done].
  cbn [fst snd] in *. rewrite bind_run.
  pose proof (IH env1) as Hrec.
  destruct (for_list docs Agents._deserialize_agent env1) as [[l|e] env2];
    cbn [fst] in Hrec.
  - rewrite ret_run. cbn [fst].
    rewrite (collect_ext_elem _
               (fun d => (Agents._deserialize_agent d env1).1)).
    + by rewrite <- Hrec.
    + intros d' _. symmetry. by apply deserialize_agent_same_docs.
  - cbn [fst].
    rewrite (collect_ext_elem _
               (fun d => (Agents._deserialize_agent d env1).1)).
    + by rewrite <- Hrec.
    + intros d' _. symmetry. by apply deserialize_agent_same_docs.
Qed.

Lemma list_agents_run (env : Env) :
  Forall (fun d => str_at d "version" = Some Agents.VERSION)
    (collection env) ->
  (Agents.list_agents env).1
  = collect (fun d => (Agents._deserialize_agent d env).1) (collection env).
Proof.
  intros Hver. rewrite collection_docs_of in *.
  unfold Agents.list_agents. rewrite with_lock_run. cbn [fst].
  rewrite bind_find. unfold_collections. env_simpl.
  rewrite find_in_identity.
  2:{ eapply Forall_impl; [exact Hver|]. intros d.
      apply agent_loader_current. }
  rewrite filter_all by (apply Forall_forall; by intros).
  rewrite for_list_deserialize_agents.
  apply collect_ext_elem. intros d _.
  apply deserialize_agent_same_docs. by env_simpl.
Qed.

Lemma read_agent_of_stored (env : Env) (i : string) (d : Document) :
  stored i (collection env) = Some d ->
  str_at d "version" = Some Agents.VERSION ->
  (Agents.read_agent i env).1 = (Agents._deserialize_agent d env).1.
Proof.
  rewrite collection_docs_of. intros Hd Hv.
  rewrite (read_agent_found env i d).
  - apply deserialize_agent_same_docs. by env_simpl.
  - unfold find_one_in. fold (stored i (docs_of Primary env)).
    rewrite Hd. by apply agent_loader_current.
  - by eapply stored_not_falsy.
Qed.

(** X21: [list_agents] returns what [read_agent] returns for each stored
    record, in insertion order.  In a store with unique ids whose records
    are at the current version, [list_agents] returns the list [l]
    exactly when [l] lines up with the primary collection, record by
    record, each agent carrying its record's id and being what
    [read_agent] returns for that id. *)
Theorem list_agents_agrees_with_read_agent (env : Env)
  (l : list Agents.Agent) :
  NoDup ((fun d => str_at d "id") <$> collection env) ->
  Forall (fun d => str_at d "version" = Some Agents.VERSION)
    (collection env) ->
  (Agents.list_agents env).1 = Return l <->
  Forall2
    (fun d a =>
       str_at d "id" = Some (Agents.id a) /\
       (Agents.read_agent (Agents.id a) env).1 = Return a)
    (collection env) l.
Proof.
  intros Hnd Hver. rewrite list_agents_run by done.
  rewrite Forall_forall in Hver. split.
  - intros Hc%collect_Forall2.
    eapply Forall2_impl_elem; [exact Hc|]. intros d a Hd Ha. cbv beta in Ha.
    assert (str_at d "id" = Some (Agents.id a)) as Hid.
    { apply deserialize_agent_iff in Ha as (links & _ & Hi & _).
      by apply get_str_Return. }
    split; [done|].
    rewrite (read_agent_of_stored env _ d); [done| |by apply Hver].
    by apply stored_of_elem.
  - intros H. apply Forall2_collect.
    eapply Forall2_impl_elem; [exact H|]. intros d a Hd [Hid Hread]. cbv beta.
    rewrite <- (read_agent_of_stored env (Agents.id a) d); [done| |].
    + by apply stored_of_elem.
    + by apply Hver.
Qed.
End ListAgents.

(** ** The default agent *)

Section DefaultAgent.
Context {DT : DateTime}.

Lemma list_agents_keeps : keeps_store Agents.list_agents.
Proof. unfold Agents.list_agents. effects. Qed.

(** [create_agent] without tags, when the generator gives an id no stored
    agent has. *)
Lemma create_agent_without_tags_run (name : string)
  (description : option string) (creation_utc : option datetime)
  (max_engine_iterations : option Z)
  (composition_mode : option CompositionMode) (env : Env)
  (new_id : string) (rest : list string) :
  generate_id_from (nanoid_outputs env) = (Return new_id, rest) ->
  Forall (fun d => str_at d "id" <> Some new_id) (collection env) ->
  exists env',
    Agents.create_agent name description creation_utc max_engine_iterations
      composition_mode None env
    = (Return
         {| Agents.id := new_id;
            Agents.name := name;
            Agents.description := description;
            Agents.creation_utc := default (utc_now env) creation_utc;
            Agents.max_engine_iterations :=
              match max_engine_iterations with
              | Some n => if Z.eqb n 0 then 1%Z else n
              | None => 1%Z
              end;
            Agents.tags := [];
            Agents.composition_mode := default FLUID composition_mode |},
       env') /\
    collection env'
    = collection env
      ++ [Agents._serialize_agent
            {| Agents.id := new_id;
               Agents.name := name;
               Agents.description := description;
               Agents.creation_utc := default (utc_now env) creation_utc;
               Agents.max_engine_iterations :=
                 match max_engine_iterations with
                 | Some n => if Z.eqb n 0 then 1%Z else n
                 | None => 1%Z
                 end;
               Agents.tags := [];
               Agents.composition_mode := default FLUID composition_mode |}] /\
    tag_association_collection env' = tag_association_collection env.
Proof.
  rewrite !collection_docs_of. intros Hgen Hfresh.
  unfold Agents.create_agent. rewrite with_lock_run.
  assert (Hbody : forall t : datetime,
    bind generate_id
      (fun new_id =>
         let agent :=
           {| Agents.id := new_id;
              Agents.name := name;
              Agents.description := description;
              Agents.creation_utc := t;
              Agents.max_engine_iterations :=
                match max_engine_iterations with
                | Some n => if Z.eqb n 0 then 1%Z else n
                | None => 1%Z
                end;
              Agents.tags := default [] None;
              Agents.composition_mode := default FLUID composition_mode |}
         in
         bind (insert_one Agents._agents_collection
                 (Agents._serialize_agent agent))
           (fun _ =>
              bind
                (for_each (default [] None)
                   (fun tag =>
                      bind generate_id
                        (fun association_id =>
                           insert_one Agents._tag_association_collection
                             (Agents.association_document association_id t
                                (Agents.id agent) tag))))
                (fun _ => ret agent))) (record (Acquire writer_lock) env)
    = (Return
         {| Agents.id := new_id;
            Agents.name := name;
            Agents.description := description;
            Agents.creation_utc := t;
            Agents.max_engine_iterations :=
              match max_engine_iterations with
              | Some n => if Z.eqb n 0 then 1%Z else n
              | None => 1%Z
              end;
            Agents.tags := [];
            Agents.composition_mode := default FLUID composition_mode |},
       with_docs Primary
         (docs_of Primary env
          ++ [Agents._serialize_agent
                {| Agents.id := new_id;
                   Agents.name := name;
                   Agents.description := description;
                   Agents.creation_utc := t;
                   Agents.max_engine_iterations :=
                     match max_engine_iterations with
                     | Some n => if Z.eqb n 0 then 1%Z else n
                     | None => 1%Z
                     end;
                   Agents.tags := [];
                   Agents.composition_mode :=
                     default FLUID composition_mode |}])
         (record (InsertOne Primary)
            (with_nanoid_outputs rest (record (Acquire writer_lock) env))))).
  { intros t. rewrite bind_generate_id. env_simpl. rewrite Hgen.
    cbn [fst snd]. cbv zeta. rewrite bind_insert_one. unfold_collections.
    env_simpl.
    rewrite (insert_one_in_fresh _ _ new_id);
      [|by unfold Agents._serialize_agent; rewrite str_at_insert_eq|done].
    cbn [default for_each]. by rewrite bind_ret, ret_run. }
  destruct creation_utc as [t|]; cbn [default].
  - rewrite bind_ret, Hbody. cbn [fst snd]. eexists. split; [done|].
    rewrite !collection_docs_of, !tag_association_collection_docs_of.
    by env_simpl.
  - rewrite bind_datetime_now, Hbody. cbn [fst snd]. env_simpl.
    eexists. split; [done|].
    rewrite !collection_docs_of, !tag_association_collection_docs_of.
    by env_simpl.
Qed.

Lemma create_agent_if_absent_present (env : Env) (a : Agents.Agent)
  (l : list Agents.Agent) :
  (Agents.list_agents env).1 = Return (a :: l) ->
  (create_agent_if_absent env).1 = Return tt /\
  same_store env (create_agent_if_absent env).2.
Proof.
  intros Hlist. pose proof (list_agents_keeps env) as Hkeep.
  unfold create_agent_if_absent. rewrite bind_run.
  destruct (Agents.list_agents env) as [o env1]. cbn [fst snd] in *.
  subst o. by rewrite ret_run.
Qed.

(** X22: [create_agent_if_absent] creates the default agent once.  When
    [list_agents] returns at least one agent the call writes nothing.  On
    a store without agents, with the id generator giving [new_id], it
    adds one record: the agent named "Default Agent", with no
    description, the clock's time, an iteration limit of 1, no tags and
    the fluid composition mode; the store then lists exactly that agent,
    and a second call writes nothing. *)
Theorem create_agent_if_absent_creates_once `{!DateTimeRoundTrip DT}
  (env : Env) (new_id : string) (rest : list string) :
  collection env = [] ->
  generate_id_from (nanoid_outputs env) = (Return new_id, rest) ->
  Forall (fun d => str_at d "agent_id" <> Some new_id)
    (tag_association_collection env) ->
  (forall env0 a l,
     (Agents.list_agents env0).1 = Return (a :: l) ->
     (create_agent_if_absent env0).1 = Return tt /\
     same_store env0 (create_agent_if_absent env0).2) /\
  (create_agent_if_absent env).1 = Return tt /\
  collection (create_agent_if_absent env).2
  = [Agents._serialize_agent
       {| Agents.id := new_id;
          Agents.name := DEFAULT_AGENT_NAME;
          Agents.description := None;
          Agents.creation_utc := utc_now env;
          Agents.max_engine_iterations := 1;
          Agents.tags := [];
          Agents.composition_mode := FLUID |}] /\
  tag_association_collection (create_agent_if_absent env).2
  = tag_association_collection env /\
  (Agents.list_agents (create_agent_if_absent env).2).1
  = Return
      [{| Agents.id := new_id;
          Agents.name := DEFAULT_AGENT_NAME;
          Agents.description := None;
          Agents.creation_utc := utc_now env;
          Agents.max_engine_iterations := 1;
          Agents.tags := [];
          Agents.composition_mode := FLUID |}] /\
  (create_agent_if_absent (create_agent_if_absent env).2).1 = Return tt /\
  collection (create_agent_if_absent (create_agent_if_absent env).2).2
  = collection (create_agent_if_absent env).2.
Proof.
  intros Hempty Hgen Hstale.
  split; [intros env0 a l; apply create_agent_if_absent_present|].
  set (agent := {| Agents.id := new_id;
                   Agents.name := DEFAULT_AGENT_NAME;
                   Agents.description := None;
                   Agents.creation_utc := utc_now env;
                   Agents.max_engine_iterations := 1;
                   Agents.tags := [];
                   Agents.composition_mode := FLUID |}).
  assert (Hlist : exists env1,
            Agents.list_agents env = (Return [], env1) /\
            same_store env env1).
  { pose proof (list_agents_keeps env) as Hkeep.
    exists (Agents.list_agents env).2. split; [|done].
    rewrite (surjective_pairing (Agents.list_agents env)). f_equal.
    unfold Agents.list_agents. rewrite with_lock_run. cbn [fst].
    rewrite bind_find. unfold_collections. env_simpl.
    rewrite <- collection_docs_of, Hempty. done. }
  destruct Hlist as (env1 & Hrun & Hc1 & Ha1 & Hn1 & Hu1).
  destruct (create_agent_without_tags_run DEFAULT_AGENT_NAME None None None
              None env1 new_id rest) as (env2 & Hcreate & Hc2 & Ha2).
  { by rewrite Hn1. }
  { by rewrite Hc1, Hempty. }
  rewrite Hu1 in Hcreate, Hc2. cbn [default] in Hcreate, Hc2.
  fold agent in Hcreate, Hc2.
  assert (Hfirst : create_agent_if_absent env = (Return tt, env2)).
  { unfold create_agent_if_absent. rewrite bind_run, Hrun, bind_run.
    by rewrite Hcreate, ret_run. }
  rewrite Hfirst. cbn [fst snd]. rewrite Hc2, Hc1, Hempty, Ha2, Ha1.
  cbn [app]. split; [done|]. split; [done|]. split; [done|].
  assert (Hlist2 : (Agents.list_agents env2).1 = Return [agent]).
  { rewrite list_agents_run.
    2:{ rewrite Hc2, Hc1, Hempty. cbn [app]. constructor; [|done].
        unfold Agents._serialize_agent.
        by rewrite str_at_insert_ne, str_at_insert_eq. }
    rewrite Hc2, Hc1, Hempty. cbn [app collect].
    rewrite (deserialize_serialized_agent agent env2 []); [done| |done].
    rewrite <- tag_association_collection_docs_of, Ha2, Ha1.
    unfold find_in. rewrite filter_matches_none; [done|].
    eapply Forall_impl; [exact Hstale|]. intros d Hd.
    cbn [matches]. by apply bool_decide_eq_false. }
  split; [done|].
  destruct (create_agent_if_absent_present env2 agent [] Hlist2)
    as (Hres & Hsame & _).
  split; [done|]. by rewrite Hsame, Hc2, Hc1, Hempty.
Qed.
End DefaultAgent.

(** ** What an update returns *)

Lemma lookup_patch (p d : Document) (k : string) :
  (p ∪ d) !! k = match p !! k with Some v => Some v | None => d !! k end.
Proof.
  destruct (p !! k) as [v|] eqn:E.
  - by apply lookup_union_Some_l.
  - by apply lookup_union_r.
Qed.

Lemma get_str_patch_None (p d : Document) (k : string) :
  p !! k = None -> get_str (p ∪ d) k = get_str d k.
Proof. intros H. unfold get_str. by rewrite lookup_patch, H. Qed.

Lemma str_at_patch_None (p d : Document) (k : string) :
  p !! k = None -> str_at (p ∪ d) k = str_at d k.
Proof. intros H. unfold str_at. by rewrite lookup_patch, H. Qed.

Section UpdateReturns.
Context {DT : DateTime}.

Lemma params_dict_lookups (params : Agents.AgentUpdateParams) :
  Agents.params_dict params !! "name" = VStr <$> Agents.with_name params /\
  Agents.params_dict params !! "description"
  = Agents.optional_str <$> Agents.with_description params /\
  Agents.params_dict params !! "max_engine_iterations"
  = VInt <$> Agents.with_max_engine_iterations params /\
  Agents.params_dict params !! "composition_mode"
  = VEnum <$> Agents.with_composition_mode params /\
  Agents.params_dict params !! "id" = None /\
  Agents.params_dict params !! "creation_utc" = None /\
  Agents.params_dict params !! "version" = None.
Proof. destruct params as [[n|] [d|] [m|] [c|]]; by repeat split. Qed.

Lemma update_document_lookups (params : Guidelines.GuidelineUpdateParams) :
  Guidelines.update_document params !! "condition"
  = VStr <$> Guidelines.with_condition params /\
  Guidelines.update_document params !! "action"
  = VStr <$> Guidelines.with_action params /\
  Guidelines.update_document params !! "enabled"
  = VBool <$> Guidelines.with_enabled params /\
  Guidelines.update_document params !! "metadata" = None /\
  Guidelines.update_document params !! "id" = None /\
  Guidelines.update_document params !! "creation_utc" = None /\
  Guidelines.update_document params !! "version" = None.
Proof. destruct params as [[c|] [a|] [e|] [m|]]; by repeat split. Qed.



Lemma reads_as_guideline_with_metadata (metadata : gmap string json)
  (d : Document) (links : list Document) (g : Guidelines.Guideline) :
  reads_as_guideline d links g ->
  reads_as_guideline ({["metadata" := VDict metadata]} ∪ d) links
    (guideline_with_metadata metadata g).
Proof.
  intros (Hi & Htags & (t & Ht & Ht') & Hc & Ha & He & Hm).
  unfold reads_as_guideline, guideline_with_metadata. cbn.
  split; [by rewrite get_str_patch_None|]. split; [done|].
  split; [exists t; by rewrite get_str_patch_None|].
  split; [by rewrite get_str_patch_None|].
  split; [by rewrite get_str_patch_None|].
  split; [by rewrite lookup_patch|].
  by rewrite lookup_patch, lookup_singleton_eq.
Qed.



Lemma read_guideline_of_stored (env : Env) (i : string) (d : Document) :
  stored i (collection env) = Some d ->
  str_at d "version" = Some Guidelines.VERSION ->
  (Guidelines.read_guideline i env).1 = (Guidelines._deserialize d env).1.
Proof.
  rewrite collection_docs_of. intros Hd Hv.
  rewrite (read_guideline_found env i d).
  - apply deserialize_guideline_same_docs. by env_simpl.
  - unfold find_one_in. fold (stored i (docs_of Primary env)).
    rewrite Hd. by apply guideline_loader_current.
  - by eapply stored_not_falsy.
Qed.

(** The same for the guideline store. *)
Lemma patched_guideline (env env3 : Env) (i : string) (p d : Document)
  (g g' : Guidelines.Guideline) (run : M Guidelines.Guideline) :
  Forall (fun d => str_at d "version" = Some Guidelines.VERSION)
    (collection env) ->
  stored i (collection env) = Some d ->
  (Guidelines._deserialize d env).1 = Return g ->
  p !! "id" = None ->
  p !! "version" = None ->
  (forall links, reads_as_guideline d links g ->
                 reads_as_guideline (p ∪ d) links g') ->
  Guidelines.id g' = Guidelines.id g ->
  run env = Guidelines._deserialize (p ∪ d) env3 ->
  docs_of TagAssociations env3 = docs_of TagAssociations env ->
  docs_of Primary env3 = (update_one_in (WEq "id" i) p (collection env)).2 ->
  (run env).1 = Return g' /\
  (Guidelines.read_guideline i (run env).2).1 = Return g'.
Proof.
  intros Hver Hd Hdes Pid Pver Hpatch Hid Hrun Hassoc Hprim.
  assert (Hany : forall env', docs_of TagAssociations env'
                              = docs_of TagAssociations env ->
            (Guidelines._deserialize (p ∪ d) env').1 = Return g').
  { intros env' Hdocs. apply deserialize_guideline_iff.
    apply deserialize_guideline_iff in Hdes as (links & Hfind & Hreads).
    exists links. rewrite Hdocs, Hid. split; [done|]. by apply Hpatch. }
  rewrite Hrun. split; [by apply Hany|].
  rewrite (read_guideline_of_stored _ i (p ∪ d)).
  - apply Hany. by rewrite !deserialize_guideline_docs.
  - rewrite collection_docs_of, deserialize_guideline_docs, Hprim.
    by apply update_one_in_stored.
  - rewrite str_at_patch_None by done.
    rewrite Forall_forall in Hver. apply Hver.
    unfold stored in Hd. apply head_Some_elem_of in Hd.
    by apply list_elem_of_filter in Hd as [_ Hd].
Qed.

Lemma patched_not_falsy (i : string) (docs : list Document)
  (p d : Document) :
  stored i docs = Some d -> falsy (Some (p ∪ d)) = false.
Proof.
  intros Hd. apply stored_has_id in Hd. unfold str_at in Hd.
  destruct (d !! "id") as [v|] eqn:E; [|done].
  destruct (p !! "id") as [w|] eqn:Ep.
  - apply (not_falsy_of_lookup _ "id" w). by rewrite lookup_patch, Ep.
  - apply (not_falsy_of_lookup _ "id" v). by rewrite lookup_patch, Ep.
Qed.


Lemma metadata_patch_returns (env : Env) (i : string)
  (g : Guidelines.Guideline) (d : Document)
  (metadata : gmap string json) (run : M Guidelines.Guideline) :
  Forall (fun d => str_at d "version" = Some Guidelines.VERSION)
    (collection env) ->
  stored i (collection env) = Some d ->
  (Guidelines._deserialize d env).1 = Return g ->
  run env
  = Guidelines._deserialize ({["metadata" := VDict metadata]} ∪ d)
      (record (Release writer_lock)
         (with_docs Primary
            (update_one_in (WEq "id" i) {["metadata" := VDict metadata]}
               (collection env)).2
            (record (UpdateOne Primary)
               (record (FindOne Primary)
                  (record (Acquire writer_lock) env))))) ->
  (run env).1 = Return (guideline_with_metadata metadata g) /\
  (Guidelines.read_guideline i (run env).2).1
  = Return (guideline_with_metadata metadata g).
Proof.
  intros Hver Hd Hdes Hrun.
  eapply (patched_guideline env _ i {["metadata" := VDict metadata]} d g);
    [done|done|done|done|done| |done|exact Hrun| |].
  - intros links. apply reads_as_guideline_with_metadata.
  - by env_simpl.
  - by env_simpl.
Qed.

Lemma add_metadata_returns (env : Env) (i : string)
  (metadata : gmap string json) (g : Guidelines.Guideline) :
  Forall (fun d => str_at d "version" = Some Guidelines.VERSION)
    (collection env) ->
  (Guidelines.read_guideline i env).1 = Return g ->
  (Guidelines.add_metadata i metadata env).1
  = Return (guideline_with_metadata (metadata ∪ Guidelines.metadata g) g) /\
  (Guidelines.read_guideline i (Guidelines.add_metadata i metadata env).2).1
  = Return (guideline_with_metadata (metadata ∪ Guidelines.metadata g) g).
Proof.
  intros Hver Hread.
  destruct (read_guideline_stored env i g Hver Hread) as (d & Hd & Hdes).
  assert (Hdes' : (Guidelines._deserialize d env).1 = Return g).
  { rewrite <- Hdes. symmetry. apply deserialize_guideline_same_docs.
    by env_simpl. }
  assert (Hload : Guidelines._document_loader d = Return (Some d)).
  { apply guideline_loader_current. rewrite Forall_forall in Hver.
    apply Hver. unfold stored in Hd. apply head_Some_elem_of in Hd.
    by apply list_elem_of_filter in Hd as [_ Hd]. }
  pose proof Hdes' as Hm.
  apply deserialize_guideline_iff in Hm
    as (links & _ & _ & _ & _ & _ & _ & _ & Hm).
  apply (metadata_patch_returns env i g d); try done.
  unfold Guidelines.add_metadata.
  rewrite bind_with_lock, bind_find_one. unfold_collections. env_simpl.
  unfold find_one_in. fold (stored i (docs_of Primary env)).
  rewrite <- collection_docs_of, Hd, Hload.
  rewrite (stored_not_falsy _ _ _ Hd), bind_lift.
  unfold Guidelines.get_metadata. rewrite Hm.
  rewrite update_one_run. cbn [at_slot]. env_simpl.
  rewrite <- collection_docs_of.
  destruct (update_one_in_stored i
              {["metadata" := VDict (metadata ∪ Guidelines.metadata g)]}
              d _ Hd) as [-> _]; [done|].
  cbn [updated_document]. by rewrite (patched_not_falsy _ _ _ _ Hd).
Qed.

Lemma remove_metadata_returns (env : Env) (i : string)
  (keys : list string) (g : Guidelines.Guideline) :
  Forall (fun d => str_at d "version" = Some Guidelines.VERSION)
    (collection env) ->
  (Guidelines.read_guideline i env).1 = Return g ->
  (Guidelines.remove_metadata i keys env).1
  = Return
      (guideline_with_metadata
         (filter (fun kv => kv.1 ∉ keys) (Guidelines.metadata g)) g) /\
  (Guidelines.read_guideline i (Guidelines.remove_metadata i keys env).2).1
  = Return
      (guideline_with_metadata
         (filter (fun kv => kv.1 ∉ keys) (Guidelines.metadata g)) g).
Proof.
  intros Hver Hread.
  destruct (read_guideline_stored env i g Hver Hread) as (d & Hd & Hdes).
  assert (Hdes' : (Guidelines._deserialize d env).1 = Return g).
  { rewrite <- Hdes. symmetry. apply deserialize_guideline_same_docs.
    by env_simpl. }
  assert (Hload : Guidelines._document_loader d = Return (Some d)).
  { apply guideline_loader_current. rewrite Forall_forall in Hver.
    apply Hver. unfold stored in Hd. apply head_Some_elem_of in Hd.
    by apply list_elem_of_filter in Hd as [_ Hd]. }
  pose proof Hdes' as Hm.
  apply deserialize_guideline_iff in Hm
    as (links & _ & _ & _ & _ & _ & _ & _ & Hm).
  apply (metadata_patch_returns env i g d); try done.
  unfold Guidelines.remove_metadata.
  rewrite bind_with_lock, bind_find_one. unfold_collections. env_simpl.
  unfold find_one_in. fold (stored i (docs_of Primary env)).
  rewrite <- collection_docs_of, Hd, Hload.
  rewrite (stored_not_falsy _ _ _ Hd), bind_lift.
  unfold Guidelines.get_metadata. rewrite Hm.
  rewrite update_one_run. cbn [at_slot]. env_simpl.
  rewrite <- collection_docs_of.
  destruct (update_one_in_stored i
              {["metadata" :=
                  VDict (filter (fun kv => kv.1 ∉ keys)
                           (Guidelines.metadata g))]}
              d _ Hd) as [-> _]; [done|].
  cbn [updated_document]. by rewrite (patched_not_falsy _ _ _ _ Hd).
Qed.


(** X24: what the metadata methods return.  For a guideline the store
    holds, with the records at the current version, [add_metadata]
    returns the guideline with the given entries merged over its
    metadata (a given key replaces the stored one), and [remove_metadata]
    returns it without the listed keys (a key that is not there is
    ignored); every other field is as before, and [read_guideline] then
    returns the same guideline. *)
Theorem metadata_methods_return_the_updated_guideline (env : Env)
  (guideline_id : string) (g : Guidelines.Guideline)
  (metadata : gmap string json) (keys : list string) :
  Forall (fun d => str_at d "version" = Some Guidelines.VERSION)
    (collection env) ->
  (Guidelines.read_guideline guideline_id env).1 = Return g ->
  ((Guidelines.add_metadata guideline_id metadata env).1
   = Return (guideline_with_metadata (metadata ∪ Guidelines.metadata g) g) /\
   (Guidelines.read_guideline guideline_id
      (Guidelines.add_metadata guideline_id metadata env).2).1
   = Return (guideline_with_metadata (metadata ∪ Guidelines.metadata g) g))
  /\
  ((Guidelines.remove_metadata guideline_id keys env).1
   = Return
       (guideline_with_metadata
          (filter (fun kv => kv.1 ∉ keys) (Guidelines.metadata g)) g) /\
   (Guidelines.read_guideline guideline_id
      (Guidelines.remove_metadata guideline_id keys env).2).1
   = Return
       (guideline_with_metadata
          (filter (fun kv => kv.1 ∉ keys) (Guidelines.metadata g)) g)).
Proof.
  intros. split.
  - by apply add_metadata_returns.
  - by apply remove_metadata_returns.
Qed.
End UpdateReturns.

(** ** The store invariant is kept *)

Lemma delete_one_in_sublist (w : Where) (docs : list Document) :
  (delete_one_in w docs).2 `sublist_of` docs.
Proof.
  induction docs as [|d docs IH]; [done|]. cbn [delete_one_in].
  destruct (matches w d).
  - cbn [snd]. by apply sublist_cons.
  - destruct (delete_one_in w docs) as [r rest]. cbn [snd] in *.
    by apply sublist_skip.
Qed.

Lemma sublist_Forall_of {A} (P : A -> Prop) (l k : list A) :
  l `sublist_of` k -> Forall P k -> Forall P l.
Proof.
  intros Hs. rewrite !Forall_forall. intros Hk x Hx. apply Hk.
  by eapply elem_of_sublist.
Qed.

Lemma update_one_in_ids (w : Where) (p : Document) (docs : list Document) :
  p !! "id" = None ->
  (fun d => str_at d "id") <$> (update_one_in w p docs).2
  = (fun d => str_at d "id") <$> docs.
Proof.
  intros Hp. induction docs as [|d docs IH]; [done|]. cbn [update_one_in].
  destruct (matches w d).
  - cbn [snd]. rewrite !fmap_cons. by rewrite str_at_patch_None.
  - destruct (update_one_in w p docs) as [r rest]. cbn [snd] in *.
    by rewrite !fmap_cons, IH.
Qed.

Lemma update_one_in_Forall (P : Document -> Prop) (w : Where)
  (p : Document) (docs : list Document) :
  (forall d, P d -> P (p ∪ d)) ->
  Forall P docs -> Forall P (update_one_in w p docs).2.
Proof.
  intros Hp. induction 1 as [|d docs Hd Hds IH]; [done|].
  cbn [update_one_in]. destruct (matches w d).
  - cbn [snd]. constructor; [by apply Hp | done].
  - destruct (update_one_in w p docs) as [r rest]. cbn [snd] in *.
    by constructor.
Qed.

Section Invariant.
Context {DT : DateTime}.
Variable version : string.

Lemma well_kept_same_docs (env env' : Env) :
  (forall c, docs_of c env' = docs_of c env) ->
  well_kept version env -> well_kept version env'.
Proof.
  intros Hdocs. unfold well_kept.
  rewrite !collection_docs_of, !tag_association_collection_docs_of.
  by rewrite !Hdocs.
Qed.

Lemma kept_ret {A} (a : A) : keeps_invariant (well_kept version) (ret a).
Proof. by intros env. Qed.

Lemma kept_raise {A} (e : exn) :
  keeps_invariant (well_kept version) (@raise DT A e).
Proof. by intros env. Qed.

Lemma kept_lift {A} (o : outcome A) :
  keeps_invariant (well_kept version) (lift o).
Proof. by intros env. Qed.

Lemma kept_datetime_now : keeps_invariant (well_kept version) datetime_now.
Proof. by intros env. Qed.

Lemma kept_generate_id : keeps_invariant (well_kept version) generate_id.
Proof.
  intros env. apply well_kept_same_docs. intros c.
  apply keeps_docs_generate_id.
Qed.

Lemma kept_find (c : DocumentCollection) (w : Where) :
  keeps_invariant (well_kept version) (find c w).
Proof.
  intros env. apply well_kept_same_docs. intros c'. apply keeps_docs_find.
Qed.

Lemma kept_find_one (c : DocumentCollection) (w : Where) :
  keeps_invariant (well_kept version) (find_one c w).
Proof.
  intros env. apply well_kept_same_docs. intros c'.
  apply keeps_docs_find_one.
Qed.

Lemma kept_bind {A B} (m : M A) (k : A -> M B) :
  keeps_invariant (well_kept version) m ->
  (forall a, keeps_invariant (well_kept version) (k a)) ->
  keeps_invariant (well_kept version) (bind m k).
Proof.
  intros Hm Hk env Henv. pose proof (Hm env Henv) as H1.
  unfold bind. destruct (m env) as [[a|e] env1]; cbn [snd] in *; [|done].
  by apply Hk.
Qed.

Lemma kept_with_lock {A} (l : lock_mode) (m : M A) :
  keeps_invariant (well_kept version) m ->
  keeps_invariant (well_kept version) (with_lock l m).
Proof.
  intros Hm env Henv. rewrite with_lock_run. cbn [snd].
  eapply (well_kept_same_docs (m (record (Acquire l) env)).2).
  - intros c. by env_simpl.
  - apply Hm. eapply well_kept_same_docs; [|exact Henv].
    intros c. by env_simpl.
Qed.

Lemma kept_for_list {A B} (xs : list A) (f : A -> M B) :
  (forall x, keeps_invariant (well_kept version) (f x)) ->
  keeps_invariant (well_kept version) (for_list xs f).
Proof.
  intros Hf. induction xs as [|x xs IH]; cbn [for_list].
  - apply kept_ret.
  - apply kept_bind; [apply Hf|]. intros y.
    apply kept_bind; [apply IH|]. intros ys. apply kept_ret.
Qed.

Lemma kept_for_each {A} (xs : list A) (body : A -> M unit) :
  (forall x, keeps_invariant (well_kept version) (body x)) ->
  keeps_invariant (well_kept version) (for_each xs body).
Proof.
  intros Hf. induction xs as [|x xs IH]; cbn [for_each].
  - apply kept_ret.
  - apply kept_bind; [apply Hf|]. intros _. apply IH.
Qed.

Lemma insert_keeps_unique_ids (doc : Document) (docs ds : list Document) :
  is_Some (str_at doc "id") ->
  insert_one_in doc docs = Return ds ->
  NoDup ((fun d => str_at d "id") <$> docs) ->
  NoDup ((fun d => str_at d "id") <$> ds).
Proof.
  intros [i Hi] Hins Hnd.
  apply insert_one_in_Return in Hins as [-> Hfresh].
  specialize (Hfresh i Hi). rewrite fmap_app. apply NoDup_app.
  split; [done|]. split; [|apply NoDup_singleton].
  intros x Hx Hx'. apply list_elem_of_fmap in Hx as (d & -> & Hd).
  cbn in Hx'. apply list_elem_of_singleton in Hx'.
  rewrite Forall_forall in Hfresh. apply (Hfresh d Hd). congruence.
Qed.

Lemma kept_insert_one (c : DocumentCollection) (doc : Document) :
  is_Some (str_at doc "id") ->
  str_at doc "version" = Some version ->
  keeps_invariant (well_kept version) (insert_one c doc).
Proof.
  intros Hid Hver env (Hnd & Hv & Hnda & Hva). unfold insert_one.
  destruct (insert_one_in doc (docs_of (at_slot c) env)) as [ds|e] eqn:Hins.
  2:{ cbn [snd]. by repeat split. }
  cbn [snd]. pose proof Hins as Hds.
  apply insert_one_in_Return in Hds as [Hds _].
  unfold well_kept.
  rewrite !collection_docs_of, !tag_association_collection_docs_of in *.
  env_simpl. destruct (at_slot c); env_simpl.
  - split; [by eapply insert_keeps_unique_ids|]. split; [|done].
    subst ds. apply Forall_app. split; [done|]. by constructor.
  - split; [done|]. split; [done|].
    split; [by eapply insert_keeps_unique_ids|].
    subst ds. apply Forall_app. split; [done|]. by constructor.
Qed.

Lemma kept_update_one (c : DocumentCollection) (w : Where) (p : Document) :
  p !! "id" = None ->
  p !! "version" = None ->
  keeps_invariant (well_kept version) (update_one c w p).
Proof.
  intros Hid Hver env (Hnd & Hv & Hnda & Hva). rewrite update_one_run.
  cbn [snd]. unfold well_kept.
  rewrite !collection_docs_of, !tag_association_collection_docs_of in *.
  env_simpl. destruct (at_slot c); env_simpl.
  - split; [by rewrite update_one_in_ids|]. split; [|done].
    apply update_one_in_Forall; [|done].
    intros d Hd. by rewrite str_at_patch_None.
  - split; [done|]. split; [done|].
    split; [by rewrite update_one_in_ids|].
    apply update_one_in_Forall; [|done].
    intros d Hd. by rewrite !str_at_patch_None.
Qed.

Lemma kept_delete_one (c : DocumentCollection) (w : Where) :
  keeps_invariant (well_kept version) (delete_one c w).
Proof.
  intros env (Hnd & Hv & Hnda & Hva). unfold delete_one.
  pose proof (delete_one_in_sublist w (docs_of (at_slot c) env)) as Hsub.
  destruct (delete_one_in w (docs_of (at_slot c) env)) as [r ds].
  cbn [snd] in *. unfold well_kept.
  rewrite !collection_docs_of, !tag_association_collection_docs_of in *.
  env_simpl. destruct (at_slot c); env_simpl.
  - split; [|split; [|done]].
    + eapply sublist_NoDup; [exact Hnd|]. by apply fmap_sublist.
    + by eapply sublist_Forall_of.
  - split; [done|]. split; [done|]. split.
    + eapply sublist_NoDup; [exact Hnda|]. by apply fmap_sublist.
    + by eapply sublist_Forall_of.
Qed.
End Invariant.

(** The fields of the records the stores write. *)
Ltac written_fields :=
  unfold Agents._serialize_agent, Agents.association_document,
    Guidelines._serialize, Guidelines.association_document;
  rewrite ?str_at_insert_ne by done; rewrite str_at_insert_eq; eauto.

Ltac invariant :=
  unfold_collections;
  repeat first
    [ apply kept_ret | apply kept_raise | apply kept_lift
    | apply kept_datetime_now | apply kept_generate_id
    | apply kept_find | apply kept_find_one
    | apply kept_insert_one; [written_fields | written_fields]
    | apply kept_delete_one
    | apply kept_with_lock
    | apply kept_for_list; intros ?
    | apply kept_for_each; intros ?
    | apply kept_bind; [|intros ?]
    | match goal with
      | |- keeps_invariant _ (match ?x with _ => _ end) => destruct x
      end
    | progress cbv zeta ].

Section StoresKeepTheInvariant.
Context {DT : DateTime}.

Lemma create_agent_kept (name : string) (description : option string)
  (creation_utc : option datetime) (max_engine_iterations : option Z)
  (composition_mode : option CompositionMode) (tags : option (list string)) :
  keeps_invariant (well_kept Agents.VERSION)
    (Agents.create_agent name description creation_utc
       max_engine_iterations composition_mode tags).
Proof. unfold Agents.create_agent. invariant. Qed.

Lemma delete_agent_kept (agent_id : string) :
  keeps_invariant (well_kept Agents.VERSION) (Agents.delete_agent agent_id).
Proof. unfold Agents.delete_agent. invariant. Qed.

Lemma create_guideline_kept (condition action : string)
  (metadata : gmap string json) (creation_utc : option datetime)
  (enabled : bool) (tags : option (list string)) :
  keeps_invariant (well_kept Guidelines.VERSION)
    (Guidelines.create_guideline condition action metadata creation_utc
       enabled tags).
Proof. unfold Guidelines.create_guideline. invariant. Qed.

Lemma delete_guideline_kept (guideline_id : string) :
  keeps_invariant (well_kept Guidelines.VERSION)
    (Guidelines.delete_guideline guideline_id).
Proof. unfold Guidelines.delete_guideline. invariant. Qed.

(** X25: the agent store keeps its invariant.  Started on a well-kept
    store (ids unique within each collection, every record at version
    0.3.0, every association record with an id), every method of the
    agent store ends on a well-kept store, whatever its arguments and
    whether it returns or raises. *)
Theorem agent_store_keeps_its_invariant (env : Env) (agent_id tag_id : string)
  (name : string) (description : option string)
  (creation_utc : option datetime) (max_engine_iterations : option Z)
  (composition_mode : option CompositionMode) (tags : option (list string))
  (params : Agents.AgentUpdateParams) :
  well_kept Agents.VERSION env ->
  well_kept Agents.VERSION
    (Agents.create_agent name description creation_utc
       max_engine_iterations composition_mode tags env).2 /\
  well_kept Agents.VERSION (Agents.list_agents env).2 /\
  well_kept Agents.VERSION (Agents.read_agent agent_id env).2 /\
  well_kept Agents.VERSION (Agents.update_agent agent_id params env).2 /\
  well_kept Agents.VERSION (Agents.delete_agent agent_id env).2 /\
  well_kept Agents.VERSION
    (Agents.upsert_tag agent_id tag_id creation_utc env).2 /\
  well_kept Agents.VERSION (Agents.remove_tag agent_id tag_id env).2.
Proof.
  intros Henv.
  destruct (params_dict_lookups params) as (_ & _ & _ & _ & Pid & _ & Pver).
  split; [|split; [|split; [|split; [|split; [|split]]]]];
    revert env Henv;
    match goal with
    | |- forall env, well_kept ?v env -> well_kept ?v (?m env).2 =>
        change (keeps_invariant (well_kept v) m)
    end.
  - apply create_agent_kept.
  - unfold Agents.list_agents. invariant.
  - unfold Agents.read_agent. invariant.
  - unfold Agents.update_agent. invariant.
    all: by apply kept_update_one.
  - apply delete_agent_kept.
  - unfold Agents.upsert_tag, Agents.read_agent. invariant.
  - unfold Agents.remove_tag. invariant.
Qed.

(** X26: the guideline store keeps its invariant.  Started on a well-kept
    store (ids unique within each collection, every record at version
    0.4.0, every association record with an id), every method of the
    guideline store ends on a well-kept store, whatever its arguments and
    whether it returns or raises. *)
Theorem guideline_store_keeps_its_invariant (env : Env)
  (guideline_id tag_id : string) (condition action : string)
  (metadata : gmap string json) (creation_utc : option datetime)
  (enabled : bool) (tags : option (list string))
  (params : Guidelines.GuidelineUpdateParams)
  (guideline_content : Guidelines.GuidelineContent) (keys : list string) :
  well_kept Guidelines.VERSION env ->
  well_kept Guidelines.VERSION
    (Guidelines.create_guideline condition action metadata creation_utc
       enabled tags env).2 /\
  well_kept Guidelines.VERSION (Guidelines.list_guidelines tags env).2 /\
  well_kept Guidelines.VERSION
    (Guidelines.read_guideline guideline_id env).2 /\
  well_kept Guidelines.VERSION
    (Guidelines.find_guideline guideline_content env).2 /\
  well_kept Guidelines.VERSION
    (Guidelines.update_guideline guideline_id params env).2 /\
  well_kept Guidelines.VERSION
    (Guidelines.delete_guideline guideline_id env).2 /\
  well_kept Guidelines.VERSION
    (Guidelines.upsert_tag guideline_id tag_id creation_utc env).2 /\
  well_kept Guidelines.VERSION
    (Guidelines.remove_tag guideline_id tag_id env).2 /\
  well_kept Guidelines.VERSION
    (Guidelines.add_metadata guideline_id metadata env).2 /\
  well_kept Guidelines.VERSION
    (Guidelines.remove_metadata guideline_id keys env).2.
Proof.
  intros Henv.
  destruct (update_document_lookups params)
    as (_ & _ & _ & _ & Pid & _ & Pver).
  split; [|split; [|split; [|split; [|split; [|split; [|split;
    [|split; [|split]]]]]]]];
    revert env Henv;
    match goal with
    | |- forall env, well_kept ?v env -> well_kept ?v (?m env).2 =>
        change (keeps_invariant (well_kept v) m)
    end.
  - apply create_guideline_kept.
  - unfold Guidelines.list_guidelines, Guidelines.guideline_ids_of.
    invariant.
  - unfold Guidelines.read_guideline. invariant.
  - unfold Guidelines.find_guideline. invariant.
  - unfold Guidelines.update_guideline. invariant.
    all: by apply kept_update_one.
  - apply delete_guideline_kept.
  - unfold Guidelines.upsert_tag, Guidelines.read_guideline. invariant.
  - unfold Guidelines.remove_tag. invariant.
  - unfold Guidelines.add_metadata. invariant.
    all: by apply kept_update_one.
  - unfold Guidelines.remove_metadata. invariant.
    all: by apply kept_update_one.
Qed.
End StoresKeepTheInvariant.

(** ** After a delete *)

Lemma stored_after_delete (i : string) (docs : list Document) :
  stored i (filter (fun d => str_at d "id" <> Some i) docs) = None.
Proof.
  unfold stored. rewrite filter_none; [done|].
  apply Forall_forall. intros d Hd Hm.
  apply list_elem_of_filter in Hd as [Hne _].
  cbn [matches] in Hm. by apply bool_decide_unpack in Hm.
Qed.

Section AfterDelete.
Context {DT : DateTime}.

Lemma delete_agent_then_missing (env : Env) (i : string) :
  well_kept Agents.VERSION env ->
  is_Some (stored i (collection env)) ->
  (Agents.delete_agent i env).1 = Return tt /\
  (Agents.read_agent i (Agents.delete_agent i env).2).1
  = Raise (ItemNotFoundError i) /\
  (Agents.delete_agent i (Agents.delete_agent i env).2).1
  = Raise (ItemNotFoundError i).
Proof.
  intros Hkept Hstored.
  pose proof (delete_agent_kept i env Hkept) as Hkept'.
  destruct (delete_agent_run env i Hkept Hstored)
    as (env' & targets & Hrun & Hprim & _).
  rewrite Hrun in *. cbn [fst snd] in *. split; [done|].
  assert (stored i (collection env') = None) as Hnone
    by (rewrite Hprim; apply stored_after_delete).
  split.
  - rewrite read_agent_missing; [done|]. by rewrite <- collection_docs_of.
  - by apply delete_agent_missing.
Qed.

Lemma delete_guideline_then_missing (env : Env) (i : string) :
  well_kept Guidelines.VERSION env ->
  is_Some (stored i (collection env)) ->
  (Guidelines.delete_guideline i env).1 = Return tt /\
  (Guidelines.read_guideline i (Guidelines.delete_guideline i env).2).1
  = Raise (ItemNotFoundError i) /\
  (Guidelines.delete_guideline i (Guidelines.delete_guideline i env).2).1
  = Raise (ItemNotFoundError i).
Proof.
  intros Hkept Hstored.
  pose proof (delete_guideline_kept i env Hkept) as Hkept'.
  destruct (delete_guideline_run env i Hkept Hstored)
    as (env' & targets & Hrun & Hprim & _).
  rewrite Hrun in *. cbn [fst snd] in *. split; [done|].
  assert (stored i (collection env') = None) as Hnone
    by (rewrite Hprim; apply stored_after_delete).
  split.
  - rewrite read_guideline_missing; [done|].
    by rewrite <- collection_docs_of.
  - by apply delete_guideline_missing.
Qed.

(** X27: after a delete the entity is gone for good.  In a well-kept
    store, once [delete_agent] or [delete_guideline] has returned for an
    entity, reading that id raises [ItemNotFoundError], and so does
    deleting it a second time. *)
Theorem delete_then_read_or_delete_raises_not_found
  (agents guidelines : Env) (agent_id guideline_id : string) :
  well_kept Agents.VERSION agents ->
  is_Some (stored agent_id (collection agents)) ->
  well_kept Guidelines.VERSION guidelines ->
  is_Some (stored guideline_id (collection guidelines)) ->
  ((Agents.delete_agent agent_id agents).1 = Return tt /\
   (Agents.read_agent agent_id (Agents.delete_agent agent_id agents).2).1
   = Raise (ItemNotFoundError agent_id) /\
   (Agents.delete_agent agent_id (Agents.delete_agent agent_id agents).2).1
   = Raise (ItemNotFoundError agent_id)) /\
  ((Guidelines.delete_guideline guideline_id guidelines).1 = Return tt /\
   (Guidelines.read_guideline guideline_id
      (Guidelines.delete_guideline guideline_id guidelines).2).1
   = Raise (ItemNotFoundError guideline_id) /\
   (Guidelines.delete_guideline guideline_id
      (Guidelines.delete_guideline guideline_id guidelines).2).1
   = Raise (ItemNotFoundError guideline_id)).
Proof.
  intros. split.
  - by apply delete_agent_then_missing.
  - by apply delete_guideline_then_missing.
Qed.

Lemma create_agent_then_delete (name : string) (description : option string)
  (creation_utc : option datetime) (max_engine_iterations : option Z)
  (composition_mode : option CompositionMode) (tags : option (list string))
  (env env' : Env) (a : Agents.Agent) :
  well_kept Agents.VERSION env ->
  Agents.create_agent name description creation_utc max_engine_iterations
    composition_mode tags env = (Return a, env') ->
  Forall (fun d => str_at d "agent_id" <> Some (Agents.id a))
    (tag_association_collection env) ->
  (Agents.delete_agent (Agents.id a) env').1 = Return tt /\
  collection (Agents.delete_agent (Agents.id a) env').2 = collection env /\
  tag_association_collection (Agents.delete_agent (Agents.id a) env').2
  = tag_association_collection env.
Proof.
  intros Hkept Hcreate Hstale.
  pose proof (create_agent_kept name description creation_utc
                max_engine_iterations composition_mode tags env Hkept)
    as Hkept'.
  rewrite Hcreate in Hkept'. cbn [snd] in Hkept'.
  destruct (create_agent_inv _ _ _ _ _ _ _ _ _ Hcreate)
    as (_ & Hfresh & Hprim & ids & Hlen & Hassoc).
  destruct (serialize_agent_lookups a) as (Lid & _).
  assert (Sid : str_at (Agents._serialize_agent a) "id" = Some (Agents.id a))
    by (unfold str_at; by rewrite Lid).
  assert (Hstored : is_Some (stored (Agents.id a) (collection env'))).
  { exists (Agents._serialize_agent a). rewrite Hprim. unfold stored.
    rewrite filter_app, (filter_matches_none _ (collection env)).
    2:{ eapply Forall_impl; [exact Hfresh|]. intros d Hd.
        cbn [matches]. by apply bool_decide_eq_false. }
    rewrite app_nil_l, filter_cons_True; [done|].
    cbn [matches]. by apply bool_decide_pack. }
  destruct (delete_agent_run env' (Agents.id a) Hkept' Hstored)
    as (env2 & targets & Hrun & Hprim2 & Hassoc2 & -> & _).
  rewrite Hrun. cbn [fst snd]. split; [done|]. split.
  - rewrite Hprim2, Hprim, filter_app, filter_all by done.
    rewrite filter_cons_False, filter_nil, app_nil_r; [done|].
    intros Hne. by apply Hne.
  - rewrite Hassoc2, cascade_removes_by_field by apply Hkept'.
    rewrite Hassoc, filter_app, filter_all by done.
    rewrite filter_none, app_nil_r; [done|].
    apply Forall_zip_with_all. intros i tag Hne. apply Hne.
    by destruct (agent_association_fields i (Agents.creation_utc a)
                   (Agents.id a) tag) as (_ & _ & Fa & _).
Qed.

Lemma create_guideline_then_delete (condition action : string)
  (metadata : gmap string json) (creation_utc : option datetime)
  (enabled : bool) (tags : option (list string)) (env env' : Env)
  (g : Guidelines.Guideline) :
  well_kept Guidelines.VERSION env ->
  Guidelines.create_guideline condition action metadata creation_utc
    enabled tags env = (Return g, env') ->
  Forall (fun d => str_at d "guideline_id" <> Some (Guidelines.id g))
    (tag_association_collection env) ->
  (Guidelines.delete_guideline (Guidelines.id g) env').1 = Return tt /\
  collection (Guidelines.delete_guideline (Guidelines.id g) env').2
  = collection env /\
  tag_association_collection
    (Guidelines.delete_guideline (Guidelines.id g) env').2
  = tag_association_collection env.
Proof.
  intros Hkept Hcreate Hstale.
  pose proof (create_guideline_kept condition action metadata creation_utc
                enabled tags env Hkept) as Hkept'.
  rewrite Hcreate in Hkept'. cbn [snd] in Hkept'.
  destruct (create_guideline_inv _ _ _ _ _ _ _ _ _ Hcreate)
    as (_ & Hfresh & Hprim & ids & Hlen & Hassoc).
  destruct (serialize_guideline_lookups g) as (Lid & _).
  assert (Sid : str_at (Guidelines._serialize g) "id"
                = Some (Guidelines.id g))
    by (unfold str_at; by rewrite Lid).
  assert (Hstored : is_Some (stored (Guidelines.id g) (collection env'))).
  { exists (Guidelines._serialize g). rewrite Hprim. unfold stored.
    rewrite filter_app, (filter_matches_none _ (collection env)).
    2:{ eapply Forall_impl; [exact Hfresh|]. intros d Hd.
        cbn [matches]. by apply bool_decide_eq_false. }
    rewrite app_nil_l, filter_cons_True; [done|].
    cbn [matches]. by apply bool_decide_pack. }
  destruct (delete_guideline_run env' (Guidelines.id g) Hkept' Hstored)
    as (env2 & targets & Hrun & Hprim2 & Hassoc2 & -> & _).
  rewrite Hrun. cbn [fst snd]. split; [done|]. split.
  - rewrite Hprim2, Hprim, filter_app, filter_all by done.
    rewrite filter_cons_False, filter_nil, app_nil_r; [done|].
    intros Hne. by apply Hne.
  - rewrite Hassoc2, cascade_removes_by_field by apply Hkept'.
    rewrite Hassoc, filter_app, filter_all by done.
    rewrite filter_none, app_nil_r; [done|].
    apply Forall_zip_with_all. intros i tag Hne. apply Hne.
    by destruct (guideline_association_fields i (Guidelines.creation_utc g)
                   (Guidelines.id g) tag) as (_ & _ & Fa & _).
Qed.

(** X28: creating an entity and deleting it is a round trip.  In a
    well-kept store with no association record that already refers to the
    fresh id, deleting the entity that [create_agent] or
    [create_guideline] just returned succeeds and leaves both collections
    exactly as they were before the create: the primary record and every
    association record written for the tags are gone, nothing else is. *)
Theorem create_then_delete_restores_the_store (agents agents' : Env)
  (guidelines guidelines' : Env) (name : string)
  (description : option string) (creation_utc : option datetime)
  (max_engine_iterations : option Z)
  (composition_mode : option CompositionMode) (tags : option (list string))
  (condition action : string) (metadata : gmap string json)
  (enabled : bool) (a : Agents.Agent) (g : Guidelines.Guideline) :
  well_kept Agents.VERSION agents ->
  Agents.create_agent name description creation_utc max_engine_iterations
    composition_mode tags agents = (Return a, agents') ->
  Forall (fun d => str_at d "agent_id" <> Some (Agents.id a))
    (tag_association_collection agents) ->
  well_kept Guidelines.VERSION guidelines ->
  Guidelines.create_guideline condition action metadata creation_utc
    enabled tags guidelines = (Return g, guidelines') ->
  Forall (fun d => str_at d "guideline_id" <> Some (Guidelines.id g))
    (tag_association_collection guidelines) ->
  ((Agents.delete_agent (Agents.id a) agents').1 = Return tt /\
   collection (Agents.delete_agent (Agents.id a) agents').2
   = collection agents /\
   tag_association_collection (Agents.delete_agent (Agents.id a) agents').2
   = tag_association_collection agents) /\
  ((Guidelines.delete_guideline (Guidelines.id g) guidelines').1
   = Return tt /\
   collection (Guidelines.delete_guideline (Guidelines.id g) guidelines').2
   = collection guidelines /\
   tag_association_collection
     (Guidelines.delete_guideline (Guidelines.id g) guidelines').2
   = tag_association_collection guidelines).
Proof.
  intros. split.
  - by eapply create_agent_then_delete.
  - by eapply create_guideline_then_delete.
Qed.
End AfterDelete.

(** ** The event buffer *)

Lemma agent_loader_Return (d : Document) (o : option Document) :
  Agents._document_loader d = Return o -> o = Some d.
Proof.
  unfold Agents._document_loader. cbn [length Agents.converters migrate].
  destruct (str_at d "version") as [v|]; [|done].
  destruct (String.eqb v Agents.VERSION); [by intros [= <-]|].
  unfold Agents.converters. cbn [list_to_map foldr uncurry fst snd].
  destruct (decide (v = "0.1.0")) as [-> | H1];
    [by rewrite lookup_insert_eq|].
  rewrite lookup_insert_ne by done.
  destruct (decide (v = "0.2.0")) as [-> | H2];
    [by rewrite lookup_insert_eq|].
  rewrite lookup_insert_ne by done. by rewrite lookup_empty.
Qed.

Section EventBuffer.
Context {DT : DateTime}.

(** The agent [read_agent] returns carries the id it was asked for. *)
Lemma read_agent_id (env : Env) (i : string) (a : Agents.Agent) :
  (Agents.read_agent i env).1 = Return a -> Agents.id a = i.
Proof.
  intros Hread.
  destruct (read_agent_inv _ _ _ Hread) as (d & Hfind & _ & Hdes).
  apply deserialize_agent_iff in Hdes as (links & _ & Hid & _).
  apply get_str_Return in Hid.
  unfold find_one_in in Hfind.
  destruct (head _) as [d0|] eqn:Hhead; [|done].
  apply agent_loader_Return in Hfind. injection Hfind as ->.
  apply head_Some_elem_of, list_elem_of_filter in Hhead as [Hm _].
  cbn [matches] in Hm. apply bool_decide_unpack in Hm. congruence.
Qed.

(** X29: an event buffer speaks for the agent it was created for.  When
    [read_agent] returns an agent for the id, [create_event_emitter]
    returns a buffer for that agent with no events, the agent has the id
    that was asked for, and a message emitted through the buffer as plain
    text is an AI-agent message event whose participant is the agent: its
    id is the id the emitter was created for and its display name the
    agent's name.  When no record carries the id, [create_event_emitter]
    raises [ItemNotFoundError]. *)
Theorem event_emitter_speaks_for_its_agent (env : Env)
  (emitting_agent_id session_id correlation_id text : string)
  (a : Agents.Agent) :
  (Agents.read_agent emitting_agent_id env).1 = Return a ->
  (Emission.create_event_emitter emitting_agent_id session_id env).1
  = Return {| Emission.agent := a; Emission.events := [] |} /\
  (Emission.emit_message_event
     {| Emission.agent := a; Emission.events := [] |}
     correlation_id (inl text)).1
  = {| Emission.source := Emission.AI_AGENT;
       Emission.kind := Emission.MESSAGE;
       Emission.correlation_id := correlation_id;
       Emission.data :=
         JObj [("message", JStr text);
               ("participant",
                JObj [("id", JStr emitting_agent_id);
                      ("display_name", JStr (Agents.name a))])] |} /\
  forall env0 missing_id,
    stored missing_id (collection env0) = None ->
    (Emission.create_event_emitter missing_id session_id env0).1
    = Raise (ItemNotFoundError missing_id).
Proof.
  intros Hread. split; [|split].
  - unfold Emission.create_event_emitter. rewrite bind_run.
    destruct (Agents.read_agent emitting_agent_id env) as [o env1].
    cbn [fst] in Hread. by subst o.
  - unfold Emission.emit_message_event. cbn.
    by rewrite (read_agent_id _ _ _ Hread).
  - intros env0 missing_id Hnone. unfold Emission.create_event_emitter.
    rewrite bind_run, read_agent_missing; [done|].
    by rewrite <- collection_docs_of.
Qed.

(** X30: the event buffer is append-only.  After any sequence of
    [emit_status_event], [emit_message_event] and [emit_tool_event]
    calls, the buffer holds the events it held before, followed by the
    events the calls returned, in call order, one per call; and it still
    speaks for the same agent. *)
Theorem event_buffer_is_append_only (self : Emission.EventBuffer)
  (es : list emission) :
  Emission.events (emit_all self es).2
  = Emission.events self ++ (emit_all self es).1 /\
  length (emit_all self es).1 = length es /\
  Emission.agent (emit_all self es).2 = Emission.agent self.
Proof.
  revert self. induction es as [|e es IH]; intros self.
  - cbn. by rewrite app_nil_r.
  - cbn [emit_all].
    destruct (emit self e) as [event self'] eqn:He.
    specialize (IH self'). destruct (emit_all self' es) as [evs self''].
    cbn [fst snd length] in *. destruct IH as (-> & -> & ->).
    assert (Emission.events self' = Emission.events self ++ [event] /\
            Emission.agent self' = Emission.agent self) as [-> ->].
    { destruct e; cbn in He; by injection He as <- <-. }
    by rewrite <- app_assoc.
Qed.
End EventBuffer.

(** ** The further properties on the sample stores *)

Lemma empty_env_well_kept (version : string) : well_kept version empty_env.
Proof. unfold well_kept. repeat split; by_evaluation. Defined.

(** X2 on the name of a DTO class. *)
Lemma without_dto_suffix_removes_one_suffix_witness :
  _without_dto_suffix (PyType "AgentDTO") = Return "Agent".
Proof.
  destruct (without_dto_suffix_removes_one_suffix "AgentDTO"
              (PyType "AgentDTO") (or_intror eq_refl))
    as (title & Hrun & Hstem & _).
  rewrite Hrun. f_equal. exact (Hstem "Agent" eq_refl).
Defined.


(** X4 on the record of the sample agent. *)
Lemma agent_loader_does_not_migrate_witness :
  Agents._document_loader (Agents._serialize_agent concierge)
  = Return (Some (Agents._serialize_agent concierge)).
Proof.
  exact (proj1 (agent_loader_does_not_migrate
                  (Agents._serialize_agent concierge) "0.3.0" eq_refl)
           eq_refl).
Defined.

(** X8 on the two-guideline store, for an id and a content it does not
    hold. *)
Lemma reads_of_missing_entity_raise_not_found_witness :
  (Agents.read_agent "gdlnCCCC03" two_guidelines_env).1
  = Raise (ItemNotFoundError "gdlnCCCC03") /\
  (Guidelines.read_guideline "gdlnCCCC03" two_guidelines_env).1
  = Raise (ItemNotFoundError "gdlnCCCC03") /\
  (Guidelines.find_guideline
     {| Guidelines.condition := "the customer asks for a refund";
        Guidelines.action := "refuse" |} two_guidelines_env).1
  = Raise (ItemNotFoundError "the customer asks for a refundrefuse").
Proof.
  apply (reads_of_missing_entity_raise_not_found two_guidelines_env
           "gdlnCCCC03"
           {| Guidelines.condition := "the customer asks for a refund";
              Guidelines.action := "refuse" |}).
  - reflexivity.
  - by_evaluation.
Defined.

(** X9 on the sample stores and an id they do not hold. *)
Lemma upsert_tag_of_missing_entity_writes_nothing_witness :
  (Agents.upsert_tag "gdlnCCCC03" "gold" None tagged_agent_env).1
  = Raise (ItemNotFoundError "gdlnCCCC03") /\
  nanoid_outputs
    (Agents.upsert_tag "gdlnCCCC03" "gold" None tagged_agent_env).2
  = ["c0ffee1234"; "Zx9Yw8Vu7T"].
Proof.
  destruct (upsert_tag_of_missing_entity_writes_nothing tagged_agent_env
              "gdlnCCCC03" "gold" None eq_refl)
    as ((Hraise & _ & _ & Hids & _) & _).
  split; [exact Hraise | exact Hids].
Defined.

(** X10 on the two-guideline store and an id it does not hold. *)
Lemma metadata_of_missing_guideline_raises_not_found_witness :
  (Guidelines.add_metadata "gdlnCCCC03" {["owner" := JStr "ops"]}
     two_guidelines_env).1
  = Raise (ItemNotFoundError "gdlnCCCC03") /\
  (Guidelines.remove_metadata "gdlnCCCC03" ["source"] two_guidelines_env).1
  = Raise (ItemNotFoundError "gdlnCCCC03").
Proof.
  destruct (metadata_of_missing_guideline_raises_not_found
              two_guidelines_env "gdlnCCCC03" {["owner" := JStr "ops"]}
              ["source"] eq_refl)
    as ((Hadd & _) & (Hremove & _)).
  split; [exact Hadd | exact Hremove].
Defined.

(** X11: neither the sample agent nor guideline "A" has the tag "gold". *)
Lemma remove_tag_without_link_raises_for_the_tag_witness :
  (Agents.remove_tag "V1StGXR8Z5" "gold" tagged_agent_env).1
  = Raise (ItemNotFoundError "gold") /\
  (Guidelines.remove_tag "gdlnAAAA01" "gold" two_guidelines_env).1
  = Raise (ItemNotFoundError "gold").
Proof.
  destruct (remove_tag_without_link_raises_for_the_tag tagged_agent_env
              two_guidelines_env "V1StGXR8Z5" "gdlnAAAA01" "gold"
              eq_refl eq_refl) as [[Ha _] [Hg _]].
  split; [exact Ha | exact Hg].
Defined.

(** X12: untagging the sample agent and guideline "B". *)
Lemma remove_tag_deletes_the_first_link_witness :
  ((Agents.remove_tag "V1StGXR8Z5" "vip" tagged_agent_env).1 = Return tt /\
   tag_association_collection
     (Agents.remove_tag "V1StGXR8Z5" "vip" tagged_agent_env).2 = []) /\
  ((Guidelines.remove_tag "gdlnBBBB02" "t1" two_guidelines_env).1
   = Return tt /\
   tag_association_collection
     (Guidelines.remove_tag "gdlnBBBB02" "t1" two_guidelines_env).2 = []).
Proof.
  destruct (remove_tag_deletes_the_first_link tagged_agent_env
              two_guidelines_env "V1StGXR8Z5" "gdlnBBBB02" "vip" "t1"
              [] [] [] []
              (Agents.association_document (DT := iso_text) "Pq7LmN2xYz"
                 "2025-02-14T08:00:00+00:00" "V1StGXR8Z5" "vip")
              (Guidelines.association_document (DT := iso_text)
                 "lnk0000001" "2025-01-11T10:00:00+00:00" "gdlnBBBB02" "t1"))
    as ((Ha & _ & Ha') & (Hg & _ & Hg'));
    [by_evaluation | reflexivity | reflexivity | reflexivity | reflexivity
    |by_evaluation | reflexivity | reflexivity | reflexivity | reflexivity|].
  exact (conj (conj Ha Ha') (conj Hg Hg')).
Defined.

(** X13: tagging the sample agent and guideline "B" with "gold", then
    untagging them. *)
Lemma upsert_tag_then_remove_tag_restores_the_store_witness :
  tag_association_collection
    (Agents.remove_tag "V1StGXR8Z5" "gold"
       (Agents.upsert_tag "V1StGXR8Z5" "gold" None tagged_agent_env).2).2
  = tag_association_collection tagged_agent_env /\
  tag_association_collection
    (Guidelines.remove_tag "gdlnBBBB02" "gold"
       (Guidelines.upsert_tag "gdlnBBBB02" "gold" None
          two_guidelines_env).2).2
  = tag_association_collection two_guidelines_env.
Proof.
  destruct (upsert_tag_then_remove_tag_restores_the_store tagged_agent_env
              two_guidelines_env "V1StGXR8Z5" "gdlnBBBB02" "gold" None
              concierge guideline_B "c0ffee1234" "c0ffee1234"
              ["Zx9Yw8Vu7T"] ["Zx9Yw8Vu7T"])
    as ((_ & _ & _ & Ha) & (_ & _ & _ & Hg)).
  - exact tagged_agent_env_well_kept.
  - reflexivity.
  - by_evaluation.
  - reflexivity.
  - by_evaluation.
  - exact two_guidelines_env_well_kept.
  - reflexivity.
  - by_evaluation.
  - reflexivity.
  - by_evaluation.
  - exact (conj Ha Hg).
Defined.

(** X14: the sample agent after its only tag is removed, and guideline
    "B" after its only tag is removed. *)
Lemma remove_tag_then_read_drops_the_tag_witness :
  (Agents.remove_tag "V1StGXR8Z5" "vip" tagged_agent_env).1 = Return tt /\
  (Guidelines.remove_tag "gdlnBBBB02" "t1" two_guidelines_env).1
  = Return tt /\
  exists earlier later,
    ["t1"] = earlier ++ "t1" :: later /\
    (Guidelines.read_guideline "gdlnBBBB02"
       (Guidelines.remove_tag "gdlnBBBB02" "t1" two_guidelines_env).2).1
    = Return (guideline_with_tags (earlier ++ later) guideline_B).
Proof.
  destruct (remove_tag_then_read_drops_the_tag tagged_agent_env
              two_guidelines_env "V1StGXR8Z5" "gdlnBBBB02" "vip" "t1"
              concierge guideline_B)
    as ((Ha & _) & (Hg & earlier & later & Htags & _ & Hread)).
  - exact tagged_agent_env_well_kept.
  - reflexivity.
  - apply list_elem_of_here.
  - exact two_guidelines_env_well_kept.
  - reflexivity.
  - apply list_elem_of_here.
  - split; [exact Ha|]. split; [exact Hg|].
    exists earlier, later. exact (conj Htags Hread).
Defined.

(** X15: deleting, from each sample store, an id it does not hold. *)
Lemma delete_of_missing_entity_sweeps_its_links_witness :
  (Agents.delete_agent "gdlnCCCC03" tagged_agent_env).1
  = Raise (ItemNotFoundError "gdlnCCCC03") /\
  (Guidelines.delete_guideline "gdlnCCCC03" two_guidelines_env).1
  = Raise (ItemNotFoundError "gdlnCCCC03") /\
  collection (Guidelines.delete_guideline "gdlnCCCC03" two_guidelines_env).2
  = collection two_guidelines_env.
Proof.
  destruct (delete_of_missing_entity_sweeps_its_links tagged_agent_env
              two_guidelines_env "gdlnCCCC03" "gdlnCCCC03"
              tagged_agent_env_well_kept eq_refl
              two_guidelines_env_well_kept eq_refl)
    as ((Ha & _) & (Hg & Hprim & _)).
  exact (conj Ha (conj Hg Hprim)).
Defined.

(** X17: giving guideline "A" an owner and taking it away again. *)
Lemma add_then_remove_metadata_restores_the_store_witness :
  collection
    (Guidelines.remove_metadata "gdlnAAAA01" ["owner"]
       (Guidelines.add_metadata "gdlnAAAA01" {["owner" := JStr "ops"]}
          two_guidelines_env).2).2
  = collection two_guidelines_env.
Proof.
  refine (proj1 (add_then_remove_metadata_restores_the_store
                   two_guidelines_env "gdlnAAAA01"
                   (Guidelines._serialize guideline_A)
                   {["source" := JStr "import"]} {["owner" := JStr "ops"]}
                   ["owner"] eq_refl eq_refl eq_refl _ _)).
  - intros k [v Hv]. apply lookup_singleton_Some in Hv as [<- _]. by left.
  - intros k Hk. apply list_elem_of_singleton in Hk as ->. reflexivity.
Defined.

(** X18: creating a refund guideline in the empty store and reading it
    back. *)
Lemma create_then_read_guideline_witness :
  (Guidelines.read_guideline "V1StGXR8Z5"
     (Guidelines.create_guideline "the customer asks for a refund"
        "explain the refund policy" {["source" := JStr "api"]} None true
        (Some ["vip"]) empty_env).2).1
  = Return created_guideline.
Proof.
  refine (proj1 (create_then_read_guideline
                   "the customer asks for a refund"
                   "explain the refund policy" {["source" := JStr "api"]}
                   None true (Some ["vip"]) empty_env _ created_guideline
                   _ _)).
  - vm_compute. reflexivity.
  - by_evaluation.
Defined.

(** X19: the guideline created in the empty store is found by its
    content. *)
Lemma create_then_find_guideline_witness :
  (Guidelines.find_guideline
     {| Guidelines.condition := "the customer asks for a refund";
        Guidelines.action := "explain the refund policy" |}
     (Guidelines.create_guideline "the customer asks for a refund"
        "explain the refund policy" {["source" := JStr "api"]} None true
        (Some ["vip"]) empty_env).2).1
  = Return created_guideline.
Proof.
  refine (create_then_find_guideline
            "the customer asks for a refund" "explain the refund policy"
            {["source" := JStr "api"]} None true (Some ["vip"]) empty_env
            _ created_guideline _ _ _).
  - vm_compute. reflexivity.
  - by_evaluation.
  - by_evaluation.
Defined.

(** X20: finding guideline "B" of the two-guideline store by its
    content is reading it by its id. *)
Lemma find_guideline_returns_the_first_match_witness :
  Guidelines.find_guideline (Guidelines.content guideline_B)
    two_guidelines_env
  = Guidelines.read_guideline "gdlnBBBB02" two_guidelines_env.
Proof.
  refine (proj1 (find_guideline_returns_the_first_match two_guidelines_env
                   (Guidelines.content guideline_B)
                   [Guidelines._serialize guideline_A]
                   [] (Guidelines._serialize guideline_B) "gdlnBBBB02"
                   _ _ eq_refl _ eq_refl eq_refl eq_refl));
    by_evaluation.
Defined.

(** X21: the one-agent store lists the agent that reading returns. *)
Lemma list_agents_agrees_with_read_agent_witness :
  Forall2
    (fun d a =>
       str_at d "id" = Some (Agents.id a) /\
       (Agents.read_agent (Agents.id a) tagged_agent_env).1 = Return a)
    (collection tagged_agent_env) [concierge].
Proof.
  refine (proj1 (list_agents_agrees_with_read_agent tagged_agent_env
                   [concierge] _ _) eq_refl);
    by_evaluation.
Defined.

(** X22: the default agent is added to the empty store, once. *)
Lemma create_agent_if_absent_creates_once_witness :
  (create_agent_if_absent empty_env).1 = Return tt /\
  (Agents.list_agents (create_agent_if_absent empty_env).2).1
  = Return [default_agent] /\
  collection (create_agent_if_absent (create_agent_if_absent empty_env).2).2
  = collection (create_agent_if_absent empty_env).2.
Proof.
  destruct (create_agent_if_absent_creates_once empty_env "V1StGXR8Z5"
              ["ab_defghij"; "Pq7LmN2xYz"; "c0ffee1234"; "Zx9Yw8Vu7T"]
              eq_refl eq_refl (Forall_nil_2 _))
    as (_ & Hrun & _ & _ & Hlist & _ & Hsame).
  exact (conj Hrun (conj Hlist Hsame)).
Defined.


(** X24: giving guideline "A" an owner, and removing its source. *)
Lemma metadata_methods_return_the_updated_guideline_witness :
  (Guidelines.add_metadata "gdlnAAAA01" {["owner" := JStr "ops"]}
     two_guidelines_env).1
  = Return
      (guideline_with_metadata
         ({["owner" := JStr "ops"]} ∪ {["source" := JStr "import"]})
         guideline_A) /\
  (Guidelines.remove_metadata "gdlnAAAA01" ["source"; "absent"]
     two_guidelines_env).1
  = Return
      (guideline_with_metadata
         (filter (fun kv : string * json => kv.1 ∉ ["source"; "absent"])
            {["source" := JStr "import"]})
         guideline_A).
Proof.
  destruct (metadata_methods_return_the_updated_guideline
              two_guidelines_env "gdlnAAAA01" guideline_A
              {["owner" := JStr "ops"]} ["source"; "absent"])
    as ((Hadd & _) & (Hremove & _)).
  - by_evaluation.
  - reflexivity.
  - exact (conj Hadd Hremove).
Defined.

(** X25: the one-agent store after a create and after a delete. *)
Lemma agent_store_keeps_its_invariant_witness :
  well_kept Agents.VERSION
    (Agents.create_agent "Host" None None None None (Some ["vip"])
       tagged_agent_env).2 /\
  well_kept Agents.VERSION
    (Agents.delete_agent "V1StGXR8Z5" tagged_agent_env).2.
Proof.
  destruct (agent_store_keeps_its_invariant tagged_agent_env "V1StGXR8Z5"
              "vip" "Host" None None None None (Some ["vip"]) renamed
              tagged_agent_env_well_kept)
    as (Hcreate & _ & _ & _ & Hdelete & _).
  exact (conj Hcreate Hdelete).
Defined.

(** X26: the two-guideline store after a tag is added and after metadata
    is added. *)
Lemma guideline_store_keeps_its_invariant_witness :
  well_kept Guidelines.VERSION
    (Guidelines.upsert_tag "gdlnAAAA01" "vip" None two_guidelines_env).2 /\
  well_kept Guidelines.VERSION
    (Guidelines.add_metadata "gdlnAAAA01" {["owner" := JStr "ops"]}
       two_guidelines_env).2.
Proof.
  destruct (guideline_store_keeps_its_invariant two_guidelines_env
              "gdlnAAAA01" "vip" "c" "a" {["owner" := JStr "ops"]} None true
              None disabled (Guidelines.content guideline_A) ["source"]
              two_guidelines_env_well_kept)
    as (_ & _ & _ & _ & _ & _ & Hupsert & _ & Hadd & _).
  exact (conj Hupsert Hadd).
Defined.

(** X27: the sample agent and guideline "B" once deleted. *)
Lemma delete_then_read_or_delete_raises_not_found_witness :
  (Agents.read_agent "V1StGXR8Z5"
     (Agents.delete_agent "V1StGXR8Z5" tagged_agent_env).2).1
  = Raise (ItemNotFoundError "V1StGXR8Z5") /\
  (Guidelines.delete_guideline "gdlnBBBB02"
     (Guidelines.delete_guideline "gdlnBBBB02" two_guidelines_env).2).1
  = Raise (ItemNotFoundError "gdlnBBBB02").
Proof.
  destruct (delete_then_read_or_delete_raises_not_found tagged_agent_env
              two_guidelines_env "V1StGXR8Z5" "gdlnBBBB02"
              tagged_agent_env_well_kept
              (ex_intro _ (Agents._serialize_agent concierge) eq_refl)
              two_guidelines_env_well_kept
              (ex_intro _ (Guidelines._serialize guideline_B) eq_refl))
    as ((_ & Hread & _) & (_ & _ & Hdelete)).
  exact (conj Hread Hdelete).
Defined.

(** X28: a concierge and a refund guideline, both tagged "vip", created
    in the empty store and deleted again. *)
Lemma create_then_delete_restores_the_store_witness :
  tag_association_collection
    (Agents.delete_agent "V1StGXR8Z5"
       (Agents.create_agent "Concierge" (Some "answers guests") None
          (Some 0%Z) None (Some ["vip"]) empty_env).2).2 = [] /\
  collection
    (Guidelines.delete_guideline "V1StGXR8Z5"
       (Guidelines.create_guideline "the customer asks for a refund"
          "explain the refund policy" {["source" := JStr "api"]} None true
          (Some ["vip"]) empty_env).2).2 = [].
Proof.
  destruct (create_then_delete_restores_the_store empty_env
              (Agents.create_agent "Concierge" (Some "answers guests") None
                 (Some 0%Z) None (Some ["vip"]) empty_env).2
              empty_env
              (Guidelines.create_guideline "the customer asks for a refund"
                 "explain the refund policy" {["source" := JStr "api"]}
                 None true (Some ["vip"]) empty_env).2
              "Concierge" (Some "answers guests") None (Some 0%Z) None
              (Some ["vip"])
              "the customer asks for a refund" "explain the refund policy"
              {["source" := JStr "api"]} true
              (agent_with_tags ["vip"] created_concierge) created_guideline)
    as ((_ & _ & Ha) & (_ & Hg & _)).
  - exact (empty_env_well_kept _).
  - vm_compute. reflexivity.
  - apply Forall_nil_2.
  - exact (empty_env_well_kept _).
  - vm_compute. reflexivity.
  - apply Forall_nil_2.
  - exact (conj Ha Hg).
Defined.

(** X29: the emitter created for the sample agent. *)
Lemma event_emitter_speaks_for_its_agent_witness :
  (Emission.create_event_emitter "V1StGXR8Z5" "sess000001"
     tagged_agent_env).1
  = Return {| Emission.agent := concierge; Emission.events := [] |} /\
  (Emission.emit_message_event
     {| Emission.agent := concierge; Emission.events := [] |}
     "corr000001" (inl "Welcome")).1
  = {| Emission.source := Emission.AI_AGENT;
       Emission.kind := Emission.MESSAGE;
       Emission.correlation_id := "corr000001";
       Emission.data :=
         JObj [("message", JStr "Welcome");
               ("participant",
                JObj [("id", JStr "V1StGXR8Z5");
                      ("display_name", JStr "Concierge")])] |}.
Proof.
  destruct (event_emitter_speaks_for_its_agent tagged_agent_env
              "V1StGXR8Z5" "sess000001" "corr000001" "Welcome" concierge)
    as (Hcreate & Hemit & _).
  - reflexivity.
  - exact (conj Hcreate Hemit).
Defined.
